(** * Simplify Budget: the sheet-backed record store, its timestamps and the
      trial ledger

    A shallow embedding of the server-side functions of the Apps Script
    project (Code.js, zTransactions.js, zNetWorth.js, the income file and
    Zztestingpurposes.js) together with the properties of the design
    specification that can be stated on them.

    Conventions of the embedding.
    - A JavaScript string is a [string]: one [ascii] per code unit.
    - A JavaScript number is a [JsNum]: a rational, NaN or an infinity;
      rounding of doubles is not modelled.
    - A sheet is a finite map from (row, column), both 1-based, to the
      non-blank cells.  A cell holds the value that was written to it; the
      spreadsheet's own re-interpretation of entered text (formulas, date
      recognition) is outside the model.
    - The host clock is one instant per invocation of a public function
      (field [clock] of the world).
    - A function that can throw returns a [Completion]; the world is
      threaded through explicitly, so writes made before a throw persist. *)

From Stdlib Require Import ZArith QArith Ascii String Lia.
From stdpp Require Import gmap strings list fin_maps pretty.

Close Scope Q_scope.
Open Scope string_scope.

(** ** JavaScript values *)

Module Js.

Inductive JsNum :=
| Fin (q : Q)
| NaN
| Infty (positive : bool).

Inductive JsVal :=
| VUndefined
| VNull
| VBool (b : bool)
| VNum (n : JsNum)
| VStr (s : string).

(** ToBoolean on numbers: 0 and NaN are falsy. *)
Definition num_truthy (n : JsNum) : bool :=
  match n with
  | Fin q => negb (Qeq_bool q 0)
  | NaN => false
  | Infty _ => true
  end.

Definition str_truthy (s : string) : bool := negb (String.eqb s "").

Definition truthy (v : JsVal) : bool :=
  match v with
  | VUndefined | VNull => false
  | VBool b => b
  | VNum n => num_truthy n
  | VStr s => str_truthy s
  end.

(** [n <= 0]; every comparison with NaN is false. *)
Definition num_le0 (n : JsNum) : bool :=
  match n with
  | Fin q => Qle_bool q 0
  | NaN => false
  | Infty p => negb p
  end.

Definition isNaN (n : JsNum) : bool :=
  match n with NaN => true | _ => false end.

Definition isFinite (n : JsNum) : bool :=
  match n with Fin _ => true | _ => false end.

(** [x || 0] on numbers. *)
Definition num_or0 (n : JsNum) : JsNum :=
  if num_truthy n then n else Fin 0.

(** [a || b] on strings. *)
Definition str_or (a b : string) : string :=
  if str_truthy a then a else b.

(** *** String methods *)

Fixpoint includes (hay needle : string) : bool :=
  String.prefix needle hay ||
  match hay with
  | EmptyString => false
  | String _ rest => includes rest needle
  end.

Definition isWhite (c : ascii) : bool :=
  let n := nat_of_ascii c in
  (n =? 32)%nat || ((9 <=? n)%nat && (n <=? 13)%nat).

Fixpoint trimStart (s : string) : string :=
  match s with
  | EmptyString => EmptyString
  | String c rest => if isWhite c then trimStart rest else s
  end.

Definition trim (s : string) : string :=
  String.rev (trimStart (String.rev (trimStart s))).

(** [s.split(sep)] for a one-character separator. *)
Fixpoint split_go (sep : ascii) (cur : string) (s : string) : list string :=
  match s with
  | EmptyString => [String.rev cur]
  | String c rest =>
      if Ascii.eqb c sep then String.rev cur :: split_go sep EmptyString rest
      else split_go sep (String c cur) rest
  end.

Definition split (sep : ascii) (s : string) : list string :=
  split_go sep EmptyString s.

Fixpoint join (sep : string) (parts : list string) : string :=
  match parts with
  | [] => ""
  | [p] => p
  | p :: rest => p +:+ sep +:+ join sep rest
  end.

Definition lowerChar (c : ascii) : ascii :=
  let n := nat_of_ascii c in
  if (65 <=? n)%nat && (n <=? 90)%nat then ascii_of_nat (n + 32) else c.

Fixpoint toLowerCase (s : string) : string :=
  match s with
  | EmptyString => EmptyString
  | String c rest => String (lowerChar c) (toLowerCase rest)
  end.

(** [s.substring(0, n)] and [s.substring(n)]. *)
Definition substring_to (n : nat) (s : string) : string := String.substring 0 n s.

Fixpoint substring_from (n : nat) (s : string) : string :=
  match n, s with
  | O, _ => s
  | S n', String _ rest => substring_from n' rest
  | S _, EmptyString => EmptyString
  end.

(** An exception value; [toString] is what [error.toString()] yields. *)
Record Exn := { ename : string; emessage : string }.

Definition Error (msg : string) : Exn := {| ename := "Error"; emessage := msg |}.

Definition ReferenceError (msg : string) : Exn :=
  {| ename := "ReferenceError"; emessage := msg |}.

Definition toString (e : Exn) : string := ename e +:+ ": " +:+ emessage e.

End Js.

Export Js.

(** ** Sheets *)

Inductive Cell :=
| CStr (s : string)
| CNum (n : JsNum)
| CBool (b : bool)
| CDate (t : Z).

Definition blank : Cell := CStr "".

Definition is_blank (c : Cell) : bool :=
  match c with
  | CStr s => String.eqb s ""
  | _ => false
  end.

Definition cell_truthy (c : Cell) : bool :=
  match c with
  | CStr s => str_truthy s
  | CNum n => num_truthy n
  | CBool b => b
  | CDate _ => true
  end.

Module Sheet.

Definition t := gmap (nat * nat) Cell.

Definition getValue (sh : gmap (nat * nat) Cell) (r c : nat) : Cell :=
  default blank (sh !! (r, c)).

Definition setValue (sh : gmap (nat * nat) Cell) (r c : nat) (v : Cell)
  : gmap (nat * nat) Cell :=
  if is_blank v then delete (r, c) sh else <[(r, c) := v]> sh.

(** [getRange(r, c, 1, length vs).setValues([vs])] *)
Fixpoint setRowValues (sh : gmap (nat * nat) Cell) (r c : nat) (vs : list Cell)
  : gmap (nat * nat) Cell :=
  match vs with
  | [] => sh
  | v :: vs' => setRowValues (setValue sh r c v) r (S c) vs'
  end.

(** [getRange(r, c, 1, w).getValues()[0]] *)
Definition getRowValues (sh : gmap (nat * nat) Cell) (r c w : nat) : list Cell :=
  (fun j => getValue sh r (c + j)) <$> seq 0 w.

(** [getRange(r, c, 1, w).clearContent()] *)
Fixpoint clearContent (sh : gmap (nat * nat) Cell) (r c w : nat)
  : gmap (nat * nat) Cell :=
  match w with
  | O => sh
  | S w' => clearContent (delete (r, c) sh) r (S c) w'
  end.

(** [getRange(r0, c, n).getValues().flat()] *)
Definition getColumnValues (sh : gmap (nat * nat) Cell) (r0 c n : nat) : list Cell :=
  (fun i => getValue sh (r0 + i) c) <$> seq 0 n.

(** [getRange(r0, c, n, w).getValues()] *)
Definition getValues (sh : gmap (nat * nat) Cell) (r0 c n w : nat) : list (list Cell) :=
  (fun i => getRowValues sh (r0 + i) c w) <$> seq 0 n.

(** The last row that holds content in any column; 0 on an empty sheet. *)
Definition getLastRow (sh : gmap (nat * nat) Cell) : nat :=
  map_fold (fun k v acc => if is_blank v then acc else Nat.max (fst k) acc) 0 sh.

End Sheet.

(** ** The host platform

    Built-ins of JavaScript and of Apps Script whose results are not
    computed by the repository's code.  [generateAssetId] is called by
    saveBatchNetWorth but defined in no file of the repository at hand;
    it is taken as given in the same way. *)

Record Host := {
  (** unary plus on a string *)
  StringToNumber : string -> JsNum;
  (** [parseFloat] on a string *)
  parseFloat_string : string -> JsNum;
  (** [parseInt] on a string *)
  parseInt_string : string -> JsNum;
  (** [String(n)] *)
  Number_toString : JsNum -> string;
  (** [date.toString()] and [date.toISOString()] of an instant *)
  Date_toString : Z -> string;
  Date_toISOString : Z -> string;
  (** [new Date(string)]; [None] is the Invalid Date *)
  Date_parse : string -> option Z;
  (** [new Date(year, monthIndex, day)] *)
  Date_ymd : JsNum -> JsNum -> JsNum -> option Z;
  (** [getDate()], [getMonth()] (0 to 11) and [getFullYear()] of an instant *)
  Date_local : Z -> nat * nat * Z;
  (** [Utilities.base64Encode] of a string *)
  base64Encode : string -> string;
  (** [Utilities.newBlob(Utilities.base64Decode(s)).getDataAsString()];
      [None] when the decoder throws *)
  base64Decode : string -> option string;
  (** the text a TextFinder sees in a cell that does not hold a string *)
  displayValue : Cell -> string;
  (** [emojiRegex.test] of parseCategoryNameAndEmoji *)
  emojiRegex_test : string -> bool;
  (** the [n]-th identifier handed out by [generateAssetId()] *)
  generateAssetId : nat -> string
}.

(** ToNumber and parseFloat on an arbitrary value. *)
Definition ToNumber (H : Host) (v : JsVal) : JsNum :=
  match v with
  | VUndefined => NaN
  | VNull => Fin 0
  | VBool b => Fin (if b then 1 else 0)
  | VNum n => n
  | VStr s => StringToNumber H s
  end.

Definition parseFloat (H : Host) (v : JsVal) : JsNum :=
  match v with
  | VNum n => n
  | VStr s => parseFloat_string H s
  | VUndefined | VNull | VBool _ => NaN
  end.

(** [cell.toString()] *)
Definition cellToString (H : Host) (c : Cell) : string :=
  match c with
  | CStr s => s
  | CNum n => Number_toString H n
  | CBool b => if b then "true" else "false"
  | CDate t => Date_toString H t
  end.

(** The displayed text of a cell. *)
Definition cellText (H : Host) (c : Cell) : string :=
  match c with
  | CStr s => s
  | _ => displayValue H c
  end.

(** ** The world and the monad of effects *)

Record Category := {
  cat_id : Cell;
  cat_name : string;
  cat_emoji : string;
  fullName : string;
  cat_active : bool;
  cat_order : nat;
  displayOrder : Cell;
  zategoryFormula : string
}.

Record World := {
  (** the instant [new Date()] returns *)
  clock : Z;
  (** the spreadsheet behind the BUDGET_SHEET_URL property, by sheet name;
      [None] when the property is not set *)
  book : option (gmap string (gmap (nat * nat) Cell));
  (** the active sheet of TRIAL_TRACKING_SHEET; [None] when it cannot be opened *)
  trialSheet : option (gmap (nat * nat) Cell);
  (** the script property ENCRYPTION_KEY; [None] when it is not set *)
  ENCRYPTION_KEY : option string;
  (** the script-global [_serverCategoriesCache] *)
  serverCategoriesCache : option (list Category);
  (** how many identifiers [generateAssetId] has handed out *)
  assetIdCalls : nat
}.

Definition with_book (w : World) (b : option (gmap string (gmap (nat * nat) Cell))) : World :=
  {| clock := clock w; book := b; trialSheet := trialSheet w;
     ENCRYPTION_KEY := ENCRYPTION_KEY w;
     serverCategoriesCache := serverCategoriesCache w;
     assetIdCalls := assetIdCalls w |}.

Definition with_trialSheet (w : World) (s : option (gmap (nat * nat) Cell)) : World :=
  {| clock := clock w; book := book w; trialSheet := s;
     ENCRYPTION_KEY := ENCRYPTION_KEY w;
     serverCategoriesCache := serverCategoriesCache w;
     assetIdCalls := assetIdCalls w |}.

Definition with_cache (w : World) (c : option (list Category)) : World :=
  {| clock := clock w; book := book w; trialSheet := trialSheet w;
     ENCRYPTION_KEY := ENCRYPTION_KEY w;
     serverCategoriesCache := c;
     assetIdCalls := assetIdCalls w |}.

Definition with_assetIdCalls (w : World) (n : nat) : World :=
  {| clock := clock w; book := book w; trialSheet := trialSheet w;
     ENCRYPTION_KEY := ENCRYPTION_KEY w;
     serverCategoriesCache := serverCategoriesCache w;
     assetIdCalls := n |}.

Inductive Completion (A : Type) :=
| Normal (a : A)
| Throw (e : Exn).

Arguments Normal {A} a.
Arguments Throw {A} e.

Definition M (A : Type) : Type := World -> Completion A * World.

Definition ret {A} (a : A) : M A := fun w => (Normal a, w).

Definition bind {A B} (m : M A) (k : A -> M B) : M B :=
  fun w =>
    match m w with
    | (Normal a, w') => k a w'
    | (Throw e, w') => (Throw e, w')
    end.

Definition throw {A} (e : Exn) : M A := fun w => (Throw e, w).

(** A computation without effect on the world that may throw. *)
Definition lift {A} (c : Completion A) : M A := fun w => (c, w).

(** [try { m } catch (e) { handler e }] *)
Definition tryCatch {A} (m : M A) (handler : Exn -> M A) : M A :=
  fun w =>
    match m w with
    | (Normal a, w') => (Normal a, w')
    | (Throw e, w') => handler e w'
    end.

Notation "'let*' x := m 'in' k" := (bind m (fun x => k))
  (at level 10, x pattern, m at level 100, k at level 200).
Notation "m ;;; k" := (bind m (fun _ => k))
  (at level 100, k at level 200, right associativity).

(** [for (const x of xs) { acc = body x acc }] with an effectful body. *)
Fixpoint forOf {A S} (body : A -> S -> M S) (xs : list A) (acc : S) : M S :=
  match xs with
  | [] => ret acc
  | x :: rest => let* acc' := body x acc in forOf body rest acc'
  end.

Definition now : M Z := fun w => (Normal (clock w), w).

(** *** Access to the sheets of the budget spreadsheet through a handle *)

Definition dquote : string := String (ascii_of_nat 34) EmptyString.

(** Code.js, getBudgetSheet: the handle is the sheet's name.  A missing
    URL property or a missing sheet is thrown, and re-thrown by the catch;
    the function never returns null, although its documentation says so. *)
Definition getBudgetSheet (sheetName : string) : M (option string) :=
  fun w =>
    match book w with
    | None => (Throw (Error "No spreadsheet ID found"), w)
    | Some ss =>
        match ss !! sheetName with
        | None => (Throw (Error ("Sheet " +:+ dquote +:+ sheetName +:+ dquote +:+ " not found")), w)
        | Some _ => (Normal (Some sheetName), w)
        end
    end.

Definition sheetOf (w : World) (name : string) : gmap (nat * nat) Cell :=
  default ∅ (book w ≫= fun ss => ss !! name).

Definition readSheet (name : string) : M (gmap (nat * nat) Cell) :=
  fun w => (Normal (sheetOf w name), w).

Definition updateSheet (name : string)
    (f : gmap (nat * nat) Cell -> gmap (nat * nat) Cell) : M unit :=
  fun w => (Normal tt, with_book w (alter f name <$> book w)).

(** ** Zztestingpurposes.js *)

(** Column J is column 10. *)
Definition timestampCells : gmap string (nat * nat) :=
  list_to_map
    [ ("netWorth", (6, 10)); ("recurring", (7, 10)); ("settings", (8, 10));
      ("masterData", (9, 10)); ("budget", (10, 10)); ("categories", (11, 10));
      ("income", (12, 10)) ].

Section Timestamps.
Variable H : Host.

Definition updateDataTimestamp (dataType : string) : M unit :=
  tryCatch
    (let* sheet := getBudgetSheet "Dontedit" in
     match sheet with
     | None => ret tt
     | Some sheet =>
         match timestampCells !! dataType with
         | Some (r, c) =>
             let* t := now in
             updateSheet sheet (fun sh => Sheet.setValue sh r c (CStr (Date_toISOString H t)))
         | None => ret tt
         end
     end)
    (fun _ => ret tt).

(** The timestamp of a dataset as stored in the Dontedit sheet. *)
Definition timestampOf (w : World) (dataType : string) : Cell :=
  match timestampCells !! dataType with
  | Some (r, c) => Sheet.getValue (sheetOf w "Dontedit") r c
  | None => blank
  end.

End Timestamps.

(** ** Code.js: the trial ledger *)

Record TrialResult := {
  status : string;
  daysLeft : option Z;
  error : option string
}.

Definition trialError (msg : string) : TrialResult :=
  {| status := "error"; daysLeft := None; error := Some msg |}.

Definition trialPaid : TrialResult :=
  {| status := "paid"; daysLeft := None; error := None |}.

Definition trialStatus (s : string) (d : Z) : TrialResult :=
  {| status := s; daysLeft := Some d; error := None |}.

(** What the platform throws when the tracking spreadsheet cannot be
    opened; the text is the platform's. *)
Definition openByIdFailure : Exn :=
  {| ename := "Exception";
     emessage := "Unexpected error while getting the method or property openById on object SpreadsheetApp." |}.

Definition openTrialSheet : M (gmap (nat * nat) Cell) :=
  fun w =>
    match trialSheet w with
    | Some sh => (Normal sh, w)
    | None => (Throw openByIdFailure, w)
    end.

Definition updateTrialSheet (f : gmap (nat * nat) Cell -> gmap (nat * nat) Cell) : M unit :=
  fun w => (Normal tt, with_trialSheet w (f <$> trialSheet w)).

Definition msPerDay : Z := 1000 * 60 * 60 * 24.

(** [Math.ceil(a / b)] for integers [a] and [b > 0]. *)
Definition ceilDiv (a b : Z) : Z := (- ((- a) / b))%Z.

(** TimeClip of a number used as a time value. *)
Definition timeClip (n : JsNum) : option Z :=
  match n with
  | Fin q =>
      let t := (Qnum q ÷ Zpos (Qden q))%Z in
      if (Z.abs t <=? 8640000000000000)%Z then Some t else None
  | _ => None
  end.

Section Trial.
Variable H : Host.

Definition xorChar (a k : ascii) : ascii :=
  ascii_of_N (N.lxor (N_of_ascii a) (N_of_ascii k)).

(** [key] is [None] when the script property is not set: [key.charCodeAt]
    then throws as soon as there is a character to encrypt.  With an empty
    key [charCodeAt] yields NaN and the character is left as it is. *)
Definition xorEncrypt (text : string) (key : option string) : Completion string :=
  match key with
  | None =>
      match text with
      | EmptyString => Normal ""
      | _ => Throw {| ename := "TypeError";
                      emessage := "Cannot read properties of null (reading 'charCodeAt')" |}
      end
  | Some k =>
      let ks := list_ascii_of_string k in
      Normal (string_of_list_ascii
        (imap (fun i a => match ks !! (i mod length ks)%nat with
                          | Some c => xorChar a c
                          | None => a
                          end)
              (list_ascii_of_string text)))
  end.

Definition obfuscateEmail (key : option string) (email : string) : Completion string :=
  if negb (str_truthy email) then Normal ""
  else
    let prefix := substring_to 4 email in
    match xorEncrypt email key with
    | Throw e => Throw e
    | Normal encrypted => Normal (prefix +:+ base64Encode H encrypted)
    end.

(** The argument is a cell of the ledger.  A cell that is not a string is
    either falsy or has no [substring] method, which the catch turns into
    the empty string as well. *)
Definition decodeObfuscatedEmail (key : option string) (obfuscated : Cell) : string :=
  match obfuscated with
  | CStr s =>
      if negb (str_truthy s) || (String.length s <=? 4)%nat then ""
      else
        match base64Decode H (substring_from 4 s) with
        | None => ""
        | Some encrypted =>
            match xorEncrypt encrypted key with
            | Normal decrypted => decrypted
            | Throw _ => ""
            end
        end
  | _ => ""
  end.

(** [new Date(cell)] *)
Definition Date_ofCell (c : Cell) : option Z :=
  match c with
  | CDate t => Some t
  | CStr s => Date_parse H s
  | CNum n => timeClip n
  | CBool b => Some (if b then 1 else 0)%Z
  end.

(** The window A3:A100 of the ledger has 98 rows. *)
Definition windowRows : nat := 98.

(** The search of recordFirstUse: the first non-blank entry that decodes
    to [email]. *)
Definition findEmail (key : option string) (emails : list Cell) (email : string)
  : option (nat * Cell) :=
  list_find (fun c => cell_truthy c = true /\ decodeObfuscatedEmail key c = email) emails.

(** The search of checkTrialStatus: the first entry whose decoded
    identifier, or the empty string for a blank cell, is [email]. *)
Definition lookupEmail (key : option string) (emails : list Cell) (email : string)
  : option (nat * Cell) :=
  list_find (fun c => (if cell_truthy c then decodeObfuscatedEmail key c else "") = email)
            emails.

(** The index of the first blank cell of the window. *)
Definition firstBlank (emails : list Cell) : option (nat * Cell) :=
  list_find (fun c => cell_truthy c = false) emails.

(** The index of the last non-blank cell of the window. *)
Definition lastFilled (emails : list Cell) : option nat :=
  (fun p => (length emails - 1 - fst p)%nat) <$>
    list_find (fun c => cell_truthy c = true) (reverse emails).

(** The row recordFirstUse writes to. *)
Definition nextEmptyRow (emails : list Cell) : nat :=
  let row1 := match firstBlank emails with Some (i, _) => 3 + i | None => 3 end in
  if (row1 =? 3)%nat && (0 <? length emails)%nat
     && cell_truthy (default blank (last emails))
  then match lastFilled emails with Some i => 3 + i + 1 | None => row1 end
  else row1.

(** The status derived from the end-date cell of a ledger entry. *)
Definition deriveStatus (endDate : Cell) (today : Z) : TrialResult :=
  if negb (cell_truthy endDate) then trialPaid
  else
    match Date_ofCell endDate with
    | None => trialError "Invalid end date"
    | Some endTime =>
        let timeDiff := (endTime - today)%Z in
        let days := Z.max 0 (ceilDiv timeDiff msPerDay) in
        trialStatus (if (0 <? days)%Z then "trial" else "expired") days
    end.

(** recordFirstUse and checkTrialStatus call each other.  Each body is
    written over the other function; the two are then tied together by a
    recursion on [fuel], which bounds the depth of the calls ([None] is
    returned when it runs out). *)
Definition recordFirstUse_body (checkTrialStatus : string -> M (option TrialResult))
    (email : string) : M (option TrialResult) :=
  if negb (str_truthy email) then ret (Some (trialError "No email provided"))
  else
    tryCatch
      (let* sheet := openTrialSheet in
       let emails := Sheet.getColumnValues sheet 3 1 windowRows in
       fun w =>
         match findEmail (ENCRYPTION_KEY w) emails email with
         | Some _ => checkTrialStatus email w
         | None =>
             let row := nextEmptyRow emails in
             let startDate := clock w in
             let timestamp := clock w in
             match obfuscateEmail (ENCRYPTION_KEY w) email with
             | Throw e => (Throw e, w)
             | Normal obfuscatedEmail =>
                 (updateTrialSheet (fun sh =>
                    Sheet.setRowValues sh row 1
                      [CStr obfuscatedEmail; CDate startDate; CStr ""; CDate timestamp]) ;;;
                  ret (Some (trialStatus "trial" 30))) w
             end
         end)
      (fun e => ret (Some (trialError (toString e)))).

Definition checkTrialStatus_body (recordFirstUse : string -> M (option TrialResult))
    (email : string) : M (option TrialResult) :=
  if negb (str_truthy email) then ret (Some (trialError "No email provided"))
  else
    tryCatch
      (let* sheet := openTrialSheet in
       let emails := Sheet.getColumnValues sheet 3 1 windowRows in
       fun w =>
         match lookupEmail (ENCRYPTION_KEY w) emails email with
         | Some (i, _) =>
             let endDate := Sheet.getValue sheet (3 + i) 3 in
             let rowNumber := (i + 3)%nat in
             (updateTrialSheet (fun sh => Sheet.setValue sh rowNumber 4 (CDate (clock w))) ;;;
              let* today := now in
              ret (Some (deriveStatus endDate today))) w
         | None => recordFirstUse email w
         end)
      (fun e => ret (Some (trialError (toString e)))).

Fixpoint recordFirstUse (fuel : nat) (email : string) : M (option TrialResult) :=
  match fuel with
  | O => ret None
  | S fuel' => recordFirstUse_body (checkTrialStatus fuel') email
  end
with checkTrialStatus (fuel : nat) (email : string) : M (option TrialResult) :=
  match fuel with
  | O => ret None
  | S fuel' => checkTrialStatus_body (recordFirstUse fuel') email
  end.

End Trial.

(** ** Dates written to the sheets (zTransactions.js, zNetWorth.js) *)

(** The [date] field of a record as the client sends it. *)
Inductive DateInput :=
| DateObject (t : option Z)
| DateText (s : string)
| DateOther.

Definition months : list string :=
  ["Jan"; "Feb"; "Mar"; "Apr"; "May"; "Jun"; "Jul"; "Aug"; "Sep"; "Oct"; "Nov"; "Dec"].

(** [n - 1] on numbers. *)
Definition num_pred (n : JsNum) : JsNum :=
  match n with
  | Fin q => Fin (q - 1)
  | other => other
  end.

Section Dates.
Variable H : Host.

(** The [date] variable of createDateOnly and createMonthYearOnly before
    formatting; [today] is what [new Date()] returns. *)
Definition resolveDate (today : Z) (dateInput : DateInput) : option Z :=
  match dateInput with
  | DateObject t => t
  | DateText s =>
      if includes s "/" then
        match split "/" s with
        | [p0; p1; p2] =>
            let month := num_pred (parseInt_string H p0) in
            let day := parseInt_string H p1 in
            let year := parseInt_string H p2 in
            Date_ymd H year month day
        | _ => Some today
        end
      else Date_parse H (default "" (head (split "T" s)))
  | DateOther => Some today
  end.

(** "1-Jul-2025" *)
Definition createDateOnly (today : Z) (dateInput : DateInput) : string :=
  match resolveDate today dateInput with
  | Some t =>
      let '(d, m, y) := Date_local H t in
      pretty d +:+ "-" +:+ default "undefined" (months !! m) +:+ "-" +:+ pretty y
  | None => "NaN-undefined-NaN"
  end.

(** "Jul 2025" *)
Definition createMonthYearOnly (today : Z) (dateInput : DateInput) : string :=
  match resolveDate today dateInput with
  | Some t =>
      let '(_, m, y) := Date_local H t in
      default "undefined" (months !! m) +:+ " " +:+ pretty y
  | None => "undefined NaN"
  end.

End Dates.

(** ** Categories (zNetWorth.js and zTransactions.js) *)

Section Categories.
Variable H : Host.

Definition parseCategoryNameAndEmoji (categoryString : string) : string * string :=
  let parts := split " " (trim categoryString) in
  let lastPart := default "" (last parts) in
  if (2 <=? length parts)%nat && emojiRegex_test H lastPart
  then (join " " (removelast parts), lastPart)
  else (categoryString, "").

(** First loop of getCategoriesWithTimestamp: a named category without an
    identifier in column O gets its index as identifier. *)
Definition needsId (row : list Cell) : bool :=
  cell_truthy (default blank (row !! 1%nat)) && is_blank (default blank (row !! 3%nat)).

Definition assignIds (values : list (list Cell)) : list (list Cell) :=
  imap (fun i row =>
          if needsId row then <[3%nat := CNum (Fin (inject_Z (Z.of_nat i)))]> row else row)
       values.

Definition idUpdates (values : list (list Cell)) : list (nat * nat) :=
  omap (fun p => if needsId (snd p) then Some ((fst p + 10)%nat, fst p) else None)
       (imap pair values).

(** Second loop: [trim] is called on the category cell, which throws when
    the cell does not hold a string. *)
Fixpoint buildCategories (i : nat) (values : list (list Cell))
  : Completion (list Category * list Category) :=
  match values with
  | [] => Normal ([], [])
  | row :: rest =>
      let isActive := match default blank (row !! 0%nat) with CBool true => true | _ => false end in
      let categoryString := default blank (row !! 1%nat) in
      let order := default blank (row !! 2%nat) in
      let categoryId := default blank (row !! 3%nat) in
      if negb (cell_truthy categoryString) then buildCategories (S i) rest
      else
        match categoryString with
        | CStr s =>
            let '(name, emoji) := parseCategoryNameAndEmoji s in
            let categoryObj :=
              {| cat_id := if is_blank categoryId then CNum (Fin (inject_Z (Z.of_nat i)))
                           else categoryId;
                 cat_name := name;
                 cat_emoji := emoji;
                 fullName := s;
                 cat_active := isActive;
                 cat_order := i;
                 displayOrder := if cell_truthy order then order
                                 else CNum (Fin (inject_Z (Z.of_nat (i + 1))));
                 zategoryFormula := "=zategory" +:+ pretty (i + 1)%nat |} in
            match buildCategories (S i) rest with
            | Normal (cats, actives) =>
                Normal (categoryObj :: cats,
                        if isActive then categoryObj :: actives else actives)
            | Throw e => Throw e
            end
        | _ => Throw {| ename := "TypeError";
                        emessage := "categoryString.trim is not a function" |}
        end
  end.

Inductive CategoriesResult :=
| CategoriesFailed (error : string)
| CategoriesLoaded (categories activeCategories : list Category).

(** The range L10:O39 is columns 12 to 15 of rows 10 to 39. *)
Definition categoryRows (setupSheet : gmap (nat * nat) Cell) : list (list Cell) :=
  Sheet.getValues setupSheet 10 12 30 4.

(** The part of getCategoriesWithTimestamp after [values] has been read:
    the missing identifiers are written to column O, then the category
    objects are built. *)
Definition categoriesFrom (setupSheet : string) (values : list (list Cell))
  : M CategoriesResult :=
  forOf (fun (u : nat * nat) (_ : unit) =>
           updateSheet setupSheet (fun s =>
             Sheet.setValue s (fst u) 15 (CNum (Fin (inject_Z (Z.of_nat (snd u)))))))
        (idUpdates values) tt ;;;
  match buildCategories 0 (assignIds values) with
  | Normal (categories, activeCategories) =>
      ret (CategoriesLoaded categories activeCategories)
  | Throw e => throw e
  end.

Definition getCategoriesWithTimestamp : M CategoriesResult :=
  tryCatch
    (let* setupSheet := getBudgetSheet "Dontedit" in
     match setupSheet with
     | None => ret (CategoriesFailed "Dontedit sheet not found")
     | Some setupSheet =>
         let* sh := readSheet setupSheet in
         categoriesFrom setupSheet (categoryRows sh)
     end)
    (fun e => ret (CategoriesFailed (toString e))).

Definition setCache (c : list Category) : M unit :=
  fun w => (Normal tt, with_cache w (Some c)).

Definition getZategoryFromCache (categoryName : string) : M string :=
  let* cache :=
    (fun w =>
       match serverCategoriesCache w with
       | Some c => (Normal c, w)
       | None =>
           (let* result := getCategoriesWithTimestamp in
            match result with
            | CategoriesLoaded categories _ => setCache categories ;;; ret categories
            | CategoriesFailed _ => throw (Error "Failed to load categories")
            end) w
       end) in
  match List.find (fun cat => String.eqb (fullName cat) categoryName
                              || String.eqb (cat_name cat) categoryName) cache with
  | None => throw (Error ("Category not found: " +:+ categoryName))
  | Some categoryObj => ret (zategoryFormula categoryObj)
  end.

End Categories.

(** ** The record store: batch saves (zTransactions.js and the income file) *)

Inductive BatchResult :=
| BatchFailed (error : string)
| BatchSaved (updated inserted reused : nat).


(** The objects [map], [existingIdMap] of the save loops are object
    literals used as maps from identifier to row.  Their own properties
    are a finite map.  A read finds an own property or else a member of
    Object.prototype, which is a function or an object and hence truthy;
    an assignment of a number to [__proto__] creates no property. *)
Definition objectPrototype : list string :=
  [ "constructor"; "__defineGetter__"; "__defineSetter__"; "hasOwnProperty";
    "__lookupGetter__"; "__lookupSetter__"; "isPrototypeOf"; "propertyIsEnumerable";
    "toString"; "valueOf"; "__proto__"; "toLocaleString" ].

Definition inherited (key : string) : bool := bool_decide (key ∈ objectPrototype).

(** What a read of the map gives when it is not [undefined]. *)
Inductive RowRef :=
| RowNum (row : nat)
| RowMember.

Definition getProperty (m : gmap string nat) (key : string) : option RowRef :=
  match m !! key with
  | Some row => Some (RowNum row)
  | None => if inherited key then Some RowMember else None
  end.

Definition setProperty (m : gmap string nat) (key : string) (row : nat) : gmap string nat :=
  if String.eqb key "__proto__" then m else <[key := row]> m.

(** The variables of the save loop.  [idmap] holds the own properties of
    the object [map] of the source; rows are at least [startRow], hence
    truthy, so that [if (row)] tests whether the read gave a value. *)
Record Plan := {
  idmap : gmap string nat;
  holes : list nat;
  lastRow : nat;
  toUpdate : list (RowRef * list Cell);
  toInsert : list (nat * list Cell)
}.

Definition startRow : nat := 5.

Section Store.
Variable H : Host.

(** [ids.forEach((id, i) => ...)]: [r] is [startRow + i] and [limit] the
    length of the batch. *)
Fixpoint scanIds (limit : nat) (r : nat) (ids : list Cell)
    (acc : gmap string nat * list nat) : gmap string nat * list nat :=
  match ids with
  | [] => acc
  | id :: rest =>
      scanIds limit (S r) rest
        (if cell_truthy id then (setProperty (fst acc) (cellToString H id) r, snd acc)
         else if (length (snd acc) <? limit)%nat then (fst acc, (snd acc ++ [r])%list)
         else acc)
  end.

(** The identifier column D is column 4. *)
Definition initialPlan (sh : gmap (nat * nat) Cell) (batchLength : nat) : Plan :=
  let lastRow := Nat.max (Sheet.getLastRow sh) startRow in
  let ids := Sheet.getColumnValues sh startRow 4 (lastRow - startRow + 1) in
  let '(m, hs) := scanIds batchLength startRow ids (∅, []) in
  {| idmap := m; holes := hs; lastRow := lastRow; toUpdate := []; toInsert := [] |}.

(** [!e.amount || +e.amount <= 0] *)
Definition rejectedAmount (amount : JsVal) : bool :=
  negb (truthy amount) || num_le0 (ToNumber H amount).

(** The part of the loop body after [values] has been computed.  The
    income file declares [lastRow] with [const], so that [++lastRow] throws
    there; [lastRowIsConst] tells the two declarations apart. *)
Definition place (lastRowIsConst : bool) (id : string) (values : list Cell) (p : Plan)
  : Completion Plan :=
  match getProperty (idmap p) id with
  | Some row =>
      Normal {| idmap := idmap p; holes := holes p; lastRow := lastRow p;
                toUpdate := (toUpdate p ++ [(row, values)])%list; toInsert := toInsert p |}
  | None =>
      match holes p with
      | target :: rest =>
          Normal {| idmap := setProperty (idmap p) id target; holes := rest;
                    lastRow := lastRow p; toUpdate := toUpdate p;
                    toInsert := (toInsert p ++ [(target, values)])%list |}
      | [] =>
          if lastRowIsConst
          then Throw {| ename := "TypeError"; emessage := "Assignment to constant variable." |}
          else
            let target := S (lastRow p) in
            Normal {| idmap := setProperty (idmap p) id target; holes := [];
                      lastRow := target; toUpdate := toUpdate p;
                      toInsert := (toInsert p ++ [(target, values)])%list |}
      end
  end.

(** [toInsert.forEach(i => sh.getRange(i.row, col, 1, width).setValues([i.values]))] *)
Definition writeRows (sheet : string) (col : nat) (rows : list (nat * list Cell)) : M unit :=
  forOf (fun (u : nat * list Cell) (_ : unit) =>
           updateSheet sheet (fun sh => Sheet.setRowValues sh (fst u) col (snd u)))
        rows tt.

(** [toUpdate.forEach(u => sh.getRange(u.row, col, 1, width).setValues([u.values]))]:
    getRange takes numbers and throws when the row is a member of
    Object.prototype.  The text of the platform also lists the types of
    the arguments. *)
Definition signatureMismatch : Exn :=
  {| ename := "Exception";
     emessage := "The parameters don't match the method signature for "
                 ++ "SpreadsheetApp.Sheet.getRange." |}.

Definition writeUpdates (sheet : string) (col : nat) (rows : list (RowRef * list Cell))
  : M unit :=
  forOf (fun (u : RowRef * list Cell) (_ : unit) =>
           match fst u with
           | RowNum row => updateSheet sheet (fun sh => Sheet.setRowValues sh row col (snd u))
           | RowMember => throw signatureMismatch
           end)
        rows tt.

(** saveBatchExpenses and saveBatchIncome are the same function up to the
    sheet, the field that holds the identifier, the row of values and the
    timestamps; [saveBatch] is their common text. *)
Section SaveBatch.
Context {E : Type}.
Variable sheetName : string.
Variable missing : string.
Variable amountOf : E -> JsVal.
Variable idOf : E -> string.
Variable valuesOf : E -> M (list Cell).
Variable stamps : list string.
Variable lastRowIsConst : bool.

Definition saveStep (e : E) (p : Plan) : M Plan :=
  if rejectedAmount (amountOf e) then ret p
  else
    let* values := valuesOf e in
    lift (place lastRowIsConst (idOf e) values p).

Definition saveBatch (batch : list E) : M BatchResult :=
  let* sh := getBudgetSheet sheetName in
  match sh with
  | None => ret (BatchFailed missing)
  | Some sh =>
      let* sheet := readSheet sh in
      let* p := forOf saveStep batch (initialPlan sheet (length batch)) in
      writeUpdates sh 4 (toUpdate p) ;;;
      writeRows sh 4 (toInsert p) ;;;
      forOf (fun s (_ : unit) => updateDataTimestamp H s) stamps tt ;;;
      ret (BatchSaved (length (toUpdate p)) (length (toInsert p))
             (length batch - length (toUpdate p) - length (toInsert p)))
  end.

End SaveBatch.

(** *** zTransactions.js *)

Record Expense := {
  transactionId : string;
  e_date : DateInput;
  e_amount : JsVal;
  e_category : string;
  e_name : string;
  e_description : string;
  e_label : string;
  e_notes : string;
  e_account : string
}.

(** [a && a.trim() !== '' ? a : 'Other'] *)
Definition accountOrOther (account : string) : string :=
  if str_truthy account && negb (String.eqb (trim account) "") then account else "Other".

Definition expenseValues (e : Expense) : M (list Cell) :=
  let* today := now in
  let* zategory := getZategoryFromCache H (e_category e) in
  ret [ CStr (transactionId e);
        CStr (createDateOnly H today (e_date e));
        CNum (ToNumber H (e_amount e));
        CStr zategory;
        CStr (str_or (e_name e) (str_or (e_description e) ""));
        CStr (str_or (e_label e) "");
        CStr (str_or (e_notes e) "");
        CStr (accountOrOther (e_account e)) ].

Definition saveBatchExpenses (expenses : list Expense) : M BatchResult :=
  saveBatch "Expenses" "Expenses sheet missing" e_amount transactionId expenseValues
    ["masterData"] false expenses.

(** *** The income file *)

Record Income := {
  i_id : string;
  i_date : DateInput;
  i_amount : JsVal;
  i_name : string;
  i_description : string;
  i_account : string;
  i_source : string;
  i_notes : string
}.

Definition incomeValues (e : Income) : M (list Cell) :=
  let* today := now in
  ret [ CStr (i_id e);
        CStr (createDateOnly H today (i_date e));
        CNum (ToNumber H (i_amount e));
        CStr (str_or (i_name e) (str_or (i_description e) ""));
        CStr (accountOrOther (i_account e));
        CStr (str_or (i_source e) "Other");
        CStr (str_or (i_notes e) "") ].

Definition saveBatchIncome (income : list Income) : M BatchResult :=
  saveBatch "Income" "Income sheet missing" i_amount i_id incomeValues
    ["masterData"; "income"] true income.

End Store.

(** ** TextFinder *)

Section Finder.
Variable H : Host.

Definition lexLt (a b : nat * nat) : bool :=
  (fst a <? fst b)%nat || ((fst a =? fst b)%nat && (snd a <? snd b)%nat).

(** matchEntireCell(true), matchCase(false), useRegularExpression(false) *)
Definition cellMatches (text : string) (c : Cell) : bool :=
  negb (is_blank c) && String.eqb (toLowerCase (cellText H c)) (toLowerCase text).

(** [sheet.createTextFinder(text)...findNext()]: the first matching cell
    of the sheet in row-major order. *)
Definition findNext (sh : gmap (nat * nat) Cell) (text : string) : option (nat * nat) :=
  map_fold
    (fun k c found =>
       if cellMatches text c then
         match found with
         | Some k' => if lexLt k k' then Some k else found
         | None => Some k
         end
       else found)
    None sh.

End Finder.

(** ** The record store: clearing a row *)

Inductive ClearResult :=
| ClearFailed (error : string)
| Cleared (message : string) (id : string) (rowIndex : nat).

Definition cleared (r : ClearResult) : bool :=
  match r with Cleared _ _ _ => true | ClearFailed _ => false end.

Section Clear.
Variable H : Host.

(** clearTransactionRow and clearIncomeRow are the same function up to the
    sheet, the width of the span, the messages and the timestamps. *)
Definition clearRowByFinder (sheetName missing notFound message : string)
    (width : nat) (stamps : list string) (transactionId : string) : M ClearResult :=
  tryCatch
    (let* sheet := getBudgetSheet sheetName in
     match sheet with
     | None => ret (ClearFailed missing)
     | Some sheet =>
         let* sh := readSheet sheet in
         match findNext H sh transactionId with
         | None => ret (ClearFailed (notFound +:+ transactionId))
         | Some (rowIndex, _) =>
             updateSheet sheet (fun s => Sheet.clearContent s rowIndex 4 width) ;;;
             forOf (fun s (_ : unit) => updateDataTimestamp H s) stamps tt ;;;
             ret (Cleared message transactionId rowIndex)
         end
     end)
    (fun e => ret (ClearFailed (toString e))).

Definition clearTransactionRow (transactionId : string) : M ClearResult :=
  clearRowByFinder "Expenses" "Expenses sheet not found" "Transaction not found: "
    "Transaction row cleared successfully" 8 ["masterData"] transactionId.

Definition clearIncomeRow (transactionId : string) : M ClearResult :=
  clearRowByFinder "Income" "Income sheet not found" "Income transaction not found: "
    "Income transaction row cleared successfully" 7 ["masterData"; "income"] transactionId.

End Clear.

(** ** zNetWorth.js *)

Record NetWorthEntry := {
  nw_id : string;
  assetId : string;
  nw_date : DateInput;
  asset : string;
  nw_type : string;
  nw_name : string;
  nw_amount : JsVal;
  change : string;
  changeAmount : JsVal;
  nw_notes : string
}.

Inductive NetWorthResult :=
| NetWorthFailed (error : string)
| NetWorthSaved (updated inserted total : nat) (entries : list (list Cell)) (timestamp : string).


Record NetWorthPlan := {
  availableRows : list nat;
  nextNewRow : nat;
  nw_toUpdate : list (RowRef * list Cell);
  nw_toInsert : list (nat * list Cell)
}.

Definition nwStartRow : nat := 37.

Section NetWorth.
Variable H : Host.

Definition getNetWorthTimestamp_ : M string :=
  tryCatch
    (let* sheet := getBudgetSheet "Dontedit" in
     let* t := now in
     match sheet with
     | None => ret (Date_toISOString H t)
     | Some sheet =>
         let* sh := readSheet sheet in
         let value := Sheet.getValue sh 6 10 in
         match value with
         | CDate d => ret (Date_toISOString H d)
         | _ => if cell_truthy value then ret (cellToString H value)
                else ret (Date_toISOString H t)
         end
     end)
    (fun _ => let* t := now in ret (Date_toISOString H t)).

(** [row.some(cell => cell && cell.toString().trim() !== '')] *)
Definition hasData (row : list Cell) : bool :=
  existsb (fun cell => cell_truthy cell
                       && negb (String.eqb (trim (cellToString H cell)) "")) row.

(** The scan of the existing rows C37:K[lastRow]; [r] is the row number. *)
Fixpoint scanRows (r : nat) (existingData : list (list Cell))
    (acc : gmap string nat * list nat) : gmap string nat * list nat :=
  match existingData with
  | [] => acc
  | row :: rest =>
      scanRows (S r) rest
        (if hasData row then
           let id := default blank (head row) in
           if cell_truthy id then (setProperty (fst acc) (cellToString H id) r, snd acc)
           else acc
         else (fst acc, (snd acc ++ [r])%list))
  end.

(** [amount === undefined || amount === null || isNaN(parseFloat(amount))] *)
Definition skippedAmount (amount : JsVal) : bool :=
  match amount with
  | VUndefined | VNull => true
  | _ => isNaN (parseFloat H amount)
  end.

(** [entry.id || entry.assetId || generateAssetId()] *)
Definition entryId (entry : NetWorthEntry) : M string :=
  if str_truthy (nw_id entry) then ret (nw_id entry)
  else if str_truthy (assetId entry) then ret (assetId entry)
  else fun w => (Normal (generateAssetId H (assetIdCalls w)),
                 with_assetIdCalls w (S (assetIdCalls w))).

Definition netWorthValues (entry : NetWorthEntry) : M (list Cell) :=
  let* id := entryId entry in
  let* today := now in
  ret [ CStr id;
        CStr (createMonthYearOnly H today (nw_date entry));
        CStr (str_or (asset entry) "");
        CStr (str_or (nw_type entry) "");
        CStr (str_or (nw_name entry) "");
        CNum (num_or0 (parseFloat H (nw_amount entry)));
        CStr (str_or (change entry) "");
        CNum (num_or0 (parseFloat H (changeAmount entry)));
        CStr (str_or (nw_notes entry) "") ].

Definition netWorthStep (existingIdMap : gmap string nat)
    (entry : NetWorthEntry) (p : NetWorthPlan) : M NetWorthPlan :=
  if skippedAmount (nw_amount entry) then ret p
  else
    let* values := netWorthValues entry in
    match (if str_truthy (nw_id entry) then getProperty existingIdMap (nw_id entry)
           else None) with
    | Some rowNum =>
        ret {| availableRows := availableRows p; nextNewRow := nextNewRow p;
               nw_toUpdate := (nw_toUpdate p ++ [(rowNum, values)])%list;
               nw_toInsert := nw_toInsert p |}
    | None =>
        match availableRows p with
        | targetRow :: rest =>
            ret {| availableRows := rest; nextNewRow := nextNewRow p;
                   nw_toUpdate := nw_toUpdate p;
                   nw_toInsert := (nw_toInsert p ++ [(targetRow, values)])%list |}
        | [] =>
            ret {| availableRows := []; nextNewRow := S (nextNewRow p);
                   nw_toUpdate := nw_toUpdate p;
                   nw_toInsert := (nw_toInsert p ++ [(nextNewRow p, values)])%list |}
        end
    end.

(** Columns C to K are columns 3 to 11. *)
Definition saveBatchNetWorth (entries : list NetWorthEntry) : M NetWorthResult :=
  tryCatch
    (let* sheet := getBudgetSheet "Net Worth" in
     match sheet with
     | None => ret (NetWorthFailed "Net Worth sheet not found")
     | Some sheet =>
         let* sh := readSheet sheet in
         let lastRow := Nat.max (Sheet.getLastRow sh) nwStartRow in
         let existingData := Sheet.getValues sh nwStartRow 3 (lastRow - nwStartRow + 1) 9 in
         let '(existingIdMap, available) := scanRows nwStartRow existingData (∅, []) in
         let* p := forOf (netWorthStep existingIdMap) entries
                     {| availableRows := available; nextNewRow := lastRow + 1;
                        nw_toUpdate := []; nw_toInsert := [] |} in
         writeUpdates sheet 3 (nw_toUpdate p) ;;;
         writeRows sheet 3 (nw_toInsert p) ;;;
         updateDataTimestamp H "netWorth" ;;;
         let* timestamp := getNetWorthTimestamp_ in
         ret (NetWorthSaved (length (nw_toUpdate p)) (length (nw_toInsert p))
                (length (nw_toUpdate p) + length (nw_toInsert p))
                ((snd <$> nw_toUpdate p) ++ (snd <$> nw_toInsert p))%list timestamp)
     end)
    (fun e => ret (NetWorthFailed (toString e))).

(** [data[i][0] === identifier] *)
Definition exactMatch (identifier : string) (row : list Cell) : bool :=
  match default blank (head row) with
  | CStr s => String.eqb s identifier
  | _ => false
  end.

(** [row.some(cell => cell && cell.toString().includes(identifier))] *)
Definition rowContainsId (identifier : string) (row : list Cell) : bool :=
  existsb (fun cell => cell_truthy cell && includes (cellToString H cell) identifier) row.

(** The value of [rowToDelete] after the two searches. *)
Definition rowToDelete (data : list (list Cell)) (identifier : string) : option nat :=
  match list_find (fun row => exactMatch identifier row = true) data with
  | Some (i, _) => Some (nwStartRow + i)%nat
  | None =>
      match list_find (fun row => rowContainsId identifier row = true) data with
      | Some (i, _) => Some (nwStartRow + i)%nat
      | None => None
      end
  end.

(** The object returned on success mentions [timestamp], which no scope
    of the script declares: building it throws a ReferenceError, which the
    catch turns into a failure result. *)
Definition clearNetWorthRow (identifier : string) : M ClearResult :=
  tryCatch
    (let* sheet := getBudgetSheet "Net Worth" in
     match sheet with
     | None => ret (ClearFailed "Net Worth sheet not found")
     | Some sheet =>
         let* sh := readSheet sheet in
         let lastRow := Nat.max (Sheet.getLastRow sh) nwStartRow in
         let data := Sheet.getValues sh nwStartRow 3 (lastRow - nwStartRow + 1) 9 in
         match rowToDelete data identifier with
         | None => ret (ClearFailed ("Net worth entry not found: " +:+ identifier))
         | Some row =>
             updateSheet sheet (fun s => Sheet.clearContent s row 3 9) ;;;
             updateDataTimestamp H "netWorth" ;;;
             throw (ReferenceError "timestamp is not defined")
         end
     end)
    (fun e => ret (ClearFailed (toString e))).

End NetWorth.

(** ** A concrete host for the examples

    Decimal numerals, the proleptic Gregorian calendar in UTC and
    standard base64.  The theorems below hold for every host; this one
    serves to run the functions on concrete inputs. *)

Module RefHost.

Definition digitOf (c : ascii) : option Z :=
  let n := nat_of_ascii c in
  if (48 <=? n)%nat && (n <=? 57)%nat then Some (Z.of_nat (n - 48)) else None.

(** Reads a run of digits: the digits read so far as a number, how many
    there are, and the rest of the string. *)
Fixpoint digits (s : string) (acc : Z) (count : nat) : Z * nat * string :=
  match s with
  | EmptyString => (acc, count, s)
  | String c rest =>
      match digitOf c with
      | Some d => digits rest (acc * 10 + d)%Z (S count)
      | None => (acc, count, s)
      end
  end.

(** A decimal numeral with optional sign and fraction at the start of
    [s], and what follows it. *)
Definition numeral (s : string) : option (Q * string) :=
  let '(neg, body) :=
    match s with
    | String "-" rest => (true, rest)
    | String "+" rest => (false, rest)
    | _ => (false, s)
    end in
  let '(int, n1, rest1) := digits body 0 0 in
  let '(num, den, n2, rest2) :=
    match rest1 with
    | String "." rest =>
        let '(frac, n2, rest2) := digits rest 0 0 in
        ((int * 10 ^ Z.of_nat n2 + frac)%Z, Pos.pow 10 (Pos.of_nat n2), n2, rest2)
    | _ => (int, 1%positive, O, rest1)
    end in
  if (n1 + n2 =? 0)%nat then None
  else Some (Qred ((if neg then (- num)%Z else num) # (if (n2 =? 0)%nat then 1%positive else den)),
             if (n2 =? 0)%nat then rest1 else rest2).

Definition stringToNumber (s : string) : JsNum :=
  let t := trim s in
  if String.eqb t "" then Fin 0
  else match numeral t with
       | Some (q, EmptyString) => Fin q
       | _ => NaN
       end.

Definition parseFloatString (s : string) : JsNum :=
  match numeral (trimStart s) with
  | Some (q, _) => Fin q
  | None => NaN
  end.

Definition parseIntString (s : string) : JsNum :=
  let t := trimStart s in
  let '(neg, body) :=
    match t with
    | String "-" rest => (true, rest)
    | String "+" rest => (false, rest)
    | _ => (false, t)
    end in
  let '(int, n, _) := digits body 0 0 in
  if (n =? 0)%nat then NaN else Fin (inject_Z (if neg then - int else int)).

Definition numberToString (n : JsNum) : string :=
  match n with
  | NaN => "NaN"
  | Infty true => "Infinity"
  | Infty false => "-Infinity"
  | Fin q =>
      let r := Qred q in
      if (Qden r =? 1)%positive then pretty (Qnum r)
      else pretty (Qnum r) +:+ "/" +:+ pretty (Zpos (Qden r))
  end.

(** Days since 1970-01-01 of a civil date; [m] counts from 1. *)
Definition daysFromCivil (y m d : Z) : Z :=
  let y' := (if m <=? 2 then y - 1 else y)%Z in
  let era := (y' / 400)%Z in
  let yoe := (y' - era * 400)%Z in
  let doy := ((153 * (if 2 <? m then m - 3 else m + 9) + 2) / 5 + d - 1)%Z in
  let doe := (yoe * 365 + yoe / 4 - yoe / 100 + doy)%Z in
  (era * 146097 + doe - 719468)%Z.

Definition civilFromDays (z : Z) : Z * Z * Z :=
  let z' := (z + 719468)%Z in
  let era := (z' / 146097)%Z in
  let doe := (z' - era * 146097)%Z in
  let yoe := ((doe - doe / 1460 + doe / 36524 - doe / 146096) / 365)%Z in
  let doy := (doe - (365 * yoe + yoe / 4 - yoe / 100))%Z in
  let mp := ((5 * doy + 2) / 153)%Z in
  let d := (doy - (153 * mp + 2) / 5 + 1)%Z in
  let m := (if mp <? 10 then mp + 3 else mp - 9)%Z in
  ((if m <=? 2 then yoe + era * 400 + 1 else yoe + era * 400)%Z, m, d).

Definition truncate (n : JsNum) : option Z :=
  match n with
  | Fin q => Some (Qnum q ÷ Zpos (Qden q))%Z
  | _ => None
  end.

Definition dateYmd (year month day : JsNum) : option Z :=
  match truncate year, truncate month, truncate day with
  | Some y, Some m, Some d =>
      let y' := (y + m / 12)%Z in
      let m' := (m mod 12 + 1)%Z in
      Some ((daysFromCivil y' m' 1 + (d - 1)) * msPerDay)%Z
  | _, _, _ => None
  end.

Definition dateLocal (t : Z) : nat * nat * Z :=
  let '(y, m, d) := civilFromDays (t / msPerDay) in
  (Z.to_nat d, Z.to_nat (m - 1), y).

Definition pad (width : nat) (n : Z) : string :=
  let s := pretty n in
  String.concat "" (replicate (width - String.length s) "0") +:+ s.

Definition dateToISOString (t : Z) : string :=
  let '(y, m, d) := civilFromDays (t / msPerDay) in
  let ms := (t mod msPerDay)%Z in
  pad 4 y +:+ "-" +:+ pad 2 m +:+ "-" +:+ pad 2 d +:+ "T"
  +:+ pad 2 (ms / 3600000) +:+ ":" +:+ pad 2 (ms / 60000 mod 60) +:+ ":"
  +:+ pad 2 (ms / 1000 mod 60) +:+ "." +:+ pad 3 (ms mod 1000) +:+ "Z".

(** "2025-07-01", possibly followed by a time that is ignored. *)
Definition dateParse (s : string) : option Z :=
  match split "-" (String.substring 0 10 s) with
  | [y; m; d] =>
      match parseIntString y, parseIntString m, parseIntString d with
      | Fin _ as y', Fin _ as m', Fin _ as d' => dateYmd y' (num_pred m') d'
      | _, _, _ => None
      end
  | _ => None
  end.

Definition alphabet : list ascii :=
  list_ascii_of_string "ABCDEFGHIJKLMNOPQRSTUVWXYZabcdefghijklmnopqrstuvwxyz0123456789+/".

Definition sextet (n : N) : ascii := default "="%char (alphabet !! N.to_nat n).

Fixpoint encodeBytes (bs : list N) : list ascii :=
  match bs with
  | [] => []
  | [a] =>
      [sextet (N.shiftr a 2); sextet (N.land (N.shiftl a 4) 63); "="; "="]%char
  | [a; b] =>
      [sextet (N.shiftr a 2);
       sextet (N.land (N.lor (N.shiftl a 4) (N.shiftr b 4)) 63);
       sextet (N.land (N.shiftl b 2) 63); "="%char]
  | a :: b :: c :: rest =>
      sextet (N.shiftr a 2)
      :: sextet (N.land (N.lor (N.shiftl a 4) (N.shiftr b 4)) 63)
      :: sextet (N.land (N.lor (N.shiftl b 2) (N.shiftr c 6)) 63)
      :: sextet (N.land c 63)
      :: encodeBytes rest
  end.

Definition encode64 (s : string) : string :=
  string_of_list_ascii (encodeBytes (N_of_ascii <$> list_ascii_of_string s)).

Definition valueOf (c : ascii) : option N :=
  (fun p => N.of_nat (fst p)) <$> list_find (fun a => a = c) alphabet.

Fixpoint decodeChars (fuel : nat) (cs : list ascii) : option (list N) :=
  match fuel with
  | O => None
  | S fuel' =>
      match cs with
      | [] => Some []
      | [a; b; c; d] =>
          match valueOf a, valueOf b with
          | Some x, Some y =>
              let b0 := N.lor (N.shiftl x 2) (N.shiftr y 4) in
              match valueOf c, valueOf d with
              | Some z, Some u =>
                  Some [b0; N.land (N.lor (N.shiftl y 4) (N.shiftr z 2)) 255;
                        N.land (N.lor (N.shiftl z 6) u) 255]
              | Some z, None =>
                  if Ascii.eqb d "="
                  then Some [b0; N.land (N.lor (N.shiftl y 4) (N.shiftr z 2)) 255]
                  else None
              | None, _ =>
                  if Ascii.eqb c "=" && Ascii.eqb d "=" then Some [b0] else None
              end
          | _, _ => None
          end
      | a :: b :: c :: d :: rest =>
          match valueOf a, valueOf b, valueOf c, valueOf d, decodeChars fuel' rest with
          | Some x, Some y, Some z, Some u, Some tail =>
              Some (N.lor (N.shiftl x 2) (N.shiftr y 4)
                    :: N.land (N.lor (N.shiftl y 4) (N.shiftr z 2)) 255
                    :: N.land (N.lor (N.shiftl z 6) u) 255
                    :: tail)
          | _, _, _, _, _ => None
          end
      | _ => None
      end
  end.

Definition decode64 (s : string) : option string :=
  let cs := list_ascii_of_string s in
  (fun bs => string_of_list_ascii (ascii_of_N <$> bs)) <$> decodeChars (S (length cs)) cs.

Definition host : Host :=
  {| StringToNumber := stringToNumber;
     parseFloat_string := parseFloatString;
     parseInt_string := parseIntString;
     Number_toString := numberToString;
     Date_toString := dateToISOString;
     Date_toISOString := dateToISOString;
     Date_parse := dateParse;
     Date_ymd := dateYmd;
     Date_local := dateLocal;
     base64Encode := encode64;
     base64Decode := decode64;
     displayValue := fun c =>
       match c with
       | CStr s => s
       | CNum n => numberToString n
       | CBool b => if b then "TRUE" else "FALSE"
       | CDate t => dateToISOString t
       end;
     emojiRegex_test := fun s =>
       existsb (fun c => (226 <=? nat_of_ascii c)%nat) (list_ascii_of_string s);
     generateAssetId := fun n => "NW-" +:+ pretty n |}.

End RefHost.

(** ** Concrete worlds and records for the examples *)

Module Examples.

(** The instant 2025-07-01T00:00:00Z. *)
Definition july1 : Z := 1751328000000.

(** A Dontedit sheet with two categories in M10 and M11 and an earlier
    masterData timestamp in J9. *)
Definition dontedit : gmap (nat * nat) Cell :=
  list_to_map
    [ ((10, 12), CBool true); ((10, 13), CStr "Food"); ((11, 13), CStr "Rent");
      ((9, 10), CStr "2025-06-01T00:00:00.000Z") ].

Definition storedRow (r : nat) (id : string) : list (nat * nat * Cell) :=
  [ ((r, 4), CStr id); ((r, 6), CNum (Fin 1)) ].

(** An Expenses sheet whose slots 1 to 7 are rows 5 to 11: slot 3 (row 7)
    has been cleared, slot 7 (row 11) is the last one in use. *)
Definition expensesWithHole : gmap (nat * nat) Cell :=
  list_to_map (storedRow 5 "TX-1" ++ storedRow 6 "TX-2" ++ storedRow 8 "TX-4"
               ++ storedRow 9 "TX-5" ++ storedRow 10 "TX-6" ++ storedRow 11 "TX-7")%list.

(** A Net Worth sheet with one entry in row 37. *)
Definition netWorthSheet : gmap (nat * nat) Cell :=
  list_to_map [ ((37, 3), CStr "NW-house"); ((37, 7), CStr "House"); ((37, 8), CNum (Fin 100)) ].

Definition workbook (expenses : gmap (nat * nat) Cell) : gmap string (gmap (nat * nat) Cell) :=
  list_to_map [ ("Expenses", expenses); ("Income", ∅); ("Net Worth", netWorthSheet);
                ("Dontedit", dontedit) ].

Definition world (expenses : gmap (nat * nat) Cell) : World :=
  {| clock := july1;
     book := Some (workbook expenses);
     trialSheet := Some ∅;
     ENCRYPTION_KEY := Some "secret";
     serverCategoriesCache := None;
     assetIdCalls := 0 |}.

(** The categories of [dontedit] as getZategoryFromCache loads them. *)
Definition categories : list Category :=
  [ {| cat_id := CNum (Fin 0); cat_name := "Food"; cat_emoji := ""; fullName := "Food";
       cat_active := true; cat_order := 0; displayOrder := CNum (Fin 1);
       zategoryFormula := "=zategory1" |};
    {| cat_id := CNum (Fin 1); cat_name := "Rent"; cat_emoji := ""; fullName := "Rent";
       cat_active := false; cat_order := 1; displayOrder := CNum (Fin 2);
       zategoryFormula := "=zategory2" |} ].

(** The same spreadsheet without its Expenses sheet. *)
Definition worldWithoutExpenses : World :=
  with_book (world ∅) (Some (delete "Expenses" (workbook ∅))).

(** The next invocation of a public function: the script globals are
    fresh and the clock shows [t]. *)
Definition nextRun (w : World) (t : Z) : World :=
  {| clock := t; book := book w; trialSheet := trialSheet w;
     ENCRYPTION_KEY := ENCRYPTION_KEY w;
     serverCategoriesCache := None;
     assetIdCalls := assetIdCalls w |}.

Definition expense (id : string) (amount : JsVal) (category : string) : Expense :=
  {| transactionId := id; e_date := DateText "07/01/2025"; e_amount := amount;
     e_category := category; e_name := "Lunch"; e_description := ""; e_label := "";
     e_notes := ""; e_account := "Cash" |}.

Definition income (id : string) (amount : JsVal) : Income :=
  {| i_id := id; i_date := DateText "07/01/2025"; i_amount := amount;
     i_name := "Salary"; i_description := ""; i_account := "Bank"; i_source := "Job";
     i_notes := "" |}.


(** A ledger with one entry in row 3 whose end date is [endDate]; the
    first cell is the obfuscated form of user@example.com under the key
    of [world]. *)
Definition ledgerWith (endDate : Cell) : gmap (nat * nat) Cell :=
  Sheet.setRowValues ∅ 3 1
    [ CStr "userBhYGACURCwQOAgkRXQYMHw=="; CDate 1748736000000; endDate; CDate 1748736000000 ].

Definition ledgerWorld (endDate : Cell) : World :=
  with_trialSheet (world ∅) (Some (ledgerWith endDate)).

End Examples.

(** ** Descriptions used in the statements *)

Definition lookupSheet (w : World) (name : string) : option (gmap (nat * nat) Cell) :=
  book w ≫= fun ss => ss !! name.

(** Updates whose rows are all numbers. *)
Definition numbered (rows : list (nat * list Cell)) : list (RowRef * list Cell) :=
  (fun u => (RowNum (fst u), snd u)) <$> rows.

(** The sheet after the writes of [rows.forEach(...)]. *)
Definition applyRows (col : nat) (rows : list (nat * list Cell))
    (sh : gmap (nat * nat) Cell) : gmap (nat * nat) Cell :=
  foldl (fun s u => Sheet.setRowValues s (fst u) col (snd u)) sh rows.

(** The world after [updateDataTimestamp(dataType)]. *)
Definition stamped (H : Host) (dataType : string) (w : World) : World :=
  match book w, timestampCells !! dataType with
  | Some ss, Some (r, c) =>
      match ss !! "Dontedit" with
      | Some _ =>
          with_book w
            (Some (alter (fun sh => Sheet.setValue sh r c (CStr (Date_toISOString H (clock w))))
                         "Dontedit" ss))
      | None => w
      end
  | _, _ => w
  end.

(** The table of a record store as the design describes it: the last
    row in use, the identifying column, the map from the identifiers of
    the occupied slots to their rows, and the holes in first-seen order. *)
Section Table.
Variable H : Host.

Fixpoint idsMap (r : nat) (ids : list Cell) (m : gmap string nat) : gmap string nat :=
  match ids with
  | [] => m
  | id :: rest =>
      idsMap (S r) rest (if cell_truthy id then setProperty m (cellToString H id) r else m)
  end.

Fixpoint blankRows (r : nat) (ids : list Cell) : list nat :=
  match ids with
  | [] => []
  | id :: rest =>
      if cell_truthy id then blankRows (S r) rest else r :: blankRows (S r) rest
  end.

Definition lastUsedRow (sh : gmap (nat * nat) Cell) : nat :=
  Nat.max (Sheet.getLastRow sh) startRow.

Definition idColumn (sh : gmap (nat * nat) Cell) : list Cell :=
  Sheet.getColumnValues sh startRow 4 (lastUsedRow sh - startRow + 1).

Definition occupied (sh : gmap (nat * nat) Cell) : gmap string nat :=
  idsMap startRow (idColumn sh) ∅.

Definition holesOf (sh : gmap (nat * nat) Cell) : list nat :=
  blankRows startRow (idColumn sh).

End Table.

(** The rows C37:K[lastRow] that saveBatchNetWorth and clearNetWorthRow read. *)
Definition netWorthData (sh : gmap (nat * nat) Cell) : list (list Cell) :=
  Sheet.getValues sh nwStartRow 3
    (Nat.max (Sheet.getLastRow sh) nwStartRow - nwStartRow + 1) 9.


(** The worlds that differ at most in the script globals. *)
Definition sameSheets (w w' : World) : Prop :=
  clock w' = clock w /\ book w' = book w.

(** The records of a batch that pass the amount check of the save loop. *)
Section Accepted.
Variable H : Host.
Context {E : Type}.
Variable amountOf : E -> JsVal.

Definition accepted (e : E) : bool := negb (rejectedAmount H (amountOf e)).


End Accepted.

(** Two plans that agree except for holes beyond the first [m]. *)
Definition agree (m : nat) (p1 p2 : Plan) : Prop :=
  idmap p1 = idmap p2 /\ lastRow p1 = lastRow p2
  /\ toUpdate p1 = toUpdate p2 /\ toInsert p1 = toInsert p2
  /\ exists hs k1 k2, holes p1 = take k1 hs /\ holes p2 = take k2 hs
                      /\ (m <= k1)%nat /\ (m <= k2)%nat.

(** The categories getZategoryFromCache works with, and the world after
    its first call. *)
Section CategoryView.
Variable H : Host.

(** [cats] is the list getZategoryFromCache searches in the world [w]:
    the cached list, or the list built from the Dontedit sheet. *)
Definition categoriesKnown (w : World) (cats : list Category) : Prop :=
  match serverCategoriesCache w with
  | Some c => c = cats
  | None =>
      exists de actives,
        lookupSheet w "Dontedit" = Some de
        /\ buildCategories H 0 (assignIds (categoryRows de)) = Normal (cats, actives)
  end.

Definition withCategoryIds (de : gmap (nat * nat) Cell) : gmap (nat * nat) Cell :=
  foldl (fun s (u : nat * nat) =>
           Sheet.setValue s (fst u) 15 (CNum (Fin (inject_Z (Z.of_nat (snd u))))))
        de (idUpdates (categoryRows de)).

(** The world once the categories [cats] have been loaded. *)
Definition loaded (cats : list Category) (w : World) : World :=
  match serverCategoriesCache w with
  | Some _ => w
  | None =>
      with_cache (with_book w (alter withCategoryIds "Dontedit" <$> book w)) (Some cats)
  end.

Definition zategoryOf (cats : list Category) (categoryName : string) : option string :=
  zategoryFormula <$>
    List.find (fun cat => String.eqb (fullName cat) categoryName
                          || String.eqb (cat_name cat) categoryName) cats.

(** The row of values of an expense, given the categories and the clock. *)
Definition expenseRow (cats : list Category) (today : Z) (e : Expense) : list Cell :=
  [ CStr (transactionId e);
    CStr (createDateOnly H today (e_date e));
    CNum (ToNumber H (e_amount e));
    CStr (default "" (zategoryOf cats (e_category e)));
    CStr (str_or (e_name e) (str_or (e_description e) ""));
    CStr (str_or (e_label e) "");
    CStr (str_or (e_notes e) "");
    CStr (accountOrOther (e_account e)) ].

End CategoryView.

(** The save loop as a function, for a row of values that is computed
    without effect and a [lastRow] that can be assigned. *)
Definition placed (id : string) (values : list Cell) (p : Plan) : Plan :=
  match place false id values p with
  | Normal q => q
  | Throw _ => p
  end.

Section PlanOf.
Variable H : Host.
Context {E : Type}.
Variable amountOf : E -> JsVal.
Variable idOf : E -> string.
Variable rowOf : E -> list Cell.

Definition planOf (xs : list E) (p : Plan) : Plan :=
  foldl (fun p e => if rejectedAmount H (amountOf e) then p else placed (idOf e) (rowOf e) p)
        p xs.

(** The accepted records whose identifier is in the map of [p], and those
    whose identifier is not. *)
Definition knownIn (p : Plan) (xs : list E) : list E :=
  filter (fun e => accepted H amountOf e = true /\ is_Some (idmap p !! idOf e)) xs.

Definition newIn (p : Plan) (xs : list E) : list E :=
  filter (fun e => accepted H amountOf e = true /\ idmap p !! idOf e = None) xs.

End PlanOf.

(** The first [k] free slots of a plan and of a table: the holes in
    first-seen order, then the rows after the last row in use. *)
Definition slots (p : Plan) (k : nat) : list nat :=
  take k (holes p ++ seq (S (lastRow p)) k).

Definition slotsFor (sh : gmap (nat * nat) Cell) (k : nat) : list nat :=
  take k (holesOf sh ++ seq (S (lastUsedRow sh)) k).

(** The table of net worth entries as saveBatchNetWorth sees it: the
    last row in use, the map from the identifiers of the rows with data to
    their rows, the rows without data in first-seen order, and the first
    [k] free slots. *)
Section NetWorthTable.
Variable H : Host.


Definition nwOccupied (sh : gmap (nat * nat) Cell) : gmap string nat :=
  fst (scanRows H nwStartRow (netWorthData sh) (∅, [])).



(** The entries the save loop does not skip, and those among them that
    update a row. *)
Definition kept (e : NetWorthEntry) : Prop := skippedAmount H (nw_amount e) = false.

Definition updates (sh : gmap (nat * nat) Cell) (e : NetWorthEntry) : Prop :=
  str_truthy (nw_id e) = true /\ is_Some (nwOccupied sh !! nw_id e).

#[global] Instance kept_dec (e : NetWorthEntry) : Decision (kept e).
Proof. unfold kept. apply _. Defined.

#[global] Instance updates_dec (sh : gmap (nat * nat) Cell) (e : NetWorthEntry)
  : Decision (updates sh e).
Proof. unfold updates. apply _. Defined.


End NetWorthTable.

(** * Further functions of the project

    The functions below are embedded in the same way as the ones above;
    the worlds of [MoreExamples] serve the statements about them. *)

(** ** Zztestingpurposes.js: reading the timestamps *)


Section AllTimestamps.
Variable H : Host.



End AllTimestamps.

(** ** zNetWorth.js: clearing a recurring transaction *)

Section ClearRecurring.
Variable H : Host.

(** Columns C to N are the 12 columns from column 3. *)
Definition clearRecurringTransaction (transactionId : string) : M ClearResult :=
  tryCatch
    (let* sheet := getBudgetSheet "Recurring" in
     match sheet with
     | None => ret (ClearFailed "Recurring sheet not found")
     | Some sheet =>
         let* sh := readSheet sheet in
         match findNext H sh transactionId with
         | None => ret (ClearFailed ("Recurring transaction not found: " +:+ transactionId))
         | Some (rowIndex, _) =>
             updateSheet sheet (fun s => Sheet.clearContent s rowIndex 3 12) ;;;
             updateDataTimestamp H "masterData" ;;;
             updateDataTimestamp H "recurring" ;;;
             ret (Cleared "Recurring transaction row cleared successfully"
                    transactionId rowIndex)
         end
     end)
    (fun e => ret (ClearFailed (toString e))).

End ClearRecurring.

(** ** zTransactions.js: the budget of a new month *)

(** A value as JSON.parse returns it.  The fields of an object are in
    insertion order and their keys are pairwise distinct. *)
#[local] Unset Elimination Schemes.
#[local] Set Elimination Schemes.










(** ** Code.js: the parts of a sheet URL *)

(** [[a-zA-Z0-9-_]] and [[0-9]] *)
Definition idChar (c : ascii) : bool :=
  let n := nat_of_ascii c in
  ((97 <=? n)%nat && (n <=? 122)%nat) || ((65 <=? n)%nat && (n <=? 90)%nat)
  || ((48 <=? n)%nat && (n <=? 57)%nat) || (n =? 45)%nat || (n =? 95)%nat.

Definition digitChar (c : ascii) : bool :=
  let n := nat_of_ascii c in (48 <=? n)%nat && (n <=? 57)%nat.

Fixpoint takeWhile (class : ascii -> bool) (s : string) : string :=
  match s with
  | EmptyString => EmptyString
  | String c rest => if class c then String c (takeWhile class rest) else EmptyString
  end.

Fixpoint stripPrefix (prefix s : string) : option string :=
  match prefix, s with
  | EmptyString, _ => Some s
  | String p prefix', String c rest =>
      if Ascii.eqb p c then stripPrefix prefix' rest else None
  | String _ _, EmptyString => None
  end.

(** The match of [/\/d\//] and of [/[#&]gid=/] at the start of a string:
    what follows the match. *)
Definition afterSlashD (s : string) : option string := stripPrefix "/d/" s.

Definition afterGid (s : string) : option string :=
  match s with
  | String c rest =>
      if Ascii.eqb c "#" || Ascii.eqb c "&" then stripPrefix "gid=" rest else None
  | EmptyString => None
  end.

(** [s.match(/<start>([class]+)/)[1]]: the group of the leftmost match, which
    takes as many characters of the class as there are; [None] is [null]. *)
Fixpoint capture (start : string -> option string) (class : ascii -> bool) (s : string)
  : option string :=
  let here :=
    match start s with
    | Some rest =>
        let group := takeWhile class rest in
        if String.eqb group "" then None else Some group
    | None => None
    end in
  match here with
  | Some group => Some group
  | None =>
      match s with
      | EmptyString => None
      | String _ rest => capture start class rest
      end
  end.

(** The object parseSheetUrl returns for a string; [success] is true. *)
Record ParsedUrl := {
  spreadsheetId : option string;
  sheetId : option string
}.

Definition parseSheetUrl (url : string) : ParsedUrl :=
  {| spreadsheetId := capture afterSlashD idChar url;
     sheetId := capture afterGid digitChar url |}.

(** ** zNetWorth.js: the active flag of a category *)

Inductive StatusResult :=
| StatusFailed (error : string)
| StatusOk.

(** [cell === text] for a cell value and a string *)
Definition cellIs (text : string) (cell : Cell) : bool :=
  match cell with
  | CStr s => String.eqb s text
  | _ => false
  end.

Section CategoryStatus.
Variable H : Host.

(** The range M10:M39 is column 13 of rows 10 to 39; column L is 12. *)
Definition updateCategoryStatus (categoryName : string) (active : bool) : M StatusResult :=
  tryCatch
    (let* setupSheet := getBudgetSheet "Dontedit" in
     match setupSheet with
     | None => ret (StatusFailed "Dontedit sheet not found")
     | Some setupSheet =>
         let* sh := readSheet setupSheet in
         let categoryRange := Sheet.getColumnValues sh 10 13 30 in
         match list_find (fun cell => cellIs categoryName cell = true) categoryRange with
         | None => ret (StatusFailed "Category not found in spreadsheet")
         | Some (i, _) =>
             updateSheet setupSheet (fun s => Sheet.setValue s (i + 10) 12 (CBool active)) ;;;
             updateDataTimestamp H "categories" ;;;
             ret StatusOk
         end
     end)
    (fun e => ret (StatusFailed (toString e))).

End CategoryStatus.

(** The category object of row [order] with its active flag set. *)
Definition setActive (order : nat) (active : bool) (cat : Category) : Category :=
  if (cat_order cat =? order)%nat then
    {| cat_id := cat_id cat; cat_name := cat_name cat; cat_emoji := cat_emoji cat;
       fullName := fullName cat; cat_active := active; cat_order := cat_order cat;
       displayOrder := displayOrder cat; zategoryFormula := zategoryFormula cat |}
  else cat.

(** A cell of M10:M39 names the category [name]: it holds a non-empty
    string that is [name], or whose part before the emoji is [name]. *)
Definition namesCategory (H : Host) (name : string) (cell : Cell) : bool :=
  match cell with
  | CStr s =>
      str_truthy s
      && (String.eqb s name || String.eqb (fst (parseCategoryNameAndEmoji H s)) name)
  | _ => false
  end.

(** ** zNetWorth.js: renaming a category *)

Inductive RenameResult :=
| RenameFailed (error : string)
| Renamed (oldFullName newFullName : string).

Section CategoryName.
Variable H : Host.
(** [s.toLowerCase()] *)
Variable String_toLowerCase : string -> string.

(** [currentValue && currentValue.toString().trim() === oldFullName.trim()] *)
Definition isCategory (oldFullName : string) (currentValue : Cell) : bool :=
  cell_truthy currentValue
  && String.eqb (trim (cellToString H currentValue)) (trim oldFullName).

(** [currentValue && currentValue.toString().includes(newName)] *)
Definition mentions (newName : string) (currentValue : Cell) : bool :=
  cell_truthy currentValue && includes (cellToString H currentValue) newName.

(** The two searches for the row of the category: by its full name and,
    when that finds nothing, by the new name. *)
Definition categoryRowIndex (values : list Cell) (oldFullName newName : string)
  : option nat :=
  match list_find (fun cell => isCategory oldFullName cell = true) values with
  | Some (i, _) => Some i
  | None => fst <$> list_find (fun cell => mentions newName cell = true) values
  end.

(** One round of the loop that checks for duplicates: the error the row
    [existingValue] gives rise to. *)
Definition duplicateError (newFullName normalizedNewName : string) (existingValue : Cell)
  : option string :=
  if negb (cell_truthy existingValue) then None
  else
    let existingFullName := trim (cellToString H existingValue) in
    if String.eqb existingFullName newFullName
    then Some "A category with this name and emoji already exists"
    else
      let parsedName := fst (parseCategoryNameAndEmoji H existingFullName) in
      let existingName :=
        if str_truthy parsedName then String_toLowerCase (trim parsedName)
        else String_toLowerCase existingFullName in
      if String.eqb existingName normalizedNewName
      then Some "A category with this name already exists"
      else None.

(** [for (let i = 0; i < values.length; i++) { if (i === categoryRowIndex) continue; ... }] *)
Fixpoint findDuplicate (i : nat) (values : list Cell) (categoryRowIndex : nat)
    (newFullName normalizedNewName : string) : option string :=
  match values with
  | [] => None
  | existingValue :: rest =>
      if (i =? categoryRowIndex)%nat
      then findDuplicate (S i) rest categoryRowIndex newFullName normalizedNewName
      else
        match duplicateError newFullName normalizedNewName existingValue with
        | Some error => Some error
        | None => findDuplicate (S i) rest categoryRowIndex newFullName normalizedNewName
        end
  end.

(** The range M10:M39 is column 13 of rows 10 to 39. *)
Definition updateCategoryName (oldFullName newName newEmoji : string) : M RenameResult :=
  tryCatch
    (let* setupSheet := getBudgetSheet "Dontedit" in
     match setupSheet with
     | None => ret (RenameFailed "Dontedit sheet not found")
     | Some setupSheet =>
         let* sh := readSheet setupSheet in
         let values := Sheet.getColumnValues sh 10 13 30 in
         match categoryRowIndex values oldFullName newName with
         | None =>
             ret (RenameFailed ("Category not found in Dontedit sheet: " +:+ oldFullName))
         | Some rowIndex =>
             if negb (str_truthy newName) || negb (str_truthy (trim newName))
             then ret (RenameFailed "Category name cannot be empty")
             else if negb (str_truthy newEmoji) || negb (str_truthy (trim newEmoji))
             then ret (RenameFailed "Category emoji cannot be empty")
             else
               let trimmedNewName := trim newName in
               let newFullName := trimmedNewName +:+ " " +:+ trim newEmoji in
               let normalizedNewName := String_toLowerCase trimmedNewName in
               match findDuplicate 0 values rowIndex newFullName normalizedNewName with
               | Some error => ret (RenameFailed error)
               | None =>
                   updateSheet setupSheet (fun s =>
                     Sheet.setValue s (rowIndex + 10) 13 (CStr newFullName)) ;;;
                   tryCatch (updateDataTimestamp H "categories") (fun _ => ret tt) ;;;
                   ret (Renamed oldFullName newFullName)
               end
         end
     end)
    (fun e => ret (RenameFailed (toString e))).

End CategoryName.

(** ** zNetWorth.js: saving recurring transactions *)

(** A recurring transaction as the client sends it.  A date field holds a
    string, a Date, or nothing ([DateOther] is undefined or null here). *)
Record Recurring := {
  rec_id : string;
  rec_startDate : DateInput;
  rec_name : string;
  rec_category : string;
  rec_type : string;
  rec_frequency : string;
  rec_amount : JsVal;
  rec_account : string;
  rec_endDate : DateInput;
  rec_notes : string;
  rec_source : string
}.

Inductive RecurringResult :=
| RecurringFailed (error : string)
| RecurringSaved (updated inserted totalProcessed rowsModified : nat).

(** The variables of the loop of saveRecurringTransaction.  Indices count
    from the first row of the range C6:N500.  [updatedRows] is the Set of
    the source in insertion order; a member of Object.prototype that has
    been read from [idMap] stands in it as [RowMember]. *)
Record RecurringPlan := {
  rp_idMap : gmap string nat;
  rp_holes : list nat;
  rowsToUpdate : list (list Cell);
  updatedRows : list RowRef;
  insertCount : nat;
  updateCount : nat
}.

#[global] Instance RowRef_eq_dec : EqDecision RowRef.
Proof. solve_decision. Defined.

(** [set.add(x)] *)
Definition setAdd (x : RowRef) (set : list RowRef) : list RowRef :=
  if bool_decide (x ∈ set) then set else (set ++ [x])%list.

Definition dateTruthy (d : DateInput) : bool :=
  match d with
  | DateObject _ => true
  | DateText s => str_truthy s
  | DateOther => false
  end.

(** The income category is written with its emoji, U+1F4B5, in UTF-8. *)
Definition incomeCategory : string := "Income 💵".

Section SaveRecurring.
Variable H : Host.

(** [id && id.toString().trim() !== ''] *)
Definition hasId (id : Cell) : bool :=
  cell_truthy id && negb (String.eqb (trim (cellToString H id)) "").

(** [existingData.forEach((row, index) => ...)] *)
Fixpoint scanRecurring (index : nat) (existingData : list (list Cell))
    (acc : gmap string nat * list nat) : gmap string nat * list nat :=
  match existingData with
  | [] => acc
  | row :: rest =>
      let id := default blank (head row) in
      scanRecurring (S index) rest
        (if hasId id then (setProperty (fst acc) (cellToString H id) index, snd acc)
         else (fst acc, (snd acc ++ [index])%list))
  end.

(** [!item.amount || parseFloat(item.amount) <= 0] *)
Definition skippedRecurring (amount : JsVal) : bool :=
  negb (truthy amount) || num_le0 (parseFloat H amount).

Definition recurringValues (item : Recurring) : M (list Cell) :=
  let* today := now in
  let* category :=
    (if String.eqb (rec_category item) incomeCategory then ret incomeCategory
     else getZategoryFromCache H (rec_category item)) in
  ret [ CStr (str_or (rec_id item) ("REC-" +:+ Number_toString H (Fin (inject_Z today))));
        CStr (if dateTruthy (rec_startDate item)
              then createDateOnly H today (rec_startDate item)
              else createDateOnly H today (DateObject (Some today)));
        CStr (str_or (rec_name item) "");
        CStr category;
        CStr (str_or (rec_type item) "TRUE");
        CStr (str_or (rec_frequency item) "Monthly");
        CNum (num_or0 (parseFloat H (rec_amount item)));
        CStr (accountOrOther (rec_account item));
        CStr (if dateTruthy (rec_endDate item)
              then createDateOnly H today (rec_endDate item) else "");
        CStr "";
        CStr (str_or (rec_notes item) "");
        CStr (str_or (rec_source item) "") ].

(** The search for an empty row once the holes are used up: the first
    index that has not been written and whose identifier is empty. *)
Definition findInsertIndex (p : RecurringPlan) : option nat :=
  fst <$> list_find (fun row => hasId (default blank (head row.2)) = false
                                /\ RowNum row.1 ∉ updatedRows p)
            (imap pair (rowsToUpdate p)).

(** The placement of the row [values] of a record with identifier [id]. *)
Definition placeRecurring (id : string) (values : list Cell) (p : RecurringPlan)
    : RecurringPlan :=
  match getProperty (rp_idMap p) id with
  | Some existingIndex =>
      {| rp_idMap := rp_idMap p; rp_holes := rp_holes p;
         rowsToUpdate :=
           match existingIndex with
           | RowNum i => <[i := values]> (rowsToUpdate p)
           | RowMember => rowsToUpdate p
           end;
         updatedRows := setAdd existingIndex (updatedRows p);
         insertCount := insertCount p; updateCount := S (updateCount p) |}
  | None =>
      match rp_holes p with
      | targetIndex :: rest =>
          {| rp_idMap := setProperty (rp_idMap p) id targetIndex;
             rp_holes := rest;
             rowsToUpdate := <[targetIndex := values]> (rowsToUpdate p);
             updatedRows := setAdd (RowNum targetIndex) (updatedRows p);
             insertCount := S (insertCount p); updateCount := updateCount p |}
      | [] =>
          match findInsertIndex p with
          | Some insertIndex =>
              {| rp_idMap := setProperty (rp_idMap p) id insertIndex;
                 rp_holes := [];
                 rowsToUpdate := <[insertIndex := values]> (rowsToUpdate p);
                 updatedRows := setAdd (RowNum insertIndex) (updatedRows p);
                 insertCount := S (insertCount p); updateCount := updateCount p |}
          | None =>
              {| rp_idMap := rp_idMap p; rp_holes := []; rowsToUpdate := rowsToUpdate p;
                 updatedRows := updatedRows p;
                 insertCount := S (insertCount p); updateCount := updateCount p |}
          end
      end
  end.

Definition recurringStep (item : Recurring) (p : RecurringPlan) : M RecurringPlan :=
  if skippedRecurring (rec_amount item) then ret p
  else
    let* values := recurringValues item in
    ret (placeRecurring (rec_id item) values p).

(** [for (const rowIndex of changedRows) sheet.getRange(rowIndex + 6, 3, 1, 12)...]:
    for a member of Object.prototype [rowIndex + 6] is a string, which
    getRange refuses. *)
Definition writeChangedRows (sheet : string) (rows : list (list Cell))
    (changedRows : list RowRef) : M unit :=
  forOf (fun (rowIndex : RowRef) (_ : unit) =>
           match rowIndex with
           | RowNum i =>
               updateSheet sheet (fun sh =>
                 Sheet.setRowValues sh (i + 6) 3 (default [] (rows !! i)))
           | RowMember => throw signatureMismatch
           end)
        changedRows tt.

(** The range C6:N500 has 495 rows and 12 columns. *)
Definition saveRecurringTransaction (recurring : list Recurring) : M RecurringResult :=
  tryCatch
    (let* sheet := getBudgetSheet "Recurring" in
     match sheet with
     | None => ret (RecurringFailed "Recurring sheet not found")
     | Some sheet =>
         let* sh := readSheet sheet in
         let existingData := Sheet.getValues sh 6 3 495 12 in
         let '(idMap, holes) := scanRecurring 0 existingData (∅, []) in
         let* p := forOf recurringStep recurring
                     {| rp_idMap := idMap; rp_holes := holes; rowsToUpdate := existingData;
                        updatedRows := []; insertCount := 0; updateCount := 0 |} in
         writeChangedRows sheet (rowsToUpdate p) (updatedRows p) ;;;
         updateDataTimestamp H "masterData" ;;;
         updateDataTimestamp H "recurring" ;;;
         ret (RecurringSaved (updateCount p) (insertCount p)
                (updateCount p + insertCount p) (length (updatedRows p)))
     end)
    (fun e => ret (RecurringFailed (toString e))).

(** The category cell and the row of a recurring transaction, given the
    categories and the clock. *)
Definition recurringCategory (cats : list Category) (category : string) : option string :=
  if String.eqb category incomeCategory then Some incomeCategory
  else zategoryOf cats category.

Definition recurringRow (cats : list Category) (today : Z) (item : Recurring) : list Cell :=
  [ CStr (str_or (rec_id item) ("REC-" +:+ Number_toString H (Fin (inject_Z today))));
    CStr (if dateTruthy (rec_startDate item)
          then createDateOnly H today (rec_startDate item)
          else createDateOnly H today (DateObject (Some today)));
    CStr (str_or (rec_name item) "");
    CStr (default "" (recurringCategory cats (rec_category item)));
    CStr (str_or (rec_type item) "TRUE");
    CStr (str_or (rec_frequency item) "Monthly");
    CNum (num_or0 (parseFloat H (rec_amount item)));
    CStr (accountOrOther (rec_account item));
    CStr (if dateTruthy (rec_endDate item)
          then createDateOnly H today (rec_endDate item) else "");
    CStr "";
    CStr (str_or (rec_notes item) "");
    CStr (str_or (rec_source item) "") ].

(** The plan the loop of saveRecurringTransaction arrives at when the rows of
    the records are those of [recurringRow]. *)
Definition recurringPlanOf (cats : list Category) (today : Z) (recurring : list Recurring)
    (p : RecurringPlan) : RecurringPlan :=
  foldl (fun p item =>
           if skippedRecurring (rec_amount item) then p
           else placeRecurring (rec_id item) (recurringRow cats today item) p)
        p recurring.

(** The variables of the loop before its first round. *)
Definition recurringStart (sh : gmap (nat * nat) Cell) : RecurringPlan :=
  let existingData := Sheet.getValues sh 6 3 495 12 in
  let scanned := scanRecurring 0 existingData (∅, []) in
  {| rp_idMap := fst scanned; rp_holes := snd scanned; rowsToUpdate := existingData;
     updatedRows := []; insertCount := 0; updateCount := 0 |}.

End SaveRecurring.

(** ** The income file: reading the income records *)

(** An element of the [income] array of getIncomeData.  [item_id] is a
    cell value, as the identifier is passed on without conversion. *)
Record IncomeItem := {
  item_id : Cell;
  item_rowIndex : nat;
  item_date : option string;
  item_name : string;
  item_category : string;
  item_amount : JsNum;
  item_account : string;
  item_source : string;
  item_notes : string
}.

Inductive IncomeResult :=
| IncomeFailed (error : string)
(** the two early returns; the second one carries a timestamp *)
| IncomeEmpty (timestamp : option string)
| IncomeLoaded (income : list IncomeItem) (totalRows processedRows skippedRows : nat).

Section ReadIncome.
Variable H : Host.

(** [parseFloat(cell)] *)
Definition parseFloatCell (cell : Cell) : JsNum :=
  match cell with
  | CStr s => parseFloat_string H s
  | CNum n => n
  | CBool _ => NaN
  | CDate t => parseFloat_string H (Date_toString H t)
  end.

(** [!cell || cell.toString().trim() === ''] *)
Definition emptyCell (cell : Cell) : bool :=
  negb (cell_truthy cell) || String.eqb (trim (cellToString H cell)) "".

(** [cell || text] *)
Definition cellOr (cell : Cell) (text : string) : Cell :=
  if cell_truthy cell then cell else CStr text.

(** One round of the loop over the rows of D5:J[lastRow]: the element
    pushed for row [i], or [None] when the row is skipped.  The date is
    taken from the display values. *)
Definition readIncomeRow (i : nat) (row : list Cell) : option IncomeItem :=
  if forallb emptyCell row then None
  else
    let transactionId := cellOr (default blank (row !! 0%nat)) "" in
    let date := default blank (row !! 1%nat) in
    let amount := default blank (row !! 2%nat) in
    let name := cellOr (default blank (row !! 3%nat)) "" in
    let account := cellOr (default blank (row !! 4%nat)) "" in
    let source := cellOr (default blank (row !! 5%nat)) "Other" in
    let notes := cellOr (default blank (row !! 6%nat)) "" in
    if negb (cell_truthy amount) || num_le0 (parseFloatCell amount) then None
    else
      let incomeDate := if cell_truthy date then Some (cellText H date) else None in
      let parsedAmount := parseFloatCell amount in
      if isNaN parsedAmount then None
      else
        Some {| item_id := cellOr transactionId ("INC-" +:+ pretty (i + 5)%nat);
                item_rowIndex := i + 5;
                item_date := incomeDate;
                item_name := cellToString H name;
                item_category := incomeCategory;
                item_amount := parsedAmount;
                item_account := cellToString H account;
                item_source := cellToString H source;
                item_notes := cellToString H notes |}.

(** [for (let i = 0; i < incomeData.length; i++)] with the variables
    [income], [processedCount] and [skippedCount]. *)
Fixpoint incomeLoop (i : nat) (incomeData : list (list Cell))
    (acc : list IncomeItem * nat * nat) : list IncomeItem * nat * nat :=
  match incomeData with
  | [] => acc
  | row :: rest =>
      let '(income, processedCount, skippedCount) := acc in
      incomeLoop (S i) rest
        match readIncomeRow i row with
        | Some item => ((income ++ [item])%list, S processedCount, skippedCount)
        | None => (income, processedCount, S skippedCount)
        end
  end.

(** The range D5:J[lastRow] is columns 4 to 10. *)
Definition getIncomeData : M IncomeResult :=
  tryCatch
    (let* incomeSheet := getBudgetSheet "Income" in
     match incomeSheet with
     | None => ret (IncomeFailed "Income sheet not found")
     | Some incomeSheet =>
         let* sh := readSheet incomeSheet in
         let lastRow := Sheet.getLastRow sh in
         if (lastRow <=? 4)%nat then ret (IncomeEmpty None)
         else
           let numRowsToRead := (lastRow - 5 + 1)%nat in
           if (numRowsToRead <=? 0)%nat then
             let* t := now in ret (IncomeEmpty (Some (Date_toISOString H t)))
           else
             let incomeData := Sheet.getValues sh 5 4 numRowsToRead 7 in
             let '(income, processedCount, skippedCount) :=
               incomeLoop 0 incomeData ([], 0%nat, 0%nat) in
             ret (IncomeLoaded income (length incomeData) processedCount skippedCount)
     end)
    (fun e => ret (IncomeFailed (toString e))).

(** The row of values saveBatchIncome writes for a record, given the clock. *)
Definition incomeRow (today : Z) (e : Income) : list Cell :=
  [ CStr (i_id e);
    CStr (createDateOnly H today (i_date e));
    CNum (ToNumber H (i_amount e));
    CStr (str_or (i_name e) (str_or (i_description e) ""));
    CStr (accountOrOther (i_account e));
    CStr (str_or (i_source e) "Other");
    CStr (str_or (i_notes e) "") ].

(** The elements getIncomeData returns for the rows [rows] of a sheet. *)
Definition incomeItems (sh : gmap (nat * nat) Cell) (rows : list nat) : list IncomeItem :=
  omap (fun r => readIncomeRow (r - 5) (Sheet.getRowValues sh r 4 7)) rows.

End ReadIncome.

(** ** Code.js: missing identifiers and the health of the data *)

(** An element of [sheetsToFix] and of [sheetsToCheck]; the two arrays are
    the same. *)
Record SheetConfig := {
  cfg_name : string;
  dataStart : nat;
  dataEnd : nat;
  cfg_idCol : nat;
  cfg_startRow : nat;
  cfg_prefix : string
}.

Definition sheetsToFix : list SheetConfig :=
  [ {| cfg_name := "Expenses"; dataStart := 5; dataEnd := 11; cfg_idCol := 4;
       cfg_startRow := 6; cfg_prefix := "ex-" |};
    {| cfg_name := "Income"; dataStart := 5; dataEnd := 10; cfg_idCol := 4;
       cfg_startRow := 5; cfg_prefix := "inc-" |};
    {| cfg_name := "Recurring"; dataStart := 6; dataEnd := 12; cfg_idCol := 3;
       cfg_startRow := 6; cfg_prefix := "rec-" |};
    {| cfg_name := "Net Worth"; dataStart := 6; dataEnd := 12; cfg_idCol := 3;
       cfg_startRow := 37; cfg_prefix := "net-" |} ].

Definition sheetsToCheck : list SheetConfig := sheetsToFix.

(** [rowData.some(cell => cell !== null && cell !== undefined && cell !== '')] *)
Definition rowHasData (rowData : list Cell) : bool :=
  existsb (fun cell => negb (is_blank cell)) rowData.

(** [/^\d+$/.test(s)] *)
Definition purelyNumeric (s : string) : bool :=
  negb (String.eqb s "") && forallb digitChar (list_ascii_of_string s).

Record FixState := {
  totalFixed : nat;
  fix_results : list string;
  sheetsModified : list string;
  (** how often Math.random has been called *)
  randomCalls : nat
}.

Inductive FixResult :=
| FixFailed (error : string)
| FixDone (totalFixed : nat) (results : list string) (sheetsModified : list string).

Record HealthState := {
  h_totalRows : nat;
  h_missingIds : nat;
  h_duplicateIds : nat;
  h_numericIds : nat;
  h_results : list string;
  (** the Sets [allIds] and [duplicatedIds] in insertion order *)
  allIds : list Cell;
  duplicatedIds : list Cell
}.

Inductive HealthResult :=
| HealthFailed (error : string)
| Health (totalRows missingIds numericIds duplicateIds : nat) (results : list string)
    (duplicatedIdsList : list Cell).

(** The equality of the elements of a Set on cell values: numbers by
    value, NaN equal to itself; every Date that getValues returns is an
    object of its own. *)
Definition sameValue (a b : Cell) : bool :=
  match a, b with
  | CStr s, CStr t => String.eqb s t
  | CNum (Fin p), CNum (Fin q) => Qeq_bool p q
  | CNum NaN, CNum NaN => true
  | CNum (Infty p), CNum (Infty q) => Bool.eqb p q
  | CBool p, CBool q => Bool.eqb p q
  | _, _ => false
  end.

Definition setHas (set : list Cell) (x : Cell) : bool := existsb (sameValue x) set.

Definition setInsert (set : list Cell) (x : Cell) : list Cell :=
  if setHas set x then set else (set ++ [x])%list.

Section DataHealth.
Variable H : Host.
(** [Math.random().toString(36).substr(2, 9)] at the [n]-th call of
    Math.random in the invocation at hand *)
Variable Math_random_id : nat -> string.

(** [!transactionId || transactionId === '' || /^\d+$/.test(transactionId.toString())] *)
Definition needsNewId (transactionId : Cell) : bool :=
  negb (cell_truthy transactionId) || purelyNumeric (cellToString H transactionId).

(** The loop over the rows of fixMissingTransactionIds: [idsToSet], and the
    number of calls of Math.random afterwards. *)
Fixpoint idsToSet (cfg : SheetConfig) (today : Z) (rowNum : nat) (ids : list Cell)
    (dataRows : list (list Cell)) (calls : nat) : list (nat * string) * nat :=
  match ids, dataRows with
  | transactionId :: ids', rowData :: dataRows' =>
      if rowHasData rowData && needsNewId transactionId then
        let newId := cfg_prefix cfg +:+ Number_toString H (Fin (inject_Z today)) +:+ "-"
                     +:+ Math_random_id calls in
        let rest := idsToSet cfg today (S rowNum) ids' dataRows' (S calls) in
        ((rowNum, newId) :: fst rest, snd rest)
      else idsToSet cfg today (S rowNum) ids' dataRows' calls
  | _, _ => ([], calls)
  end.

Definition pushResult (st : FixState) (text : string) : FixState :=
  {| totalFixed := totalFixed st; fix_results := (fix_results st ++ [text])%list;
     sheetsModified := sheetsModified st; randomCalls := randomCalls st |}.

(** The callback of [sheetsToFix.forEach]. *)
Definition fixSheet (cfg : SheetConfig) (st : FixState) : M FixState :=
  let* sheet := getBudgetSheet (cfg_name cfg) in
  match sheet with
  | None => ret (pushResult st (cfg_name cfg +:+ ": Sheet not found"))
  | Some sheet =>
      let* sh := readSheet sheet in
      let lastRow := Sheet.getLastRow sh in
      if (lastRow <? cfg_startRow cfg)%nat
      then ret (pushResult st (cfg_name cfg +:+ ": No data to check"))
      else
        let rowsToCheck := (lastRow - cfg_startRow cfg + 1)%nat in
        let ids := Sheet.getColumnValues sh (cfg_startRow cfg) (cfg_idCol cfg) rowsToCheck in
        let dataRows :=
          Sheet.getValues sh (cfg_startRow cfg) (dataStart cfg) rowsToCheck
            (dataEnd cfg - dataStart cfg + 1) in
        let* today := now in
        let found := idsToSet cfg today (cfg_startRow cfg) ids dataRows (randomCalls st) in
        forOf (fun (item : nat * string) (_ : unit) =>
                 updateSheet sheet (fun s =>
                   Sheet.setValue s (fst item) (cfg_idCol cfg) (CStr (snd item))))
              (fst found) tt ;;;
        ret {| totalFixed := totalFixed st + length (fst found);
               fix_results :=
                 (fix_results st
                  ++ [cfg_name cfg +:+ ": Fixed " +:+ pretty (length (fst found))
                      +:+ " rows"])%list;
               sheetsModified :=
                 if (0 <? length (fst found))%nat
                 then (sheetsModified st ++ [cfg_name cfg])%list else sheetsModified st;
               randomCalls := snd found |}
  end.

(** The timestamps of a modified sheet. *)
Definition stampsOfSheet (sheetName : string) : list string :=
  ((if String.eqb sheetName "Expenses" then ["budget"] else [])
   ++ (if String.eqb sheetName "Income" then ["income"; "budget"] else [])
   ++ (if String.eqb sheetName "Recurring" then ["recurring"] else [])
   ++ (if String.eqb sheetName "Net Worth" then ["netWorth"] else []))%list.

Definition fixMissingTransactionIds : M FixResult :=
  tryCatch
    (let* st := forOf fixSheet sheetsToFix
                  {| totalFixed := 0; fix_results := []; sheetsModified := [];
                     randomCalls := 0 |} in
     (if (0 <? totalFixed st)%nat then
        updateDataTimestamp H "masterData" ;;;
        forOf (fun (sheetName : string) (_ : unit) =>
                 forOf (fun s (_ : unit) => updateDataTimestamp H s)
                       (stampsOfSheet sheetName) tt)
              (sheetsModified st) tt
      else ret tt) ;;;
     ret (FixDone (totalFixed st) (fix_results st) (sheetsModified st)))
    (fun e => ret (FixFailed (toString e))).

(** The counters of one sheet in checkDataHealth. *)
Record SheetCount := {
  sheetDataRows : nat;
  sheetMissingIds : nat;
  sheetNumericIds : nat;
  sheetDuplicates : nat;
  seenIds : list Cell;
  seenTwice : list Cell
}.

Definition checkRow (transactionId : Cell) (rowData : list Cell) (c : SheetCount)
  : SheetCount :=
  if rowHasData rowData then
    if negb (cell_truthy transactionId) then
      {| sheetDataRows := S (sheetDataRows c); sheetMissingIds := S (sheetMissingIds c);
         sheetNumericIds := sheetNumericIds c; sheetDuplicates := sheetDuplicates c;
         seenIds := seenIds c; seenTwice := seenTwice c |}
    else
      let isPurelyNumeric := purelyNumeric (cellToString H transactionId) in
      let known := setHas (seenIds c) transactionId in
      {| sheetDataRows := S (sheetDataRows c); sheetMissingIds := sheetMissingIds c;
         sheetNumericIds := if isPurelyNumeric then S (sheetNumericIds c)
                            else sheetNumericIds c;
         sheetDuplicates := if known then S (sheetDuplicates c) else sheetDuplicates c;
         seenIds := if known then seenIds c else (seenIds c ++ [transactionId])%list;
         seenTwice := if known then setInsert (seenTwice c) transactionId
                      else seenTwice c |}
  else c.

Fixpoint checkRows (ids : list Cell) (dataRows : list (list Cell)) (c : SheetCount)
  : SheetCount :=
  match ids, dataRows with
  | transactionId :: ids', rowData :: dataRows' =>
      checkRows ids' dataRows' (checkRow transactionId rowData c)
  | _, _ => c
  end.

Definition pushHealth (st : HealthState) (text : string) : HealthState :=
  {| h_totalRows := h_totalRows st; h_missingIds := h_missingIds st;
     h_duplicateIds := h_duplicateIds st; h_numericIds := h_numericIds st;
     h_results := (h_results st ++ [text])%list;
     allIds := allIds st; duplicatedIds := duplicatedIds st |}.

(** The callback of [sheetsToCheck.forEach]. *)
Definition checkSheet (cfg : SheetConfig) (st : HealthState) : M HealthState :=
  let* sheet := getBudgetSheet (cfg_name cfg) in
  match sheet with
  | None => ret (pushHealth st (cfg_name cfg +:+ ": Sheet not found"))
  | Some sheet =>
      let* sh := readSheet sheet in
      let lastRow := Sheet.getLastRow sh in
      if (lastRow <? cfg_startRow cfg)%nat
      then ret (pushHealth st (cfg_name cfg +:+ ": No data to check"))
      else
        let rowsToCheck := (lastRow - cfg_startRow cfg + 1)%nat in
        let ids := Sheet.getColumnValues sh (cfg_startRow cfg) (cfg_idCol cfg) rowsToCheck in
        let dataRows :=
          Sheet.getValues sh (cfg_startRow cfg) (dataStart cfg) rowsToCheck
            (dataEnd cfg - dataStart cfg + 1) in
        let c := checkRows ids dataRows
                   {| sheetDataRows := 0; sheetMissingIds := 0; sheetNumericIds := 0;
                      sheetDuplicates := 0; seenIds := allIds st;
                      seenTwice := duplicatedIds st |} in
        ret {| h_totalRows := h_totalRows st + rowsToCheck;
               h_missingIds := h_missingIds st + sheetMissingIds c;
               h_duplicateIds := h_duplicateIds st + sheetDuplicates c;
               h_numericIds := h_numericIds st + sheetNumericIds c;
               h_results :=
                 (h_results st
                  ++ [cfg_name cfg +:+ ": " +:+ pretty (sheetDataRows c) +:+ " data rows, "
                      +:+ pretty (sheetMissingIds c) +:+ " missing IDs, "
                      +:+ pretty (sheetNumericIds c) +:+ " numeric IDs, "
                      +:+ pretty (sheetDuplicates c) +:+ " duplicates"])%list;
               allIds := seenIds c; duplicatedIds := seenTwice c |}
  end.

Definition checkDataHealth : M HealthResult :=
  tryCatch
    (let* st := forOf checkSheet sheetsToCheck
                  {| h_totalRows := 0; h_missingIds := 0; h_duplicateIds := 0;
                     h_numericIds := 0; h_results := []; allIds := [];
                     duplicatedIds := [] |} in
     ret (Health (h_totalRows st) (h_missingIds st) (h_numericIds st) (h_duplicateIds st)
            (h_results st) (duplicatedIds st)))
    (fun e => ret (HealthFailed (toString e))).

(** Every row of the rows that are checked which holds data has an
    identifier that needs no repair. *)
Definition healthy (cfg : SheetConfig) (sh : gmap (nat * nat) Cell) : Prop :=
  forall r, (cfg_startRow cfg <= r <= Sheet.getLastRow sh)%nat ->
    rowHasData (Sheet.getRowValues sh r (dataStart cfg) (dataEnd cfg - dataStart cfg + 1)) = true ->
    needsNewId (Sheet.getValue sh r (cfg_idCol cfg)) = false.

(** The sheet of [cfg] after the callback of fixMissingTransactionIds. *)
Definition fixedSheet (cfg : SheetConfig) (today : Z) (calls : nat)
    (sh : gmap (nat * nat) Cell) : gmap (nat * nat) Cell :=
  let rowsToCheck := (Sheet.getLastRow sh - cfg_startRow cfg + 1)%nat in
  foldl (fun s (item : nat * string) =>
           Sheet.setValue s (fst item) (cfg_idCol cfg) (CStr (snd item)))
        sh
        (fst (idsToSet cfg today (cfg_startRow cfg)
                (Sheet.getColumnValues sh (cfg_startRow cfg) (cfg_idCol cfg) rowsToCheck)
                (Sheet.getValues sh (cfg_startRow cfg) (dataStart cfg) rowsToCheck
                   (dataEnd cfg - dataStart cfg + 1))
                calls)).

(** [sh'] is [sh] up to identifiers that have been repaired: a cell
    differs only in the identifier column of a checked row that holds
    data and whose identifier was missing or purely numeric, and holds a
    new identifier there. *)
Definition repaired (cfg : SheetConfig) (sh sh' : gmap (nat * nat) Cell) : Prop :=
  forall r c,
    Sheet.getValue sh' r c = Sheet.getValue sh r c
    \/ (c = cfg_idCol cfg
        /\ (cfg_startRow cfg <= r <= Sheet.getLastRow sh)%nat
        /\ rowHasData (Sheet.getRowValues sh r (dataStart cfg)
                         (dataEnd cfg - dataStart cfg + 1)) = true
        /\ needsNewId (Sheet.getValue sh r (cfg_idCol cfg)) = true
        /\ exists text, Sheet.getValue sh' r c = CStr (cfg_prefix cfg +:+ text)).

End DataHealth.

(** The identifier column lies before the data columns, and the prefix of
    the new identifiers begins with a character that is no digit. *)
Definition wellFormed (cfg : SheetConfig) : bool :=
  (cfg_idCol cfg <? dataStart cfg)%nat
  && match cfg_prefix cfg with
     | String c _ => negb (digitChar c)
     | EmptyString => false
     end.

Module MoreExamples.

(** A ledger whose window A3:A100 is filled, and one whose row 101 is
    filled as well. *)
Definition fullLedger : gmap (nat * nat) Cell :=
  foldr (fun r sh => Sheet.setRowValues sh r 1 [CStr "other"; CDate 0]) ∅ (seq 3 98).

Definition fullLedgerWorld : World :=
  with_trialSheet (Examples.world ∅) (Some fullLedger).

(** The world of the examples without the script property ENCRYPTION_KEY. *)
Definition worldWithoutKey : World :=
  {| clock := Examples.july1;
     book := Some (Examples.workbook ∅);
     trialSheet := Some ∅;
     ENCRYPTION_KEY := None;
     serverCategoriesCache := None;
     assetIdCalls := 0 |}.

(** A spreadsheet with a Recurring sheet. *)
Definition recurringWorld (recurring : gmap (nat * nat) Cell) : World :=
  with_book (Examples.world ∅) (Some (<["Recurring" := recurring]> (Examples.workbook ∅))).

(** A Recurring sheet with one entry in row 6. *)
Definition recurringSheet : gmap (nat * nat) Cell :=
  Sheet.setRowValues ∅ 6 3 [CStr "REC-1"; CStr "1-Jun-2025"; CStr "Rent"].

(** A Recurring sheet whose rows 6 to 500 all hold an identifier. *)
Definition fullRecurring : gmap (nat * nat) Cell :=
  foldr (fun r sh => Sheet.setValue sh r 3 (CStr "REC-old")) ∅ (seq 6 495).

Definition recurringItem (id name category : string) (amount : JsVal) : Recurring :=
  {| rec_id := id; rec_startDate := DateText "07/01/2025"; rec_name := name;
     rec_category := category; rec_type := ""; rec_frequency := "Yearly";
     rec_amount := amount; rec_account := "Bank"; rec_endDate := DateOther;
     rec_notes := ""; rec_source := "" |}.

(** An Income sheet: a record in row 5, nothing in row 6, and a record
    without amount in row 7. *)
Definition incomeSheet : gmap (nat * nat) Cell :=
  Sheet.setRowValues
    (Sheet.setRowValues ∅ 5 4
       [CStr "INC-1"; CStr "1-Jun-2025"; CNum (Fin 1200); CStr "Salary"; CStr "Bank";
        CStr "Job"; CStr ""])
    7 4 [CStr "INC-2"; CStr "3-Jun-2025"; CNum (Fin 0); CStr "Refund"].

Definition incomeWorld (income : gmap (nat * nat) Cell) : World :=
  with_book (Examples.world ∅) (Some (<["Income" := income]> (Examples.workbook ∅))).

(** An Income sheet with records in rows 5 and 6 and nothing below. *)
Definition incomePair : gmap (nat * nat) Cell :=
  Sheet.setRowValues
    (Sheet.setRowValues ∅ 5 4
       [CStr "INC-1"; CStr "1-Jun-2025"; CNum (Fin 1200); CStr "Salary"; CStr "Bank";
        CStr "Job"; CStr ""])
    6 4 [CStr "INC-2"; CStr "3-Jun-2025"; CNum (Fin 40); CStr "Refund"; CStr "Bank";
         CStr "Shop"; CStr ""].

(** A spreadsheet with the four sheets of records: the Income sheet holds
    a record without identifier in row 5, one with the identifier 17 in
    row 6 and one with a proper identifier in row 7. *)
Definition incomeToRepair : gmap (nat * nat) Cell :=
  Sheet.setRowValues
    (Sheet.setRowValues
       (Sheet.setRowValues ∅ 5 4
          [CStr ""; CStr "1-Jun-2025"; CNum (Fin 1200); CStr "Salary"])
       6 4 [CNum (Fin 17); CStr "3-Jun-2025"; CNum (Fin 40); CStr "Refund"])
    7 4 [CStr "inc-7"; CStr "5-Jun-2025"; CNum (Fin 5); CStr "Interest"].

Definition worldToRepair : World :=
  with_book (Examples.world ∅)
    (Some (<["Income" := incomeToRepair]>
             (<["Recurring" := recurringSheet]> (Examples.workbook ∅)))).

(** [Math.random().toString(36).substr(2, 9)] of the examples. *)
Definition randomIds (n : nat) : string := "k3x9q2m1" +:+ pretty n.

End MoreExamples.

(** * Properties *)

(** ** Reading a sheet after a write *)

Lemma is_blank_eq (c : Cell) : is_blank c = true -> c = blank.
Proof.
  destruct c as [s| | |]; simpl; try discriminate.
  intros E. apply String.eqb_eq in E. by subst.
Qed.

Lemma getValue_setValue (sh : gmap (nat * nat) Cell) r c v r' c' :
  Sheet.getValue (Sheet.setValue sh r c v) r' c'
  = if decide ((r, c) = (r', c')) then v else Sheet.getValue sh r' c'.
Proof.
  unfold Sheet.getValue, Sheet.setValue.
  destruct (is_blank v) eqn:B.
  - apply is_blank_eq in B. subst v.
    case_decide as E.
    + rewrite E, lookup_delete_eq. done.
    + by rewrite lookup_delete_ne.
  - case_decide as E.
    + rewrite E, lookup_insert_eq. done.
    + by rewrite lookup_insert_ne.
Qed.

Lemma getValue_setRowValues vs : forall (sh : gmap (nat * nat) Cell) r c r' c',
  Sheet.getValue (Sheet.setRowValues sh r c vs) r' c'
  = if decide (r' = r /\ c <= c' < c + length vs)%nat
    then default blank (vs !! (c' - c)%nat)
    else Sheet.getValue sh r' c'.
Proof.
  induction vs as [|v vs IH]; intros sh r c r' c'; simpl.
  - case_decide; [lia | done].
  - rewrite IH, getValue_setValue.
    destruct (decide (r' = r /\ S c <= c' < S c + length vs)%nat) as [[-> Hc]|N1].
    + rewrite decide_True by lia.
      replace (c' - c)%nat with (S (c' - S c)) by lia. done.
    + destruct (decide ((r, c) = (r', c'))) as [E|E].
      * simplify_eq. rewrite decide_True by lia.
        replace (c' - c')%nat with 0%nat by lia. done.
      * rewrite decide_False; [done|].
        intros [-> Hc]. destruct (decide (c = c')); [congruence|]. apply N1. lia.
Qed.

Lemma getValue_clearContent w : forall (sh : gmap (nat * nat) Cell) r c r' c',
  Sheet.getValue (Sheet.clearContent sh r c w) r' c'
  = if decide (r' = r /\ c <= c' < c + w)%nat then blank else Sheet.getValue sh r' c'.
Proof.
  induction w as [|w IH]; intros sh r c r' c'; simpl.
  - case_decide; [lia | done].
  - rewrite IH.
    destruct (decide (r' = r /\ S c <= c' < S c + w)%nat) as [[-> Hc]|N1].
    + rewrite decide_True by lia. done.
    + unfold Sheet.getValue.
      destruct (decide ((r, c) = (r', c'))) as [E|E].
      * simplify_eq. rewrite lookup_delete_eq, decide_True by lia. done.
      * rewrite lookup_delete_ne by done. rewrite decide_False; [done|].
        intros [-> Hc]. destruct (decide (c = c')); [congruence|]. apply N1. lia.
Qed.

(** ** The trial ledger *)

Lemma str_truthy_true s : s <> "" -> str_truthy s = true.
Proof.
  intros N. unfold str_truthy. destruct (String.eqb s "") eqn:E; [|done].
  apply String.eqb_eq in E. done.
Qed.




Section TrialFacts.
Variable H : Host.

Lemma checkTrialStatus_found fuel w sh email i c :
  trialSheet w = Some sh ->
  email <> "" ->
  lookupEmail H (ENCRYPTION_KEY w) (Sheet.getColumnValues sh 3 1 windowRows) email = Some (i, c) ->
  checkTrialStatus H (S fuel) email w
  = (Normal (Some (deriveStatus H (Sheet.getValue sh (3 + i) 3) (clock w))),
     with_trialSheet w (Some (Sheet.setValue sh (i + 3) 4 (CDate (clock w))))).
Proof.
  intros Hs He Hf.
  change (checkTrialStatus H (S fuel) email)
    with (checkTrialStatus_body H (recordFirstUse H fuel) email).
  unfold checkTrialStatus_body.
  rewrite (str_truthy_true _ He). cbn [negb].
  unfold tryCatch, bind, openTrialSheet. rewrite Hs, Hf.
  unfold updateTrialSheet, now, ret. cbn [trialSheet with_trialSheet clock]. rewrite Hs. done.
Qed.


End TrialFacts.


Lemma getColumnValues_lookup (sh : gmap (nat * nat) Cell) r0 c n j :
  (j < n)%nat -> Sheet.getColumnValues sh r0 c n !! j = Some (Sheet.getValue sh (r0 + j) c).
Proof.
  intros Hj. unfold Sheet.getColumnValues.
  rewrite list_lookup_fmap, lookup_seq_lt by done. done.
Qed.

Lemma getColumnValues_length (sh : gmap (nat * nat) Cell) r0 c n :
  length (Sheet.getColumnValues sh r0 c n) = n.
Proof. unfold Sheet.getColumnValues. by rewrite length_fmap, length_seq. Qed.

Section TrialFacts2.
Variable H : Host.

Lemma nextEmptyRow_ge emails : (3 <= nextEmptyRow emails)%nat.
Proof.
  unfold nextEmptyRow.
  destruct (firstBlank emails) as [[i ?]|];
    (destruct (_ && _); [destruct (lastFilled emails)|]); lia.
Qed.

(** C2, amended.  For an email that is not in the ledger, recordFirstUse
    writes a new entry that holds the obfuscated email, the current
    instant as start date and as last-seen timestamp, and a blank end
    date, and it returns status trial with 30 days left.  No trial window
    is stored: when the entry lies in the window that is scanned and
    decodes back to the email, a later checkTrialStatus derives paid. *)
Theorem recordFirstUse_new_entry fuel w sh email obfuscated :
  trialSheet w = Some sh ->
  email <> "" ->
  let emails := Sheet.getColumnValues sh 3 1 windowRows in
  findEmail H (ENCRYPTION_KEY w) emails email = None ->
  obfuscateEmail H (ENCRYPTION_KEY w) email = Normal obfuscated ->
  let row := nextEmptyRow emails in
  let sh' := Sheet.setRowValues sh row 1
               [CStr obfuscated; CDate (clock w); CStr ""; CDate (clock w)] in
  recordFirstUse H (S fuel) email w
  = (Normal (Some (trialStatus "trial" 30)), with_trialSheet w (Some sh'))
  /\ Sheet.getValue sh' row 3 = blank
  /\ (decodeObfuscatedEmail H (ENCRYPTION_KEY w) (CStr obfuscated) = email ->
      (row < 3 + windowRows)%nat ->
      forall fuel' w',
        trialSheet w' = Some sh' ->
        ENCRYPTION_KEY w' = ENCRYPTION_KEY w ->
        fst (checkTrialStatus H (S fuel') email w') = Normal (Some trialPaid)).
Proof.
  intros Hs He emails Hnone Hobf row sh'.
  split; [|split].
  - change (recordFirstUse H (S fuel) email)
      with (recordFirstUse_body H (checkTrialStatus H fuel) email).
    unfold recordFirstUse_body.
    rewrite (str_truthy_true _ He). cbn [negb].
    unfold tryCatch, bind, openTrialSheet. rewrite Hs.
    fold emails. rewrite Hnone, Hobf.
    unfold updateTrialSheet, ret. rewrite Hs. done.
  - unfold sh'. rewrite getValue_setRowValues.
    rewrite decide_True by (simpl; lia).
    replace (3 - 1)%nat with 2%nat by lia. done.
  - intros Hdec Hrow fuel' w' Hs' Hk.
    pose proof (nextEmptyRow_ge emails) as Hge. fold row in Hge.
    assert (Hfound : lookupEmail H (ENCRYPTION_KEY w')
                       (Sheet.getColumnValues sh' 3 1 windowRows) email
                     = Some ((row - 3)%nat, CStr obfuscated)).
    { unfold lookupEmail. apply list_find_Some. split; [|split].
      - rewrite getColumnValues_lookup by lia.
        unfold sh'. rewrite getValue_setRowValues.
        rewrite decide_True by (simpl; lia).
        replace (1 - 1)%nat with 0%nat by lia. done.
      - rewrite Hk, Hdec.
        destruct (cell_truthy (CStr obfuscated)) eqn:T; [done|].
        simpl in T. unfold decodeObfuscatedEmail in Hdec. rewrite T in Hdec.
        simpl in Hdec. congruence.
      - intros j y Hy Hj.
        assert (Hjn : (j < windowRows)%nat) by lia.
        rewrite getColumnValues_lookup in Hy by done.
        unfold sh' in Hy. rewrite getValue_setRowValues in Hy.
        rewrite decide_False in Hy by lia.
        unfold findEmail in Hnone. rewrite list_find_None in Hnone.
        rewrite Forall_lookup in Hnone.
        specialize (Hnone j y). unfold emails in Hnone.
        rewrite getColumnValues_lookup in Hnone by done.
        specialize (Hnone Hy). rewrite Hk.
        destruct (cell_truthy y) eqn:T.
        + intros E. apply Hnone. done.
        + intros E. congruence. }
    rewrite (checkTrialStatus_found H fuel' w' sh' email _ _ Hs' He Hfound).
    cbn [fst].
    replace (3 + (row - 3))%nat with row by lia.
    assert (B : Sheet.getValue sh' row 3 = blank).
    { unfold sh'. rewrite getValue_setRowValues.
      rewrite decide_True by (simpl; lia).
      replace (3 - 1)%nat with 2%nat by lia. done. }
    rewrite B. done.
Qed.
End TrialFacts2.

(** The first use of user@example.com on an empty ledger. *)
Lemma recordFirstUse_new_entry_witness :
  fst (recordFirstUse RefHost.host 1 "user@example.com" (Examples.world ∅))
  = Normal (Some (trialStatus "trial" 30))
  /\ fst (checkTrialStatus RefHost.host 1 "user@example.com"
            (snd (recordFirstUse RefHost.host 1 "user@example.com" (Examples.world ∅))))
     = Normal (Some trialPaid).
Proof.
  destruct (recordFirstUse_new_entry RefHost.host 0 (Examples.world ∅) ∅
              "user@example.com" "userBhYGACURCwQOAgkRXQYMHw=="
              eq_refl ltac:(discriminate) ltac:(vm_compute; reflexivity)
              ltac:(vm_compute; reflexivity)) as (R & _ & C).
  split.
  - rewrite R. reflexivity.
  - rewrite R. cbn [snd].
    apply C; [vm_compute; reflexivity | vm_compute; lia | reflexivity | reflexivity].
Defined.

(** C2 as stated fails: one day after the first use of an email on an
    empty ledger, checkTrialStatus derives paid, not trial. *)
Lemma recordFirstUse_then_check_is_paid :
  exists r,
    fst (checkTrialStatus RefHost.host 2 "user@example.com"
           (Examples.nextRun
              (snd (recordFirstUse RefHost.host 2 "user@example.com" (Examples.world ∅)))
              (Examples.july1 + msPerDay)))
    = Normal (Some r)
    /\ status r = "paid" /\ status r <> "trial".
Proof.
  eexists. split; [vm_compute; reflexivity|].
  split; [reflexivity | discriminate].
Qed.

(** ** Worlds *)

Lemma with_book_id w : with_book w (book w) = w.
Proof. by destruct w. Qed.

Lemma with_book_with_book w b b' : with_book (with_book w b) b' = with_book w b'.
Proof. done. Qed.

Lemma lookupSheet_with_book w b name :
  lookupSheet (with_book w b) name = b ≫= fun ss => ss !! name.
Proof. done. Qed.

Lemma sheetOf_lookupSheet w name : sheetOf w name = default ∅ (lookupSheet w name).
Proof. done. Qed.

(** ** Loops *)

Lemma forOf_app {A S} (body : A -> S -> M S) xs ys s w :
  forOf body (xs ++ ys) s w = (let* s' := forOf body xs s in forOf body ys s') w.
Proof.
  revert s w. induction xs as [|x xs IH]; intros s w; simpl.
  - done.
  - unfold bind in *. destruct (body x s w) as [[s'|e] w']; [|done].
    apply IH.
Qed.

Lemma writeRows_run name col rows w :
  writeRows name col rows w
  = (Normal tt, with_book w (alter (applyRows col rows) name <$> book w)).
Proof.
  unfold writeRows. revert w.
  induction rows as [|u rows IH]; intros w; simpl.
  - unfold ret. f_equal. rewrite <- (with_book_id w) at 1. f_equal.
    destruct (book w) as [ss|]; [|done]. simpl. f_equal.
    symmetry. apply alter_id. done.
  - unfold bind, updateSheet. rewrite IH. f_equal.
    rewrite with_book_with_book. f_equal. simpl.
    destruct (book w) as [ss|]; [|done]. simpl. f_equal.
    rewrite alter_alter_eq. done.
Qed.

(** The reads and writes of the identifier map at a key that is no member
    of Object.prototype. *)
Lemma getProperty_plain m key : inherited key = false -> getProperty m key = RowNum <$> m !! key.
Proof. intros I. unfold getProperty. rewrite I. by destruct (m !! key). Qed.

Lemma setProperty_plain m key row :
  inherited key = false -> setProperty m key row = <[key := row]> m.
Proof.
  intros I. unfold setProperty.
  destruct (String.eqb key "__proto__") eqn:E; [|done].
  apply String.eqb_eq in E. subst key. done.
Qed.

Lemma getProperty_None m key : getProperty m key = None -> m !! key = None.
Proof. unfold getProperty. by destruct (m !! key). Qed.

Lemma writeUpdates_numbered name col rows w :
  writeUpdates name col (numbered rows) w = writeRows name col rows w.
Proof.
  unfold writeUpdates, writeRows, numbered. revert w.
  induction rows as [|u rows IH]; intros w; [done|].
  rewrite fmap_cons. cbn [forOf fst snd]. unfold bind.
  destruct (updateSheet name _ w) as [[[]|e] w1]; [apply IH|done].
Qed.


Lemma with_book_applyRows w name col rows1 rows2 :
  with_book (with_book w (alter (applyRows col rows1) name <$> book w))
    (alter (applyRows col rows2) name
     <$> book (with_book w (alter (applyRows col rows1) name <$> book w)))
  = with_book w (alter (applyRows col (rows1 ++ rows2)) name <$> book w).
Proof.
  rewrite with_book_with_book. f_equal. cbn [book with_book].
  destruct (book w) as [ss1|]; [|done]. simpl. f_equal.
  rewrite alter_alter_eq. apply alter_ext. intros s _. simpl.
  unfold applyRows. by rewrite foldl_app.
Qed.


Lemma length_numbered rows : length (numbered rows) = length rows.
Proof. unfold numbered. by rewrite length_fmap. Qed.

Section Stamps.
Variable H : Host.

Lemma updateDataTimestamp_run dataType w :
  updateDataTimestamp H dataType w = (Normal tt, stamped H dataType w).
Proof.
  unfold updateDataTimestamp, stamped, tryCatch, bind, getBudgetSheet.
  destruct (book w) as [ss|] eqn:B; [|done].
  destruct (ss !! "Dontedit") as [de|] eqn:D.
  - destruct (timestampCells !! dataType) as [[r c]|]; [|done].
    unfold now, updateSheet. rewrite B. done.
  - unfold ret. by destruct (timestampCells !! dataType) as [[r c]|].
Qed.

Lemma clock_stamped dataType w : clock (stamped H dataType w) = clock w.
Proof.
  unfold stamped. destruct (book w); [|done].
  destruct (timestampCells !! dataType) as [[r c]|]; [|done].
  by destruct (_ !! "Dontedit").
Qed.

Lemma lookupSheet_stamped dataType w name :
  name <> "Dontedit" ->
  lookupSheet (stamped H dataType w) name = lookupSheet w name.
Proof.
  intros N. unfold stamped. destruct (book w) as [ss|] eqn:B; [|done].
  destruct (timestampCells !! dataType) as [[r c]|]; [|done].
  destruct (ss !! "Dontedit") eqn:D; [|done].
  unfold lookupSheet. simpl. rewrite B. simpl. by rewrite lookup_alter_ne.
Qed.

Lemma dontedit_stamped dataType w de r c :
  lookupSheet w "Dontedit" = Some de ->
  timestampCells !! dataType = Some (r, c) ->
  lookupSheet (stamped H dataType w) "Dontedit"
  = Some (Sheet.setValue de r c (CStr (Date_toISOString H (clock w)))).
Proof.
  unfold lookupSheet, stamped. intros D T.
  destruct (book w) as [ss|] eqn:B; [|done]. simpl in D.
  rewrite T, D. simpl. rewrite lookup_alter_eq, D. done.
Qed.
End Stamps.

Lemma getRowValues_lookup (sh : gmap (nat * nat) Cell) r c w j :
  (j < w)%nat -> Sheet.getRowValues sh r c w !! j = Some (Sheet.getValue sh r (c + j)).
Proof.
  intros Hj. unfold Sheet.getRowValues.
  rewrite list_lookup_fmap, lookup_seq_lt by done. done.
Qed.

Lemma getRowValues_length (sh : gmap (nat * nat) Cell) r c w :
  length (Sheet.getRowValues sh r c w) = w.
Proof. unfold Sheet.getRowValues. by rewrite length_fmap, length_seq. Qed.

Lemma getRowValues_clearContent (sh : gmap (nat * nat) Cell) r c w :
  Sheet.getRowValues (Sheet.clearContent sh r c w) r c w = replicate w blank.
Proof.
  apply list_eq. intros j.
  destruct (decide (j < w)%nat) as [Hj|Hj].
  - rewrite getRowValues_lookup by done.
    rewrite getValue_clearContent, decide_True by lia.
    symmetry. by apply lookup_replicate_2.
  - rewrite !lookup_ge_None_2; [done| |].
    + rewrite length_replicate. lia.
    + rewrite getRowValues_length. lia.
Qed.

(** ** Clearing a net worth row *)

Section NetWorthClear.
Variable H : Host.

Lemma clearNetWorthRow_found identifier w ss sh row :
  book w = Some ss ->
  ss !! "Net Worth" = Some sh ->
  rowToDelete H (netWorthData sh) identifier = Some row ->
  clearNetWorthRow H identifier w
  = (Normal (ClearFailed "ReferenceError: timestamp is not defined"),
     stamped H "netWorth"
       (with_book w (Some (alter (fun s => Sheet.clearContent s row 3 9) "Net Worth" ss)))).
Proof.
  intros B N R.
  unfold clearNetWorthRow, tryCatch, bind, getBudgetSheet, readSheet.
  rewrite B, N. unfold sheetOf. rewrite B. simpl. rewrite N. simpl.
  fold (netWorthData sh). rewrite R.
  unfold updateSheet. rewrite updateDataTimestamp_run. rewrite B. done.
Qed.

Lemma clearNetWorthRow_not_found identifier w ss sh :
  book w = Some ss ->
  ss !! "Net Worth" = Some sh ->
  rowToDelete H (netWorthData sh) identifier = None ->
  clearNetWorthRow H identifier w
  = (Normal (ClearFailed ("Net worth entry not found: " +:+ identifier)), w).
Proof.
  intros B N R.
  unfold clearNetWorthRow, tryCatch, bind, getBudgetSheet, readSheet.
  rewrite B, N. unfold sheetOf. rewrite B. simpl. rewrite N. simpl.
  fold (netWorthData sh). rewrite R. done.
Qed.

(** C10.  clearNetWorthRow returns a failure result for every identifier
    and every world: it never reports success.  When a row is found, its
    columns C to K are cleared and the netWorth timestamp is written, and
    the result still is a failure (the ReferenceError raised by the
    undeclared [timestamp]), so a failure result does not mean that the
    store is unchanged. *)
Theorem clearNetWorthRow_never_succeeds identifier w :
  (exists error w', clearNetWorthRow H identifier w = (Normal (ClearFailed error), w'))
  /\ (forall ss sh row,
        book w = Some ss ->
        ss !! "Net Worth" = Some sh ->
        rowToDelete H (netWorthData sh) identifier = Some row ->
        let w' := snd (clearNetWorthRow H identifier w) in
        fst (clearNetWorthRow H identifier w)
        = Normal (ClearFailed "ReferenceError: timestamp is not defined")
        /\ Sheet.getRowValues (sheetOf w' "Net Worth") row 3 9 = replicate 9 blank
        /\ (is_Some (ss !! "Dontedit") ->
            timestampOf w' "netWorth" = CStr (Date_toISOString H (clock w)))).
Proof.
  split.
  - destruct (book w) as [ss|] eqn:B.
    + destruct (ss !! "Net Worth") as [sh|] eqn:N.
      * destruct (rowToDelete H (netWorthData sh) identifier) as [row|] eqn:R.
        -- rewrite (clearNetWorthRow_found _ _ _ _ _ B N R). eauto.
        -- rewrite (clearNetWorthRow_not_found _ _ _ _ B N R). eauto.
      * unfold clearNetWorthRow, tryCatch, bind, getBudgetSheet. rewrite B, N.
        unfold ret. eauto.
    + unfold clearNetWorthRow, tryCatch, bind, getBudgetSheet. rewrite B.
      unfold ret. eauto.
  - intros ss sh row B N R w'.
    unfold w'. rewrite (clearNetWorthRow_found _ _ _ _ _ B N R). cbn [fst snd].
    split; [done|]. split.
    + rewrite sheetOf_lookupSheet, lookupSheet_stamped by done.
      rewrite lookupSheet_with_book. cbn [mbind option_bind].
      rewrite lookup_alter_eq, N.
      exact (getRowValues_clearContent sh row 3 9).
    + intros [de D]. unfold timestampOf.
      change (timestampCells !! "netWorth") with (Some (6, 10)%nat).
      rewrite sheetOf_lookupSheet.
      rewrite (dontedit_stamped H "netWorth" _ de 6 10); [| |done].
      * simpl. rewrite getValue_setValue, decide_True by done. done.
      * rewrite lookupSheet_with_book. simpl. by rewrite lookup_alter_ne.
Qed.
End NetWorthClear.

(** Clearing the entry NW-house of the examples. *)
Lemma clearNetWorthRow_never_succeeds_witness :
  fst (clearNetWorthRow RefHost.host "NW-house" (Examples.world ∅))
  = Normal (ClearFailed "ReferenceError: timestamp is not defined")
  /\ Sheet.getRowValues
       (sheetOf (snd (clearNetWorthRow RefHost.host "NW-house" (Examples.world ∅))) "Net Worth")
       37 3 9
     = replicate 9 blank.
Proof.
  destruct (clearNetWorthRow_never_succeeds RefHost.host "NW-house" (Examples.world ∅))
    as [_ F].
  destruct (F (Examples.workbook ∅) Examples.netWorthSheet 37%nat eq_refl eq_refl
              ltac:(vm_compute; reflexivity)) as (A & B & _).
  split; assumption.
Defined.

(** ** Clearing by identifier: where the substring fallback exists *)

Section ClearFacts.
Variable H : Host.

Lemma findNext_None (sh : gmap (nat * nat) Cell) text :
  (forall k c, sh !! k = Some c -> cellMatches H text c = false) ->
  findNext H sh text = None.
Proof.
  unfold findNext.
  apply (map_fold_weak_ind
           (fun r (m : gmap (nat * nat) Cell) =>
              (forall k c, m !! k = Some c -> cellMatches H text c = false) -> r = None)).
  - done.
  - intros k c m r Hk IH Hall.
    rewrite (Hall k c) by apply lookup_insert_eq.
    apply IH. intros k' c' Hk'. apply (Hall k').
    rewrite lookup_insert_ne; [done|]. intros ->. congruence.
Qed.

Lemma sheetOf_book w ss name sh :
  book w = Some ss -> ss !! name = Some sh -> sheetOf w name = sh.
Proof. intros B S. unfold sheetOf. rewrite B. simpl. by rewrite S. Qed.

Lemma clearRowByFinder_not_found sheetName missing notFound message width stamps
    transactionId w ss sh :
  book w = Some ss ->
  ss !! sheetName = Some sh ->
  (forall k c, sh !! k = Some c -> cellMatches H transactionId c = false) ->
  clearRowByFinder H sheetName missing notFound message width stamps transactionId w
  = (Normal (ClearFailed (notFound +:+ transactionId)), w).
Proof.
  intros B S Hall.
  unfold clearRowByFinder, tryCatch, bind, getBudgetSheet, readSheet.
  rewrite B, S, (sheetOf_book w ss sheetName sh B S).
  rewrite (findNext_None sh transactionId Hall). done.
Qed.

Lemma rowToDelete_fallback data identifier i row :
  list_find (fun r => exactMatch identifier r = true) data = None ->
  list_find (fun r => rowContainsId H identifier r = true) data = Some (i, row) ->
  rowToDelete H data identifier = Some (nwStartRow + i)%nat.
Proof. intros E C. unfold rowToDelete. by rewrite E, C. Qed.

Lemma rowToDelete_None data identifier :
  rowToDelete H data identifier = None <->
  list_find (fun r => exactMatch identifier r = true) data = None
  /\ list_find (fun r => rowContainsId H identifier r = true) data = None.
Proof.
  unfold rowToDelete.
  destruct (list_find (fun r => exactMatch identifier r = true) data) as [[i r]|].
  { split; [discriminate|]. intros [E _]. discriminate. }
  destruct (list_find (fun r => rowContainsId H identifier r = true) data) as [[i r]|].
  { split; [discriminate|]. intros [_ E]. discriminate. }
  done.
Qed.

(** C9, amended.  Only clearNetWorthRow falls back to a substring scan:
    when no row matches the identifier exactly in column C, the first row
    with a cell of columns C to K that contains the identifier is cleared,
    and the not-found result is returned exactly when neither search finds
    a row.  clearTransactionRow and clearIncomeRow have no fallback: when
    no cell of the sheet equals the identifier as a whole, ignoring case,
    they return not found and change nothing. *)
Theorem clear_substring_fallback identifier w ss :
  book w = Some ss ->
  (forall sh,
     ss !! "Net Worth" = Some sh ->
     (forall i row,
        list_find (fun r => exactMatch identifier r = true) (netWorthData sh) = None ->
        list_find (fun r => rowContainsId H identifier r = true) (netWorthData sh)
        = Some (i, row) ->
        sheetOf (snd (clearNetWorthRow H identifier w)) "Net Worth"
        = Sheet.clearContent sh (nwStartRow + i) 3 9)
     /\ (fst (clearNetWorthRow H identifier w)
         = Normal (ClearFailed ("Net worth entry not found: " +:+ identifier))
         <-> list_find (fun r => exactMatch identifier r = true) (netWorthData sh) = None
             /\ list_find (fun r => rowContainsId H identifier r = true) (netWorthData sh)
                = None))
  /\ (forall sh,
        ss !! "Expenses" = Some sh ->
        (forall k c, sh !! k = Some c -> cellMatches H identifier c = false) ->
        clearTransactionRow H identifier w
        = (Normal (ClearFailed ("Transaction not found: " +:+ identifier)), w))
  /\ (forall sh,
        ss !! "Income" = Some sh ->
        (forall k c, sh !! k = Some c -> cellMatches H identifier c = false) ->
        clearIncomeRow H identifier w
        = (Normal (ClearFailed ("Income transaction not found: " +:+ identifier)), w)).
Proof.
  intros B. split; [|split].
  - intros sh N. split.
    + intros i row E C.
      pose proof (rowToDelete_fallback _ _ _ _ E C) as R.
      rewrite (clearNetWorthRow_found H _ _ _ _ _ B N R). cbn [snd].
      rewrite sheetOf_lookupSheet, lookupSheet_stamped by done.
      rewrite lookupSheet_with_book. cbn [mbind option_bind].
      rewrite lookup_alter_eq, N. done.
    + rewrite <- rowToDelete_None.
      destruct (rowToDelete H (netWorthData sh) identifier) as [row|] eqn:R.
      * rewrite (clearNetWorthRow_found H _ _ _ _ _ B N R). cbn [fst].
        split; [|done]. intros E. exfalso. revert E. cbn. discriminate.
      * rewrite (clearNetWorthRow_not_found H _ _ _ _ B N R). done.
  - intros sh S Hall. by apply (clearRowByFinder_not_found _ _ _ _ _ _ _ _ ss sh).
  - intros sh S Hall. by apply (clearRowByFinder_not_found _ _ _ _ _ _ _ _ ss sh).
Qed.
End ClearFacts.

(** A net worth entry found through a substring of its name, and the
    expenses of the examples searched for an identifier no cell holds. *)
Lemma clear_substring_fallback_witness :
  sheetOf (snd (clearNetWorthRow RefHost.host "ous" (Examples.world Examples.expensesWithHole)))
    "Net Worth"
  = Sheet.clearContent Examples.netWorthSheet 37 3 9
  /\ clearTransactionRow RefHost.host "TX-" (Examples.world Examples.expensesWithHole)
     = (Normal (ClearFailed "Transaction not found: TX-"),
        Examples.world Examples.expensesWithHole).
Proof.
  destruct (clear_substring_fallback RefHost.host "ous"
              (Examples.world Examples.expensesWithHole)
              (Examples.workbook Examples.expensesWithHole) eq_refl) as (NW & _ & _).
  destruct (clear_substring_fallback RefHost.host "TX-"
              (Examples.world Examples.expensesWithHole)
              (Examples.workbook Examples.expensesWithHole) eq_refl) as (_ & EX & _).
  split.
  - destruct (NW Examples.netWorthSheet eq_refl) as [F _].
    apply (F 0%nat [CStr "NW-house"; blank; blank; blank; CStr "House"; CNum (Fin 100);
                    blank; blank; blank]);
      vm_compute; reflexivity.
  - apply (EX Examples.expensesWithHole eq_refl).
    assert (HF : map_Forall (fun (_ : nat * nat) c => cellMatches RefHost.host "TX-" c = false)
                   Examples.expensesWithHole).
    { apply (bool_decide_unpack _). vm_compute. exact I. }
    intros k c Hk. exact (HF k c Hk).
Defined.

(** C9 as stated fails for expenses: the identifier TX- is a substring
    of the identifying cell of row 5, and clearTransactionRow reports not
    found and clears nothing. *)
Lemma clearTransactionRow_has_no_substring_fallback :
  Sheet.getValue Examples.expensesWithHole 5 4 = CStr "TX-1"
  /\ includes "TX-1" "TX-" = true
  /\ clearTransactionRow RefHost.host "TX-" (Examples.world Examples.expensesWithHole)
     = (Normal (ClearFailed "Transaction not found: TX-"),
        Examples.world Examples.expensesWithHole).
Proof. split; [|split]; vm_compute; reflexivity. Qed.

(** ** Failures at the boundary of the batch saves *)

Section Boundary.
Variable H : Host.

Lemma getBudgetSheet_missing sheetName w ss :
  book w = Some ss -> ss !! sheetName = None ->
  getBudgetSheet sheetName w
  = (Throw (Error ("Sheet " +:+ dquote +:+ sheetName +:+ dquote +:+ " not found")), w).
Proof. intros B S. unfold getBudgetSheet. by rewrite B, S. Qed.

Lemma getBudgetSheet_found sheetName w ss sh :
  book w = Some ss -> ss !! sheetName = Some sh ->
  getBudgetSheet sheetName w = (Normal (Some sheetName), w).
Proof. intros B S. unfold getBudgetSheet. by rewrite B, S. Qed.

Lemma saveBatch_missing_sheet {E} sheetName missing (amountOf : E -> JsVal) idOf valuesOf
    stamps lastRowIsConst batch w ss :
  book w = Some ss -> ss !! sheetName = None ->
  saveBatch H sheetName missing amountOf idOf valuesOf stamps lastRowIsConst batch w
  = (Throw (Error ("Sheet " +:+ dquote +:+ sheetName +:+ dquote +:+ " not found")), w).
Proof.
  intros B S. unfold saveBatch, bind.
  by rewrite (getBudgetSheet_missing _ _ _ B S).
Qed.

End Boundary.

(** C7 does not hold of the code: saveBatchExpenses has no catch of its
    own.  When the Expenses sheet is missing, the exception of
    getBudgetSheet escapes to the caller, whereas saveBatchNetWorth turns
    the same failure into a result; an unknown category escapes in the same
    way. *)
Theorem saveBatchExpenses_lets_exceptions_escape :
  (forall H expenses w ss,
     book w = Some ss -> ss !! "Expenses" = None ->
     saveBatchExpenses H expenses w
     = (Throw (Error ("Sheet " +:+ dquote +:+ "Expenses" +:+ dquote +:+ " not found")), w))
  /\ (forall H entries w ss,
        book w = Some ss -> ss !! "Net Worth" = None ->
        saveBatchNetWorth H entries w
        = (Normal (NetWorthFailed
                     ("Error: Sheet " +:+ dquote +:+ "Net Worth" +:+ dquote +:+ " not found")), w))
  /\ fst (saveBatchExpenses RefHost.host
            [Examples.expense "TX-9" (VNum (Fin 12)) "Travel"]
            (Examples.world Examples.expensesWithHole))
     = Throw (Error "Category not found: Travel").
Proof.
  split; [|split].
  - intros H expenses w ss B S. by apply saveBatch_missing_sheet with (ss := ss).
  - intros H entries w ss B S.
    unfold saveBatchNetWorth, tryCatch, bind.
    by rewrite (getBudgetSheet_missing _ _ _ B S).
  - vm_compute. reflexivity.
Qed.

(** A batch saved to a spreadsheet without Expenses sheet. *)
Lemma saveBatchExpenses_lets_exceptions_escape_witness :
  saveBatchExpenses RefHost.host [Examples.expense "TX-9" (VNum (Fin 12)) "Food"]
    Examples.worldWithoutExpenses
  = (Throw (Error ("Sheet " +:+ dquote +:+ "Expenses" +:+ dquote +:+ " not found")),
     Examples.worldWithoutExpenses).
Proof.
  destruct saveBatchExpenses_lets_exceptions_escape as [F _].
  apply (F RefHost.host _ Examples.worldWithoutExpenses
           (delete "Expenses" (Examples.workbook ∅))); vm_compute; reflexivity.
Defined.

(** ** Timestamps written by the batch saves *)

Lemma forOf_inv {A S} (body : A -> S -> M S) (I : World -> World -> Prop) :
  (forall w, I w w) ->
  (forall w1 w2 w3, I w1 w2 -> I w2 w3 -> I w1 w3) ->
  (forall x s w c w', body x s w = (c, w') -> I w w') ->
  forall xs s w c w', forOf body xs s w = (c, w') -> I w w'.
Proof.
  intros Hrefl Htrans Hbody xs.
  induction xs as [|x xs IH]; intros s w c w' E; simpl in E.
  - unfold ret in E. by simplify_eq.
  - unfold bind in E. destruct (body x s w) as [[s'|e] w1] eqn:B.
    + eapply Htrans; [by eapply Hbody | by eapply IH].
    + simplify_eq. by eapply Hbody.
Qed.

Lemma forOf_total {A S} (body : A -> S -> M S) :
  (forall x s w, exists s' w', body x s w = (Normal s', w')) ->
  forall xs s w, exists s' w', forOf body xs s w = (Normal s', w').
Proof.
  intros Hbody xs. induction xs as [|x xs IH]; intros s w; simpl.
  - unfold ret. eauto.
  - unfold bind. destruct (Hbody x s w) as (s' & w' & ->). apply IH.
Qed.

Lemma sheetOf_Some w name sh : lookupSheet w name = Some sh -> sheetOf w name = sh.
Proof. intros E. rewrite sheetOf_lookupSheet, E. done. Qed.

Lemma sheetOf_None w name : lookupSheet w name = None -> sheetOf w name = ∅.
Proof. intros E. rewrite sheetOf_lookupSheet, E. done. Qed.

Section StampFacts.
Variable H : Host.

Lemma stamps_run stamps w :
  forOf (fun s (_ : unit) => updateDataTimestamp H s) stamps tt w
  = (Normal tt, foldl (fun w s => stamped H s w) w stamps).
Proof.
  revert w. induction stamps as [|s stamps IH]; intros w; simpl; [done|].
  unfold bind. rewrite updateDataTimestamp_run. apply IH.
Qed.




Lemma netWorthStep_sameSheets existingIdMap entry p w :
  exists p' w', netWorthStep H existingIdMap entry p w = (Normal p', w')
                /\ sameSheets w w'.
Proof.
  unfold netWorthStep.
  destruct (skippedAmount H (nw_amount entry)).
  { unfold ret. eexists _, _. split; [done|]. by split. }
  unfold bind, netWorthValues, bind, entryId, now, ret.
  destruct (str_truthy (nw_id entry)) eqn:T1.
  - destruct (getProperty existingIdMap (nw_id entry)), (availableRows p);
      eexists _, _; (split; [done|]); by split.
  - destruct (str_truthy (assetId entry)) eqn:T2;
      destruct (availableRows p); eexists _, _; (split; [done|]); by split.
Qed.

Lemma netWorthLoop_sameSheets existingIdMap entries p w :
  exists p' w', forOf (netWorthStep H existingIdMap) entries p w = (Normal p', w')
                /\ sameSheets w w'.
Proof.
  destruct (forOf_total (netWorthStep H existingIdMap)) with (xs := entries) (s := p) (w := w)
    as (p' & w' & E).
  { intros x s w0. destruct (netWorthStep_sameSheets existingIdMap x s w0) as (s' & w1 & E & _).
    eauto. }
  exists p', w'. split; [done|].
  apply (forOf_inv (netWorthStep H existingIdMap) sameSheets) with (4 := E).
  - by split.
  - intros w1 w2 w3 [C1 B1] [C2 B2]. split; congruence.
  - intros x s w0 c w1 E0.
    destruct (netWorthStep_sameSheets existingIdMap x s w0) as (s' & w2 & E' & SS).
    congruence.
Qed.


End StampFacts.

Section StampTheorem.
Variable H : Host.



Lemma lookupSheet_written w name f other :
  other <> name ->
  lookupSheet (with_book w (alter f name <$> book w)) other = lookupSheet w other.
Proof.
  intros N. unfold lookupSheet. cbn [book with_book].
  destruct (book w) as [ss|]; [|done]. simpl. by rewrite lookup_alter_ne.
Qed.


End StampTheorem.



(** ** The scan of the identifying column *)

Section ScanFacts.
Variable H : Host.

Lemma scanIds_spec limit ids : forall r m hs,
  (length hs <= limit)%nat ->
  scanIds H limit r ids (m, hs)
  = (idsMap H r ids m, take limit (hs ++ blankRows r ids)).
Proof.
  induction ids as [|id ids IH]; intros r m hs Hl; simpl.
  - rewrite app_nil_r, take_ge by done. done.
  - destruct (cell_truthy id).
    + apply IH. done.
    + destruct (length hs <? limit)%nat eqn:Lt.
      * apply Nat.ltb_lt in Lt. rewrite IH by (rewrite length_app; simpl; lia).
        by rewrite <- app_assoc.
      * apply Nat.ltb_ge in Lt. rewrite IH by done.
        f_equal. rewrite !take_app_le by lia. done.
Qed.

Lemma initialPlan_spec (sh : gmap (nat * nat) Cell) n :
  initialPlan H sh n
  = {| idmap := occupied H sh; holes := take n (holesOf sh);
       lastRow := lastUsedRow sh; toUpdate := []; toInsert := [] |}.
Proof.
  unfold initialPlan. fold (lastUsedRow sh). fold (idColumn sh).
  rewrite scanIds_spec by (simpl; lia). done.
Qed.
End ScanFacts.

(** ** The save loop does not depend on the holes it never consumes *)

Section SaveBatchFacts.
Variable H : Host.
Context {E : Type}.
Variable sheetName : string.
Variable missing : string.
Variable amountOf : E -> JsVal.
Variable idOf : E -> string.
Variable valuesOf : E -> M (list Cell).
Variable stamps : list string.
Variable lastRowIsConst : bool.

Local Abbreviation step := (saveStep H amountOf idOf valuesOf lastRowIsConst).
Local Abbreviation batchSave :=
  (saveBatch H sheetName missing amountOf idOf valuesOf stamps lastRowIsConst).


Lemma agree_weaken m m' p1 p2 : (m' <= m)%nat -> agree m p1 p2 -> agree m' p1 p2.
Proof.
  intros Hm (A & B & C & D & hs & k1 & k2 & E1 & E2 & L1 & L2).
  unfold agree. split_and!; try done. exists hs, k1, k2. split_and!; try done; lia.
Qed.



(** The effect of a batch save once the sheet is there. *)
Lemma saveBatch_run batch w ss sh :
  book w = Some ss -> ss !! sheetName = Some sh ->
  batchSave batch w
  = match forOf step batch (initialPlan H sh (length batch)) w with
    | (Normal p, w1) =>
        match writeUpdates sheetName 4 (toUpdate p) w1 with
        | (Normal _, w2) =>
            (Normal (BatchSaved (length (toUpdate p)) (length (toInsert p))
                       (length batch - length (toUpdate p) - length (toInsert p))),
             foldl (fun w s => stamped H s w)
               (with_book w2 (alter (applyRows 4 (toInsert p)) sheetName <$> book w2))
               stamps)
        | (Throw e, w2) => (Throw e, w2)
        end
    | (Throw e, w1) => (Throw e, w1)
    end.
Proof.
  intros B S. unfold saveBatch.
  unfold bind at 1. rewrite (getBudgetSheet_found sheetName w ss sh B S).
  unfold bind at 1. unfold readSheet. rewrite (sheetOf_book w ss sheetName sh B S).
  unfold bind at 1.
  destruct (forOf step batch (initialPlan H sh (length batch)) w) as [[p|e] w1]; [|done].
  unfold bind at 1.
  destruct (writeUpdates sheetName 4 (toUpdate p) w1) as [[[]|e] w2]; [|done].
  unfold bind. rewrite writeRows_run, stamps_run. done.
Qed.


End SaveBatchFacts.

(** ** Records that the amount check drops *)

Section Dropped.
Variable H : Host.





End Dropped.



(** An expense whose amount is a text that is no number passes the check
    of saveBatchExpenses, and NaN is written. *)
Lemma saveBatchExpenses_accepts_text_amount :
  let run := saveBatchExpenses RefHost.host
               [Examples.expense "TX-9" (VStr "abc") "Food"]
               (Examples.world Examples.expensesWithHole) in
  fst run = Normal (BatchSaved 0 1 0)
  /\ Sheet.getValue (sheetOf (snd run) "Expenses") 7 6 = CNum NaN.
Proof. split; vm_compute; reflexivity. Qed.

(** ** Reading the table after the writes of a plan *)

Lemma getRowValues_ext (sh1 sh2 : gmap (nat * nat) Cell) r c w :
  (forall j, (j < w)%nat -> Sheet.getValue sh1 r (c + j) = Sheet.getValue sh2 r (c + j)) ->
  Sheet.getRowValues sh1 r c w = Sheet.getRowValues sh2 r c w.
Proof.
  intros E. apply list_eq. intros j.
  destruct (decide (j < w)%nat) as [Hj|Hj].
  - rewrite !getRowValues_lookup by done. by rewrite E.
  - rewrite !lookup_ge_None_2; [done| |]; rewrite getRowValues_length; lia.
Qed.

Lemma getRowValues_setRowValues (sh : gmap (nat * nat) Cell) r c vs :
  Sheet.getRowValues (Sheet.setRowValues sh r c vs) r c (length vs) = vs.
Proof.
  apply list_eq. intros j.
  destruct (decide (j < length vs)%nat) as [Hj|Hj].
  - rewrite getRowValues_lookup by done.
    rewrite getValue_setRowValues, decide_True by lia.
    replace (c + j - c)%nat with j by lia.
    destruct (lookup_lt_is_Some_2 vs j Hj) as [v ->]. done.
  - rewrite !lookup_ge_None_2; [done|lia|]. rewrite getRowValues_length. lia.
Qed.

Lemma applyRows_cons (col : nat) (u : nat * list Cell) (rows : list (nat * list Cell))
    (sh : gmap (nat * nat) Cell) :
  applyRows col (u :: rows) sh = applyRows col rows (Sheet.setRowValues sh (fst u) col (snd u)).
Proof. done. Qed.

Lemma getValue_applyRows_other (col : nat) (rows : list (nat * list Cell)) :
  forall (sh : gmap (nat * nat) Cell) r c,
  r ∉ (fst <$> rows) ->
  Sheet.getValue (applyRows col rows sh) r c = Sheet.getValue sh r c.
Proof.
  induction rows as [|u rows IH]; intros sh r c Hr; [done|].
  rewrite applyRows_cons. rewrite fmap_cons, not_elem_of_cons in Hr.
  destruct Hr as [Hu Hr].
  rewrite IH by done. rewrite getValue_setRowValues, decide_False; [done|].
  intros [-> _]. done.
Qed.

Lemma getRowValues_applyRows (col : nat) (rows : list (nat * list Cell)) :
  forall (sh : gmap (nat * nat) Cell) r vs,
  NoDup (fst <$> rows) ->
  (r, vs) ∈ rows ->
  Sheet.getRowValues (applyRows col rows sh) r col (length vs) = vs.
Proof.
  induction rows as [|u rows IH]; intros sh r vs Hnd Hin.
  - by apply elem_of_nil in Hin.
  - rewrite applyRows_cons. rewrite fmap_cons, NoDup_cons in Hnd.
    destruct Hnd as [Hu Hnd].
    apply elem_of_cons in Hin as [<-|Hin].
    + cbn [fst snd] in *.
      transitivity (Sheet.getRowValues (Sheet.setRowValues sh r col vs) r col (length vs));
        [|apply getRowValues_setRowValues].
      apply getRowValues_ext. intros j _.
      by apply getValue_applyRows_other.
    + by apply IH.
Qed.

(** ** The rows the scan assigns *)

Section RowFacts.
Variable H : Host.

Lemma idsMap_lookup ids : forall r m k row,
  idsMap H r ids m !! k = Some row ->
  m !! k = Some row
  \/ ((r <= row < r + length ids)%nat
      /\ exists id, ids !! (row - r)%nat = Some id
                    /\ cell_truthy id = true /\ cellToString H id = k).
Proof.
  induction ids as [|id ids IH]; intros r m k row E; simpl in E.
  - by left.
  - apply IH in E as [E|(Hr & id' & Hid & T & K)].
    + destruct (cell_truthy id) eqn:T; [|by left].
      unfold setProperty in E.
      destruct (String.eqb (cellToString H id) "__proto__"); [by left|].
      destruct (decide (cellToString H id = k)) as [<-|N].
      * rewrite lookup_insert_eq in E. simplify_eq.
        right. split; [simpl; lia|]. exists id.
        replace (row - row)%nat with 0%nat by lia. done.
      * rewrite lookup_insert_ne in E by done. by left.
    + right. split; [simpl; lia|]. exists id'.
      replace (row - r)%nat with (S (row - S r)) by lia. done.
Qed.

Lemma occupied_lookup (sh : gmap (nat * nat) Cell) k row :
  occupied H sh !! k = Some row ->
  (startRow <= row <= lastUsedRow sh)%nat
  /\ exists id, idColumn sh !! (row - startRow)%nat = Some id
                /\ cell_truthy id = true /\ cellToString H id = k.
Proof.
  intros E. apply idsMap_lookup in E as [E|[Hr X]]; [done|].
  split; [|done].
  unfold idColumn in Hr. rewrite getColumnValues_length in Hr.
  unfold lastUsedRow in *. lia.
Qed.

Lemma occupied_inj (sh : gmap (nat * nat) Cell) k1 k2 row :
  occupied H sh !! k1 = Some row -> occupied H sh !! k2 = Some row -> k1 = k2.
Proof.
  intros E1 E2.
  apply occupied_lookup in E1 as (_ & id1 & I1 & _ & <-).
  apply occupied_lookup in E2 as (_ & id2 & I2 & _ & <-).
  congruence.
Qed.

Lemma elem_of_blankRows ids : forall r row,
  row ∈ blankRows r ids ->
  (r <= row < r + length ids)%nat
  /\ exists id, ids !! (row - r)%nat = Some id /\ cell_truthy id = false.
Proof.
  induction ids as [|id ids IH]; intros r row Hin; simpl in Hin.
  - by apply elem_of_nil in Hin.
  - destruct (cell_truthy id) eqn:T.
    + apply IH in Hin as (Hr & id' & Hid & F).
      split; [simpl; lia|]. exists id'.
      replace (row - r)%nat with (S (row - S r)) by lia. done.
    + apply elem_of_cons in Hin as [->|Hin].
      * split; [simpl; lia|]. exists id.
        replace (r - r)%nat with 0%nat by lia. done.
      * apply IH in Hin as (Hr & id' & Hid & F).
        split; [simpl; lia|]. exists id'.
        replace (row - r)%nat with (S (row - S r)) by lia. done.
Qed.

Lemma NoDup_blankRows ids : forall r, NoDup (blankRows r ids).
Proof.
  induction ids as [|id ids IH]; intros r; simpl.
  - constructor.
  - destruct (cell_truthy id); [apply IH|].
    constructor; [|apply IH].
    intros Hin. apply elem_of_blankRows in Hin as [Hr _]. lia.
Qed.

Lemma elem_of_holesOf (sh : gmap (nat * nat) Cell) row :
  row ∈ holesOf sh ->
  (startRow <= row <= lastUsedRow sh)%nat
  /\ exists id, idColumn sh !! (row - startRow)%nat = Some id /\ cell_truthy id = false.
Proof.
  intros Hin. apply elem_of_blankRows in Hin as [Hr X]. split; [|done].
  unfold idColumn in Hr. rewrite getColumnValues_length in Hr.
  unfold lastUsedRow in *. lia.
Qed.

Lemma NoDup_slotsFor (sh : gmap (nat * nat) Cell) k : NoDup (slotsFor sh k).
Proof.
  unfold slotsFor. eapply sublist_NoDup; [|apply sublist_take].
  apply NoDup_app. split; [apply NoDup_blankRows|].
  split; [|apply NoDup_seq].
  intros row Hh Hs. apply elem_of_holesOf in Hh as [Hr _].
  apply elem_of_seq in Hs. lia.
Qed.

Lemma slotsFor_not_occupied (sh : gmap (nat * nat) Cell) k row key :
  row ∈ slotsFor sh k -> occupied H sh !! key = Some row -> False.
Proof.
  unfold slotsFor. intros Hin E.
  apply elem_of_take in Hin as (i & Hin & _). apply list_elem_of_lookup_2 in Hin.
  apply occupied_lookup in E as (Hr & id & I & T & _).
  apply elem_of_app in Hin as [Hh|Hs].
  - apply elem_of_holesOf in Hh as (_ & id' & I' & F). congruence.
  - apply elem_of_seq in Hs. lia.
Qed.
End RowFacts.

(** ** The plan of a batch with pairwise distinct identifiers *)

Lemma filter_ext_elem {A} (P Q : A -> Prop) `{forall x, Decision (P x)}
    `{forall x, Decision (Q x)} (l : list A) :
  (forall x, x ∈ l -> P x <-> Q x) -> filter P l = filter Q l.
Proof.
  induction l as [|x l IH]; intros E; [done|].
  rewrite !filter_cons.
  rewrite IH by (intros y Hy; apply E; by right).
  destruct (decide (P x)) as [p|np], (decide (Q x)) as [q|nq]; try done.
  - exfalso. apply nq. apply E; [by left|done].
  - exfalso. apply np. apply E; [by left|done].
Qed.

Lemma place_false id values p : place false id values p = Normal (placed id values p).
Proof.
  unfold placed, place.
  destruct (getProperty (idmap p) id); [done|]. by destruct (holes p).
Qed.

Lemma slots_hole p h hs k :
  holes p = h :: hs ->
  slots p (S k)
  = h :: slots {| idmap := idmap p; holes := hs; lastRow := lastRow p;
                  toUpdate := toUpdate p; toInsert := toInsert p |} k.
Proof.
  intros Hh. unfold slots. rewrite Hh. cbn [holes lastRow].
  rewrite <- app_comm_cons, firstn_cons. f_equal.
  rewrite seq_S, app_assoc. rewrite take_app_le; [done|].
  rewrite length_app, length_seq. lia.
Qed.

Lemma slots_append p k :
  holes p = [] ->
  slots p (S k)
  = S (lastRow p)
    :: slots {| idmap := idmap p; holes := []; lastRow := S (lastRow p);
                toUpdate := toUpdate p; toInsert := toInsert p |} k.
Proof.
  intros Hh. unfold slots. rewrite Hh. cbn [holes lastRow].
  rewrite !app_nil_l.
  rewrite !take_ge by (rewrite length_seq; lia). done.
Qed.

Lemma slots_same p q k :
  holes p = holes q -> lastRow p = lastRow q -> slots p k = slots q k.
Proof. intros Hh Hl. unfold slots. by rewrite Hh, Hl. Qed.

Section PlanFacts.
Variable H : Host.
Context {E : Type}.
Variable amountOf : E -> JsVal.
Variable idOf : E -> string.
Variable rowOf : E -> list Cell.

Local Abbreviation plan := (planOf H amountOf idOf rowOf).
Local Abbreviation known := (knownIn H amountOf idOf).
Local Abbreviation new := (newIn H amountOf idOf).
Local Abbreviation ok := (fun e => accepted H amountOf e = true).

Lemma planOf_cons x xs p :
  plan (x :: xs) p
  = plan xs (if rejectedAmount H (amountOf x) then p else placed (idOf x) (rowOf x) p).
Proof. done. Qed.

Lemma knownIn_same_map p q xs :
  (forall e, e ∈ xs -> ok e -> idmap q !! idOf e = idmap p !! idOf e) ->
  known q xs = known p xs /\ new q xs = new p xs.
Proof.
  intros Hm. unfold knownIn, newIn. split; apply filter_ext_elem; intros e He.
  - split; intros [A B]; (split; [done|]); [rewrite <- (Hm e He A)|rewrite (Hm e He A)]; done.
  - split; intros [A B]; (split; [done|]); [rewrite <- (Hm e He A)|rewrite (Hm e He A)]; done.
Qed.

Lemma planOf_distinct xs : forall p,
  (forall e, e ∈ xs -> ok e -> inherited (idOf e) = false) ->
  NoDup (idOf <$> filter ok xs) ->
  toUpdate (plan xs p)
  = (toUpdate p
     ++ numbered ((fun e => (default 0%nat (idmap p !! idOf e), rowOf e)) <$> known p xs))%list
  /\ toInsert (plan xs p)
     = (toInsert p ++ zip (slots p (length (new p xs))) (rowOf <$> new p xs))%list.
Proof.
  induction xs as [|x xs IH]; intros p Hpl Hnd.
  - simpl. by rewrite !app_nil_r.
  - assert (Hpl' : forall e, e ∈ xs -> ok e -> inherited (idOf e) = false).
    { intros e He. apply Hpl. by right. }
    revert Hnd. pose proof (Hpl x ltac:(by left)) as Ix. clear Hpl. intros Hnd.
    rewrite planOf_cons.
    destruct (rejectedAmount H (amountOf x)) eqn:R.
    + assert (Hx : ~ ok x) by (unfold accepted; rewrite R; done).
      rewrite filter_cons_False in Hnd by done.
      assert (Kx : known p (x :: xs) = known p xs).
      { unfold knownIn. apply filter_cons_False. intros [? _]. done. }
      assert (Nx : new p (x :: xs) = new p xs).
      { unfold newIn. apply filter_cons_False. intros [? _]. done. }
      rewrite Kx, Nx. by apply IH.
    + assert (Hx : ok x) by (unfold accepted; rewrite R; done).
      specialize (Ix Hx).
      rewrite filter_cons_True in Hnd by done.
      rewrite fmap_cons, NoDup_cons in Hnd. destruct Hnd as [Hfresh Hnd].
      assert (Hne : forall e, e ∈ xs -> ok e -> idOf e <> idOf x).
      { intros e He Hok Heq. apply Hfresh. rewrite <- Heq.
        apply list_elem_of_fmap_2. by apply list_elem_of_filter. }
      destruct (idmap p !! idOf x) as [r|] eqn:L.
      * assert (P : placed (idOf x) (rowOf x) p
                    = {| idmap := idmap p; holes := holes p; lastRow := lastRow p;
                         toUpdate := (toUpdate p ++ [(RowNum r, rowOf x)])%list;
                         toInsert := toInsert p |}).
        { unfold placed, place. by rewrite (getProperty_plain _ _ Ix), L. }
        assert (Kx : known p (x :: xs) = x :: known p xs).
        { unfold knownIn. apply filter_cons_True. split; [done|by rewrite L]. }
        assert (Nx : new p (x :: xs) = new p xs).
        { unfold newIn. apply filter_cons_False. intros [_ ?]. congruence. }
        rewrite P, Kx, Nx. set (q := {| idmap := idmap p |}).
        destruct (IH q Hpl' Hnd) as [U I]. rewrite U, I.
        destruct (knownIn_same_map p q xs) as [K N]; [intros; reflexivity|].
        rewrite K, N. rewrite (slots_same q p) by done.
        split; [|done]. cbn [toUpdate q]. unfold numbered.
        rewrite !fmap_cons, L, <- app_assoc. done.
      * assert (Kx : known p (x :: xs) = known p xs).
        { unfold knownIn. apply filter_cons_False. intros [_ [? ?]]. congruence. }
        assert (Nx : new p (x :: xs) = x :: new p xs).
        { unfold newIn. by apply filter_cons_True. }
        rewrite Kx, Nx.
        destruct (holes p) as [|h hs] eqn:Hh.
        -- assert (P : placed (idOf x) (rowOf x) p
                    = {| idmap := <[idOf x := S (lastRow p)]> (idmap p); holes := [];
                         lastRow := S (lastRow p); toUpdate := toUpdate p;
                         toInsert := (toInsert p ++ [(S (lastRow p), rowOf x)])%list |}).
           { unfold placed, place.
             by rewrite (getProperty_plain _ _ Ix), L, Hh, (setProperty_plain _ _ _ Ix). }
           rewrite P. set (q := {| idmap := <[idOf x := S (lastRow p)]> (idmap p) |}).
           destruct (IH q Hpl' Hnd) as [U I]. rewrite U, I.
           destruct (knownIn_same_map p q xs) as [K N].
           { intros e He Hok. cbn [idmap q]. rewrite lookup_insert_ne; [done|].
             intros Heq. by apply (Hne e He Hok). }
           rewrite K, N.
           split.
           { do 2 f_equal. apply list_fmap_ext. intros i e He.
             apply list_elem_of_lookup_2, list_elem_of_filter in He as [[Hok _] He].
             cbn [idmap q]. rewrite lookup_insert_ne; [done|].
             intros Heq. by apply (Hne e He Hok). }
           cbn [toInsert q length]. rewrite (slots_append p) by done.
           rewrite fmap_cons. cbn [zip zip_with]. rewrite <- app_assoc.
           reflexivity.
        -- assert (P : placed (idOf x) (rowOf x) p
                    = {| idmap := <[idOf x := h]> (idmap p); holes := hs;
                         lastRow := lastRow p; toUpdate := toUpdate p;
                         toInsert := (toInsert p ++ [(h, rowOf x)])%list |}).
           { unfold placed, place.
             by rewrite (getProperty_plain _ _ Ix), L, Hh, (setProperty_plain _ _ _ Ix). }
           rewrite P. set (q := {| idmap := <[idOf x := h]> (idmap p) |}).
           destruct (IH q Hpl' Hnd) as [U I]. rewrite U, I.
           destruct (knownIn_same_map p q xs) as [K N].
           { intros e He Hok. cbn [idmap q]. rewrite lookup_insert_ne; [done|].
             intros Heq. by apply (Hne e He Hok). }
           rewrite K, N.
           split.
           { do 2 f_equal. apply list_fmap_ext. intros i e He.
             apply list_elem_of_lookup_2, list_elem_of_filter in He as [[Hok _] He].
             cbn [idmap q]. rewrite lookup_insert_ne; [done|].
             intros Heq. by apply (Hne e He Hok). }
           cbn [toInsert q length]. rewrite (slots_hole p h hs) by done.
           rewrite fmap_cons. cbn [zip zip_with]. rewrite <- app_assoc.
           reflexivity.
Qed.
End PlanFacts.

(** ** The category lookup of the expense loop *)

Lemma bind_normal {A B} (m : M A) (k : A -> M B) w a w' :
  m w = (Normal a, w') -> bind m k w = k a w'.
Proof. intros E. unfold bind. by rewrite E. Qed.

Lemma bind_throw {A B} (m : M A) (k : A -> M B) w e w' :
  m w = (Throw e, w') -> bind m k w = (Throw e, w').
Proof. intros E. unfold bind. by rewrite E. Qed.

Lemma tryCatch_normal {A} (m : M A) (h : Exn -> M A) w a w' :
  m w = (Normal a, w') -> tryCatch m h w = (Normal a, w').
Proof. intros E. unfold tryCatch. by rewrite E. Qed.

Lemma tryCatch_throw {A} (m : M A) (h : Exn -> M A) w e w' :
  m w = (Throw e, w') -> tryCatch m h w = h e w'.
Proof. intros E. unfold tryCatch. by rewrite E. Qed.

Lemma readSheet_run w ss name sh :
  book w = Some ss -> ss !! name = Some sh -> readSheet name w = (Normal sh, w).
Proof. intros B S. unfold readSheet. by rewrite (sheetOf_book w ss name sh B S). Qed.

Lemma forOf_updateSheet {A} (name : string)
    (f : A -> gmap (nat * nat) Cell -> gmap (nat * nat) Cell) (us : list A) (w : World) :
  forOf (fun u (_ : unit) => updateSheet name (f u)) us tt w
  = (Normal tt,
     with_book w (alter (fun sh => foldl (fun s u => f u s) sh us) name <$> book w)).
Proof.
  revert w. induction us as [|u us IH]; intros w; simpl.
  - unfold ret. f_equal. rewrite <- (with_book_id w) at 1. f_equal.
    destruct (book w) as [ss|]; [|done]. simpl. f_equal.
    symmetry. by apply alter_id.
  - unfold bind, updateSheet. rewrite IH. f_equal.
    rewrite with_book_with_book. f_equal. simpl.
    destruct (book w) as [ss|]; [|done]. simpl. f_equal.
    by rewrite alter_alter_eq.
Qed.

Lemma withCategoryIds_eq de :
  withCategoryIds de
  = foldl (fun s (u : nat * nat) =>
           Sheet.setValue s (fst u) 15 (CNum (Fin (inject_Z (Z.of_nat (snd u))))))
        de (idUpdates (categoryRows de)).
Proof. unfold withCategoryIds. reflexivity. Qed.

Lemma withCategoryIds_alter (ss : gmap string (gmap (nat * nat) Cell)) de :
  ss !! "Dontedit" = Some de ->
  alter (fun sh => foldl (fun s (u : nat * nat) =>
           Sheet.setValue s (fst u) 15 (CNum (Fin (inject_Z (Z.of_nat (snd u))))))
        sh (idUpdates (categoryRows de))) "Dontedit" ss
  = alter withCategoryIds "Dontedit" ss.
Proof.
  intros D. apply alter_ext. intros x Hx. rewrite D in Hx.
  injection Hx as <-. rewrite withCategoryIds_eq. reflexivity.
Qed.

Section CategoryFacts.
Variable H : Host.

Lemma categoriesFrom_run setupSheet values w cats actives :
  buildCategories H 0 (assignIds values) = Normal (cats, actives) ->
  categoriesFrom H setupSheet values w
  = (Normal (CategoriesLoaded cats actives),
     with_book w
       (alter (fun sh => foldl (fun s (u : nat * nat) =>
                 Sheet.setValue s (fst u) 15 (CNum (Fin (inject_Z (Z.of_nat (snd u))))))
               sh (idUpdates values)) setupSheet <$> book w)).
Proof.
  intros BC. unfold categoriesFrom.
  rewrite (bind_normal _ _ w tt _ (forOf_updateSheet setupSheet _ _ w)).
  rewrite BC. reflexivity.
Qed.

Lemma getCategoriesWithTimestamp_run w ss de cats actives :
  book w = Some ss -> ss !! "Dontedit" = Some de ->
  buildCategories H 0 (assignIds (categoryRows de)) = Normal (cats, actives) ->
  getCategoriesWithTimestamp H w
  = (Normal (CategoriesLoaded cats actives),
     with_book w (alter withCategoryIds "Dontedit" <$> book w)).
Proof.
  intros B D BC.
  unfold getCategoriesWithTimestamp.
  apply tryCatch_normal.
  rewrite (bind_normal _ _ w (Some "Dontedit") w (getBudgetSheet_found "Dontedit" w ss de B D)).
  rewrite (bind_normal _ _ w de w (readSheet_run w ss "Dontedit" de B D)).
  rewrite (categoriesFrom_run "Dontedit" (categoryRows de) w cats actives BC).
  rewrite B. f_equal. f_equal. cbn [fmap option_fmap option_map]. f_equal.
  exact (withCategoryIds_alter ss de D).
Qed.

Lemma getZategoryFromCache_run w cats categoryName z :
  categoriesKnown H w cats ->
  zategoryOf cats categoryName = Some z ->
  getZategoryFromCache H categoryName w = (Normal z, loaded cats w).
Proof.
  intros K Z. unfold zategoryOf in Z.
  destruct (List.find _ cats) as [cat|] eqn:F; [|done].
  cbn [fmap option_fmap option_map] in Z. injection Z as <-.
  unfold categoriesKnown in K. unfold getZategoryFromCache, loaded.
  destruct (serverCategoriesCache w) as [c|] eqn:SC.
  - subst c. unfold bind. rewrite SC, F. reflexivity.
  - destruct K as (de & actives & D & BC).
    unfold lookupSheet in D. destruct (book w) as [ss|] eqn:B; [|done].
    cbn [mbind option_bind] in D.
    unfold bind at 1. rewrite SC.
    rewrite (bind_normal _ _ w _ _
               (getCategoriesWithTimestamp_run w ss de cats actives B D BC)).
    unfold bind, setCache, ret. rewrite F, B. reflexivity.
Qed.

Lemma categoriesKnown_loaded w cats :
  categoriesKnown H w cats -> serverCategoriesCache (loaded cats w) = Some cats.
Proof.
  intros K. unfold loaded. unfold categoriesKnown in K.
  destruct (serverCategoriesCache w) as [c|] eqn:SC; [by rewrite SC, K|].
  reflexivity.
Qed.

Lemma categoriesKnown_cached w cats :
  serverCategoriesCache w = Some cats -> categoriesKnown H w cats.
Proof. intros SC. unfold categoriesKnown. by rewrite SC. Qed.

Lemma loaded_cached w cats c : serverCategoriesCache w = Some c -> loaded cats w = w.
Proof. intros SC. unfold loaded. by rewrite SC. Qed.

Lemma clock_loaded w cats : clock (loaded cats w) = clock w.
Proof. unfold loaded. by destruct (serverCategoriesCache w). Qed.

Lemma lookupSheet_loaded w cats name :
  name <> "Dontedit" -> lookupSheet (loaded cats w) name = lookupSheet w name.
Proof.
  intros N. unfold loaded. destruct (serverCategoriesCache w); [done|].
  unfold lookupSheet. cbn [book with_cache with_book].
  destruct (book w) as [ss|]; [|done].
  cbn [fmap option_fmap option_map mbind option_bind]. by rewrite lookup_alter_ne.
Qed.

(** The expense loop computes [planOf] when every accepted record names a
    known category. *)
Lemma expenseLoop_run cats xs : forall p w,
  categoriesKnown H w cats ->
  (forall e, e ∈ xs -> accepted H e_amount e = true ->
             is_Some (zategoryOf cats (e_category e))) ->
  forOf (saveStep H e_amount transactionId (expenseValues H) false) xs p w
  = (Normal (planOf H e_amount transactionId (expenseRow H cats (clock w)) xs p),
     if existsb (accepted H e_amount) xs then loaded cats w else w).
Proof.
  induction xs as [|x xs IH]; intros p w K Hc; [done|].
  cbn [forOf]. rewrite planOf_cons. unfold bind at 1. unfold saveStep at 1.
  cbn [existsb]. unfold accepted at 1.
  destruct (rejectedAmount H (e_amount x)) eqn:R; cbn [negb orb].
  - unfold ret at 1. apply IH; [done|]. intros e He. apply Hc. by right.
  - destruct (Hc x) as [z Z]; [by left|unfold accepted; by rewrite R|].
    unfold bind at 1. unfold expenseValues. unfold bind at 1. unfold now at 1.
    unfold bind at 1. rewrite (getZategoryFromCache_run w cats _ z K Z).
    unfold ret at 1. unfold lift. rewrite place_false.
    assert (V : [CStr (transactionId x); CStr (createDateOnly H (clock w) (e_date x));
                 CNum (ToNumber H (e_amount x)); CStr z;
                 CStr (str_or (e_name x) (str_or (e_description x) ""));
                 CStr (str_or (e_label x) ""); CStr (str_or (e_notes x) "");
                 CStr (accountOrOther (e_account x))]
                = expenseRow H cats (clock w) x).
    { unfold expenseRow. by rewrite Z. }
    rewrite V.
    pose proof (categoriesKnown_loaded w cats K) as SC.
    rewrite IH.
    + rewrite clock_loaded. f_equal.
      rewrite (loaded_cached (loaded cats w) cats cats SC). by destruct (existsb _ xs).
    + by apply categoriesKnown_cached.
    + intros e He. apply Hc. by right.
Qed.
End CategoryFacts.

(** ** Where the batch upsert of expenses places the records *)

Lemma slots_capped (hs : list nat) (L k n : nat) :
  (k <= n)%nat -> take k (take n hs ++ seq (S L) k) = take k (hs ++ seq (S L) k).
Proof.
  intros Hk. destruct (decide (n <= length hs)%nat) as [Hn|Hn].
  - rewrite (take_app_le (take n hs)) by (rewrite length_take; lia).
    rewrite (take_app_le hs) by lia.
    rewrite take_take. f_equal. lia.
  - rewrite (take_ge hs n) by lia. done.
Qed.

Lemma length_slotsFor (sh : gmap (nat * nat) Cell) k : length (slotsFor sh k) = k.
Proof.
  unfold slotsFor. rewrite length_take, length_app, length_seq. lia.
Qed.

Section Placement.
Variable H : Host.

Lemma length_expenseRow cats today e : length (expenseRow H cats today e) = 8%nat.
Proof. done. Qed.

(** The expenses of a batch whose accepted records carry pairwise distinct
    identifiers and known categories. *)
Lemma saveBatchExpenses_places expenses w ss sh cats :
  book w = Some ss ->
  ss !! "Expenses" = Some sh ->
  categoriesKnown H w cats ->
  (forall e, e ∈ expenses -> accepted H e_amount e = true ->
             is_Some (zategoryOf cats (e_category e))) ->
  (forall e, e ∈ expenses -> accepted H e_amount e = true ->
             inherited (transactionId e) = false) ->
  NoDup (transactionId <$> filter (fun e => accepted H e_amount e = true) expenses) ->
  let olds := filter (fun e => accepted H e_amount e = true
                               /\ is_Some (occupied H sh !! transactionId e)) expenses in
  let news := filter (fun e => accepted H e_amount e = true
                               /\ occupied H sh !! transactionId e = None) expenses in
  let run := saveBatchExpenses H expenses w in
  let sh' := sheetOf (snd run) "Expenses" in
  fst run = Normal (BatchSaved (length olds) (length news)
                      (length expenses - length olds - length news))
  /\ (forall e r, e ∈ olds -> occupied H sh !! transactionId e = Some r ->
        Sheet.getRowValues sh' r 4 8 = expenseRow H cats (clock w) e)
  /\ (forall j e r, news !! j = Some e -> slotsFor sh (length news) !! j = Some r ->
        Sheet.getRowValues sh' r 4 8 = expenseRow H cats (clock w) e)
  /\ (forall r c,
        (forall e, e ∈ olds -> occupied H sh !! transactionId e <> Some r) ->
        r ∉ slotsFor sh (length news) ->
        Sheet.getValue sh' r c = Sheet.getValue sh r c).
Proof.
  intros B Hs K Hc Hpl Hnd olds news run sh'.
  set (rowOf := expenseRow H cats (clock w)).
  set (p0 := {| idmap := occupied H sh; holes := take (length expenses) (holesOf sh);
                lastRow := lastUsedRow sh; toUpdate := []; toInsert := [] |}).
  set (U := (fun e => (default 0%nat (occupied H sh !! transactionId e), rowOf e)) <$> olds).
  set (I := zip (slotsFor sh (length news)) (rowOf <$> news)).
  (* the loop *)
  assert (Hlen : (length news <= length expenses)%nat) by apply length_filter.
  assert (Hplan : toUpdate (planOf H e_amount transactionId rowOf expenses p0) = numbered U
                  /\ toInsert (planOf H e_amount transactionId rowOf expenses p0) = I).
  { destruct (planOf_distinct H e_amount transactionId rowOf expenses p0 Hpl Hnd) as [HU HI].
    split; [exact HU|]. rewrite HI. cbn [toInsert p0 app]. unfold I. f_equal.
    unfold slots. cbn [holes lastRow p0]. by apply slots_capped. }
  destruct Hplan as [HU HI].
  assert (Hrun : run
    = (Normal (BatchSaved (length U) (length I) (length expenses - length U - length I)),
       stamped H "masterData"
         (with_book (if existsb (accepted H e_amount) expenses then loaded cats w else w)
            (alter (applyRows 4 (U ++ I)%list) "Expenses"
             <$> book (if existsb (accepted H e_amount) expenses
                       then loaded cats w else w))))).
  { unfold run, saveBatchExpenses.
    rewrite (saveBatch_run H "Expenses" _ _ _ _ _ _ expenses w ss sh B Hs).
    rewrite initialPlan_spec. fold p0.
    rewrite (expenseLoop_run H cats expenses p0 w K Hc). fold rowOf.
    rewrite HU, HI, writeUpdates_numbered, writeRows_run, length_numbered.
    cbn [foldl]. do 2 f_equal. apply with_book_applyRows. }
  assert (LU : length U = length olds) by (unfold U; by rewrite length_fmap).
  assert (LI : length I = length news).
  { unfold I. rewrite length_zip, length_slotsFor, length_fmap. lia. }
  (* the sheet after the save *)
  assert (Hsh : sh' = applyRows 4 (U ++ I)%list sh).
  { unfold sh'. rewrite Hrun. cbn [snd].
    apply sheetOf_Some. rewrite lookupSheet_stamped by done.
    set (w1 := if existsb (accepted H e_amount) expenses then loaded cats w else w).
    assert (L1 : lookupSheet w1 "Expenses" = Some sh).
    { unfold w1. destruct (existsb _ expenses).
      - rewrite lookupSheet_loaded by done. unfold lookupSheet. rewrite B. exact Hs.
      - unfold lookupSheet. rewrite B. exact Hs. }
    unfold lookupSheet in *. cbn [book with_book].
    destruct (book w1) as [ss1|]; [|done].
    cbn [fmap option_fmap option_map mbind option_bind] in *.
    rewrite lookup_alter_eq, L1. reflexivity. }
  (* the target rows are pairwise distinct *)
  assert (FU : fst <$> U = (fun e => default 0%nat (occupied H sh !! transactionId e)) <$> olds).
  { unfold U. rewrite <- list_fmap_compose. reflexivity. }
  assert (FI : fst <$> I = slotsFor sh (length news)).
  { unfold I. apply fst_zip. rewrite length_slotsFor, length_fmap. lia. }
  assert (NDold : NoDup (transactionId <$> olds)).
  { eapply sublist_NoDup; [exact Hnd|]. apply fmap_sublist.
    assert (Eo : olds = filter (fun e => is_Some (occupied H sh !! transactionId e))
                          (filter (fun e => accepted H e_amount e = true) expenses)).
    { rewrite list_filter_filter. unfold olds. apply filter_ext_elem. tauto. }
    rewrite Eo. apply sublist_filter. }
  assert (HinU : forall r, r ∈ fst <$> U ->
                   exists e, e ∈ olds /\ occupied H sh !! transactionId e = Some r).
  { intros r Hr. rewrite FU in Hr. apply list_elem_of_fmap in Hr as (e & -> & He).
    exists e. split; [done|].
    apply list_elem_of_filter in He as [[_ [r' Hr']] _]. by rewrite Hr'. }
  assert (ND : NoDup (fst <$> (U ++ I)%list)).
  { rewrite fmap_app. apply NoDup_app. split; [|split].
    - rewrite FU.
      assert (Ec : (fun e => default 0%nat (occupied H sh !! transactionId e)) <$> olds
                   = (fun id => default 0%nat (occupied H sh !! id))
                       <$> (transactionId <$> olds)).
      { rewrite <- list_fmap_compose. reflexivity. }
      rewrite Ec.
      apply NoDup_fmap_2_strong; [|exact NDold].
      intros id1 id2 H1 H2 Heq.
      apply list_elem_of_fmap in H1 as (e1 & -> & He1).
      apply list_elem_of_fmap in H2 as (e2 & -> & He2).
      apply list_elem_of_filter in He1 as [[_ [r1 Hr1]] _].
      apply list_elem_of_filter in He2 as [[_ [r2 Hr2]] _].
      rewrite Hr1, Hr2 in Heq. simpl in Heq. subst r2.
      by apply (occupied_inj H sh _ _ r1).
    - intros r Hr Hr'. rewrite FI in Hr'.
      destruct (HinU r Hr) as (e & _ & Hocc).
      by apply (slotsFor_not_occupied H sh _ r _ Hr' Hocc).
    - rewrite FI. apply NoDup_slotsFor. }
  split; [|split; [|split]].
  - rewrite Hrun. cbn [fst]. by rewrite LU, LI.
  - intros e r He Hr. rewrite Hsh.
    rewrite <- (length_expenseRow cats (clock w) e).
    apply getRowValues_applyRows; [exact ND|].
    apply elem_of_app. left. unfold U.
    apply list_elem_of_fmap. exists e. rewrite Hr. done.
  - intros j e r He Hr. rewrite Hsh.
    rewrite <- (length_expenseRow cats (clock w) e).
    apply getRowValues_applyRows; [exact ND|].
    apply elem_of_app. right. unfold I.
    apply (list_elem_of_lookup_2 _ j). apply lookup_zip_Some. split; [done|].
    rewrite list_lookup_fmap, He. done.
  - intros r c Hold Hnew. rewrite Hsh.
    apply getValue_applyRows_other. rewrite fmap_app. intros Hin.
    apply elem_of_app in Hin as [Hin|Hin].
    + destruct (HinU r Hin) as (e & He & Hocc). by apply (Hold e He).
    + rewrite FI in Hin. done.
Qed.
End Placement.

(** ** Where the batch upsert of net worth entries places them *)


Section NetWorthRows.
Variable H : Host.















Section Loop.
Variable sh : gmap (nat * nat) Cell.

Local Abbreviation olds := (filter (fun e => kept H e /\ updates H sh e)).
Local Abbreviation news := (filter (fun e => kept H e /\ ~ updates H sh e)).

End Loop.
End NetWorthRows.

Section NetWorthPlacement.
Variable H : Host.

End NetWorthPlacement.



(** The identifiers are required not to be names of members of
    Object.prototype: for such an identifier the read of the map gives the
    member, the record is planned as an update, and getRange throws. *)
Lemma saveBatchExpenses_inherited_identifier :
  fst (saveBatchExpenses RefHost.host
         [Examples.expense "constructor" (VNum (Fin 12)) "Food"]
         (Examples.world Examples.expensesWithHole))
  = Throw signatureMismatch.
Proof. vm_compute. reflexivity. Qed.

(** ** Two records of one batch with the same new identifier *)

(** C4 does not hold of the code.  Two records with the identifier TX-9,
    which no slot holds, are saved in one batch with the amounts 10 and 20:
    the first is planned as an insert into row 7 and the second as an
    update of row 7, and the updates are written before the inserts, so
    row 7 ends with the amount 10 of the earlier record.  For an identifier
    that a slot holds already, both records are updates and the later one
    stays. *)
Theorem saveBatchExpenses_duplicate_new_id_keeps_earlier :
  let batch id := [Examples.expense id (VNum (Fin 10)) "Food";
                   Examples.expense id (VNum (Fin 20)) "Food"] in
  let run id := saveBatchExpenses RefHost.host (batch id)
                  (Examples.world Examples.expensesWithHole) in
  fst (run "TX-9") = Normal (BatchSaved 1 1 0)
  /\ Sheet.getRowValues (sheetOf (snd (run "TX-9")) "Expenses") 7 4 8
     = [CStr "TX-9"; CStr "1-Jul-2025"; CNum (Fin 10); CStr "=zategory1"; CStr "Lunch";
        CStr ""; CStr ""; CStr "Cash"]
  /\ fst (run "TX-2") = Normal (BatchSaved 2 0 0)
  /\ Sheet.getRowValues (sheetOf (snd (run "TX-2")) "Expenses") 6 4 8
     = [CStr "TX-2"; CStr "1-Jul-2025"; CNum (Fin 20); CStr "=zategory1"; CStr "Lunch";
        CStr ""; CStr ""; CStr "Cash"].
Proof. split_and!; vm_compute; reflexivity. Qed.

(** ** Saving the same batch twice *)

(** C6 does not hold of the code.  The batch of the two records with the
    new identifier TX-9 leaves the amount 10 in row 7 when it is saved the
    first time; saved again, both records are updates, and row 7 ends with
    the amount 20. *)
Theorem saveBatchExpenses_twice_differs :
  let batch := [Examples.expense "TX-9" (VNum (Fin 10)) "Food";
                Examples.expense "TX-9" (VNum (Fin 20)) "Food"] in
  let first := saveBatchExpenses RefHost.host batch
                 (Examples.world Examples.expensesWithHole) in
  let second := saveBatchExpenses RefHost.host batch
                  (Examples.nextRun (snd first) Examples.july1) in
  fst first = Normal (BatchSaved 1 1 0)
  /\ fst second = Normal (BatchSaved 2 0 0)
  /\ Sheet.getValue (sheetOf (snd first) "Expenses") 7 6 = CNum (Fin 10)
  /\ Sheet.getValue (sheetOf (snd second) "Expenses") 7 6 = CNum (Fin 20)
  /\ sheetOf (snd second) "Expenses" <> sheetOf (snd first) "Expenses".
Proof.
  split_and!; try (vm_compute; reflexivity).
  intros E.
  assert (E' : Sheet.getValue
                 (sheetOf (snd (saveBatchExpenses RefHost.host
                    [Examples.expense "TX-9" (VNum (Fin 10)) "Food";
                     Examples.expense "TX-9" (VNum (Fin 20)) "Food"]
                    (Examples.nextRun
                       (snd (saveBatchExpenses RefHost.host
                          [Examples.expense "TX-9" (VNum (Fin 10)) "Food";
                           Examples.expense "TX-9" (VNum (Fin 20)) "Food"]
                          (Examples.world Examples.expensesWithHole)))
                       Examples.july1))) "Expenses") 7 6
               = Sheet.getValue
                   (sheetOf (snd (saveBatchExpenses RefHost.host
                      [Examples.expense "TX-9" (VNum (Fin 10)) "Food";
                       Examples.expense "TX-9" (VNum (Fin 20)) "Food"]
                      (Examples.world Examples.expensesWithHole))) "Expenses") 7 6).
  { by rewrite E. }
  vm_compute in E'. discriminate.
Qed.

(** * Further properties *)

(** ** The obfuscation of the ledger's identifiers *)

Lemma lxor_below_256 (a b : N) : (a < 256)%N -> (b < 256)%N -> (N.lxor a b < 256)%N.
Proof.
  intros Ha Hb.
  destruct (N.eq_dec (N.lxor a b) 0%N) as [->|Nz]; [done|].
  change 256%N with (2 ^ 8)%N. apply N.log2_lt_pow2; [lia|].
  pose proof (N.log2_lxor a b) as L.
  assert (La : (N.log2 a < 8)%N).
  { destruct (N.eq_dec a 0%N) as [->|]; [done|]. apply N.log2_lt_pow2; [lia|done]. }
  assert (Lb : (N.log2 b < 8)%N).
  { destruct (N.eq_dec b 0%N) as [->|]; [done|]. apply N.log2_lt_pow2; [lia|done]. }
  lia.
Qed.

Lemma xorChar_involutive (a k : ascii) : xorChar (xorChar a k) k = a.
Proof.
  unfold xorChar.
  rewrite N_ascii_embedding
    by (apply lxor_below_256; apply N_ascii_bounded).
  rewrite N.lxor_assoc, N.lxor_nilpotent, N.lxor_0_r.
  apply ascii_N_embedding.
Qed.

Lemma imap_imap_id {A} (f : nat -> A -> A) (l : list A) :
  (forall i a, f i (f i a) = a) -> imap f (imap f l) = l.
Proof.
  intros Hf. revert f Hf. induction l as [|a l IH]; intros f Hf; [done|].
  cbn [imap]. rewrite Hf. f_equal. apply IH. intros i b. apply Hf.
Qed.

Lemma xorEncrypt_involutive text k encrypted :
  xorEncrypt text (Some k) = Normal encrypted ->
  xorEncrypt encrypted (Some k) = Normal text.
Proof.
  unfold xorEncrypt. intros E. simplify_eq. f_equal.
  rewrite list_ascii_of_string_of_list_ascii.
  rewrite imap_imap_id; [apply string_of_list_ascii_of_string|].
  intros i a. destruct (list_ascii_of_string k !! _); [apply xorChar_involutive|done].
Qed.

Lemma length_substring_to n : forall s,
  (n <= String.length s)%nat -> String.length (substring_to n s) = n.
Proof.
  unfold substring_to. induction n as [|n IH]; intros s Hn.
  - by destruct s.
  - destruct s as [|c s]; simpl in *; [lia|]. rewrite IH by lia. done.
Qed.

Lemma substring_from_app p b : substring_from (String.length p) (p +:+ b) = b.
Proof. induction p as [|c p IH]; simpl; [by destruct b|done]. Qed.

Lemma length_string_app (s1 s2 : string) :
  String.length (s1 +:+ s2) = (String.length s1 + String.length s2)%nat.
Proof. induction s1 as [|c s1 IH]; simpl; [done|]. by rewrite IH. Qed.

Lemma substring_to_app p b : substring_to (String.length p) (p +:+ b) = p.
Proof.
  unfold substring_to. induction p as [|c p IH]; simpl; [by destruct b|]. by rewrite IH.
Qed.

Section TrialExtras.
Variable H : Host.

(** X1.  An email of at least four characters that has been obfuscated
    under a key is decoded back to itself under the same key, when the
    platform's base64 decoder inverts its encoder on the encrypted text;
    the obfuscated form begins with the first four characters of the
    email in clear. *)
Theorem obfuscate_decode_roundtrip k email encrypted :
  (4 <= String.length email)%nat ->
  xorEncrypt email (Some k) = Normal encrypted ->
  base64Encode H encrypted <> "" ->
  base64Decode H (base64Encode H encrypted) = Some encrypted ->
  exists obfuscated,
    obfuscateEmail H (Some k) email = Normal obfuscated
    /\ substring_to 4 obfuscated = substring_to 4 email
    /\ decodeObfuscatedEmail H (Some k) (CStr obfuscated) = email.
Proof.
  intros Hlen Hx Hne Hb.
  exists (substring_to 4 email +:+ base64Encode H encrypted).
  assert (Hp : String.length (substring_to 4 email) = 4%nat)
    by (by apply length_substring_to).
  assert (He : str_truthy email = true).
  { apply str_truthy_true. intros ->. simpl in Hlen. lia. }
  split; [|split].
  - unfold obfuscateEmail. rewrite He, Hx. done.
  - rewrite <- Hp at 1. apply substring_to_app.
  - unfold decodeObfuscatedEmail.
    assert (Hlong : (String.length (substring_to 4 email +:+ base64Encode H encrypted) <=? 4)%nat
                    = false).
    { apply Nat.leb_gt. rewrite length_string_app, Hp.
      destruct (base64Encode H encrypted); [done|simpl; lia]. }
    assert (Ht : str_truthy (substring_to 4 email +:+ base64Encode H encrypted) = true).
    { apply str_truthy_true. intros E.
      apply (f_equal String.length) in E. rewrite length_string_app, Hp in E. done. }
    rewrite Ht, Hlong. cbn [negb orb].
    rewrite <- Hp at 1. rewrite substring_from_app, Hb.
    by rewrite (xorEncrypt_involutive _ _ _ Hx).
Qed.

Lemma findEmail_lookupEmail key emails email :
  email <> "" -> findEmail H key emails email = lookupEmail H key emails email.
Proof.
  intros He. unfold findEmail, lookupEmail. apply list_find_ext. intros c.
  destruct (cell_truthy c).
  - split; [intros [_ E]; exact E | intros E; split; [reflexivity | exact E]].
  - split; [intros [F _]; discriminate | intros E; exfalso; apply He; by symmetry].
Qed.

Lemma recordFirstUse_body_eq fuel email :
  recordFirstUse H (S fuel) email = recordFirstUse_body H (checkTrialStatus H fuel) email.
Proof. done. Qed.

Lemma checkTrialStatus_body_eq fuel email :
  checkTrialStatus H (S fuel) email = checkTrialStatus_body H (recordFirstUse H fuel) email.
Proof. done. Qed.

(** The outcome for an email that no entry of the window decodes to. *)
Lemma recordFirstUse_absent fuel w sh email :
  trialSheet w = Some sh ->
  email <> "" ->
  findEmail H (ENCRYPTION_KEY w) (Sheet.getColumnValues sh 3 1 windowRows) email = None ->
  recordFirstUse H (S fuel) email w
  = match obfuscateEmail H (ENCRYPTION_KEY w) email with
    | Throw e => (Normal (Some (trialError (toString e))), w)
    | Normal obfuscated =>
        (Normal (Some (trialStatus "trial" 30)),
         with_trialSheet w
           (Some (Sheet.setRowValues sh
                    (nextEmptyRow (Sheet.getColumnValues sh 3 1 windowRows)) 1
                    [CStr obfuscated; CDate (clock w); CStr ""; CDate (clock w)])))
    end.
Proof.
  intros Hs He Hf. rewrite recordFirstUse_body_eq. unfold recordFirstUse_body.
  rewrite (str_truthy_true _ He). cbn [negb].
  unfold tryCatch, bind, openTrialSheet. rewrite Hs, Hf.
  destruct (obfuscateEmail H (ENCRYPTION_KEY w) email) as [ob|e]; [|done].
  unfold updateTrialSheet, ret. rewrite Hs. done.
Qed.

Lemma recordFirstUse_present fuel w sh email i c :
  trialSheet w = Some sh ->
  email <> "" ->
  findEmail H (ENCRYPTION_KEY w) (Sheet.getColumnValues sh 3 1 windowRows) email
  = Some (i, c) ->
  recordFirstUse H (S (S fuel)) email w
  = (Normal (Some (deriveStatus H (Sheet.getValue sh (3 + i) 3) (clock w))),
     with_trialSheet w (Some (Sheet.setValue sh (i + 3) 4 (CDate (clock w))))).
Proof.
  intros Hs He Hf. rewrite recordFirstUse_body_eq. unfold recordFirstUse_body.
  rewrite (str_truthy_true _ He). cbn [negb].
  unfold tryCatch, bind, openTrialSheet. rewrite Hs, Hf.
  rewrite (checkTrialStatus_found H fuel w sh email i c Hs He)
    by (by rewrite <- findEmail_lookupEmail).
  done.
Qed.

Lemma checkTrialStatus_absent fuel w sh email :
  trialSheet w = Some sh ->
  email <> "" ->
  findEmail H (ENCRYPTION_KEY w) (Sheet.getColumnValues sh 3 1 windowRows) email = None ->
  checkTrialStatus H (S (S fuel)) email w = recordFirstUse H (S fuel) email w.
Proof.
  intros Hs He Hf. rewrite checkTrialStatus_body_eq. unfold checkTrialStatus_body.
  rewrite (str_truthy_true _ He). cbn [negb].
  unfold tryCatch, bind, openTrialSheet. rewrite Hs.
  rewrite <- findEmail_lookupEmail, Hf by done.
  rewrite (recordFirstUse_absent fuel w sh email Hs He Hf).
  by destruct (obfuscateEmail H (ENCRYPTION_KEY w) email).
Qed.

Lemma trial_no_sheet fuel w email :
  trialSheet w = None ->
  email <> "" ->
  recordFirstUse H (S fuel) email w
  = (Normal (Some (trialError (toString openByIdFailure))), w)
  /\ checkTrialStatus H (S fuel) email w
     = (Normal (Some (trialError (toString openByIdFailure))), w).
Proof.
  intros Hs He. rewrite recordFirstUse_body_eq, checkTrialStatus_body_eq.
  unfold recordFirstUse_body, checkTrialStatus_body.
  rewrite (str_truthy_true _ He). cbn [negb].
  unfold tryCatch, bind, openTrialSheet. rewrite Hs. done.
Qed.

Lemma trial_no_email fuel w :
  recordFirstUse H (S fuel) "" w = (Normal (Some (trialError "No email provided")), w)
  /\ checkTrialStatus H (S fuel) "" w = (Normal (Some (trialError "No email provided")), w).
Proof. done. Qed.

(** X2.  checkTrialStatus and recordFirstUse are interchangeable: on every
    email and every state of the ledger they return the same status object
    and leave the same ledger, after at most one call of the other
    function; neither throws. *)
Theorem trial_entry_points_agree fuel fuel' email w :
  checkTrialStatus H (S (S fuel)) email w = recordFirstUse H (S (S fuel')) email w
  /\ exists result, fst (recordFirstUse H (S (S fuel')) email w) = Normal (Some result).
Proof.
  destruct (decide (email = "")) as [->|He].
  { destruct (trial_no_email (S fuel) w) as [_ ->].
    destruct (trial_no_email (S fuel') w) as [-> _]. eauto. }
  destruct (trialSheet w) as [sh|] eqn:Hs.
  2:{ destruct (trial_no_sheet (S fuel) w email Hs He) as [_ ->].
      destruct (trial_no_sheet (S fuel') w email Hs He) as [-> _]. eauto. }
  destruct (findEmail H (ENCRYPTION_KEY w) (Sheet.getColumnValues sh 3 1 windowRows) email)
    as [[i c]|] eqn:Hf.
  - rewrite (recordFirstUse_present fuel' w sh email i c Hs He Hf).
    rewrite (checkTrialStatus_found H (S fuel) w sh email i c Hs He)
      by (by rewrite <- findEmail_lookupEmail).
    eauto.
  - rewrite (checkTrialStatus_absent fuel w sh email Hs He Hf).
    rewrite !(recordFirstUse_absent _ w sh email Hs He Hf).
    destruct (obfuscateEmail H (ENCRYPTION_KEY w) email); eauto.
Qed.

Lemma nextEmptyRow_free (emails : list Cell) :
  (0 < length emails)%nat ->
  (3 <= nextEmptyRow emails <= 3 + length emails)%nat
  /\ ((nextEmptyRow emails < 3 + length emails)%nat ->
      exists c, emails !! (nextEmptyRow emails - 3)%nat = Some c /\ cell_truthy c = false).
Proof.
  intros Hlen. unfold nextEmptyRow.
  destruct (cell_truthy (default blank (last emails))) eqn:L.
  - (* the last cell of the window is filled *)
    assert (F : lastFilled emails = Some (length emails - 1)%nat).
    { unfold lastFilled.
      destruct (reverse emails) as [|c0 rest] eqn:R.
      { apply (f_equal length) in R. rewrite length_reverse in R. simpl in R. lia. }
      assert (Hc0 : last emails = Some c0).
      { rewrite <- head_reverse, R. done. }
      rewrite Hc0 in L. simpl in L.
      cbn [list_find]. rewrite decide_True by done. cbn [fmap option_fmap option_map fst].
      f_equal. lia. }
    rewrite F.
    destruct (firstBlank emails) as [[i c]|] eqn:B.
    + apply list_find_Some in B as (Hi & Hc & _).
      pose proof (lookup_lt_Some _ _ _ Hi) as Hlt.
      destruct (3 + i =? 3)%nat eqn:E3.
      * apply Nat.eqb_eq in E3. assert (i = 0%nat) as -> by lia.
        assert (Hl : (0 <? length emails)%nat = true) by (apply Nat.ltb_lt; lia).
        rewrite Hl. cbn [andb]. split; [lia|]. intros ?. lia.
      * cbn [andb]. split; [lia|]. intros _. exists c.
        replace (3 + i - 3)%nat with i by lia. done.
    + assert (Hl : (0 <? length emails)%nat = true) by (apply Nat.ltb_lt; lia).
      rewrite Hl. cbn [Nat.eqb andb]. split; [lia|]. intros ?. lia.
  - (* the last cell of the window is blank *)
    rewrite !andb_false_r.
    destruct (firstBlank emails) as [[i c]|] eqn:B.
    + apply list_find_Some in B as (Hi & Hc & _).
      pose proof (lookup_lt_Some _ _ _ Hi) as Hlt.
      split; [lia|]. intros _. exists c.
      replace (3 + i - 3)%nat with i by lia. done.
    + apply list_find_None in B.
      destruct (last emails) as [c|] eqn:Hc.
      * exfalso. apply last_Some_elem_of in Hc.
        rewrite Forall_forall in B. apply (B c Hc). simpl in L. done.
      * apply last_None in Hc. subst emails. simpl in Hlen. lia.
Qed.

(** X3.  Neither recordFirstUse nor checkTrialStatus changes the
    identifier, the start date or the end date of an entry in the window
    A3:C100 of the ledger, whatever the email they are called with. *)
Theorem ledger_entries_are_kept fuel email w sh :
  trialSheet w = Some sh ->
  exists sh',
    trialSheet (snd (recordFirstUse H (S (S fuel)) email w)) = Some sh'
    /\ trialSheet (snd (checkTrialStatus H (S (S fuel)) email w)) = Some sh'
    /\ forall r c,
         (3 <= r < 3 + windowRows)%nat -> (1 <= c <= 3)%nat ->
         cell_truthy (Sheet.getValue sh r 1) = true ->
         Sheet.getValue sh' r c = Sheet.getValue sh r c.
Proof.
  intros Hs.
  destruct (decide (email = "")) as [->|He].
  { destruct (trial_no_email (S fuel) w) as [-> ->]. exists sh. done. }
  destruct (findEmail H (ENCRYPTION_KEY w) (Sheet.getColumnValues sh 3 1 windowRows) email)
    as [[i c0]|] eqn:Hf.
  - rewrite (recordFirstUse_present fuel w sh email i c0 Hs He Hf).
    rewrite (checkTrialStatus_found H (S fuel) w sh email i c0 Hs He)
      by (by rewrite <- findEmail_lookupEmail).
    eexists. split; [done|]. split; [done|].
    intros r c Hr Hc _. rewrite getValue_setValue, decide_False; [done|].
    intros E. simplify_eq. lia.
  - rewrite (checkTrialStatus_absent fuel w sh email Hs He Hf).
    rewrite !(recordFirstUse_absent _ w sh email Hs He Hf).
    destruct (obfuscateEmail H (ENCRYPTION_KEY w) email) as [ob|e].
    2:{ exists sh. done. }
    eexists. split; [done|]. split; [done|].
    intros r c Hr Hc Ht. rewrite getValue_setRowValues, decide_False; [done|].
    intros [-> _].
    destruct (nextEmptyRow_free (Sheet.getColumnValues sh 3 1 windowRows)) as [_ Free].
    { rewrite getColumnValues_length. unfold windowRows. lia. }
    rewrite getColumnValues_length in Free.
    destruct (Free ltac:(lia)) as (c1 & Hc1 & F1).
    rewrite getColumnValues_lookup in Hc1 by lia. simplify_eq.
    replace (3 + (nextEmptyRow (Sheet.getColumnValues sh 3 1 windowRows) - 3))%nat
      with (nextEmptyRow (Sheet.getColumnValues sh 3 1 windowRows)) in F1 by lia.
    congruence.
Qed.

(** X4.  When every row of the window A3:A100 is filled, recordFirstUse
    writes a new user to row 101, whatever that row holds. *)
Theorem recordFirstUse_full_window fuel email w sh obfuscated :
  trialSheet w = Some sh ->
  email <> "" ->
  (forall r, (3 <= r < 3 + windowRows)%nat -> cell_truthy (Sheet.getValue sh r 1) = true) ->
  findEmail H (ENCRYPTION_KEY w) (Sheet.getColumnValues sh 3 1 windowRows) email = None ->
  obfuscateEmail H (ENCRYPTION_KEY w) email = Normal obfuscated ->
  recordFirstUse H (S fuel) email w
  = (Normal (Some (trialStatus "trial" 30)),
     with_trialSheet w
       (Some (Sheet.setRowValues sh (3 + windowRows) 1
                [CStr obfuscated; CDate (clock w); CStr ""; CDate (clock w)]))).
Proof.
  intros Hs He Full Hf Ho.
  rewrite (recordFirstUse_absent fuel w sh email Hs He Hf), Ho.
  destruct (nextEmptyRow_free (Sheet.getColumnValues sh 3 1 windowRows)) as [Hr Free].
  { rewrite getColumnValues_length. unfold windowRows. lia. }
  rewrite getColumnValues_length in Hr, Free.
  destruct (decide (nextEmptyRow (Sheet.getColumnValues sh 3 1 windowRows)
                    = 3 + windowRows)%nat) as [->|N]; [done|].
  exfalso. destruct (Free ltac:(lia)) as (c1 & Hc1 & F1).
  rewrite getColumnValues_lookup in Hc1 by lia. simplify_eq.
  rewrite Full in F1 by lia. done.
Qed.

Lemma decodeObfuscatedEmail_no_key c : decodeObfuscatedEmail H None c = "".
Proof.
  unfold decodeObfuscatedEmail. destruct c as [s| | |]; try done.
  destruct (negb (str_truthy s) || (String.length s <=? 4)%nat); [done|].
  destruct (base64Decode H (substring_from 4 s)) as [[|a e]|]; done.
Qed.

(** X5.  Without the script property ENCRYPTION_KEY no user is found and
    none is registered: both functions return the error status of the
    TypeError and leave the ledger as it is. *)
Theorem trial_without_key fuel email w sh :
  ENCRYPTION_KEY w = None ->
  trialSheet w = Some sh ->
  email <> "" ->
  let failure :=
    trialError "TypeError: Cannot read properties of null (reading 'charCodeAt')" in
  recordFirstUse H (S (S fuel)) email w = (Normal (Some failure), w)
  /\ checkTrialStatus H (S (S fuel)) email w = (Normal (Some failure), w).
Proof.
  intros Hk Hs He failure.
  assert (Hf : findEmail H (ENCRYPTION_KEY w) (Sheet.getColumnValues sh 3 1 windowRows) email
               = None).
  { apply list_find_None, Forall_forall. intros c _ [_ E].
    rewrite Hk, decodeObfuscatedEmail_no_key in E. by apply He. }
  assert (Ho : obfuscateEmail H (ENCRYPTION_KEY w) email
               = Throw {| ename := "TypeError";
                          emessage := "Cannot read properties of null (reading 'charCodeAt')" |}).
  { rewrite Hk. unfold obfuscateEmail. rewrite (str_truthy_true _ He). cbn [negb].
    destruct email; [done|]. done. }
  rewrite (checkTrialStatus_absent fuel w sh email Hs He Hf).
  rewrite !(recordFirstUse_absent _ w sh email Hs He Hf), Ho. done.
Qed.
End TrialExtras.

(** The email and the key of the examples. *)
Lemma obfuscate_decode_roundtrip_witness :
  obfuscateEmail RefHost.host (Some "secret") "user@example.com"
  = Normal "userBhYGACURCwQOAgkRXQYMHw=="
  /\ decodeObfuscatedEmail RefHost.host (Some "secret") (CStr "userBhYGACURCwQOAgkRXQYMHw==")
     = "user@example.com".
Proof.
  destruct (obfuscate_decode_roundtrip RefHost.host "secret" "user@example.com"
              (default "" (match xorEncrypt "user@example.com" (Some "secret") with
                           | Normal e => Some e
                           | Throw _ => None
                           end)))
    as (ob & Ho & _ & Hd).
  - simpl. lia.
  - vm_compute. reflexivity.
  - vm_compute. discriminate.
  - vm_compute. reflexivity.
  - assert (E : ob = "userBhYGACURCwQOAgkRXQYMHw==").
    { vm_compute in Ho. by injection Ho as <-. }
    subst ob. split; [|exact Hd]. vm_compute. reflexivity.
Defined.

(** An email of fewer than four characters is not decoded back: the
    decoder drops four characters, of which only two are the prefix. *)
Lemma decodeObfuscatedEmail_short_email :
  obfuscateEmail RefHost.host (Some "secret") "ab" = Normal "abEgc="
  /\ decodeObfuscatedEmail RefHost.host (Some "secret") (CStr "abEgc=") <> "ab".
Proof. split; vm_compute; [reflexivity|discriminate]. Qed.

(** The ledger of the examples, with its one entry. *)
Lemma ledger_entries_are_kept_witness :
  Sheet.getRowValues
    (default ∅ (trialSheet (snd (recordFirstUse RefHost.host 2 "new@example.com"
                                   (Examples.ledgerWorld (CStr ""))))))
    3 1 3
  = [CStr "userBhYGACURCwQOAgkRXQYMHw=="; CDate 1748736000000; CStr ""].
Proof.
  destruct (ledger_entries_are_kept RefHost.host 0 "new@example.com"
              (Examples.ledgerWorld (CStr "")) (Examples.ledgerWith (CStr "")) eq_refl)
    as (sh' & -> & _ & K).
  change (default ∅ (Some sh')) with sh'.
  assert (K1 := K 3%nat 1%nat ltac:(unfold windowRows; lia) ltac:(lia) eq_refl).
  assert (K2 := K 3%nat 2%nat ltac:(unfold windowRows; lia) ltac:(lia) eq_refl).
  assert (K3 := K 3%nat 3%nat ltac:(unfold windowRows; lia) ltac:(lia) eq_refl).
  change (Sheet.getRowValues sh' 3 1 3)
    with [Sheet.getValue sh' 3 1; Sheet.getValue sh' 3 2; Sheet.getValue sh' 3 3].
  rewrite K1, K2, K3. vm_compute. reflexivity.
Defined.

(** A ledger with 98 entries in the window. *)
Lemma recordFirstUse_full_window_witness :
  Sheet.getRowValues
    (default ∅ (trialSheet (snd (recordFirstUse RefHost.host 1 "user@example.com"
                                   MoreExamples.fullLedgerWorld))))
    101 1 4
  = [CStr "userBhYGACURCwQOAgkRXQYMHw=="; CDate Examples.july1; CStr "";
     CDate Examples.july1].
Proof.
  rewrite (recordFirstUse_full_window RefHost.host 0 "user@example.com"
             MoreExamples.fullLedgerWorld MoreExamples.fullLedger
             "userBhYGACURCwQOAgkRXQYMHw==" eq_refl ltac:(discriminate)).
  - vm_compute. reflexivity.
  - intros r Hr.
    assert (Hall : Forall (fun r => cell_truthy (Sheet.getValue MoreExamples.fullLedger r 1)
                                    = true) (seq 3 windowRows)).
    { apply (bool_decide_unpack _). vm_compute. exact I. }
    rewrite Forall_forall in Hall. apply Hall. apply elem_of_seq. lia.
  - vm_compute. reflexivity.
  - vm_compute. reflexivity.
Defined.

Lemma trial_without_key_witness :
  recordFirstUse RefHost.host 2 "user@example.com" MoreExamples.worldWithoutKey
  = (Normal (Some (trialError
                     "TypeError: Cannot read properties of null (reading 'charCodeAt')")),
     MoreExamples.worldWithoutKey).
Proof.
  destruct (trial_without_key RefHost.host 0 "user@example.com"
              MoreExamples.worldWithoutKey ∅ eq_refl eq_refl ltac:(discriminate))
    as [R _].
  exact R.
Defined.

(** ** The timestamps of the datasets *)

Section TimestampExtras.
Variable H : Host.





(** X7.  updateDataTimestamp never throws and changes at most the one
    cell of the Dontedit sheet that belongs to the data type; for an
    unknown data type, and when the Dontedit sheet cannot be had, it
    changes nothing. *)
Theorem updateDataTimestamp_frame dataType w :
  fst (updateDataTimestamp H dataType w) = Normal tt
  /\ clock (snd (updateDataTimestamp H dataType w)) = clock w
  /\ (forall name r c,
        (name = "Dontedit" -> timestampCells !! dataType <> Some (r, c)) ->
        Sheet.getValue (sheetOf (snd (updateDataTimestamp H dataType w)) name) r c
        = Sheet.getValue (sheetOf w name) r c)
  /\ (timestampCells !! dataType = None \/ lookupSheet w "Dontedit" = None ->
      snd (updateDataTimestamp H dataType w) = w).
Proof.
  rewrite updateDataTimestamp_run. cbn [fst snd].
  split; [done|]. split; [apply clock_stamped|]. split.
  - intros name r c Hn.
    destruct (decide (name = "Dontedit")) as [->|N].
    2:{ by rewrite !sheetOf_lookupSheet, lookupSheet_stamped. }
    destruct (timestampCells !! dataType) as [[r0 c0]|] eqn:T.
    2:{ unfold stamped. rewrite T. by destruct (book w). }
    destruct (lookupSheet w "Dontedit") as [de|] eqn:D.
    + rewrite (sheetOf_Some _ _ _ (dontedit_stamped H dataType w de r0 c0 D T)).
      rewrite (sheetOf_Some _ _ _ D).
      rewrite getValue_setValue, decide_False; [done|].
      intros E. apply (Hn eq_refl). by rewrite E.
    + unfold stamped. unfold lookupSheet in D.
      destruct (book w) as [ss|]; [|done]. simpl in D. rewrite T, D. done.
  - intros [T|D]; unfold stamped.
    + rewrite T. by destruct (book w).
    + unfold lookupSheet in D. destruct (book w) as [ss|]; [|done]. simpl in D.
      rewrite D. by destruct (timestampCells !! dataType) as [[??]|].
Qed.
End TimestampExtras.


(** ** The cell a TextFinder finds *)

Lemma lexLt_spec (a b : nat * nat) :
  lexLt a b = true <-> (fst a < fst b \/ (fst a = fst b /\ snd a < snd b))%nat.
Proof.
  unfold lexLt. rewrite orb_true_iff, andb_true_iff, !Nat.ltb_lt, Nat.eqb_eq. done.
Qed.

Lemma lexLt_false (a b : nat * nat) :
  lexLt a b = false <-> (fst b < fst a \/ (fst a = fst b /\ snd b <= snd a))%nat.
Proof.
  destruct (lexLt a b) eqn:E.
  - apply lexLt_spec in E. split; [done|]. lia.
  - split; [|done]. intros _.
    assert (N : ~ (fst a < fst b \/ (fst a = fst b /\ snd a < snd b))%nat).
    { intros P. apply lexLt_spec in P. congruence. }
    lia.
Qed.

Section FinderFacts.
Variable H : Host.

(** findNext yields the matching cell that is first in row-major order. *)
Lemma findNext_spec (sh : gmap (nat * nat) Cell) text :
  match findNext H sh text with
  | None => forall k c, sh !! k = Some c -> cellMatches H text c = false
  | Some k =>
      (exists c, sh !! k = Some c /\ cellMatches H text c = true)
      /\ forall k' c', sh !! k' = Some c' -> cellMatches H text c' = true ->
                       lexLt k' k = false
  end.
Proof.
  unfold findNext.
  apply (map_fold_weak_ind
           (fun r (m : gmap (nat * nat) Cell) =>
              match r with
              | None => forall k c, m !! k = Some c -> cellMatches H text c = false
              | Some k =>
                  (exists c, m !! k = Some c /\ cellMatches H text c = true)
                  /\ forall k' c', m !! k' = Some c' -> cellMatches H text c' = true ->
                                   lexLt k' k = false
              end)).
  - intros k c Hk. by rewrite lookup_empty in Hk.
  - intros k0 c0 m r Hk0 IH.
    destruct (cellMatches H text c0) eqn:M0.
    + destruct r as [k1|].
      * destruct IH as [(c1 & Hc1 & M1) Hmin].
        assert (Hne : k0 <> k1) by (intros ->; congruence).
        destruct (lexLt k0 k1) eqn:L.
        -- split; [exists c0; by rewrite lookup_insert_eq|].
           intros k' c' Hk' M'.
           destruct (decide (k' = k0)) as [->|N].
           { apply lexLt_false. lia. }
           rewrite lookup_insert_ne in Hk' by done.
           pose proof (Hmin k' c' Hk' M') as L'.
           apply lexLt_false in L'. apply lexLt_spec in L. apply lexLt_false. lia.
        -- split; [exists c1; by rewrite lookup_insert_ne|].
           intros k' c' Hk' M'.
           destruct (decide (k' = k0)) as [->|N]; [done|].
           rewrite lookup_insert_ne in Hk' by done. by apply (Hmin k' c').
      * split; [exists c0; by rewrite lookup_insert_eq|].
        intros k' c' Hk' M'.
        destruct (decide (k' = k0)) as [->|N].
        { apply lexLt_false. lia. }
        rewrite lookup_insert_ne in Hk' by done. rewrite (IH k' c' Hk') in M'. done.
    + destruct r as [k1|].
      * destruct IH as [(c1 & Hc1 & M1) Hmin].
        assert (Hne : k0 <> k1) by (intros ->; congruence).
        split; [exists c1; by rewrite lookup_insert_ne|].
        intros k' c' Hk' M'.
        destruct (decide (k' = k0)) as [->|N].
        { rewrite lookup_insert_eq in Hk'. simplify_eq. congruence. }
        rewrite lookup_insert_ne in Hk' by done. by apply (Hmin k' c').
      * intros k' c' Hk'.
        destruct (decide (k' = k0)) as [->|N].
        { rewrite lookup_insert_eq in Hk'. by simplify_eq. }
        rewrite lookup_insert_ne in Hk' by done. by apply (IH k' c').
Qed.

Lemma findNext_first (sh : gmap (nat * nat) Cell) text k c :
  sh !! k = Some c ->
  cellMatches H text c = true ->
  (forall k' c', sh !! k' = Some c' -> cellMatches H text c' = true -> lexLt k' k = false) ->
  findNext H sh text = Some k.
Proof.
  intros Hk M Hmin. pose proof (findNext_spec sh text) as S.
  destruct (findNext H sh text) as [k1|].
  - destruct S as [(c1 & Hc1 & M1) Hmin1]. f_equal.
    pose proof (Hmin k1 c1 Hc1 M1) as L1. pose proof (Hmin1 k c Hk M) as L2.
    apply lexLt_false in L1, L2. destruct k, k1. simpl in *. f_equal; lia.
  - rewrite (S k c Hk) in M. done.
Qed.
End FinderFacts.

(** ** Clearing the row of a record that is found *)

Lemma lookup_clearContent width : forall (sh : gmap (nat * nat) Cell) r c k,
  Sheet.clearContent sh r c width !! k
  = if decide (fst k = r /\ c <= snd k < c + width)%nat then None else sh !! k.
Proof.
  induction width as [|width IH]; intros sh r c k; simpl.
  - case_decide; [lia|done].
  - rewrite IH.
    destruct (decide (fst k = r /\ S c <= snd k < S c + width)%nat) as [[E Hc]|N1].
    + rewrite decide_True by lia. done.
    + destruct (decide (k = (r, c))) as [->|N2].
      * rewrite lookup_delete_eq, decide_True by (simpl; lia). done.
      * rewrite lookup_delete_ne by done. rewrite decide_False; [done|].
        intros [E Hc]. apply N2. destruct k as [kr kc]. simpl in *.
        destruct (decide (kc = c)); [by subst|]. exfalso. apply N1. lia.
Qed.

Lemma lookupSheet_Some w name sh :
  lookupSheet w name = Some sh <-> exists ss, book w = Some ss /\ ss !! name = Some sh.
Proof.
  unfold lookupSheet. destruct (book w) as [ss|]; simpl.
  - split; [eauto|]. by intros (ss' & [= <-] & E).
  - split; [done|]. by intros (ss' & ? & _).
Qed.

Section ClearFacts.
Variable H : Host.

Lemma lookupSheet_stamps stamps : forall w name,
  name <> "Dontedit" ->
  lookupSheet (foldl (fun w s => stamped H s w) w stamps) name = lookupSheet w name.
Proof.
  induction stamps as [|s stamps IH]; intros w name N; [done|].
  cbn [foldl]. rewrite IH by done. by apply lookupSheet_stamped.
Qed.

Lemma lookupSheet_updated w name f sh :
  lookupSheet w name = Some sh ->
  lookupSheet (with_book w (alter f name <$> book w)) name = Some (f sh).
Proof.
  intros L. unfold lookupSheet in *. cbn [book with_book].
  destruct (book w) as [ss|]; [|done]. simpl in *. by rewrite lookup_alter_eq, L.
Qed.

Lemma clearRowByFinder_found sheetName missing notFound message width stamps
    transactionId w ss sh r c :
  book w = Some ss ->
  ss !! sheetName = Some sh ->
  findNext H sh transactionId = Some (r, c) ->
  clearRowByFinder H sheetName missing notFound message width stamps transactionId w
  = (Normal (Cleared message transactionId r),
     foldl (fun w s => stamped H s w)
       (with_book w (alter (fun s => Sheet.clearContent s r 4 width) sheetName <$> book w))
       stamps).
Proof.
  intros B S F.
  unfold clearRowByFinder, tryCatch.
  unfold bind at 1. rewrite (getBudgetSheet_found sheetName w ss sh B S).
  unfold bind at 1. unfold readSheet. rewrite (sheetOf_book w ss sheetName sh B S), F.
  unfold bind, updateSheet. rewrite stamps_run. done.
Qed.

Lemma clearRecurringTransaction_found transactionId w ss sh r c :
  book w = Some ss ->
  ss !! "Recurring" = Some sh ->
  findNext H sh transactionId = Some (r, c) ->
  clearRecurringTransaction H transactionId w
  = (Normal (Cleared "Recurring transaction row cleared successfully" transactionId r),
     stamped H "recurring"
       (stamped H "masterData"
          (with_book w (alter (fun s => Sheet.clearContent s r 3 12) "Recurring"
                        <$> book w)))).
Proof.
  intros B S F.
  unfold clearRecurringTransaction, tryCatch.
  unfold bind at 1. rewrite (getBudgetSheet_found "Recurring" w ss sh B S).
  unfold bind at 1. unfold readSheet. rewrite (sheetOf_book w ss "Recurring" sh B S), F.
  unfold bind, updateSheet. rewrite !updateDataTimestamp_run. done.
Qed.

Lemma clearRecurringTransaction_not_found transactionId w ss sh :
  book w = Some ss ->
  ss !! "Recurring" = Some sh ->
  (forall k c, sh !! k = Some c -> cellMatches H transactionId c = false) ->
  clearRecurringTransaction H transactionId w
  = (Normal (ClearFailed ("Recurring transaction not found: " +:+ transactionId)), w).
Proof.
  intros B S Hall.
  unfold clearRecurringTransaction, tryCatch, bind, getBudgetSheet, readSheet.
  rewrite B, S, (sheetOf_book w ss "Recurring" sh B S).
  rewrite (findNext_None H sh transactionId Hall). done.
Qed.

(** The cell [k] is the first one of [sh], in row-major order, whose text
    is [text], whatever the case of the letters. *)
Local Abbreviation firstMatch sh text k :=
  ((exists cell, sh !! k = Some cell /\ cellMatches H text cell = true)
   /\ forall k' cell', sh !! k' = Some cell' -> cellMatches H text cell' = true ->
                       lexLt k' k = false).

(** X8.  clearTransactionRow, clearIncomeRow and clearRecurringTransaction
    clear the row of the first cell of the sheet, in row-major order and in
    whatever column, whose text is the identifier up to the case of the
    letters: the columns D to K (D to J for income, C to N for recurring
    transactions) of that row become blank, every other cell of the sheet
    keeps its value, and the result names the row. *)
Theorem clear_row_of_first_match (transactionId : string) (w : World)
    (ss : gmap string (gmap (nat * nat) Cell)) (sh : gmap (nat * nat) Cell) (r c : nat) :
  book w = Some ss ->
  firstMatch sh transactionId (r, c) ->
  (ss !! "Expenses" = Some sh ->
   let run := clearTransactionRow H transactionId w in
   fst run = Normal (Cleared "Transaction row cleared successfully" transactionId r)
   /\ forall r' c',
        Sheet.getValue (sheetOf (snd run) "Expenses") r' c'
        = if decide (r' = r /\ 4 <= c' < 12)%nat then blank else Sheet.getValue sh r' c')
  /\ (ss !! "Income" = Some sh ->
      let run := clearIncomeRow H transactionId w in
      fst run = Normal (Cleared "Income transaction row cleared successfully" transactionId r)
      /\ forall r' c',
           Sheet.getValue (sheetOf (snd run) "Income") r' c'
           = if decide (r' = r /\ 4 <= c' < 11)%nat then blank else Sheet.getValue sh r' c')
  /\ (ss !! "Recurring" = Some sh ->
      let run := clearRecurringTransaction H transactionId w in
      fst run = Normal (Cleared "Recurring transaction row cleared successfully"
                          transactionId r)
      /\ forall r' c',
           Sheet.getValue (sheetOf (snd run) "Recurring") r' c'
           = if decide (r' = r /\ 3 <= c' < 15)%nat then blank else Sheet.getValue sh r' c').
Proof.
  intros B [(cell & Hk & M) Hmin].
  pose proof (findNext_first H sh transactionId (r, c) cell Hk M Hmin) as F.
  split; [|split].
  - intros S run. unfold run, clearTransactionRow.
    rewrite (clearRowByFinder_found _ _ _ _ _ _ _ w ss sh r c B S F). cbn [fst snd].
    split; [done|]. intros r' c'.
    rewrite sheetOf_lookupSheet, lookupSheet_stamps by done.
    rewrite (lookupSheet_updated w "Expenses" _ sh)
      by (apply lookupSheet_Some; eauto).
    cbn [default]. apply getValue_clearContent.
  - intros S run. unfold run, clearIncomeRow.
    rewrite (clearRowByFinder_found _ _ _ _ _ _ _ w ss sh r c B S F). cbn [fst snd].
    split; [done|]. intros r' c'.
    rewrite sheetOf_lookupSheet, lookupSheet_stamps by done.
    rewrite (lookupSheet_updated w "Income" _ sh)
      by (apply lookupSheet_Some; eauto).
    cbn [default]. apply getValue_clearContent.
  - intros S run. unfold run.
    rewrite (clearRecurringTransaction_found _ w ss sh r c B S F). cbn [fst snd].
    split; [done|]. intros r' c'.
    rewrite sheetOf_lookupSheet, !lookupSheet_stamped by done.
    rewrite (lookupSheet_updated w "Recurring" _ sh)
      by (apply lookupSheet_Some; eauto).
    cbn [default]. apply getValue_clearContent.
Qed.
End ClearFacts.

Section ClearTwice.
Variable H : Host.

Lemma lexLt_irrefl (k : nat * nat) : lexLt k k = false.
Proof. apply lexLt_false. lia. Qed.

Lemma no_match_after_clear (sh : gmap (nat * nat) Cell) text r c col width :
  (forall k' cell', sh !! k' = Some cell' -> cellMatches H text cell' = true -> k' = (r, c)) ->
  (col <= c < col + width)%nat ->
  forall k cell, Sheet.clearContent sh r col width !! k = Some cell ->
                 cellMatches H text cell = false.
Proof.
  intros Uniq Hc k cell Hk. rewrite lookup_clearContent in Hk.
  case_decide as D; [done|].
  destruct (cellMatches H text cell) eqn:M; [|done].
  exfalso. apply D. rewrite (Uniq k cell Hk M). simpl. lia.
Qed.

Lemma book_of_lookupSheet w name sh :
  lookupSheet w name = Some sh -> exists ss, book w = Some ss /\ ss !! name = Some sh.
Proof. apply lookupSheet_Some. Qed.

(** X9.  When one cell only of the sheet holds the identifier and it lies
    in the columns that are cleared, a second call of the clear function
    finds nothing: it returns the not-found result and changes nothing.
    When the cell lies outside these columns, clearTransactionRow finds it
    again and reports success again. *)
Theorem clear_twice (transactionId : string) (w : World)
    (ss : gmap string (gmap (nat * nat) Cell)) (sh : gmap (nat * nat) Cell) (r c : nat)
    (cell : Cell) :
  book w = Some ss ->
  sh !! (r, c) = Some cell ->
  cellMatches H transactionId cell = true ->
  (forall k' cell', sh !! k' = Some cell' -> cellMatches H transactionId cell' = true ->
                    k' = (r, c)) ->
  (ss !! "Expenses" = Some sh ->
   let w1 := snd (clearTransactionRow H transactionId w) in
   ((4 <= c < 12)%nat ->
    clearTransactionRow H transactionId w1
    = (Normal (ClearFailed ("Transaction not found: " +:+ transactionId)), w1))
   /\ ((c < 4 \/ 12 <= c)%nat ->
       fst (clearTransactionRow H transactionId w1)
       = Normal (Cleared "Transaction row cleared successfully" transactionId r)))
  /\ (ss !! "Income" = Some sh -> (4 <= c < 11)%nat ->
      let w1 := snd (clearIncomeRow H transactionId w) in
      clearIncomeRow H transactionId w1
      = (Normal (ClearFailed ("Income transaction not found: " +:+ transactionId)), w1))
  /\ (ss !! "Recurring" = Some sh -> (3 <= c < 15)%nat ->
      let w1 := snd (clearRecurringTransaction H transactionId w) in
      clearRecurringTransaction H transactionId w1
      = (Normal (ClearFailed ("Recurring transaction not found: " +:+ transactionId)), w1)).
Proof.
  intros B Hk M Uniq.
  assert (F : findNext H sh transactionId = Some (r, c)).
  { apply (findNext_first H sh transactionId (r, c) cell Hk M).
    intros k' cell' Hk' M'. rewrite (Uniq k' cell' Hk' M'). apply lexLt_irrefl. }
  assert (L : forall name, ss !! name = Some sh -> lookupSheet w name = Some sh).
  { intros name S. apply lookupSheet_Some. eauto. }
  split; [|split].
  - intros S w1.
    assert (L1 : lookupSheet w1 "Expenses" = Some (Sheet.clearContent sh r 4 8)).
    { unfold w1, clearTransactionRow.
      rewrite (clearRowByFinder_found H _ _ _ _ _ _ _ w ss sh r c B S F). cbn [snd].
      rewrite lookupSheet_stamps by done.
      exact (lookupSheet_updated w "Expenses" (fun s => Sheet.clearContent s r 4 8) sh
               (L _ S)). }
    destruct (book_of_lookupSheet _ _ _ L1) as (ss1 & B1 & S1).
    split.
    + intros Hc. unfold clearTransactionRow.
      apply (clearRowByFinder_not_found H _ _ _ _ _ _ _ _ ss1 _ B1 S1).
      by apply (no_match_after_clear sh transactionId r c 4 8 Uniq).
    + intros Hc. unfold clearTransactionRow.
      rewrite (clearRowByFinder_found H _ _ _ _ _ _ _ w1 ss1 _ r c B1 S1); [done|].
      apply (findNext_first H _ transactionId (r, c) cell).
      * rewrite lookup_clearContent, decide_False by (simpl; lia). done.
      * done.
      * intros k' cell' Hk' M'. rewrite lookup_clearContent in Hk'.
        case_decide; [done|]. rewrite (Uniq k' cell' Hk' M'). apply lexLt_irrefl.
  - intros S Hc w1.
    assert (L1 : lookupSheet w1 "Income" = Some (Sheet.clearContent sh r 4 7)).
    { unfold w1, clearIncomeRow.
      rewrite (clearRowByFinder_found H _ _ _ _ _ _ _ w ss sh r c B S F). cbn [snd].
      rewrite lookupSheet_stamps by done.
      exact (lookupSheet_updated w "Income" (fun s => Sheet.clearContent s r 4 7) sh
               (L _ S)). }
    destruct (book_of_lookupSheet _ _ _ L1) as (ss1 & B1 & S1).
    unfold clearIncomeRow.
    apply (clearRowByFinder_not_found H _ _ _ _ _ _ _ _ ss1 _ B1 S1).
    by apply (no_match_after_clear sh transactionId r c 4 7 Uniq).
  - intros S Hc w1.
    assert (L1 : lookupSheet w1 "Recurring" = Some (Sheet.clearContent sh r 3 12)).
    { unfold w1.
      rewrite (clearRecurringTransaction_found H _ w ss sh r c B S F). cbn [snd].
      rewrite !lookupSheet_stamped by done.
      exact (lookupSheet_updated w "Recurring" (fun s => Sheet.clearContent s r 3 12) sh
               (L _ S)). }
    destruct (book_of_lookupSheet _ _ _ L1) as (ss1 & B1 & S1).
    apply (clearRecurringTransaction_not_found H _ _ ss1 _ B1 S1).
    by apply (no_match_after_clear sh transactionId r c 3 12 Uniq).
Qed.
End ClearTwice.

(** ** The append that saveBatchIncome cannot make *)

Section ConstLastRow.
Variable H : Host.
Context {E : Type}.
Variable amountOf : E -> JsVal.
Variable idOf : E -> string.
Variable valuesOf : E -> M (list Cell).
Hypothesis valuesOf_pure : forall e w, exists values, valuesOf e w = (Normal values, w).

Local Abbreviation ok := (fun e => accepted H amountOf e = true).
Local Abbreviation new := (newIn H amountOf idOf).

Lemma newIn_same_map (p q : Plan) (xs : list E) :
  (forall e, e ∈ xs -> ok e -> idmap q !! idOf e = idmap p !! idOf e) ->
  new q xs = new p xs.
Proof.
  intros Hm. unfold newIn. apply filter_ext_elem. intros e He.
  split; intros [A B]; (split; [done|]); [rewrite <- (Hm e He A)|rewrite (Hm e He A)]; done.
Qed.

Lemma constLoop_throws xs : forall p w,
  (forall e, e ∈ xs -> ok e -> inherited (idOf e) = false) ->
  NoDup (idOf <$> filter ok xs) ->
  (length (holes p) < length (new p xs))%nat ->
  forOf (saveStep H amountOf idOf valuesOf true) xs p w
  = (Throw {| ename := "TypeError"; emessage := "Assignment to constant variable." |}, w).
Proof.
  induction xs as [|x xs IH]; intros p w Hpl Hnd Hlen.
  - simpl in Hlen. lia.
  - assert (Hpl' : forall e, e ∈ xs -> ok e -> inherited (idOf e) = false).
    { intros e He. apply Hpl. by right. }
    pose proof (Hpl x ltac:(by left)) as Ix.
    cbn [forOf]. unfold bind. unfold saveStep at 1.
    destruct (rejectedAmount H (amountOf x)) eqn:R.
    + assert (Hx : ~ ok x) by (unfold accepted; rewrite R; done).
      rewrite filter_cons_False in Hnd by done.
      unfold newIn in Hlen. rewrite filter_cons_False in Hlen by (intros [? _]; done).
      unfold ret. by apply IH.
    + assert (Hx : ok x) by (unfold accepted; rewrite R; done).
      specialize (Ix Hx).
      rewrite filter_cons_True in Hnd by done.
      rewrite fmap_cons, NoDup_cons in Hnd. destruct Hnd as [Hfresh Hnd].
      assert (Hne : forall e, e ∈ xs -> ok e -> idOf e <> idOf x).
      { intros e He Hok Heq. apply Hfresh. rewrite <- Heq.
        apply list_elem_of_fmap_2. by apply list_elem_of_filter. }
      unfold bind. destruct (valuesOf_pure x w) as [values ->].
      unfold lift, place. rewrite (getProperty_plain _ _ Ix).
      destruct (idmap p !! idOf x) as [r|] eqn:L; cbn [fmap option_fmap option_map].
      * unfold newIn in Hlen. rewrite filter_cons_False in Hlen by (intros [_ ?]; congruence).
        apply IH; [done|done|]. cbn [holes].
        rewrite (newIn_same_map p) by done. exact Hlen.
      * unfold newIn in Hlen. rewrite filter_cons_True in Hlen by done.
        cbn [length] in Hlen.
        destruct (holes p) as [|h hs] eqn:Hh; [done|].
        apply IH; [done|done|]. cbn [holes].
        rewrite (newIn_same_map p).
        -- cbn [length] in Hlen. unfold newIn. lia.
        -- intros e He Hok. cbn [idmap]. rewrite (setProperty_plain _ _ _ Ix).
           rewrite lookup_insert_ne; [done|]. intros Heq. by apply (Hne e He Hok).
Qed.
End ConstLastRow.

Section IncomeAppend.
Variable H : Host.

(** X10.  saveBatchIncome cannot add a row after the last one: when a
    batch of records with pairwise distinct identifiers has more new
    records than the table has holes, the call throws the TypeError of the
    assignment to its constant [lastRow], and nothing is written. *)
Theorem saveBatchIncome_cannot_append income w ss sh :
  book w = Some ss ->
  ss !! "Income" = Some sh ->
  (forall e, e ∈ income -> accepted H i_amount e = true -> inherited (i_id e) = false) ->
  NoDup (i_id <$> filter (fun e => accepted H i_amount e = true) income) ->
  let news := filter (fun e => accepted H i_amount e = true
                               /\ occupied H sh !! i_id e = None) income in
  (length (holesOf sh) < length news)%nat ->
  saveBatchIncome H income w
  = (Throw {| ename := "TypeError"; emessage := "Assignment to constant variable." |}, w).
Proof.
  intros B S Hpl Hnd news Hlen.
  unfold saveBatchIncome.
  rewrite (saveBatch_run H "Income" _ _ _ _ _ _ income w ss sh B S).
  rewrite initialPlan_spec.
  rewrite (constLoop_throws H i_amount i_id (incomeValues H)); [done| |done|done|].
  - intros e w0. unfold incomeValues, bind, now, ret. eauto.
  - cbn [holes]. rewrite length_take.
    change (newIn H i_amount i_id _ income) with news. lia.
Qed.
End IncomeAppend.

(** The identifier TX-2 of the examples, in lower case: its row 6 is
    cleared; a second call finds nothing.  Two new income records on the
    Income sheet of the examples, which has one hole. *)
Lemma clear_row_of_first_match_witness :
  let run := clearTransactionRow RefHost.host "tx-2"
               (Examples.world Examples.expensesWithHole) in
  fst run = Normal (Cleared "Transaction row cleared successfully" "tx-2" 6)
  /\ Sheet.getValue (sheetOf (snd run) "Expenses") 6 4 = blank
  /\ Sheet.getValue (sheetOf (snd run) "Expenses") 5 4 = CStr "TX-1".
Proof.
  destruct (clear_row_of_first_match RefHost.host "tx-2"
              (Examples.world Examples.expensesWithHole)
              (Examples.workbook Examples.expensesWithHole)
              Examples.expensesWithHole 6 4 eq_refl) as [E _].
  - split.
    + exists (CStr "TX-2"). split; vm_compute; reflexivity.
    + assert (Hall : map_Forall
                       (fun (k : nat * nat) cell =>
                          cellMatches RefHost.host "tx-2" cell = true ->
                          lexLt k (6, 4)%nat = false)
                       Examples.expensesWithHole).
      { apply (bool_decide_unpack _). vm_compute. exact I. }
      intros k' cell' Hk'. exact (Hall k' cell' Hk').
  - destruct (E eq_refl) as [R V]. split; [exact R|].
    split; rewrite V; vm_compute; reflexivity.
Defined.

Lemma clear_twice_witness :
  let w1 := snd (clearTransactionRow RefHost.host "TX-2"
                   (Examples.world Examples.expensesWithHole)) in
  clearTransactionRow RefHost.host "TX-2" w1
  = (Normal (ClearFailed "Transaction not found: TX-2"), w1).
Proof.
  destruct (clear_twice RefHost.host "TX-2"
              (Examples.world Examples.expensesWithHole)
              (Examples.workbook Examples.expensesWithHole)
              Examples.expensesWithHole 6 4 (CStr "TX-2") eq_refl) as [E _].
  - vm_compute. reflexivity.
  - vm_compute. reflexivity.
  - assert (Hall : map_Forall
                     (fun (k : nat * nat) cell =>
                        cellMatches RefHost.host "TX-2" cell = true -> k = (6, 4)%nat)
                     Examples.expensesWithHole).
    { apply (bool_decide_unpack _). vm_compute. exact I. }
    intros k' cell' Hk'. exact (Hall k' cell' Hk').
  - destruct (E eq_refl) as [T _]. apply T. lia.
Defined.

Lemma saveBatchIncome_cannot_append_witness :
  saveBatchIncome RefHost.host
    [Examples.income "INC-1" (VNum (Fin 10)); Examples.income "INC-2" (VNum (Fin 20))]
    (Examples.world ∅)
  = (Throw {| ename := "TypeError"; emessage := "Assignment to constant variable." |},
     Examples.world ∅).
Proof.
  apply (saveBatchIncome_cannot_append RefHost.host _ (Examples.world ∅)
           (Examples.workbook ∅) ∅ eq_refl eq_refl).
  - intros e He _.
    apply elem_of_cons in He as [->|He]; [done|].
    apply list_elem_of_singleton in He as ->. done.
  - apply (bool_decide_unpack _). vm_compute. exact I.
  - vm_compute. lia.
Defined.

(** ** Recurring transactions *)

Section RecurringFacts.
Variable H : Host.

Lemma recurringValues_run item w cats :
  categoriesKnown H w cats ->
  is_Some (recurringCategory cats (rec_category item)) ->
  recurringValues H item w
  = (Normal (recurringRow H cats (clock w) item),
     if String.eqb (rec_category item) incomeCategory then w else loaded cats w).
Proof.
  intros K [z Z]. unfold recurringValues, recurringRow. unfold bind at 1. unfold now at 1.
  unfold recurringCategory in *.
  destruct (String.eqb (rec_category item) incomeCategory) eqn:E.
  - injection Z as <-. reflexivity.
  - unfold bind at 1. rewrite (getZategoryFromCache_run H w cats _ z K Z).
    rewrite Z. reflexivity.
Qed.

Lemma recurringLoop_run cats xs : forall p w,
  categoriesKnown H w cats ->
  (forall e, e ∈ xs -> skippedRecurring H (rec_amount e) = false ->
             is_Some (recurringCategory cats (rec_category e))) ->
  exists w', forOf (recurringStep H) xs p w
             = (Normal (recurringPlanOf H cats (clock w) xs p), w')
    /\ (w' = w \/ w' = loaded cats w).
Proof.
  induction xs as [|x xs IH]; intros p w K Hc; [exists w; by split; [|left]|].
  cbn [forOf]. unfold recurringPlanOf. cbn [foldl]. unfold bind at 1.
  unfold recurringStep at 1.
  destruct (skippedRecurring H (rec_amount x)) eqn:R.
  - unfold ret at 1. apply IH; [done|]. intros e He. apply Hc. by right.
  - unfold bind at 1. rewrite (recurringValues_run x w cats K); [|apply Hc; [by left|done]].
    unfold ret at 1.
    destruct (String.eqb (rec_category x) incomeCategory).
    + apply IH; [done|]. intros e He. apply Hc. by right.
    + pose proof (categoriesKnown_loaded H w cats K) as SC.
      destruct (IH (placeRecurring H (rec_id x) (recurringRow H cats (clock w) x) p)
                  (loaded cats w)) as (w' & E & W).
      * by apply categoriesKnown_cached.
      * intros e He. apply Hc. by right.
      * exists w'. rewrite clock_loaded in E. split; [exact E|].
        right. destruct W as [->| ->]; [done|].
        by rewrite (loaded_cached (loaded cats w) cats cats SC).
Qed.

Lemma writeChangedRows_run sheet rows idxs w :
  writeChangedRows sheet rows (RowNum <$> idxs) w
  = (Normal tt,
     with_book w (alter (fun sh => foldl (fun s i =>
         Sheet.setRowValues s (i + 6) 3 (default [] (rows !! i))) sh idxs) sheet <$> book w)).
Proof.
  unfold writeChangedRows.
  rewrite <- (forOf_updateSheet sheet
               (fun i sh => Sheet.setRowValues sh (i + 6) 3 (default [] (rows !! i))) idxs w).
  generalize tt. revert w. induction idxs as [|i idxs IH]; intros w u; [done|].
  cbn [fmap list_fmap forOf]. unfold bind. 
  destruct (updateSheet sheet _ w) as [[[]|e] w1]; [|done]. apply IH.
Qed.


Lemma lookupSheet_loaded_or w w' cats name :
  name <> "Dontedit" -> w' = w \/ w' = loaded cats w ->
  lookupSheet w' name = lookupSheet w name.
Proof. intros N [->| ->]; [done|]. by apply lookupSheet_loaded. Qed.

Lemma saveRecurringTransaction_run xs w sh cats idxs :
  lookupSheet w "Recurring" = Some sh ->
  categoriesKnown H w cats ->
  (forall e, e ∈ xs -> skippedRecurring H (rec_amount e) = false ->
             is_Some (recurringCategory cats (rec_category e))) ->
  updatedRows (recurringPlanOf H cats (clock w) xs (recurringStart H sh)) = RowNum <$> idxs ->
  exists w',
    saveRecurringTransaction H xs w
    = (Normal (RecurringSaved
         (updateCount (recurringPlanOf H cats (clock w) xs (recurringStart H sh)))
         (insertCount (recurringPlanOf H cats (clock w) xs (recurringStart H sh)))
         (updateCount (recurringPlanOf H cats (clock w) xs (recurringStart H sh))
          + insertCount (recurringPlanOf H cats (clock w) xs (recurringStart H sh)))
         (length idxs)), w')
    /\ lookupSheet w' "Recurring"
       = Some (foldl (fun s i => Sheet.setRowValues s (i + 6) 3
                 (default [] (rowsToUpdate
                    (recurringPlanOf H cats (clock w) xs (recurringStart H sh)) !! i)))
               sh idxs).
Proof.
  intros L K Hc U.
  destruct (book_of_lookupSheet w "Recurring" sh L) as (ss & B & S).
  destruct (recurringLoop_run cats xs (recurringStart H sh) w K Hc) as (w1 & E & W).
  set (p := recurringPlanOf H cats (clock w) xs (recurringStart H sh)) in *.
  eexists. split.
  - unfold saveRecurringTransaction. apply tryCatch_normal.
    rewrite (bind_normal _ _ w _ _ (getBudgetSheet_found "Recurring" w ss sh B S)).
    rewrite (bind_normal _ _ w _ _ (readSheet_run w ss "Recurring" sh B S)).
    change (recurringStart H sh) with
      (let scanned := scanRecurring H 0 (Sheet.getValues sh 6 3 495 12) (∅, []) in
       {| rp_idMap := fst scanned; rp_holes := snd scanned;
          rowsToUpdate := Sheet.getValues sh 6 3 495 12;
          updatedRows := []; insertCount := 0; updateCount := 0 |}) in E.
    cbv zeta in E.
    destruct (scanRecurring H 0 (Sheet.getValues sh 6 3 495 12) (∅, [])) as [idMap holes].
    cbn [fst snd] in E.
    rewrite (bind_normal _ _ w _ _ E).
    rewrite U. unfold bind at 1. rewrite writeChangedRows_run.
    unfold bind at 1. rewrite updateDataTimestamp_run.
    unfold bind at 1. rewrite updateDataTimestamp_run.
    unfold ret. rewrite length_fmap. reflexivity.
  - rewrite !lookupSheet_stamped by done.
    refine (lookupSheet_updated w1 "Recurring"
              (fun sh => foldl (fun s i => Sheet.setRowValues s (i + 6) 3
                                   (default [] (rowsToUpdate p !! i))) sh idxs) sh _).
    rewrite (lookupSheet_loaded_or w w1 cats) by done. exact L.
Qed.


(** *** The scan of the existing rows *)

Lemma scanRecurring_app xs ys : forall idx acc,
  scanRecurring H idx (xs ++ ys) acc
  = scanRecurring H (idx + length xs) ys (scanRecurring H idx xs acc).
Proof.
  induction xs as [|x xs IH]; intros idx acc; cbn [app scanRecurring length].
  - by rewrite Nat.add_0_r.
  - rewrite IH. f_equal. lia.
Qed.

Lemma scanRecurring_no_holes xs : forall idx acc,
  Forall (fun row => hasId H (default blank (head row)) = true) xs ->
  snd (scanRecurring H idx xs acc) = snd acc.
Proof.
  induction xs as [|x xs IH]; intros idx acc F; [done|].
  apply Forall_cons_1 in F as [Fx F]. cbn [scanRecurring]. rewrite Fx. by rewrite IH.
Qed.

Lemma scanRecurring_holes_prefix xs : forall idx acc,
  exists t, snd (scanRecurring H idx xs acc) = (snd acc ++ t)%list.
Proof.
  induction xs as [|x xs IH]; intros idx acc.
  - exists []. by rewrite app_nil_r.
  - cbn [scanRecurring]. destruct (hasId H _).
    + apply (IH (S idx) (_, acc.2)).
    + destruct (IH (S idx) (acc.1, (acc.2 ++ [idx])%list)) as [t E].
      exists (idx :: t). rewrite E. cbn [snd]. by rewrite <- app_assoc.
Qed.

Lemma scanRecurring_absent xs k : forall idx acc,
  inherited k = false ->
  Forall (fun row => hasId H (default blank (head row)) = true ->
                     cellToString H (default blank (head row)) <> k) xs ->
  fst (scanRecurring H idx xs acc) !! k = fst acc !! k.
Proof.
  induction xs as [|x xs IH]; intros idx acc I F; [done|].
  apply Forall_cons_1 in F as [Fx F]. cbn [scanRecurring].
  destruct (hasId H (default blank (head x))) eqn:HI.
  - rewrite IH by done. cbn [fst]. unfold setProperty.
    destruct (String.eqb _ "__proto__"); [done|].
    rewrite lookup_insert_ne; [done|]. by apply Fx.
  - by rewrite IH.
Qed.

Lemma existingData_lookup (sh : gmap (nat * nat) Cell) i :
  i < 495 ->
  Sheet.getValues sh 6 3 495 12 !! i = Some (Sheet.getRowValues sh (6 + i) 3 12).
Proof.
  intros Hi. unfold Sheet.getValues. by rewrite list_lookup_fmap, lookup_seq_lt.
Qed.

Lemma existingData_length (sh : gmap (nat * nat) Cell) :
  length (Sheet.getValues sh 6 3 495 12) = 495.
Proof. unfold Sheet.getValues. by rewrite length_fmap, length_seq. Qed.

Lemma head_getRowValues (sh : gmap (nat * nat) Cell) r :
  default blank (head (Sheet.getRowValues sh r 3 12)) = Sheet.getValue sh r 3.
Proof. reflexivity. Qed.

Lemma existingData_Forall (sh : gmap (nat * nat) Cell) (P : Cell -> Prop) (n : nat) :
  n <= 495 ->
  (forall i, i < n -> P (Sheet.getValue sh (6 + i) 3)) ->
  Forall (fun row => P (default blank (head row))) (take n (Sheet.getValues sh 6 3 495 12)).
Proof.
  intros Hn HP. apply Forall_lookup. intros i row E.
  apply lookup_take_Some in E as [E Hi].
  rewrite existingData_lookup in E by lia. injection E as <-.
  rewrite head_getRowValues. by apply HP.
Qed.

Lemma recurringStart_absent sh k :
  inherited k = false ->
  (forall i, i < 495 -> hasId H (Sheet.getValue sh (6 + i) 3) = true ->
             cellToString H (Sheet.getValue sh (6 + i) 3) <> k) ->
  rp_idMap (recurringStart H sh) !! k = None.
Proof.
  intros I A. unfold recurringStart. cbn [rp_idMap].
  rewrite scanRecurring_absent; [done|done|].
  rewrite <- (take_ge (Sheet.getValues sh 6 3 495 12) 495)
    by (rewrite existingData_length; lia).
  by apply (existingData_Forall sh
              (fun c => hasId H c = true -> cellToString H c <> k) 495).
Qed.

Lemma existingData_drop_Forall (sh : gmap (nat * nat) Cell) (P : Cell -> Prop) (n : nat) :
  (forall i, n <= i < 495 -> P (Sheet.getValue sh (6 + i) 3)) ->
  Forall (fun row => P (default blank (head row))) (drop n (Sheet.getValues sh 6 3 495 12)).
Proof.
  intros HP. apply Forall_lookup. intros i row E.
  rewrite lookup_drop in E.
  pose proof (lookup_lt_Some _ _ _ E) as Hi. rewrite existingData_length in Hi.
  rewrite existingData_lookup in E by lia. injection E as <-.
  rewrite head_getRowValues. apply HP. lia.
Qed.

Lemma recurringStart_present sh k i :
  inherited k = false ->
  i < 495 ->
  hasId H (Sheet.getValue sh (6 + i) 3) = true ->
  cellToString H (Sheet.getValue sh (6 + i) 3) = k ->
  (forall j, i < j < 495 -> hasId H (Sheet.getValue sh (6 + j) 3) = true ->
             cellToString H (Sheet.getValue sh (6 + j) 3) <> k) ->
  rp_idMap (recurringStart H sh) !! k = Some i.
Proof.
  intros I Hi Id Ek Later. unfold recurringStart. cbn [rp_idMap].
  rewrite <- (take_drop_middle (Sheet.getValues sh 6 3 495 12) i
                (Sheet.getRowValues sh (6 + i) 3 12)) by (by apply existingData_lookup).
  rewrite scanRecurring_app. cbn [scanRecurring].
  rewrite head_getRowValues, Id, Ek.
  rewrite length_take, existingData_length.
  replace (0 + i `min` 495) with i by lia.
  rewrite scanRecurring_absent; [|done|].
  - cbn [fst]. rewrite setProperty_plain by done. apply lookup_insert_eq.
  - apply (existingData_drop_Forall sh
             (fun c => hasId H c = true -> cellToString H c <> k) (S i)).
    intros j Hj. apply Later. lia.
Qed.

Lemma recurringStart_full sh :
  (forall i, i < 495 -> hasId H (Sheet.getValue sh (6 + i) 3) = true) ->
  rp_holes (recurringStart H sh) = [].
Proof.
  intros A. unfold recurringStart. cbn [rp_holes].
  rewrite scanRecurring_no_holes; [done|].
  rewrite <- (take_ge (Sheet.getValues sh 6 3 495 12) 495)
    by (rewrite existingData_length; lia).
  by apply (existingData_Forall sh (fun c => hasId H c = true) 495).
Qed.

Lemma recurringStart_first_hole sh h :
  h < 495 ->
  hasId H (Sheet.getValue sh (6 + h) 3) = false ->
  (forall i, i < h -> hasId H (Sheet.getValue sh (6 + i) 3) = true) ->
  exists rest, rp_holes (recurringStart H sh) = h :: rest.
Proof.
  intros Hh Free Used. unfold recurringStart. cbn [rp_holes].
  rewrite <- (take_drop_middle (Sheet.getValues sh 6 3 495 12) h
                (Sheet.getRowValues sh (6 + h) 3 12)) by (by apply existingData_lookup).
  rewrite scanRecurring_app. cbn [scanRecurring].
  rewrite head_getRowValues, Free.
  rewrite length_take, existingData_length.
  replace (0 + h `min` 495) with h by lia.
  destruct (scanRecurring_holes_prefix (drop (S h) (Sheet.getValues sh 6 3 495 12)) (S h)
              ((scanRecurring H 0 (take h (Sheet.getValues sh 6 3 495 12)) (∅, [])).1,
               ((scanRecurring H 0 (take h (Sheet.getValues sh 6 3 495 12)) (∅, [])).2
                ++ [h])%list)) as [t E].
  rewrite E. cbn [snd]. rewrite scanRecurring_no_holes.
  - exists t. reflexivity.
  - apply (existingData_Forall sh (fun c => hasId H c = true) h); [lia|done].
Qed.


Lemma setAdd_nil x : setAdd x [] = [x].
Proof. unfold setAdd. rewrite bool_decide_eq_false_2; [done|]. apply not_elem_of_nil. Qed.

Lemma setAdd_same x : setAdd x [x] = [x].
Proof. unfold setAdd. rewrite bool_decide_eq_true_2; [done|]. by left. Qed.

Lemma placeRecurring_new id values p h rest :
  inherited id = false -> rp_idMap p !! id = None -> rp_holes p = h :: rest ->
  placeRecurring H id values p
  = {| rp_idMap := <[id := h]> (rp_idMap p); rp_holes := rest;
       rowsToUpdate := <[h := values]> (rowsToUpdate p);
       updatedRows := setAdd (RowNum h) (updatedRows p);
       insertCount := S (insertCount p); updateCount := updateCount p |}.
Proof.
  intros I N Hh. unfold placeRecurring.
  rewrite getProperty_plain, N, Hh by done. cbn [fmap option_fmap option_map].
  by rewrite setProperty_plain.
Qed.

Lemma placeRecurring_known id values p i :
  inherited id = false -> rp_idMap p !! id = Some i ->
  placeRecurring H id values p
  = {| rp_idMap := rp_idMap p; rp_holes := rp_holes p;
       rowsToUpdate := <[i := values]> (rowsToUpdate p);
       updatedRows := setAdd (RowNum i) (updatedRows p);
       insertCount := insertCount p; updateCount := S (updateCount p) |}.
Proof.
  intros I S. unfold placeRecurring. by rewrite getProperty_plain, S.
Qed.

Lemma recurringPlanOf_cons cats today x xs p :
  recurringPlanOf H cats today (x :: xs) p
  = recurringPlanOf H cats today xs
      (if skippedRecurring H (rec_amount x) then p
       else placeRecurring H (rec_id x) (recurringRow H cats today x) p).
Proof. reflexivity. Qed.

Lemma length_recurringRow cats today item : length (recurringRow H cats today item) = 12.
Proof. reflexivity. Qed.

(** X11.  Two records of one batch with the same identifier, which no row of
    the sheet holds, end up in one row.  The first is inserted in the first
    row of C6:C500 without identifier; the second is counted as an update
    and overwrites it.  Records without identifier fall under this, as
    they share the key of the empty string.  The result reports one
    update, one insert and one modified row, and no other row changes. *)
Theorem saveRecurringTransaction_same_new_id_keeps_later a b w sh cats h :
  lookupSheet w "Recurring" = Some sh ->
  categoriesKnown H w cats ->
  skippedRecurring H (rec_amount a) = false ->
  skippedRecurring H (rec_amount b) = false ->
  is_Some (recurringCategory cats (rec_category a)) ->
  is_Some (recurringCategory cats (rec_category b)) ->
  rec_id b = rec_id a ->
  inherited (rec_id a) = false ->
  (forall i, i < 495 -> hasId H (Sheet.getValue sh (6 + i) 3) = true ->
             cellToString H (Sheet.getValue sh (6 + i) 3) <> rec_id a) ->
  h < 495 ->
  hasId H (Sheet.getValue sh (6 + h) 3) = false ->
  (forall i, i < h -> hasId H (Sheet.getValue sh (6 + i) 3) = true) ->
  exists w' sh',
    saveRecurringTransaction H [a; b] w = (Normal (RecurringSaved 1 1 2 1), w')
    /\ lookupSheet w' "Recurring" = Some sh'
    /\ Sheet.getRowValues sh' (6 + h) 3 12 = recurringRow H cats (clock w) b
    /\ forall r c, r <> 6 + h -> Sheet.getValue sh' r c = Sheet.getValue sh r c.
Proof.
  intros L K Sa Sb Ca Cb Eid I Absent Hh Free Used.
  destruct (recurringStart_first_hole sh h Hh Free Used) as [rest Holes].
  pose proof (recurringStart_absent sh (rec_id a) I Absent) as N.
  assert (P : recurringPlanOf H cats (clock w) [a; b] (recurringStart H sh)
              = {| rp_idMap := <[rec_id a := h]> (rp_idMap (recurringStart H sh));
                   rp_holes := rest;
                   rowsToUpdate := <[h := recurringRow H cats (clock w) b]>
                     (<[h := recurringRow H cats (clock w) a]>
                        (rowsToUpdate (recurringStart H sh)));
                   updatedRows := [RowNum h];
                   insertCount := 1; updateCount := 1 |}).
  { unfold recurringPlanOf. cbn [foldl]. rewrite Sa, Sb.
    rewrite (placeRecurring_new _ _ _ h rest I N Holes).
    rewrite (placeRecurring_known _ _ _ h); [|by rewrite Eid|cbn [rp_idMap]; rewrite Eid; apply lookup_insert_eq].
    cbn [rp_idMap rp_holes rowsToUpdate updatedRows insertCount updateCount].
    change (updatedRows (recurringStart H sh)) with (@nil RowRef).
    change (insertCount (recurringStart H sh)) with 0.
    change (updateCount (recurringStart H sh)) with 0.
    rewrite setAdd_nil, setAdd_same. reflexivity. }
  destruct (saveRecurringTransaction_run [a; b] w sh cats [h] L K) as (w' & R & S).
  { intros e He Se. apply elem_of_cons in He as [->|He]; [done|].
    by apply list_elem_of_singleton in He as ->. }
  { by rewrite P. }
  rewrite P in R, S. cbn [updateCount insertCount rowsToUpdate length foldl] in R, S.
  rewrite list_lookup_insert_eq in S
    by (rewrite length_insert; unfold recurringStart; cbn [rowsToUpdate];
        rewrite existingData_length; lia).
  cbn [default] in S.
  eexists w', _. split; [exact R|]. split; [exact S|]. split.
  - replace (h + 6) with (6 + h) by lia.
    exact (getRowValues_setRowValues sh (6 + h) 3 (recurringRow H cats (clock w) b)).
  - intros r c Hr. rewrite getValue_setRowValues, decide_False by lia. done.
Qed.

(** X12.  When every row of C6:C500 holds an identifier, records with new
    identifiers are written nowhere: the Recurring sheet is unchanged and
    no row is reported as modified, yet each accepted record is counted
    as inserted and the call reports success. *)
Theorem saveRecurringTransaction_full_table recurring w sh cats :
  lookupSheet w "Recurring" = Some sh ->
  categoriesKnown H w cats ->
  (forall e, e ∈ recurring -> skippedRecurring H (rec_amount e) = false ->
             is_Some (recurringCategory cats (rec_category e))
             /\ inherited (rec_id e) = false
             /\ forall i, i < 495 -> cellToString H (Sheet.getValue sh (6 + i) 3) <> rec_id e) ->
  (forall i, i < 495 -> hasId H (Sheet.getValue sh (6 + i) 3) = true) ->
  let n := length (filter (fun e => skippedRecurring H (rec_amount e) = false) recurring) in
  exists w',
    saveRecurringTransaction H recurring w = (Normal (RecurringSaved 0 n n 0), w')
    /\ lookupSheet w' "Recurring" = Some sh.
Proof.
  intros L K Hc Full n.
  assert (Find : findInsertIndex H (recurringStart H sh) = None).
  { unfold findInsertIndex. 
    destruct (list_find _ _) as [[i' [i row]]|] eqn:F; [|done].
    apply list_find_Some in F as (E & [NoId _] & _).
    apply list_lookup_imap_Some in E as (row' & E & [= <- <-]).
    unfold recurringStart in E. cbn [rowsToUpdate] in E.
    pose proof (lookup_lt_Some _ _ _ E) as Hi. rewrite existingData_length in Hi.
    rewrite existingData_lookup in E by done. injection E as <-.
    cbn [snd] in NoId. rewrite head_getRowValues in NoId.
    pose proof (Full i Hi) as Id. cbn [Nat.add] in Id. congruence. }
  assert (P : forall xs p,
            (forall e, e ∈ xs -> e ∈ recurring) ->
            rp_idMap p = rp_idMap (recurringStart H sh) ->
            rp_holes p = [] -> rowsToUpdate p = rowsToUpdate (recurringStart H sh) ->
            updatedRows p = [] ->
            updatedRows (recurringPlanOf H cats (clock w) xs p) = []
            /\ updateCount (recurringPlanOf H cats (clock w) xs p) = updateCount p
            /\ insertCount (recurringPlanOf H cats (clock w) xs p)
               = insertCount p
                 + length (filter (fun e => skippedRecurring H (rec_amount e) = false) xs)).
  { induction xs as [|x xs IH]; intros p Sub Em Eh Er Eu.
    - split; [done|]. split; [done|]. cbn [recurringPlanOf foldl]. 
      rewrite filter_nil. cbn [length]. lia.
    - rewrite recurringPlanOf_cons, filter_cons.
      destruct (decide (skippedRecurring H (rec_amount x) = false)) as [Sx|Sx].
      + rewrite Sx.
        destruct (Hc x (Sub x ltac:(by left)) Sx) as (_ & I & A).
        assert (Pl : placeRecurring H (rec_id x) (recurringRow H cats (clock w) x) p
                     = {| rp_idMap := rp_idMap p; rp_holes := [];
                          rowsToUpdate := rowsToUpdate p; updatedRows := updatedRows p;
                          insertCount := S (insertCount p); updateCount := updateCount p |}).
        { unfold placeRecurring. rewrite getProperty_plain by done.
          rewrite Em, (recurringStart_absent sh (rec_id x) I) by (intros i Hi _; by apply A).
          cbn [fmap option_fmap option_map]. rewrite Eh.
          replace (findInsertIndex H p) with (findInsertIndex H (recurringStart H sh));
            [by rewrite Find|].
          unfold findInsertIndex. by rewrite Er, Eu. }
        rewrite Pl.
        destruct (IH {| rp_idMap := rp_idMap p; rp_holes := [];
                        rowsToUpdate := rowsToUpdate p; updatedRows := updatedRows p;
                        insertCount := S (insertCount p); updateCount := updateCount p |}
                    (fun e He => Sub e (list_elem_of_further e x xs He)) Em eq_refl Er Eu)
          as (Q1 & Q2 & Q3).
        split; [exact Q1|]. split; [exact Q2|].
        rewrite Q3. cbn [insertCount length]. lia.
      + destruct (skippedRecurring H (rec_amount x)); [|exfalso; exact (Sx eq_refl)].
        exact (IH p (fun e He => Sub e (list_elem_of_further e x xs He)) Em Eh Er Eu). }
  destruct (P recurring (recurringStart H sh) (fun e He => He) eq_refl
              (recurringStart_full sh Full) eq_refl eq_refl) as (Q1 & Q2 & Q3).
  destruct (saveRecurringTransaction_run recurring w sh cats [] L K) as (w' & R & S).
  { intros e He Se. by destruct (Hc e He Se). }
  { by rewrite Q1. }
  rewrite Q2, Q3 in R. exists w'. split; [exact R|exact S].
Qed.


(** X13.  A record whose identifier is in the sheet is written over the
    last row of C6:C500 that holds it: that row takes the twelve values
    of the record, every other row keeps its cells, and the result
    reports one update and one modified row. *)
Theorem saveRecurringTransaction_updates_last_holder a w sh cats i :
  lookupSheet w "Recurring" = Some sh ->
  categoriesKnown H w cats ->
  skippedRecurring H (rec_amount a) = false ->
  is_Some (recurringCategory cats (rec_category a)) ->
  inherited (rec_id a) = false ->
  i < 495 ->
  hasId H (Sheet.getValue sh (6 + i) 3) = true ->
  cellToString H (Sheet.getValue sh (6 + i) 3) = rec_id a ->
  (forall j, i < j < 495 -> hasId H (Sheet.getValue sh (6 + j) 3) = true ->
             cellToString H (Sheet.getValue sh (6 + j) 3) <> rec_id a) ->
  exists w' sh',
    saveRecurringTransaction H [a] w = (Normal (RecurringSaved 1 0 1 1), w')
    /\ lookupSheet w' "Recurring" = Some sh'
    /\ Sheet.getRowValues sh' (6 + i) 3 12 = recurringRow H cats (clock w) a
    /\ forall r c, r <> 6 + i -> Sheet.getValue sh' r c = Sheet.getValue sh r c.
Proof.
  intros L K Sa Ca I Hi Id Ek Later.
  pose proof (recurringStart_present sh (rec_id a) i I Hi Id Ek Later) as S.
  assert (P : recurringPlanOf H cats (clock w) [a] (recurringStart H sh)
              = {| rp_idMap := rp_idMap (recurringStart H sh);
                   rp_holes := rp_holes (recurringStart H sh);
                   rowsToUpdate := <[i := recurringRow H cats (clock w) a]>
                                     (rowsToUpdate (recurringStart H sh));
                   updatedRows := [RowNum i];
                   insertCount := 0; updateCount := 1 |}).
  { unfold recurringPlanOf. cbn [foldl]. rewrite Sa.
    rewrite (placeRecurring_known (rec_id a) (recurringRow H cats (clock w) a)
               (recurringStart H sh) i I S).
    change (updatedRows (recurringStart H sh)) with (@nil RowRef).
    rewrite setAdd_nil. reflexivity. }
  destruct (saveRecurringTransaction_run [a] w sh cats [i] L K) as (w' & R & S').
  { intros e He Se. by apply list_elem_of_singleton in He as ->. }
  { by rewrite P. }
  rewrite P in R, S'. cbn [updateCount insertCount rowsToUpdate length foldl] in R, S'.
  rewrite list_lookup_insert_eq in S'
    by (unfold recurringStart; cbn [rowsToUpdate]; rewrite existingData_length; lia).
  cbn [default] in S'.
  eexists w', _. split; [exact R|]. split; [exact S'|]. split.
  - replace (i + 6) with (6 + i) by lia.
    exact (getRowValues_setRowValues sh (6 + i) 3 (recurringRow H cats (clock w) a)).
  - intros r c Hr. rewrite getValue_setRowValues, decide_False by lia. done.
Qed.

End RecurringFacts.

Lemma known_example (recurring : gmap (nat * nat) Cell) :
  categoriesKnown RefHost.host (MoreExamples.recurringWorld recurring) Examples.categories.
Proof.
  exists Examples.dontedit, (take 1 Examples.categories). split; vm_compute; reflexivity.
Qed.

Lemma saveRecurringTransaction_same_new_id_keeps_later_witness :
  exists w' sh',
    saveRecurringTransaction RefHost.host
      [MoreExamples.recurringItem "" "Gym" "Food" (VNum (Fin 30));
       MoreExamples.recurringItem "" "Flat" "Rent" (VNum (Fin 900))]
      (MoreExamples.recurringWorld MoreExamples.recurringSheet)
    = (Normal (RecurringSaved 1 1 2 1), w')
    /\ lookupSheet w' "Recurring" = Some sh'
    /\ Sheet.getRowValues sh' 7 3 12
       = [CStr "REC-1751328000000"; CStr "1-Jul-2025"; CStr "Flat"; CStr "=zategory2";
          CStr "TRUE"; CStr "Yearly"; CNum (Fin 900); CStr "Bank"; CStr ""; CStr "";
          CStr ""; CStr ""].
Proof.
  destruct (saveRecurringTransaction_same_new_id_keeps_later RefHost.host
              (MoreExamples.recurringItem "" "Gym" "Food" (VNum (Fin 30)))
              (MoreExamples.recurringItem "" "Flat" "Rent" (VNum (Fin 900)))
              (MoreExamples.recurringWorld MoreExamples.recurringSheet)
              MoreExamples.recurringSheet Examples.categories 1)
    as (w' & sh' & R & L & V & _).
  - vm_compute. reflexivity.
  - apply known_example.
  - vm_compute. reflexivity.
  - vm_compute. reflexivity.
  - vm_compute. eauto.
  - vm_compute. eauto.
  - reflexivity.
  - reflexivity.
  - intros i Hi Id.
    destruct i as [|i]; [vm_compute; discriminate|].
    assert (E : Sheet.getValue MoreExamples.recurringSheet (6 + S i) 3 = blank).
    { unfold MoreExamples.recurringSheet.
      rewrite getValue_setRowValues, decide_False by lia. done. }
    rewrite E in Id. vm_compute in Id. discriminate.
  - lia.
  - vm_compute. reflexivity.
  - intros i Hi. assert (i = 0) as -> by lia. vm_compute. reflexivity.
  - exists w', sh'. split; [exact R|]. split; [exact L|].
    etrans; [exact V|]. vm_compute. reflexivity.
Defined.


Lemma fullRecurring_ids i :
  i < 495 ->
  hasId RefHost.host (Sheet.getValue MoreExamples.fullRecurring (6 + i) 3) = true
  /\ cellToString RefHost.host (Sheet.getValue MoreExamples.fullRecurring (6 + i) 3)
     <> "REC-new".
Proof.
  intros Hi.
  assert (Hall : Forall (fun i =>
            hasId RefHost.host (Sheet.getValue MoreExamples.fullRecurring (6 + i) 3) = true
            /\ cellToString RefHost.host (Sheet.getValue MoreExamples.fullRecurring (6 + i) 3)
               <> "REC-new") (seq 0 495)).
  { apply (bool_decide_unpack _). vm_compute. exact I. }
  exact (Forall_lookup_1 _ _ i (0 + i) Hall (lookup_seq_lt 0 495 i Hi)).
Qed.

Lemma saveRecurringTransaction_full_table_witness :
  exists w',
    saveRecurringTransaction RefHost.host
      [MoreExamples.recurringItem "REC-new" "Gym" "Food" (VNum (Fin 30))]
      (MoreExamples.recurringWorld MoreExamples.fullRecurring)
    = (Normal (RecurringSaved 0 1 1 0), w')
    /\ lookupSheet w' "Recurring" = Some MoreExamples.fullRecurring.
Proof.
  apply (saveRecurringTransaction_full_table RefHost.host
           [MoreExamples.recurringItem "REC-new" "Gym" "Food" (VNum (Fin 30))]
           (MoreExamples.recurringWorld MoreExamples.fullRecurring)
           MoreExamples.fullRecurring Examples.categories).
  - vm_compute. reflexivity.
  - apply known_example.
  - intros e He _. apply list_elem_of_singleton in He as ->.
    split; [vm_compute; eauto|]. split; [reflexivity|].
    intros i Hi. by apply fullRecurring_ids.
  - intros i Hi. by apply fullRecurring_ids.
Defined.

Lemma saveRecurringTransaction_updates_last_holder_witness :
  exists w' sh',
    saveRecurringTransaction RefHost.host
      [MoreExamples.recurringItem "REC-1" "Flat" "Rent" (VNum (Fin 900))]
      (MoreExamples.recurringWorld MoreExamples.recurringSheet)
    = (Normal (RecurringSaved 1 0 1 1), w')
    /\ lookupSheet w' "Recurring" = Some sh'
    /\ Sheet.getRowValues sh' 6 3 12
       = [CStr "REC-1"; CStr "1-Jul-2025"; CStr "Flat"; CStr "=zategory2";
          CStr "TRUE"; CStr "Yearly"; CNum (Fin 900); CStr "Bank"; CStr ""; CStr "";
          CStr ""; CStr ""].
Proof.
  destruct (saveRecurringTransaction_updates_last_holder RefHost.host
              (MoreExamples.recurringItem "REC-1" "Flat" "Rent" (VNum (Fin 900)))
              (MoreExamples.recurringWorld MoreExamples.recurringSheet)
              MoreExamples.recurringSheet Examples.categories 0)
    as (w' & sh' & R & L & V & _).
  - vm_compute. reflexivity.
  - apply known_example.
  - vm_compute. reflexivity.
  - vm_compute. eauto.
  - reflexivity.
  - lia.
  - vm_compute. reflexivity.
  - vm_compute. reflexivity.
  - intros j Hj Id.
    assert (E : Sheet.getValue MoreExamples.recurringSheet (6 + j) 3 = blank).
    { unfold MoreExamples.recurringSheet.
      rewrite getValue_setRowValues, decide_False by lia. done. }
    rewrite E in Id. vm_compute in Id. discriminate.
  - exists w', sh'. split; [exact R|]. split; [exact L|].
    etrans; [exact V|]. vm_compute. reflexivity.
Defined.

(** ** Categories *)

Section CategoryLoad.
Variable H : Host.

Lemma getCategoriesWithTimestamp_general w de :
  lookupSheet w "Dontedit" = Some de ->
  getCategoriesWithTimestamp H w
  = (Normal match buildCategories H 0 (assignIds (categoryRows de)) with
            | Normal (cats, actives) => CategoriesLoaded cats actives
            | Throw e => CategoriesFailed (toString e)
            end,
     with_book w (alter withCategoryIds "Dontedit" <$> book w)).
Proof.
  intros L. destruct (book_of_lookupSheet w "Dontedit" de L) as (ss & B & D).
  destruct (buildCategories H 0 (assignIds (categoryRows de))) as [[cats actives]|e] eqn:BC.
  - exact (getCategoriesWithTimestamp_run H w ss de cats actives B D BC).
  - unfold getCategoriesWithTimestamp.
    assert (E : (let* setupSheet := getBudgetSheet "Dontedit" in
                 match setupSheet with
                 | None => ret (CategoriesFailed "Dontedit sheet not found")
                 | Some setupSheet =>
                     let* sh := readSheet setupSheet in
                     categoriesFrom H setupSheet (categoryRows sh)
                 end) w
                = (Throw e, with_book w (alter withCategoryIds "Dontedit" <$> book w))).
    { rewrite (bind_normal _ _ w (Some "Dontedit") w
                 (getBudgetSheet_found "Dontedit" w ss de B D)).
      rewrite (bind_normal _ _ w de w (readSheet_run w ss "Dontedit" de B D)).
      unfold categoriesFrom.
      rewrite (bind_normal _ _ w tt _ (forOf_updateSheet "Dontedit" _ _ w)).
      rewrite BC. unfold throw. rewrite B. f_equal. f_equal.
      cbn [fmap option_fmap option_map]. f_equal.
      exact (withCategoryIds_alter ss de D). }
    rewrite (tryCatch_throw _ _ w e _ E). reflexivity.
Qed.

(** The cells of a sheet after the identifiers [ups] have been written. *)
Lemma getValue_idWrites (ups : list (nat * nat)) : forall (de : gmap (nat * nat) Cell) r c,
  Forall (fun u => u.1 = u.2 + 10) ups ->
  Sheet.getValue
    (foldl (fun s (u : nat * nat) =>
              Sheet.setValue s (fst u) 15 (CNum (Fin (inject_Z (Z.of_nat (snd u))))))
           de ups) r c
  = if bool_decide (c = 15 /\ r ∈ ups.*1)
    then CNum (Fin (inject_Z (Z.of_nat (r - 10))))
    else Sheet.getValue de r c.
Proof.
  induction ups as [|u ups IH]; intros de r c F.
  - cbn [foldl]. rewrite bool_decide_eq_false_2; [done|].
    intros [_ Hin]. by apply elem_of_nil in Hin.
  - apply Forall_cons_1 in F as [Fu F]. cbn [foldl]. rewrite IH by done.
    rewrite getValue_setValue. cbn [fmap list_fmap].
    destruct (decide (c = 15 /\ r ∈ ups.*1)) as [[-> Hin]|N].
    + rewrite !bool_decide_eq_true_2; [done| |done].
      split; [done|]. by right.
    + rewrite (bool_decide_eq_false_2 _ N).
      destruct (decide ((u.1, 15) = (r, c))) as [[= <- <-]|Ne].
      * rewrite bool_decide_eq_true_2 by (split; [done|by left]).
        do 3 f_equal. lia.
      * rewrite bool_decide_eq_false_2; [done|].
        intros [-> Hin]. apply elem_of_cons in Hin as [->|Hin]; [by apply Ne|].
        by apply N.
Qed.

Lemma idUpdates_rows values : Forall (fun u : nat * nat => u.1 = u.2 + 10) (idUpdates values).
Proof.
  apply Forall_lookup. intros k u Hu. apply list_elem_of_lookup_2 in Hu.
  unfold idUpdates in Hu.
  apply list_elem_of_omap in Hu as ([i row] & _ & E). cbn [fst snd] in E.
  destruct (needsId row); [|done]. by injection E as <-.
Qed.

Lemma elem_of_idUpdates values r :
  r ∈ (idUpdates values).*1
  <-> exists i row, values !! i = Some row /\ needsId row = true /\ r = i + 10.
Proof.
  unfold idUpdates. rewrite list_elem_of_fmap. split.
  - intros (u & -> & Hu). apply list_elem_of_omap in Hu as ([i row] & Hin & E).
    cbn [fst snd] in E. destruct (needsId row) eqn:N; [|done]. injection E as <-.
    apply elem_of_lookup_imap in Hin as (i' & row' & [= -> ->] & L).
    by exists i', row'.
  - intros (i & row & L & N & ->). exists (i + 10, i). split; [done|].
    apply list_elem_of_omap. exists (i, row). split.
    + apply elem_of_lookup_imap. by exists i, row.
    + cbn [fst snd]. by rewrite N.
Qed.

Lemma categoryRows_lookup (de : gmap (nat * nat) Cell) i :
  i < 30 -> categoryRows de !! i = Some (Sheet.getRowValues de (10 + i) 12 4).
Proof.
  intros Hi. unfold categoryRows, Sheet.getValues.
  by rewrite list_lookup_fmap, lookup_seq_lt.
Qed.

Lemma categoryRows_length (de : gmap (nat * nat) Cell) : length (categoryRows de) = 30.
Proof. unfold categoryRows, Sheet.getValues. by rewrite length_fmap, length_seq. Qed.

Lemma needsId_row (de : gmap (nat * nat) Cell) r :
  needsId (Sheet.getRowValues de r 12 4)
  = cell_truthy (Sheet.getValue de r 13) && is_blank (Sheet.getValue de r 15).
Proof. reflexivity. Qed.

(** What the first loop of getCategoriesWithTimestamp writes. *)
Lemma getValue_withCategoryIds (de : gmap (nat * nat) Cell) r c :
  Sheet.getValue (withCategoryIds de) r c
  = if bool_decide (c = 15 /\ 10 <= r < 40
                    /\ cell_truthy (Sheet.getValue de r 13) = true
                    /\ is_blank (Sheet.getValue de r 15) = true)
    then CNum (Fin (inject_Z (Z.of_nat (r - 10))))
    else Sheet.getValue de r c.
Proof.
  rewrite withCategoryIds_eq, getValue_idWrites by apply idUpdates_rows.
  apply (f_equal (fun b : bool => if b then _ else _)).
  apply bool_decide_ext. rewrite elem_of_idUpdates. split.
  - intros (-> & i & row & L & N & ->).
    pose proof (lookup_lt_Some _ _ _ L) as Hi. rewrite categoryRows_length in Hi.
    rewrite categoryRows_lookup in L by done. injection L as <-.
    rewrite needsId_row in N. apply andb_prop in N as [N1 N2].
    replace (i + 10) with (10 + i) by lia. split; [done|]. split; [lia|done].
  - intros (-> & Hr & N1 & N2). split; [done|].
    exists (r - 10), (Sheet.getRowValues de r 12 4). split; [|split; [|lia]].
    + rewrite categoryRows_lookup by lia. do 2 f_equal. lia.
    + rewrite needsId_row, N1, N2. done.
Qed.

Lemma assignIds_lookup values i row :
  values !! i = Some row ->
  assignIds values !! i
  = Some (if needsId row then <[3 := CNum (Fin (inject_Z (Z.of_nat i)))]> row else row).
Proof. intros L. unfold assignIds. by rewrite list_lookup_imap, L. Qed.

Lemma categoryRows_withCategoryIds (de : gmap (nat * nat) Cell) :
  categoryRows (withCategoryIds de) = assignIds (categoryRows de).
Proof.
  apply list_eq. intros i.
  destruct (decide (i < 30)) as [Hi|Hi].
  - rewrite categoryRows_lookup by done.
    rewrite (assignIds_lookup _ i _ (categoryRows_lookup de i Hi)).
    f_equal. rewrite needsId_row.
    apply list_eq. intros j.
    destruct (decide (j < 4)) as [Hj|Hj].
    + rewrite getRowValues_lookup by done. rewrite getValue_withCategoryIds.
      destruct (cell_truthy (Sheet.getValue de (10 + i) 13)) eqn:T;
        destruct (is_blank (Sheet.getValue de (10 + i) 15)) eqn:B; cbn [andb].
      * destruct (decide (j = 3)) as [->|Nj].
        -- rewrite bool_decide_eq_true_2 by (repeat split; lia).
           rewrite list_lookup_insert_eq by (rewrite getRowValues_length; lia).
           do 4 f_equal. lia.
        -- rewrite bool_decide_eq_false_2 by (intros [? _]; lia).
           rewrite list_lookup_insert_ne by done.
           by rewrite getRowValues_lookup.
      * rewrite bool_decide_eq_false_2 by (intros (_ & _ & _ & ?); done).
        by rewrite getRowValues_lookup.
      * rewrite bool_decide_eq_false_2 by (intros (_ & _ & ? & _); done).
        by rewrite getRowValues_lookup.
      * rewrite bool_decide_eq_false_2 by (intros (_ & _ & ? & _); done).
        by rewrite getRowValues_lookup.
    + rewrite !lookup_ge_None_2; [done| |].
      * destruct (_ && _); [rewrite length_insert|]; rewrite getRowValues_length; lia.
      * rewrite getRowValues_length. lia.
  - rewrite !lookup_ge_None_2; [done| |].
    + unfold assignIds. rewrite length_imap, categoryRows_length. lia.
    + rewrite categoryRows_length. lia.
Qed.

Lemma needsId_assigned row i :
  3 < length row ->
  needsId (if needsId row then <[3 := CNum (Fin (inject_Z (Z.of_nat i)))]> row else row)
  = false.
Proof.
  intros Hl. destruct (needsId row) eqn:N; [|done].
  unfold needsId. rewrite list_lookup_insert_eq by done.
  cbn [default is_blank]. apply andb_false_r.
Qed.

Lemma assignIds_settled values :
  Forall (fun row => needsId row = false) values ->
  assignIds values = values /\ idUpdates values = [].
Proof.
  intros F. split.
  - apply list_eq. intros i. destruct (values !! i) as [row|] eqn:L.
    + rewrite (assignIds_lookup _ _ _ L).
      by rewrite (Forall_lookup_1 _ _ _ _ F L).
    + unfold assignIds. by rewrite list_lookup_imap, L.
  - destruct (idUpdates values) as [|u us] eqn:E; [done|].
    assert (Hu : u.1 ∈ (idUpdates values).*1) by (rewrite E; by left).
    apply elem_of_idUpdates in Hu as (i & row & L & N & _).
    by rewrite (Forall_lookup_1 _ _ _ _ F L) in N.
Qed.

Lemma assignIds_categoryRows_settled (de : gmap (nat * nat) Cell) :
  Forall (fun row => needsId row = false) (assignIds (categoryRows de)).
Proof.
  apply Forall_lookup. intros i row L.
  pose proof (lookup_lt_Some _ _ _ L) as Hi.
  unfold assignIds in Hi. rewrite length_imap, categoryRows_length in Hi.
  rewrite (assignIds_lookup _ i _ (categoryRows_lookup de i Hi)) in L.
  assert (row = if needsId (Sheet.getRowValues de (10 + i) 12 4)
                then <[3 := CNum (Fin (inject_Z (Z.of_nat i)))]>
                       (Sheet.getRowValues de (10 + i) 12 4)
                else Sheet.getRowValues de (10 + i) 12 4) as -> by congruence.
  apply needsId_assigned. rewrite getRowValues_length. lia.
Qed.

Lemma withCategoryIds_idem (de : gmap (nat * nat) Cell) :
  withCategoryIds (withCategoryIds de) = withCategoryIds de.
Proof.
  rewrite (withCategoryIds_eq (withCategoryIds de)).
  rewrite categoryRows_withCategoryIds.
  destruct (assignIds_settled _ (assignIds_categoryRows_settled de)) as [_ ->].
  reflexivity.
Qed.

(** X14.  Loading the categories a second time returns what the first call
    returned and writes nothing.  The first call changes the Dontedit
    sheet only in column O of rows 10 to 39, and only where a named
    category had no identifier: that cell receives the index of the row
    in L10:O39.  An identifier that is there is never replaced. *)
Theorem getCategoriesWithTimestamp_twice w de :
  lookupSheet w "Dontedit" = Some de ->
  getCategoriesWithTimestamp H (snd (getCategoriesWithTimestamp H w))
  = getCategoriesWithTimestamp H w
  /\ exists de',
       lookupSheet (snd (getCategoriesWithTimestamp H w)) "Dontedit" = Some de'
       /\ forall r c,
            Sheet.getValue de' r c = Sheet.getValue de r c
            \/ (c = 15 /\ 10 <= r < 40
                /\ cell_truthy (Sheet.getValue de r 13) = true
                /\ is_blank (Sheet.getValue de r 15) = true
                /\ Sheet.getValue de' r c = CNum (Fin (inject_Z (Z.of_nat (r - 10))))).
Proof.
  intros L. rewrite (getCategoriesWithTimestamp_general w de L). cbn [snd].
  pose proof (lookupSheet_updated w "Dontedit" withCategoryIds de L) as L'.
  split.
  - rewrite (getCategoriesWithTimestamp_general _ _ L').
    rewrite categoryRows_withCategoryIds.
    destruct (assignIds_settled _ (assignIds_categoryRows_settled de)) as [-> _].
    f_equal. rewrite with_book_with_book. f_equal. cbn [book with_book].
    destruct (book_of_lookupSheet w "Dontedit" de L) as (ss & -> & D).
    cbn [fmap option_fmap option_map]. f_equal.
    apply alter_id. intros x Hx.
    rewrite lookup_alter_eq, D in Hx. cbn [fmap option_fmap option_map] in Hx. injection Hx as <-.
    apply withCategoryIds_idem.
  - exists (withCategoryIds de). split; [exact L'|]. intros r c.
    rewrite getValue_withCategoryIds.
    destruct (decide (c = 15 /\ 10 <= r < 40
                      /\ cell_truthy (Sheet.getValue de r 13) = true
                      /\ is_blank (Sheet.getValue de r 15) = true)) as [Y|N].
    + right. rewrite bool_decide_eq_true_2 by done. tauto.
    + left. by rewrite bool_decide_eq_false_2.
Qed.


(** *** The category objects *)

Lemma buildCategories_cons i row rest :
  buildCategories H i (row :: rest)
  = let isActive := match default blank (row !! 0) with CBool true => true | _ => false end in
    let categoryString := default blank (row !! 1) in
    let order := default blank (row !! 2) in
    let categoryId := default blank (row !! 3) in
    if negb (cell_truthy categoryString) then buildCategories H (S i) rest
    else
      match categoryString with
      | CStr s =>
          let '(name, emoji) := parseCategoryNameAndEmoji H s in
          let categoryObj :=
            {| cat_id := if is_blank categoryId then CNum (Fin (inject_Z (Z.of_nat i)))
                         else categoryId;
               cat_name := name;
               cat_emoji := emoji;
               fullName := s;
               cat_active := isActive;
               cat_order := i;
               displayOrder := if cell_truthy order then order
                               else CNum (Fin (inject_Z (Z.of_nat (i + 1))));
               zategoryFormula := "=zategory" +:+ pretty (i + 1)%nat |} in
          match buildCategories H (S i) rest with
          | Normal (cats, actives) =>
              Normal (categoryObj :: cats,
                      if isActive then categoryObj :: actives else actives)
          | Throw e => Throw e
          end
      | _ => Throw {| ename := "TypeError";
                      emessage := "categoryString.trim is not a function" |}
      end.
Proof. reflexivity. Qed.

Lemma buildCategories_actives values : forall i cats actives,
  buildCategories H i values = Normal (cats, actives) ->
  actives = filter (fun cat => cat_active cat = true) cats.
Proof.
  induction values as [|row rest IH]; intros i cats actives E.
  - cbn [buildCategories] in E. by injection E as <- <-.
  - rewrite buildCategories_cons in E. cbv zeta in E.
    destruct (negb (cell_truthy (default blank (row !! 1)))); [by apply (IH (S i))|].
    destruct (default blank (row !! 1)) as [s| | |]; try discriminate.
    destruct (parseCategoryNameAndEmoji H s) as [name emoji].
    destruct (buildCategories H (S i) rest) as [[cats' actives']|e] eqn:R; [|discriminate].
    injection E as <- <-. rewrite filter_cons. cbn [cat_active].
    rewrite (IH (S i) cats' actives' R).
    destruct (default blank (row !! 0)) as [|?|[]|]; by cbn.
Qed.

Lemma buildCategories_order values : forall i cats actives cat,
  buildCategories H i values = Normal (cats, actives) ->
  cat ∈ cats -> i <= cat_order cat < i + length values.
Proof.
  induction values as [|row rest IH]; intros i cats actives cat E Hin.
  - cbn [buildCategories] in E. injection E as <- <-. by apply elem_of_nil in Hin.
  - rewrite buildCategories_cons in E. cbv zeta in E. cbn [length].
    destruct (negb (cell_truthy (default blank (row !! 1)))).
    { pose proof (IH (S i) cats actives cat E Hin). lia. }
    destruct (default blank (row !! 1)) as [s| | |]; try discriminate.
    destruct (parseCategoryNameAndEmoji H s) as [name emoji].
    destruct (buildCategories H (S i) rest) as [[cats' actives']|e] eqn:R; [|discriminate].
    injection E as <- <-. apply elem_of_cons in Hin as [->|Hin].
    + cbn [cat_order]. lia.
    + pose proof (IH (S i) cats' actives' cat R Hin). lia.
Qed.

Lemma setActive_other order active cat : cat_order cat <> order -> setActive order active cat = cat.
Proof. intros N. unfold setActive. by rewrite (proj2 (Nat.eqb_neq _ _) N). Qed.

Lemma setActive_later values i k cats actives active :
  buildCategories H i values = Normal (cats, actives) ->
  k < i ->
  setActive k active <$> cats = cats.
Proof.
  intros E Hk. rewrite <- (list_fmap_id cats) at 2. apply list_fmap_ext.
  intros j cat L. apply setActive_other.
  pose proof (buildCategories_order values i cats actives cat E (list_elem_of_lookup_2 _ _ _ L)).
  cbn. lia.
Qed.

Lemma buildCategories_setActive pre : forall i row post active cats actives,
  (0 < length row) ->
  buildCategories H i (pre ++ row :: post) = Normal (cats, actives) ->
  exists actives',
    buildCategories H i (pre ++ <[0 := CBool active]> row :: post)
    = Normal (setActive (i + length pre) active <$> cats, actives').
Proof.
  induction pre as [|r pre IH]; intros i row post active cats actives Hl E.
  - cbn [app length] in *. rewrite buildCategories_cons in *. cbv zeta in *.
    rewrite (list_lookup_insert_ne row 0 1), (list_lookup_insert_ne row 0 2),
      (list_lookup_insert_ne row 0 3) by done.
    rewrite list_lookup_insert_eq by done.
    change (default blank (Some (CBool active))) with (CBool active).
    rewrite Nat.add_0_r.
    destruct (negb (cell_truthy (default blank (row !! 1)))).
    { rewrite E. eexists.
      by rewrite (setActive_later post (S i) i cats actives active E) by lia. }
    destruct (default blank (row !! 1)) as [s| | |]; try discriminate.
    destruct (parseCategoryNameAndEmoji H s) as [name emoji].
    destruct (buildCategories H (S i) post) as [[cats' actives']|e] eqn:R; [|discriminate].
    injection E as <- <-. cbn [fmap list_fmap].
    rewrite (setActive_later post (S i) i cats' actives' active R) by lia.
    unfold setActive at 1. cbn [cat_order]. rewrite Nat.eqb_refl.
    cbn [cat_id cat_name cat_emoji fullName displayOrder zategoryFormula].
    destruct active; eexists; reflexivity.
  - cbn [app length] in *. rewrite buildCategories_cons in *. cbv zeta in *.
    replace (i + S (length pre)) with (S i + length pre) by lia.
    destruct (negb (cell_truthy (default blank (r !! 1)))).
    { by apply (IH (S i) row post active cats actives). }
    destruct (default blank (r !! 1)) as [s| | |]; try discriminate.
    destruct (parseCategoryNameAndEmoji H s) as [name emoji].
    destruct (buildCategories H (S i) (pre ++ row :: post))
      as [[cats' actives']|e] eqn:R; [|discriminate].
    injection E as <- <-.
    destruct (IH (S i) row post active cats' actives' Hl R) as [actives'' E'].
    rewrite E'. eexists.
    cbn [fmap list_fmap]. rewrite setActive_other by (cbn; lia). reflexivity.
Qed.


Lemma categoryRows_flag (sh sh' : gmap (nat * nat) Cell) i v :
  i < 30 ->
  (forall r c, 12 <= c < 16 ->
     Sheet.getValue sh' r c
     = if decide ((r, c) = (10 + i, 12)) then v else Sheet.getValue sh r c) ->
  categoryRows sh'
  = (take i (categoryRows sh) ++ <[0 := v]> (Sheet.getRowValues sh (10 + i) 12 4)
      :: drop (S i) (categoryRows sh))%list.
Proof.
  intros Hi E.
  rewrite <- (insert_take_drop (categoryRows sh)) by (rewrite categoryRows_length; lia).
  apply list_eq. intros k.
  destruct (decide (k < 30)) as [Hk|Hk].
  2:{ rewrite !lookup_ge_None_2; [done| |];
      rewrite ?length_insert, categoryRows_length; lia. }
  rewrite categoryRows_lookup by done.
  destruct (decide (k = i)) as [->|Nk].
  - rewrite list_lookup_insert_eq by (rewrite categoryRows_length; lia). f_equal.
    apply list_eq. intros j. destruct (decide (j < 4)) as [Hj|Hj].
    2:{ rewrite !lookup_ge_None_2; [done| |];
        rewrite ?length_insert, getRowValues_length; lia. }
    rewrite getRowValues_lookup, E by lia.
    destruct j as [|j].
    + rewrite decide_True by done.
      by rewrite list_lookup_insert_eq by (rewrite getRowValues_length; lia).
    + rewrite decide_False by (intros [=]; lia).
      rewrite list_lookup_insert_ne by done. by rewrite getRowValues_lookup.
  - rewrite list_lookup_insert_ne by done. rewrite categoryRows_lookup by done.
    f_equal. apply getRowValues_ext. intros j Hj.
    rewrite E by lia. rewrite decide_False; [done|]. intros [=]; lia.
Qed.

Lemma updateCategoryStatus_found name active w de i :
  lookupSheet w "Dontedit" = Some de ->
  i < 30 ->
  cellIs name (Sheet.getValue de (10 + i) 13) = true ->
  (forall j, j < i -> cellIs name (Sheet.getValue de (10 + j) 13) = false) ->
  updateCategoryStatus H name active w
  = (Normal StatusOk,
     stamped H "categories"
       (with_book w (alter (fun s => Sheet.setValue s (i + 10) 12 (CBool active))
                           "Dontedit" <$> book w))).
Proof.
  intros L Hi Found First.
  destruct (book_of_lookupSheet w "Dontedit" de L) as (ss & B & D).
  unfold updateCategoryStatus. apply tryCatch_normal.
  rewrite (bind_normal _ _ w _ _ (getBudgetSheet_found "Dontedit" w ss de B D)).
  rewrite (bind_normal _ _ w _ _ (readSheet_run w ss "Dontedit" de B D)).
  assert (F : list_find (fun cell => cellIs name cell = true)
                (Sheet.getColumnValues de 10 13 30)
              = Some (i, Sheet.getValue de (10 + i) 13)).
  { apply list_find_Some. split; [by apply getColumnValues_lookup|]. split; [done|].
    intros j y Ly Hj. rewrite getColumnValues_lookup in Ly by lia.
    assert (y = Sheet.getValue de (10 + j) 13) as -> by congruence.
    rewrite First by done. done. }
  rewrite F. unfold bind at 1. unfold updateSheet at 1.
  unfold bind at 1. rewrite updateDataTimestamp_run. reflexivity.
Qed.

(** X15.  After updateCategoryStatus has set the flag of a category, the
    first row of M10:M39 whose cell is the given name, loading the
    categories gives the list of before with the active flag of that one
    category replaced, and the list of active categories is the active
    part of that list. *)
Theorem updateCategoryStatus_then_load name active w de i cats actives :
  lookupSheet w "Dontedit" = Some de ->
  i < 30 ->
  cellIs name (Sheet.getValue de (10 + i) 13) = true ->
  (forall j, j < i -> cellIs name (Sheet.getValue de (10 + j) 13) = false) ->
  fst (getCategoriesWithTimestamp H w) = Normal (CategoriesLoaded cats actives) ->
  exists w',
    updateCategoryStatus H name active w = (Normal StatusOk, w')
    /\ fst (getCategoriesWithTimestamp H w')
       = Normal (CategoriesLoaded (setActive i active <$> cats)
                   (filter (fun cat => cat_active cat = true)
                      (setActive i active <$> cats))).
Proof.
  intros L Hi Found First Load.
  eexists. split; [exact (updateCategoryStatus_found name active w de i L Hi Found First)|].
  rewrite (getCategoriesWithTimestamp_general w de L) in Load. cbn [fst] in Load.
  destruct (buildCategories H 0 (assignIds (categoryRows de)))
    as [[cats0 actives0]|e] eqn:BC; [|discriminate].
  injection Load as -> ->.
  pose proof (lookupSheet_updated w "Dontedit"
                (fun s => Sheet.setValue s (i + 10) 12 (CBool active)) de L) as L1.
  pose proof (dontedit_stamped H "categories" _ _ 11 10 L1 eq_refl) as L2.
  rewrite (getCategoriesWithTimestamp_general _ _ L2). cbn [fst].
  rewrite <- categoryRows_withCategoryIds in BC |- *.
  rewrite (categoryRows_flag (withCategoryIds de) _ i (CBool active) Hi).
  - rewrite <- (take_drop_middle (categoryRows (withCategoryIds de)) i
                  (Sheet.getRowValues (withCategoryIds de) (10 + i) 12 4)) in BC
      by (by apply categoryRows_lookup).
    assert (Hl : 0 < length (Sheet.getRowValues (withCategoryIds de) (10 + i) 12 4))
      by (rewrite getRowValues_length; lia).
    destruct (buildCategories_setActive _ 0 _ _ active cats actives Hl BC)
      as [actives' E].
    rewrite E. rewrite (buildCategories_actives _ _ _ _ E).
    rewrite length_take, categoryRows_length.
    replace (0 + i `min` 30) with i by lia. reflexivity.
  - intros r c Hc. rewrite !getValue_withCategoryIds.
    rewrite !getValue_setValue.
    rewrite !(decide_False (P := (11, 10) = _)) by (intros [=]; lia).
    rewrite !(decide_False (P := (i + 10, 12) = (r, 13))) by (intros [=]).
    rewrite !(decide_False (P := (i + 10, 12) = (r, 15))) by (intros [=]).
    destruct (decide (c = 15 /\ 10 <= r < 40
                      /\ cell_truthy (Sheet.getValue de r 13) = true
                      /\ is_blank (Sheet.getValue de r 15) = true)) as [Y|N].
    + rewrite !bool_decide_eq_true_2 by done.
      rewrite decide_False; [done|]. intros [=]. lia.
    + rewrite !bool_decide_eq_false_2 by done.
      destruct (decide ((i + 10, 12) = (r, c))) as [[= <- <-]|Ne].
      * by rewrite decide_True by (f_equal; lia).
      * rewrite decide_False; [done|]. intros [= -> ->]. apply Ne. f_equal. lia.
Qed.


Lemma buildCategories_find name values : forall i cats actives,
  buildCategories H i values = Normal (cats, actives) ->
  zategoryFormula <$>
    List.find (fun cat => String.eqb (fullName cat) name
                          || String.eqb (cat_name cat) name) cats
  = (fun found : nat * list Cell => "=zategory" +:+ pretty (i + found.1 + 1)) <$>
      list_find (fun row => namesCategory H name (default blank (row !! 1)) = true) values.
Proof.
  induction values as [|row rest IH]; intros i cats actives E.
  - cbn [buildCategories] in E. by injection E as <- <-.
  - rewrite buildCategories_cons in E. cbv zeta in E. cbn [list_find].
    destruct (default blank (row !! 1)) as [s|n|b|d] eqn:C.
    2,3,4: destruct (negb (cell_truthy _)); [|discriminate];
           rewrite decide_False by done;
           rewrite (IH (S i) cats actives E), <- option_fmap_compose;
           apply option_fmap_ext; intros [k r]; cbn; do 2 f_equal; lia.
    cbn [cell_truthy namesCategory] in *.
    destruct (str_truthy s) eqn:T; cbn [negb andb] in *.
    + destruct (parseCategoryNameAndEmoji H s) as [nm emoji] eqn:P.
      destruct (buildCategories H (S i) rest) as [[cats' actives']|e] eqn:R; [|discriminate].
      injection E as <- <-. cbn [List.find fullName cat_name fst].
      destruct (String.eqb s name || String.eqb nm name) eqn:M.
      * rewrite decide_True by done. cbn. by rewrite Nat.add_0_r.
      * rewrite decide_False by done.
        rewrite (IH (S i) cats' actives' R), <- option_fmap_compose.
        apply option_fmap_ext. intros [k r]. cbn. do 2 f_equal. lia.
    + rewrite decide_False by done.
      rewrite (IH (S i) cats actives E), <- option_fmap_compose.
      apply option_fmap_ext. intros [k r]. cbn. do 2 f_equal. lia.
Qed.

Lemma categoryColumn (de : gmap (nat * nat) Cell) :
  (fun row : list Cell => default blank (row !! 1)) <$> assignIds (categoryRows de)
  = Sheet.getColumnValues de 10 13 30.
Proof.
  rewrite <- categoryRows_withCategoryIds.
  apply list_eq. intros i. rewrite list_lookup_fmap.
  destruct (decide (i < 30)) as [Hi|Hi].
  - rewrite categoryRows_lookup, getColumnValues_lookup by done.
    cbn [fmap option_fmap option_map]. f_equal.
    rewrite (getRowValues_lookup _ _ 12 4 1) by lia. cbn [default].
    rewrite getValue_withCategoryIds, bool_decide_eq_false_2; [done|].
    intros [? _]. lia.
  - rewrite !lookup_ge_None_2; [done| |].
    + rewrite getColumnValues_length. lia.
    + rewrite categoryRows_length. lia.
Qed.

(** X16.  When the categories load and the cache is empty,
    getZategoryFromCache returns "=zategoryN" for the 1-based position N
    in M10:M39 of the first cell that names the category, by its full
    text or by its part before the emoji; when no cell does, it throws
    "Category not found". *)
Theorem getZategoryFromCache_by_position name w de cats actives :
  serverCategoriesCache w = None ->
  lookupSheet w "Dontedit" = Some de ->
  fst (getCategoriesWithTimestamp H w) = Normal (CategoriesLoaded cats actives) ->
  fst (getZategoryFromCache H name w)
  = match list_find (fun cell => namesCategory H name cell = true)
            (Sheet.getColumnValues de 10 13 30) with
    | Some (i, _) => Normal ("=zategory" +:+ pretty (i + 1))
    | None => Throw (Error ("Category not found: " +:+ name))
    end.
Proof.
  intros SC L Load.
  pose proof Load as Load'.
  rewrite (getCategoriesWithTimestamp_general w de L) in Load'. cbn [fst] in Load'.
  destruct (buildCategories H 0 (assignIds (categoryRows de)))
    as [[cats0 actives0]|e] eqn:BC; [|discriminate].
  injection Load' as -> ->.
  pose proof (buildCategories_find name _ 0 cats actives BC) as F.
  rewrite <- categoryColumn, list_find_fmap.
  unfold getZategoryFromCache. unfold bind at 1. rewrite SC.
  rewrite (bind_normal _ _ w _ _ (getCategoriesWithTimestamp_general w de L)).
  rewrite BC. unfold bind at 1. unfold setCache at 1. unfold ret at 1.
  destruct (List.find _ cats) as [cat|];
    destruct (list_find _ (assignIds (categoryRows de))) as [[k r]|] eqn:LF;
    cbn [fmap option_fmap option_map] in F; try discriminate.
  - injection F as F. cbn. by rewrite F.
  - reflexivity.
Qed.

End CategoryLoad.

Lemma getCategoriesWithTimestamp_twice_witness :
  getCategoriesWithTimestamp RefHost.host
    (snd (getCategoriesWithTimestamp RefHost.host (Examples.world ∅)))
  = getCategoriesWithTimestamp RefHost.host (Examples.world ∅).
Proof.
  assert (L : lookupSheet (Examples.world ∅) "Dontedit" = Some Examples.dontedit)
    by (vm_compute; reflexivity).
  exact (proj1 (getCategoriesWithTimestamp_twice RefHost.host (Examples.world ∅)
                  Examples.dontedit L)).
Defined.

Lemma updateCategoryStatus_then_load_witness :
  exists w',
    updateCategoryStatus RefHost.host "Rent" true (Examples.world ∅) = (Normal StatusOk, w')
    /\ fst (getCategoriesWithTimestamp RefHost.host w')
       = Normal (CategoriesLoaded
                   (setActive 1 true <$> Examples.categories)
                   (filter (fun cat => cat_active cat = true)
                      (setActive 1 true <$> Examples.categories))).
Proof.
  apply (updateCategoryStatus_then_load RefHost.host "Rent" true (Examples.world ∅)
           Examples.dontedit 1 Examples.categories (take 1 Examples.categories)).
  - vm_compute. reflexivity.
  - lia.
  - vm_compute. reflexivity.
  - intros j Hj. assert (j = 0) as -> by lia. vm_compute. reflexivity.
  - vm_compute. reflexivity.
Defined.

Lemma getZategoryFromCache_by_position_witness :
  fst (getZategoryFromCache RefHost.host "Rent" (Examples.world ∅)) = Normal "=zategory2".
Proof.
  rewrite (getZategoryFromCache_by_position RefHost.host "Rent" (Examples.world ∅)
             Examples.dontedit Examples.categories (take 1 Examples.categories)).
  - vm_compute. reflexivity.
  - reflexivity.
  - vm_compute. reflexivity.
  - vm_compute. reflexivity.
Defined.

(** ** Reading the income records *)

Lemma getLastRow_ge (sh : gmap (nat * nat) Cell) r c v :
  sh !! (r, c) = Some v -> is_blank v = false -> r <= Sheet.getLastRow sh.
Proof.
  unfold Sheet.getLastRow. revert r c v.
  apply (map_fold_weak_ind
           (fun acc (m : gmap (nat * nat) Cell) =>
              forall r c v, m !! (r, c) = Some v -> is_blank v = false -> r <= acc)).
  - intros r c v E. by rewrite lookup_empty in E.
  - intros [r' c'] v' m acc Hm IH r c v E B.
    destruct (decide ((r', c') = (r, c))) as [[= -> ->]|Ne].
    + rewrite lookup_insert_eq in E. injection E as ->. rewrite B. cbn. lia.
    + rewrite lookup_insert_ne in E by done.
      pose proof (IH r c v E B). destruct (is_blank v'); cbn; lia.
Qed.

Lemma length_omap_le {A B} (f : A -> option B) (l : list A) : length (omap f l) <= length l.
Proof.
  induction l as [|x l IH]; [done|]. cbn [omap list_omap]. destruct (f x); cbn [length]; lia.
Qed.

Lemma triple_eq {A B C} (a a' : A) (b b' : B) (c c' : C) :
  a = a' -> b = b' -> c = c' -> (a, b, c) = (a', b', c').
Proof. by intros -> -> ->. Qed.

Section ReadIncomeFacts.
Variable H : Host.

Lemma length_incomeItems sh rows : length (incomeItems H sh rows) <= length rows.
Proof. apply length_omap_le. Qed.

Lemma incomeLoop_sheet (sh : gmap (nat * nat) Cell) n : forall i income processed skipped,
  incomeLoop H i ((fun k => Sheet.getRowValues sh (5 + k) 4 7) <$> seq i n)
    (income, processed, skipped)
  = ((income ++ incomeItems H sh (seq (5 + i) n))%list,
     processed + length (incomeItems H sh (seq (5 + i) n)),
     skipped + (n - length (incomeItems H sh (seq (5 + i) n)))).
Proof.
  induction n as [|n IH]; intros i income processed skipped.
  - cbn [seq fmap list_fmap incomeLoop incomeItems omap list_omap length].
    rewrite app_nil_r. apply triple_eq; [done|lia|lia].
  - cbn [seq fmap list_fmap incomeLoop].
    unfold incomeItems. cbn [omap list_omap].
    change (omap (fun r => readIncomeRow H (r - 5) (Sheet.getRowValues sh r 4 7))
              (seq (S (5 + i)) n))
      with (incomeItems H sh (seq (S (5 + i)) n)).
    replace (5 + i - 5) with i by lia.
    pose proof (length_incomeItems sh (seq (S (5 + i)) n)) as Hl.
    rewrite length_seq in Hl.
    replace (S (5 + i)) with (5 + S i) in * by lia.
    destruct (readIncomeRow H i (Sheet.getRowValues sh (5 + i) 4 7)) as [item|].
    + rewrite IH. cbn [length]. rewrite <- app_assoc. cbn [app].
      apply triple_eq; [done|lia|lia].
    + rewrite IH. apply triple_eq; [done|lia|lia].
Qed.

Lemma readIncomeRow_Some i row item :
  readIncomeRow H i row = Some item ->
  item_rowIndex item = i + 5
  /\ num_le0 (item_amount item) = false
  /\ isNaN (item_amount item) = false
  /\ item_amount item = parseFloatCell H (default blank (row !! 2)).
Proof.
  unfold readIncomeRow. destruct (forallb _ row); [done|].
  destruct (negb _ || num_le0 _) eqn:A; [done|].
  destruct (isNaN _) eqn:N; [done|].
  intros [= <-]. cbn [item_rowIndex item_amount].
  apply orb_false_elim in A as [_ A]. done.
Qed.

Lemma getIncomeData_run w sh :
  lookupSheet w "Income" = Some sh ->
  4 < Sheet.getLastRow sh ->
  getIncomeData H w
  = (Normal (IncomeLoaded (incomeItems H sh (seq 5 (Sheet.getLastRow sh - 4)))
               (Sheet.getLastRow sh - 4)
               (length (incomeItems H sh (seq 5 (Sheet.getLastRow sh - 4))))
               (Sheet.getLastRow sh - 4
                - length (incomeItems H sh (seq 5 (Sheet.getLastRow sh - 4))))), w).
Proof.
  intros L Hl. destruct (book_of_lookupSheet w "Income" sh L) as (ss & B & S).
  unfold getIncomeData. apply tryCatch_normal.
  rewrite (bind_normal _ _ w _ _ (getBudgetSheet_found "Income" w ss sh B S)).
  rewrite (bind_normal _ _ w _ _ (readSheet_run w ss "Income" sh B S)).
  rewrite (proj2 (Nat.leb_gt _ _)) by lia.
  rewrite (proj2 (Nat.leb_gt _ _)) by lia.
  replace (Sheet.getLastRow sh - 5 + 1) with (Sheet.getLastRow sh - 4) by lia.
  unfold Sheet.getValues.
  rewrite (incomeLoop_sheet sh (Sheet.getLastRow sh - 4) 0 [] 0 0).
  rewrite length_fmap, length_seq. reflexivity.
Qed.

Lemma incomeItems_rows sh rows :
  Forall (fun r => 5 <= r) rows ->
  item_rowIndex <$> incomeItems H sh rows `sublist_of` rows
  /\ Forall (fun item =>
               num_le0 (item_amount item) = false /\ isNaN (item_amount item) = false
               /\ item_amount item
                  = parseFloatCell H (Sheet.getValue sh (item_rowIndex item) 6))
            (incomeItems H sh rows).
Proof.
  induction rows as [|r rows IH]; intros F.
  - split; [done|]. apply Forall_nil_2.
  - apply Forall_cons_1 in F as [Hr F]. destruct (IH F) as [IH1 IH2].
    unfold incomeItems. cbn [omap list_omap].
    destruct (readIncomeRow H (r - 5) (Sheet.getRowValues sh r 4 7)) as [item|] eqn:R.
    + destruct (readIncomeRow_Some _ _ _ R) as (Ri & A1 & A2 & A3).
      assert (item_rowIndex item = r) as Er by lia.
      split.
      * cbn [fmap list_fmap]. rewrite Er. by apply sublist_skip.
      * apply Forall_cons_2; [|exact IH2]. rewrite Er. split; [done|]. split; [done|].
        rewrite A3. rewrite (getRowValues_lookup sh r 4 7 2) by lia. reflexivity.
    + split; [by apply sublist_cons|exact IH2].
Qed.

(** X17.  On an Income sheet with data below row 4, getIncomeData reads
    the rows 5 to lastRow and changes nothing.  Every row is either
    processed or skipped, so that the two counts add up to the number of
    rows; the income list has one element per processed row, in row
    order, and the amount of each element is the parsed amount cell of
    its row (column F), which is neither NaN nor at most zero. *)
Theorem getIncomeData_reads_rows w sh :
  lookupSheet w "Income" = Some sh ->
  4 < Sheet.getLastRow sh ->
  exists income processed skipped,
    getIncomeData H w
    = (Normal (IncomeLoaded income (Sheet.getLastRow sh - 4) processed skipped), w)
    /\ processed = length income
    /\ processed + skipped = Sheet.getLastRow sh - 4
    /\ income = incomeItems H sh (seq 5 (Sheet.getLastRow sh - 4))
    /\ item_rowIndex <$> income `sublist_of` seq 5 (Sheet.getLastRow sh - 4)
    /\ Forall (fun item =>
                 num_le0 (item_amount item) = false /\ isNaN (item_amount item) = false
                 /\ item_amount item
                    = parseFloatCell H (Sheet.getValue sh (item_rowIndex item) 6))
              income.
Proof.
  intros L Hl. eexists _, _, _. split; [exact (getIncomeData_run w sh L Hl)|].
  split; [done|]. split.
  { pose proof (length_incomeItems sh (seq 5 (Sheet.getLastRow sh - 4))) as Hle.
    rewrite length_seq in Hle. lia. }
  split; [done|].
  apply incomeItems_rows. apply Forall_forall. intros r Hr.
  apply elem_of_seq in Hr. lia.
Qed.


(** *** Reading back what saveBatchIncome has written *)

Lemma getLastRow_ge_value (sh : gmap (nat * nat) Cell) r c :
  is_blank (Sheet.getValue sh r c) = false -> r <= Sheet.getLastRow sh.
Proof.
  unfold Sheet.getValue. intros B.
  destruct (sh !! (r, c)) as [v|] eqn:E; [|done].
  exact (getLastRow_ge sh r c v E B).
Qed.

Lemma accountOrOther_kept account :
  str_truthy (accountOrOther account) = true
  /\ String.eqb (trim (accountOrOther account)) "" = false.
Proof.
  unfold accountOrOther.
  destruct (str_truthy account) eqn:T; cbn [andb]; [|done].
  destruct (String.eqb (trim account) "") eqn:E; cbn [negb]; done.
Qed.

Lemma num_truthy_positive n : num_le0 n = false -> isNaN n = false -> num_truthy n = true.
Proof.
  destruct n as [q| |[]]; cbn; try done.
  intros Hq _. apply negb_true_iff. apply not_true_is_false. intros E.
  apply Qeq_bool_iff in E. apply not_true_iff_false in Hq. apply Hq.
  apply Qle_bool_iff. rewrite E. apply Qle_refl.
Qed.

Lemma cellToString_cellOr s : cellToString H (cellOr (CStr s) "") = s.
Proof.
  unfold cellOr. cbn [cell_truthy]. unfold str_truthy.
  destruct (String.eqb s "") eqn:E; cbn [negb cellToString]; [|done].
  by apply String.eqb_eq in E.
Qed.

Lemma str_or_truthy a b : str_truthy b = true -> str_truthy (str_or a b) = true.
Proof. intros Tb. unfold str_or. by destruct (str_truthy a) eqn:Ta. Qed.

Lemma readIncomeRow_incomeRow today e i :
  truthy (i_amount e) = true ->
  num_le0 (ToNumber H (i_amount e)) = false ->
  isNaN (ToNumber H (i_amount e)) = false ->
  readIncomeRow H i (incomeRow H today e)
  = Some {| item_id := if str_truthy (i_id e) then CStr (i_id e)
                       else CStr ("INC-" +:+ pretty (i + 5));
            item_rowIndex := i + 5;
            item_date := if str_truthy (createDateOnly H today (i_date e))
                         then Some (createDateOnly H today (i_date e)) else None;
            item_name := str_or (i_name e) (str_or (i_description e) "");
            item_category := incomeCategory;
            item_amount := ToNumber H (i_amount e);
            item_account := accountOrOther (i_account e);
            item_source := str_or (i_source e) "Other";
            item_notes := str_or (i_notes e) "" |}.
Proof.
  intros T P N. unfold readIncomeRow, incomeRow.
  destruct (accountOrOther_kept (i_account e)) as [A1 A2].
  assert (Em : forallb (emptyCell H)
                 [CStr (i_id e); CStr (createDateOnly H today (i_date e));
                  CNum (ToNumber H (i_amount e));
                  CStr (str_or (i_name e) (str_or (i_description e) ""));
                  CStr (accountOrOther (i_account e));
                  CStr (str_or (i_source e) "Other");
                  CStr (str_or (i_notes e) "")] = false).
  { cbn [forallb].
    assert (emptyCell H (CStr (accountOrOther (i_account e))) = false) as ->.
    { unfold emptyCell. cbn [cell_truthy cellToString]. by rewrite A1, A2. }
    cbn [andb]. by rewrite !andb_false_r. }
  rewrite Em.
  cbn [lookup list_lookup default from_option id].
  cbn [cell_truthy parseFloatCell].
  rewrite (num_truthy_positive _ P N), P, N. cbn [negb orb].
  f_equal.
  assert (cellOr (cellOr (CStr (i_id e)) "") ("INC-" +:+ pretty (i + 5))
          = if str_truthy (i_id e) then CStr (i_id e)
            else CStr ("INC-" +:+ pretty (i + 5))) as ->.
  { unfold cellOr. cbn [cell_truthy]. destruct (str_truthy (i_id e)) eqn:Ti.
    - cbn [cell_truthy]. by rewrite Ti.
    - reflexivity. }
  rewrite !cellToString_cellOr. cbn [cellText].
  assert (cellToString H (cellOr (CStr (str_or (i_source e) "Other")) "Other")
          = str_or (i_source e) "Other") as ->.
  { unfold cellOr. cbn [cell_truthy]. by rewrite str_or_truthy. }
  reflexivity.
Qed.

Lemma saveBatchIncome_single e w sh r :
  lookupSheet w "Income" = Some sh ->
  inherited (i_id e) = false ->
  rejectedAmount H (i_amount e) = false ->
  (occupied H sh !! i_id e = Some r
   \/ (occupied H sh !! i_id e = None /\ head (holesOf sh) = Some r)) ->
  exists w',
    saveBatchIncome H [e] w
    = (Normal (BatchSaved (if occupied H sh !! i_id e is Some _ then 1 else 0)
                 (if occupied H sh !! i_id e is Some _ then 0 else 1) 0), w')
    /\ lookupSheet w' "Income"
       = Some (Sheet.setRowValues sh r 4 (incomeRow H (clock w) e)).
Proof.
  intros L I R Where.
  destruct (book_of_lookupSheet w "Income" sh L) as (ss & B & S).
  unfold saveBatchIncome.
  rewrite (saveBatch_run H "Income" _ _ _ _ _ _ [e] w ss sh B S).
  rewrite initialPlan_spec. cbn [forOf length].
  unfold bind at 1. unfold saveStep at 1. rewrite R.
  unfold bind at 1. unfold incomeValues at 1. unfold bind at 1. unfold now at 1.
  unfold ret at 1. unfold lift at 1.
  change [CStr (i_id e); CStr (createDateOnly H (clock w) (i_date e));
          CNum (ToNumber H (i_amount e));
          CStr (str_or (i_name e) (str_or (i_description e) ""));
          CStr (accountOrOther (i_account e)); CStr (str_or (i_source e) "Other");
          CStr (str_or (i_notes e) "")]
    with (incomeRow H (clock w) e).
  unfold place. cbn [idmap holes toUpdate toInsert lastRow].
  rewrite (getProperty_plain _ _ I).
  destruct Where as [Occ|[Occ Hole]]; rewrite Occ; cbn [fmap option_fmap option_map].
  - unfold ret at 1. cbn [toUpdate toInsert app length].
    change [(RowNum r, incomeRow H (clock w) e)]
      with (numbered [(r, incomeRow H (clock w) e)]).
    rewrite writeUpdates_numbered, writeRows_run.
    eexists. split; [reflexivity|].
    rewrite lookupSheet_stamps by done.
    rewrite (lookupSheet_updated _ "Income" (applyRows 4 [])
               (applyRows 4 [(r, incomeRow H (clock w) e)] sh)).
    + reflexivity.
    + by apply lookupSheet_updated.
  - destruct (holesOf sh) as [|h hs]; [done|]. injection Hole as ->.
    cbn [take]. unfold ret at 1. cbn [toUpdate toInsert app length].
    change (@nil (RowRef * list Cell)) with (numbered []).
    rewrite writeUpdates_numbered, writeRows_run.
    eexists. split; [reflexivity|].
    rewrite lookupSheet_stamps by done.
    rewrite (lookupSheet_updated _ "Income" (applyRows 4 [(r, incomeRow H (clock w) e)])
               (applyRows 4 [] sh)).
    + reflexivity.
    + by apply lookupSheet_updated.
Qed.

(** X18.  A record with a positive amount that saveBatchIncome writes, over
    the row that holds its identifier or into the first hole, is returned
    by the next getIncomeData with that row as rowIndex and with its
    identifier, amount, name, account, source and notes (a record
    without identifier is returned as "INC-" followed by the row).  Cells
    keep the values written to them. *)
Theorem saveBatchIncome_then_getIncomeData e w sh r :
  lookupSheet w "Income" = Some sh ->
  inherited (i_id e) = false ->
  truthy (i_amount e) = true ->
  num_le0 (ToNumber H (i_amount e)) = false ->
  isNaN (ToNumber H (i_amount e)) = false ->
  (occupied H sh !! i_id e = Some r
   \/ (occupied H sh !! i_id e = None /\ head (holesOf sh) = Some r)) ->
  exists updated inserted w' income total processed skipped item,
    saveBatchIncome H [e] w = (Normal (BatchSaved updated inserted 0), w')
    /\ updated + inserted = 1
    /\ getIncomeData H w' = (Normal (IncomeLoaded income total processed skipped), w')
    /\ item ∈ income
    /\ item_rowIndex item = r
    /\ item_id item
       = (if str_truthy (i_id e) then CStr (i_id e) else CStr ("INC-" +:+ pretty r))
    /\ item_amount item = ToNumber H (i_amount e)
    /\ item_name item = str_or (i_name e) (str_or (i_description e) "")
    /\ item_account item = accountOrOther (i_account e)
    /\ item_source item = str_or (i_source e) "Other"
    /\ item_notes item = str_or (i_notes e) "".
Proof.
  intros L I T P N Where.
  assert (R : rejectedAmount H (i_amount e) = false).
  { unfold rejectedAmount. by rewrite T, P. }
  assert (Hr : 5 <= r).
  { destruct Where as [Occ|[_ Hole]].
    - apply occupied_lookup in Occ as [Hr _]. unfold startRow in Hr. lia.
    - destruct (holesOf sh) as [|h hs] eqn:Hh; [done|]. injection Hole as ->.
      assert (Hin : r ∈ holesOf sh) by (rewrite Hh; by left).
      apply elem_of_holesOf in Hin as [Hr _]. unfold startRow in Hr. lia. }
  destruct (saveBatchIncome_single e w sh r L I R Where) as (w' & Save & L').
  assert (Count : (if occupied H sh !! i_id e is Some _ then 1 else 0)
                  + (if occupied H sh !! i_id e is Some _ then 0 else 1) = 1)
    by (by destruct (occupied H sh !! i_id e)).
  set (sh' := Sheet.setRowValues sh r 4 (incomeRow H (clock w) e)) in *.
  assert (Row : Sheet.getRowValues sh' r 4 7 = incomeRow H (clock w) e).
  { exact (getRowValues_setRowValues sh r 4 (incomeRow H (clock w) e)). }
  assert (Last : r <= Sheet.getLastRow sh').
  { apply (getLastRow_ge_value sh' r 8).
    pose proof (getRowValues_lookup sh' r 4 7 4 ltac:(lia)) as G.
    rewrite Row in G. cbn [incomeRow lookup list_lookup Nat.add] in G.
    injection G as G. rewrite <- G. cbn [is_blank].
    destruct (accountOrOther_kept (i_account e)) as [A _].
    unfold str_truthy in A. by apply negb_true_iff in A. }
  eexists _, _, w', _, _, _, _, _. split; [exact Save|]. split; [exact Count|].
  split; [exact (getIncomeData_run w' sh' L' ltac:(lia))|].
  split.
  { apply list_elem_of_omap. exists r. split.
    - apply elem_of_seq. lia.
    - rewrite Row. apply (readIncomeRow_incomeRow (clock w) e (r - 5) T P N). }
  cbn [item_rowIndex item_id item_amount item_name item_account item_source item_notes].
  replace (r - 5 + 5) with r by lia. done.
Qed.

End ReadIncomeFacts.

Lemma getIncomeData_reads_rows_witness :
  exists income processed skipped,
    getIncomeData RefHost.host (MoreExamples.incomeWorld MoreExamples.incomeSheet)
    = (Normal (IncomeLoaded income 3 processed skipped),
       MoreExamples.incomeWorld MoreExamples.incomeSheet)
    /\ processed = 1 /\ skipped = 2
    /\ item_rowIndex <$> income = [5]
    /\ item_amount <$> income = [Fin 1200].
Proof.
  destruct (getIncomeData_reads_rows RefHost.host
              (MoreExamples.incomeWorld MoreExamples.incomeSheet) MoreExamples.incomeSheet)
    as (income & processed & skipped & R & P & C & I & _).
  - vm_compute. reflexivity.
  - vm_compute. lia.
  - exists income, processed, skipped.
    assert (Hi : income
                 = incomeItems RefHost.host MoreExamples.incomeSheet [5; 6; 7]) by exact I.
    assert (Hl : Sheet.getLastRow MoreExamples.incomeSheet - 4 = 3)
      by (vm_compute; reflexivity).
    rewrite Hl in R, C. split; [exact R|].
    assert (Hlen : length income = 1) by (rewrite Hi; vm_compute; reflexivity).
    split; [lia|]. split; [lia|]. rewrite Hi. split; vm_compute; reflexivity.
Defined.

Lemma saveBatchIncome_then_getIncomeData_witness :
  exists income total processed skipped item,
    getIncomeData RefHost.host
      (snd (saveBatchIncome RefHost.host [Examples.income "INC-9" (VStr "250.50")]
              (MoreExamples.incomeWorld MoreExamples.incomeSheet)))
    = (Normal (IncomeLoaded income total processed skipped),
       snd (saveBatchIncome RefHost.host [Examples.income "INC-9" (VStr "250.50")]
              (MoreExamples.incomeWorld MoreExamples.incomeSheet)))
    /\ item ∈ income
    /\ item_rowIndex item = 6
    /\ item_id item = CStr "INC-9"
    /\ item_amount item = Fin (501 # 2)
    /\ item_name item = "Salary".
Proof.
  destruct (saveBatchIncome_then_getIncomeData RefHost.host
              (Examples.income "INC-9" (VStr "250.50"))
              (MoreExamples.incomeWorld MoreExamples.incomeSheet)
              MoreExamples.incomeSheet 6)
    as (updated & inserted & w' & income & total & processed & skipped & item
        & S & _ & G & In & Ri & Id & Am & Nm & _).
  - vm_compute. reflexivity.
  - reflexivity.
  - reflexivity.
  - vm_compute. reflexivity.
  - vm_compute. reflexivity.
  - right. split; vm_compute; reflexivity.
  - exists income, total, processed, skipped, item.
    rewrite S. cbn [snd]. split; [exact G|]. split; [exact In|]. split; [exact Ri|].
    split; [exact Id|]. split; [|exact Nm].
    rewrite Am. vm_compute. reflexivity.
Defined.

(** ** Clearing an expense and saving a new one *)

Lemma blankRows_nil ids : forall r,
  Forall (fun id => cell_truthy id = true) ids -> blankRows r ids = [].
Proof.
  induction ids as [|id ids IH]; intros r F; [done|].
  apply Forall_cons_1 in F as [T F]. cbn [blankRows]. rewrite T. by apply IH.
Qed.

Lemma blankRows_head ids : forall r k id,
  ids !! k = Some id -> cell_truthy id = false ->
  (forall j id', j < k -> ids !! j = Some id' -> cell_truthy id' = true) ->
  head (blankRows r ids) = Some (r + k).
Proof.
  induction ids as [|x ids IH]; intros r k id L F Before; [done|].
  destruct k as [|k].
  - injection L as ->. cbn [blankRows]. rewrite F. cbn [head]. f_equal. lia.
  - cbn [blankRows]. rewrite (Before 0 x) by (lia || done).
    rewrite (IH (S r) k id L F).
    + f_equal. lia.
    + intros j id' Hj Lj. apply (Before (S j) id'); [lia|done].
Qed.

Lemma cell_truthy_not_blank c : cell_truthy c = true -> is_blank c = false.
Proof.
  destruct c as [s| | |]; try done. cbn. unfold str_truthy. by intros ->%negb_true_iff.
Qed.

Lemma categoryRows_ext (de de' : gmap (nat * nat) Cell) :
  (forall r c, 12 <= c -> Sheet.getValue de' r c = Sheet.getValue de r c) ->
  categoryRows de' = categoryRows de.
Proof.
  intros E. unfold categoryRows, Sheet.getValues. apply list_fmap_ext. intros _ i _.
  apply getRowValues_ext. intros j _. apply E. lia.
Qed.

Section ClearThenSave.
Variable H : Host.

Lemma categoriesKnown_stamps stamps : forall w cats,
  categoriesKnown H w cats ->
  categoriesKnown H (foldl (fun w s => stamped H s w) w stamps) cats.
Proof.
  induction stamps as [|s stamps IH]; intros w cats K; [done|].
  cbn [foldl]. apply IH. unfold categoriesKnown in *.
  assert (SC : serverCategoriesCache (stamped H s w) = serverCategoriesCache w).
  { unfold stamped. destruct (book w) as [ss|]; [|done].
    destruct (timestampCells !! s) as [[r c]|]; [|done].
    by destruct (ss !! "Dontedit"). }
  rewrite SC. destruct (serverCategoriesCache w) as [c|]; [done|].
  destruct K as (de & actives & D & BC).
  destruct (timestampCells !! s) as [[r c]|] eqn:T.
  - exists (Sheet.setValue de r c (CStr (Date_toISOString H (clock w)))), actives.
    split; [by apply dontedit_stamped|].
    rewrite (categoryRows_ext de); [done|].
    intros r' c' Hc. rewrite getValue_setValue, decide_False; [done|].
    intros [= -> ->].
    assert (c' = 10); [|lia].
    unfold timestampCells in T.
    apply elem_of_list_to_map_2 in T.
    repeat (apply elem_of_cons in T as [[= _ _ ?]|T]; [done|]).
    by apply elem_of_nil in T.
  - exists de, actives. split; [|done].
    unfold stamped. destruct (book w); [|done]. by rewrite T.
Qed.

Lemma categoriesKnown_other_sheet w cats name f :
  name <> "Dontedit" ->
  categoriesKnown H w cats ->
  categoriesKnown H (with_book w (alter f name <$> book w)) cats.
Proof.
  intros N K. unfold categoriesKnown in *. cbn [serverCategoriesCache with_book].
  destruct (serverCategoriesCache w); [done|].
  destruct K as (de & actives & D & BC). exists de, actives. split; [|done].
  by rewrite lookupSheet_written.
Qed.


Lemma holesOf_after_clear (sh : gmap (nat * nat) Cell) r width :
  5 <= r -> 0 < width ->
  (forall r', 5 <= r' < r -> cell_truthy (Sheet.getValue sh r' 4) = true) ->
  (r <= lastUsedRow (Sheet.clearContent sh r 4 width) ->
   head (holesOf (Sheet.clearContent sh r 4 width)) = Some r)
  /\ (lastUsedRow (Sheet.clearContent sh r 4 width) < r ->
      holesOf (Sheet.clearContent sh r 4 width) = []
      /\ S (lastUsedRow (Sheet.clearContent sh r 4 width)) = r).
Proof.
  intros Hr Hw Above. set (sh' := Sheet.clearContent sh r 4 width).
  assert (V : forall r', Sheet.getValue sh' r' 4
                         = if decide (r' = r) then blank else Sheet.getValue sh r' 4).
  { intros r'. unfold sh'. rewrite getValue_clearContent.
    destruct (decide (r' = r)) as [->|N].
    - by rewrite decide_True by lia.
    - by rewrite decide_False by (intros [? _]; done). }
  assert (Hlast : 5 <= lastUsedRow sh') by (unfold lastUsedRow, startRow; lia).
  unfold holesOf, idColumn, startRow. split.
  - intros Hin.
    rewrite (blankRows_head _ 5 (r - 5) (Sheet.getValue sh' (5 + (r - 5)) 4)).
    + f_equal. lia.
    + apply getColumnValues_lookup. lia.
    + rewrite V, decide_True by lia. done.
    + intros j id' Hj Lj. rewrite getColumnValues_lookup in Lj by lia.
      assert (id' = Sheet.getValue sh' (5 + j) 4) as -> by congruence.
      rewrite V, decide_False by lia. apply Above. lia.
  - intros Hout.
    assert (r - 1 <= Sheet.getLastRow sh').
    { apply (getLastRow_ge_value sh' (r - 1) 4).
      rewrite V, decide_False by lia. apply cell_truthy_not_blank. apply Above.
      unfold lastUsedRow, startRow in *. lia. }
    split; [|unfold lastUsedRow, startRow in *; lia].
    apply blankRows_nil. apply Forall_lookup. intros k id Lk.
    pose proof (lookup_lt_Some _ _ _ Lk) as Hk. rewrite getColumnValues_length in Hk.
    rewrite getColumnValues_lookup in Lk by done.
    assert (id = Sheet.getValue sh' (5 + k) 4) as -> by congruence.
    rewrite V, decide_False by lia. apply Above. lia.
Qed.

Lemma slotsFor_after_clear (sh : gmap (nat * nat) Cell) r width :
  5 <= r -> 0 < width ->
  (forall r', 5 <= r' < r -> cell_truthy (Sheet.getValue sh r' 4) = true) ->
  slotsFor (Sheet.clearContent sh r 4 width) 1 = [r].
Proof.
  intros Hr Hw Above.
  destruct (holesOf_after_clear sh r width Hr Hw Above) as [In Out].
  unfold slotsFor.
  destruct (decide (r <= lastUsedRow (Sheet.clearContent sh r 4 width))) as [Hin|Hout].
  - specialize (In Hin).
    destruct (holesOf (Sheet.clearContent sh r 4 width)) as [|h hs]; [done|].
    by injection In as ->.
  - destruct Out as [-> E]; [lia|]. cbn [app seq take]. by rewrite E.
Qed.

Lemma occupied_after_clear (sh : gmap (nat * nat) Cell) r width id :
  0 < width ->
  (forall r', r' <> r -> cell_truthy (Sheet.getValue sh r' 4) = true ->
              cellToString H (Sheet.getValue sh r' 4) <> id) ->
  occupied H (Sheet.clearContent sh r 4 width) !! id = None.
Proof.
  intros Hw New.
  destruct (occupied H (Sheet.clearContent sh r 4 width) !! id) as [row|] eqn:O; [|done].
  apply occupied_lookup in O as (Hrow & cell & Lc & T & E).
  unfold idColumn, startRow in Lc.
  rewrite getColumnValues_lookup in Lc by (unfold startRow in Hrow; lia).
  assert (cell = Sheet.getValue (Sheet.clearContent sh r 4 width) (5 + (row - 5)) 4)
    as -> by congruence.
  replace (5 + (row - 5)) with row in * by (unfold startRow in Hrow; lia).
  rewrite getValue_clearContent in T, E.
  destruct (decide (row = r /\ 4 <= 4 < 4 + width)) as [_|Nr]; [done|].
  exfalso. apply (New row); [lia|done|done].
Qed.

(** X19.  After clearTransactionRow has cleared row [r], a new expense saved
    by saveBatchExpenses is written to row [r], provided no row between 5
    and [r] lacks an identifier: as the first hole when content remains
    at or below row [r], as the row after the last one otherwise.  No
    other row of the sheet changes. *)
Theorem clearTransactionRow_then_saveBatchExpenses id e w sh r c cats :
  lookupSheet w "Expenses" = Some sh ->
  categoriesKnown H w cats ->
  findNext H sh id = Some (r, c) ->
  5 <= r ->
  (forall r', 5 <= r' < r -> cell_truthy (Sheet.getValue sh r' 4) = true) ->
  accepted H e_amount e = true ->
  inherited (transactionId e) = false ->
  is_Some (zategoryOf cats (e_category e)) ->
  (forall r', r' <> r -> cell_truthy (Sheet.getValue sh r' 4) = true ->
              cellToString H (Sheet.getValue sh r' 4) <> transactionId e) ->
  exists w',
    saveBatchExpenses H [e] (snd (clearTransactionRow H id w))
    = (Normal (BatchSaved 0 1 0), w')
    /\ Sheet.getRowValues (sheetOf w' "Expenses") r 4 8 = expenseRow H cats (clock w) e
    /\ forall r' c', r' <> r ->
         Sheet.getValue (sheetOf w' "Expenses") r' c' = Sheet.getValue sh r' c'.
Proof.
  intros L K F Hr Above A I Z New.
  destruct (book_of_lookupSheet w "Expenses" sh L) as (ss & B & S).
  unfold clearTransactionRow.
  rewrite (clearRowByFinder_found H _ _ _ _ _ _ _ w ss sh r c B S F). cbn [snd].
  set (sh' := Sheet.clearContent sh r 4 8).
  set (w1 := foldl (fun w s => stamped H s w)
               (with_book w (alter (fun s => Sheet.clearContent s r 4 8) "Expenses"
                             <$> book w)) ["masterData"]).
  assert (L1 : lookupSheet w1 "Expenses" = Some sh').
  { unfold w1. rewrite lookupSheet_stamps by done.
    exact (lookupSheet_updated w "Expenses" (fun s => Sheet.clearContent s r 4 8) sh L). }
  assert (K1 : categoriesKnown H w1 cats).
  { unfold w1. apply categoriesKnown_stamps. by apply categoriesKnown_other_sheet. }
  assert (C1 : clock w1 = clock w).
  { unfold w1. cbn [foldl]. by rewrite clock_stamped. }
  destruct (book_of_lookupSheet w1 "Expenses" sh' L1) as (ss1 & B1 & S1).
  assert (Occ : occupied H sh' !! transactionId e = None).
  { apply occupied_after_clear; [lia|done]. }
  assert (Enews : filter (fun x => accepted H e_amount x = true
                                  /\ occupied H sh' !! transactionId x = None) [e] = [e]).
  { by rewrite filter_cons_True, filter_nil. }
  assert (Eolds : filter (fun x => accepted H e_amount x = true
                                  /\ is_Some (occupied H sh' !! transactionId x)) [e] = []).
  { rewrite filter_cons_False, filter_nil; [done|].
    intros [_ O]. rewrite Occ in O. by apply is_Some_None in O. }
  destruct (saveBatchExpenses_places H [e] w1 ss1 sh' cats B1 S1 K1) as (R & _ & N & O).
  { intros x Hx _. by apply list_elem_of_singleton in Hx as ->. }
  { intros x Hx _. by apply list_elem_of_singleton in Hx as ->. }
  { rewrite filter_cons_True, filter_nil by done. apply NoDup_singleton. }
  rewrite Enews in R, N, O. rewrite Eolds in R, O.
  cbn [length] in R, N, O.
  pose proof (slotsFor_after_clear sh r 8 Hr ltac:(lia) Above) as SL. fold sh' in SL.
  rewrite SL in N, O.
  exists (snd (saveBatchExpenses H [e] w1)). split; [|split].
  - change (1 - 0 - 1) with 0 in R.
    destruct (saveBatchExpenses H [e] w1) as [res w2]. cbn [fst snd] in *. by rewrite R.
  - rewrite (N 0 e r eq_refl eq_refl). by rewrite C1.
  - intros r' c' Hr'. rewrite O.
    + unfold sh'. rewrite getValue_clearContent, decide_False; [done|]. lia.
    + intros x Hx. by apply elem_of_nil in Hx.
    + intros Hin. by apply list_elem_of_singleton in Hin.
Qed.


Lemma saveBatchIncome_single_throws e w sh :
  lookupSheet w "Income" = Some sh ->
  inherited (i_id e) = false ->
  rejectedAmount H (i_amount e) = false ->
  occupied H sh !! i_id e = None ->
  holesOf sh = [] ->
  saveBatchIncome H [e] w
  = (Throw {| ename := "TypeError"; emessage := "Assignment to constant variable." |}, w).
Proof.
  intros L I R Occ Holes.
  destruct (book_of_lookupSheet w "Income" sh L) as (ss & B & S).
  unfold saveBatchIncome.
  rewrite (saveBatch_run H "Income" _ _ _ _ _ _ [e] w ss sh B S).
  rewrite initialPlan_spec. cbn [forOf length].
  unfold bind at 1. unfold saveStep at 1. rewrite R.
  unfold bind at 1. unfold incomeValues at 1. unfold bind at 1. unfold now at 1.
  unfold ret at 1. unfold lift at 1.
  unfold place. cbn [idmap holes toUpdate toInsert lastRow].
  rewrite (getProperty_plain _ _ I), Occ, Holes. reflexivity.
Qed.

(** X20.  After clearIncomeRow has cleared row [r], with no row between 5
    and [r] lacking an identifier, a new income record takes row [r] as
    long as the sheet still has content at or below it (or [r] is row 5).
    When the cleared row was the last one in use, saveBatchIncome throws
    the TypeError of the assignment to its constant [lastRow] and writes
    nothing. *)
Theorem clearIncomeRow_then_saveBatchIncome id e w sh r c :
  lookupSheet w "Income" = Some sh ->
  findNext H sh id = Some (r, c) ->
  5 <= r ->
  (forall r', 5 <= r' < r -> cell_truthy (Sheet.getValue sh r' 4) = true) ->
  rejectedAmount H (i_amount e) = false ->
  inherited (i_id e) = false ->
  (forall r', r' <> r -> cell_truthy (Sheet.getValue sh r' 4) = true ->
              cellToString H (Sheet.getValue sh r' 4) <> i_id e) ->
  let w1 := snd (clearIncomeRow H id w) in
  (r <= Sheet.getLastRow (Sheet.clearContent sh r 4 7) \/ r = 5 ->
   exists w',
     saveBatchIncome H [e] w1 = (Normal (BatchSaved 0 1 0), w')
     /\ Sheet.getRowValues (sheetOf w' "Income") r 4 7 = incomeRow H (clock w) e)
  /\ (Sheet.getLastRow (Sheet.clearContent sh r 4 7) < r -> 5 < r ->
      saveBatchIncome H [e] w1
      = (Throw {| ename := "TypeError"; emessage := "Assignment to constant variable." |},
         w1)).
Proof.
  intros L F Hr Above R I New w1.
  destruct (book_of_lookupSheet w "Income" sh L) as (ss & B & S).
  unfold w1, clearIncomeRow.
  rewrite (clearRowByFinder_found H _ _ _ _ _ _ _ w ss sh r c B S F). cbn [snd].
  set (sh' := Sheet.clearContent sh r 4 7).
  set (w2 := foldl (fun w s => stamped H s w)
               (with_book w (alter (fun s => Sheet.clearContent s r 4 7) "Income"
                             <$> book w)) ["masterData"; "income"]).
  assert (L2 : lookupSheet w2 "Income" = Some sh').
  { unfold w2. rewrite lookupSheet_stamps by done.
    exact (lookupSheet_updated w "Income" (fun s => Sheet.clearContent s r 4 7) sh L). }
  assert (C2 : clock w2 = clock w).
  { unfold w2. cbn [foldl]. by rewrite !clock_stamped. }
  pose proof (occupied_after_clear sh r 7 (i_id e) ltac:(lia) New) as Occ. fold sh' in Occ.
  destruct (holesOf_after_clear sh r 7 Hr ltac:(lia) Above) as [In Out].
  fold sh' in In, Out.
  split.
  - intros Hlast.
    assert (Hin : r <= lastUsedRow sh') by (unfold lastUsedRow, startRow; lia).
    destruct (saveBatchIncome_single H e w2 sh' r L2 I R (or_intror (conj Occ (In Hin))))
      as (w' & Save & L').
    rewrite Occ in Save.
    exists w'. split; [exact Save|].
    rewrite sheetOf_lookupSheet, L'. cbn [default]. rewrite C2.
    exact (getRowValues_setRowValues sh' r 4 (incomeRow H (clock w) e)).
  - intros Hlast Hr5.
    assert (Hout : lastUsedRow sh' < r) by (unfold lastUsedRow, startRow; lia).
    destruct (Out Hout) as [Holes _].
    exact (saveBatchIncome_single_throws e w2 sh' L2 I R Occ Holes).
Qed.

End ClearThenSave.

Lemma clearTransactionRow_then_saveBatchExpenses_witness :
  exists w',
    saveBatchExpenses RefHost.host [Examples.expense "TX-9" (VNum (Fin 12)) "Food"]
      (snd (clearTransactionRow RefHost.host "tx-2"
              (Examples.world Examples.expensesWithHole)))
    = (Normal (BatchSaved 0 1 0), w')
    /\ Sheet.getRowValues (sheetOf w' "Expenses") 6 4 8
       = [CStr "TX-9"; CStr "1-Jul-2025"; CNum (Fin 12); CStr "=zategory1"; CStr "Lunch";
          CStr ""; CStr ""; CStr "Cash"].
Proof.
  destruct (clearTransactionRow_then_saveBatchExpenses RefHost.host "tx-2"
              (Examples.expense "TX-9" (VNum (Fin 12)) "Food")
              (Examples.world Examples.expensesWithHole) Examples.expensesWithHole
              6 4 Examples.categories)
    as (w' & S & V & _).
  - vm_compute. reflexivity.
  - exists Examples.dontedit, (take 1 Examples.categories). split; vm_compute; reflexivity.
  - vm_compute. reflexivity.
  - lia.
  - intros r' Hr'. assert (r' = 5) as -> by lia. vm_compute. reflexivity.
  - vm_compute. reflexivity.
  - reflexivity.
  - vm_compute. eauto.
  - intros r' _ T.
    assert (Hall : map_Forall (fun (k : nat * nat) v =>
                     k.2 = 4 -> cellToString RefHost.host v <> "TX-9")
                     Examples.expensesWithHole).
    { apply (bool_decide_unpack _). vm_compute. exact I. }
    unfold Sheet.getValue in *.
    destruct (Examples.expensesWithHole !! (r', 4)) as [v|] eqn:E; [|done].
    exact (Hall (r', 4) v E eq_refl).
  - exists w'. split; [exact S|]. etrans; [exact V|]. vm_compute. reflexivity.
Defined.

Lemma clearIncomeRow_then_saveBatchIncome_witness :
  saveBatchIncome RefHost.host [Examples.income "INC-3" (VNum (Fin 10))]
    (snd (clearIncomeRow RefHost.host "INC-2"
            (MoreExamples.incomeWorld MoreExamples.incomePair)))
  = (Throw {| ename := "TypeError"; emessage := "Assignment to constant variable." |},
     snd (clearIncomeRow RefHost.host "INC-2"
            (MoreExamples.incomeWorld MoreExamples.incomePair))).
Proof.
  destruct (clearIncomeRow_then_saveBatchIncome RefHost.host "INC-2"
              (Examples.income "INC-3" (VNum (Fin 10)))
              (MoreExamples.incomeWorld MoreExamples.incomePair)
              MoreExamples.incomePair 6 4) as [_ T].
  - vm_compute. reflexivity.
  - vm_compute. reflexivity.
  - lia.
  - intros r' Hr'. assert (r' = 5) as -> by lia. vm_compute. reflexivity.
  - vm_compute. reflexivity.
  - reflexivity.
  - intros r' _ T.
    assert (Hall : map_Forall (fun (k : nat * nat) v =>
                     k.2 = 4 -> cellToString RefHost.host v <> "INC-3")
                     MoreExamples.incomePair).
    { apply (bool_decide_unpack _). vm_compute. exact I. }
    unfold Sheet.getValue in *.
    destruct (MoreExamples.incomePair !! (r', 4)) as [v|] eqn:E; [|done].
    exact (Hall (r', 4) v E eq_refl).
  - apply T; [vm_compute; lia|lia].
Defined.

(** ** Renaming a category *)

Section CategoryNameFacts.
Variable H : Host.
Variable lower : string -> string.

Lemma findDuplicate_None values k full normalized : forall i,
  findDuplicate H lower i values k full normalized = None
  <-> forall j cell, values !! j = Some cell -> i + j <> k ->
                     duplicateError H lower full normalized cell = None.
Proof.
  induction values as [|v values IH]; intros i.
  - split; [|done]. intros _ j cell L. by rewrite lookup_nil in L.
  - cbn [findDuplicate]. split.
    + intros F j cell L Nk. destruct j as [|j].
      * injection L as ->. rewrite Nat.add_0_r in Nk.
        rewrite (proj2 (Nat.eqb_neq i k) Nk) in F.
        by destruct (duplicateError H lower full normalized cell).
      * apply (proj1 (IH (S i))) with (j := j); [|done|lia].
        destruct (i =? k)%nat; [done|].
        by destruct (duplicateError H lower full normalized v).
    + intros A.
      assert (Rest : findDuplicate H lower (S i) values k full normalized = None).
      { apply IH. intros j cell L Nk. apply (A (S j) cell L). lia. }
      destruct (i =? k)%nat eqn:E; [done|].
      rewrite (A 0 v eq_refl) by (apply Nat.eqb_neq in E; lia). done.
Qed.

Lemma categoryRowIndex_lt values old new k :
  categoryRowIndex H values old new = Some k -> k < length values.
Proof.
  unfold categoryRowIndex.
  destruct (list_find (fun cell => isCategory H old cell = true) values) as [[i x]|] eqn:E.
  - intros [= <-]. apply list_find_Some in E as (L & _). by apply lookup_lt_Some in L.
  - destruct (list_find (fun cell => mentions H new cell = true) values) as [[i x]|] eqn:M;
      [|done].
    intros [= <-]. apply list_find_Some in M as (L & _). by apply lookup_lt_Some in L.
Qed.

Lemma duplicateError_None full normalized cell :
  duplicateError H lower full normalized cell = None ->
  cell_truthy cell = true ->
  trim (cellToString H cell) <> full.
Proof.
  unfold duplicateError. intros D T. rewrite T in D. cbn [negb] in D.
  destruct (String.eqb (trim (cellToString H cell)) full) eqn:E; [done|].
  by apply String.eqb_neq in E.
Qed.

Lemma updateCategoryName_run old new emoji w de :
  lookupSheet w "Dontedit" = Some de ->
  updateCategoryName H lower old new emoji w
  = match categoryRowIndex H (Sheet.getColumnValues de 10 13 30) old new with
    | None => (Normal (RenameFailed ("Category not found in Dontedit sheet: " +:+ old)), w)
    | Some k =>
        if negb (str_truthy new) || negb (str_truthy (trim new))
        then (Normal (RenameFailed "Category name cannot be empty"), w)
        else if negb (str_truthy emoji) || negb (str_truthy (trim emoji))
        then (Normal (RenameFailed "Category emoji cannot be empty"), w)
        else
          match findDuplicate H lower 0 (Sheet.getColumnValues de 10 13 30) k
                  (trim new +:+ " " +:+ trim emoji) (lower (trim new)) with
          | Some error => (Normal (RenameFailed error), w)
          | None =>
              (Normal (Renamed old (trim new +:+ " " +:+ trim emoji)),
               stamped H "categories"
                 (with_book w
                    (alter (fun s => Sheet.setValue s (k + 10) 13
                                       (CStr (trim new +:+ " " +:+ trim emoji)))
                       "Dontedit" <$> book w)))
          end
    end.
Proof.
  intros L. destruct (book_of_lookupSheet w "Dontedit" de L) as (ss & B & D).
  unfold updateCategoryName.
  destruct (categoryRowIndex H (Sheet.getColumnValues de 10 13 30) old new) as [k|] eqn:K.
  2:{ apply tryCatch_normal.
      rewrite (bind_normal _ _ w _ _ (getBudgetSheet_found "Dontedit" w ss de B D)).
      rewrite (bind_normal _ _ w _ _ (readSheet_run w ss "Dontedit" de B D)).
      by rewrite K. }
  destruct (negb (str_truthy new) || negb (str_truthy (trim new))).
  { apply tryCatch_normal.
    rewrite (bind_normal _ _ w _ _ (getBudgetSheet_found "Dontedit" w ss de B D)).
    rewrite (bind_normal _ _ w _ _ (readSheet_run w ss "Dontedit" de B D)).
    by rewrite K. }
  destruct (negb (str_truthy emoji) || negb (str_truthy (trim emoji))).
  { apply tryCatch_normal.
    rewrite (bind_normal _ _ w _ _ (getBudgetSheet_found "Dontedit" w ss de B D)).
    rewrite (bind_normal _ _ w _ _ (readSheet_run w ss "Dontedit" de B D)).
    by rewrite K. }
  destruct (findDuplicate H lower 0 (Sheet.getColumnValues de 10 13 30) k
              (trim new +:+ " " +:+ trim emoji) (lower (trim new))) as [err|] eqn:Dup.
  { apply tryCatch_normal.
    rewrite (bind_normal _ _ w _ _ (getBudgetSheet_found "Dontedit" w ss de B D)).
    rewrite (bind_normal _ _ w _ _ (readSheet_run w ss "Dontedit" de B D)).
    rewrite K. cbv beta iota zeta. by rewrite Dup. }
  apply tryCatch_normal.
  rewrite (bind_normal _ _ w _ _ (getBudgetSheet_found "Dontedit" w ss de B D)).
  rewrite (bind_normal _ _ w _ _ (readSheet_run w ss "Dontedit" de B D)).
  rewrite K. cbv beta iota zeta. rewrite Dup.
  unfold bind at 1. unfold updateSheet at 1.
  unfold bind at 1.
  rewrite (tryCatch_normal _ _ _ _ _ (updateDataTimestamp_run H "categories" _)).
  reflexivity.
Qed.

(** X21.  When updateCategoryName succeeds, the new full name is the trimmed
    name, a space and the trimmed emoji; it is written to the one row of
    M10:M39 the search has chosen, and apart from that cell and the
    categories timestamp no cell changes.  No other row of M10:M39 holds
    that full name, nor a name that equals the new one up to case. *)
Theorem updateCategoryName_success old new emoji w de old' full w' :
  lookupSheet w "Dontedit" = Some de ->
  updateCategoryName H lower old new emoji w = (Normal (Renamed old' full), w') ->
  full = trim new +:+ " " +:+ trim emoji
  /\ exists k de',
       categoryRowIndex H (Sheet.getColumnValues de 10 13 30) old new = Some k
       /\ k < 30
       /\ lookupSheet w' "Dontedit" = Some de'
       /\ Sheet.getValue de' (10 + k) 13 = CStr full
       /\ (forall r c, (r, c) <> (10 + k, 13) -> (r, c) <> (11, 10) ->
             Sheet.getValue de' r c = Sheet.getValue de r c)
       /\ (forall j, j < 30 -> j <> k ->
             duplicateError H lower full (lower (trim new))
               (Sheet.getValue de (10 + j) 13) = None)
       /\ (forall j, j < 30 -> j <> k ->
             cell_truthy (Sheet.getValue de (10 + j) 13) = true ->
             trim (cellToString H (Sheet.getValue de (10 + j) 13)) <> full).
Proof.
  intros L Run. rewrite (updateCategoryName_run old new emoji w de L) in Run.
  destruct (categoryRowIndex H (Sheet.getColumnValues de 10 13 30) old new) as [k|] eqn:K;
    [|discriminate].
  destruct (negb (str_truthy new) || negb (str_truthy (trim new))); [discriminate|].
  destruct (negb (str_truthy emoji) || negb (str_truthy (trim emoji))); [discriminate|].
  destruct (findDuplicate H lower 0 (Sheet.getColumnValues de 10 13 30) k
              (trim new +:+ " " +:+ trim emoji) (lower (trim new))) as [err|] eqn:Dup;
    [discriminate|].
  injection Run as <- <- <-. split; [done|].
  pose proof (categoryRowIndex_lt _ _ _ _ K) as Hk. rewrite getColumnValues_length in Hk.
  pose proof (lookupSheet_updated w "Dontedit"
                (fun s => Sheet.setValue s (k + 10) 13
                            (CStr (trim new +:+ " " +:+ trim emoji))) de L) as L1.
  pose proof (dontedit_stamped H "categories" _ _ 11 10 L1 eq_refl) as L2.
  assert (Dj : forall j, j < 30 -> j <> k ->
             duplicateError H lower (trim new +:+ " " +:+ trim emoji) (lower (trim new))
               (Sheet.getValue de (10 + j) 13) = None).
  { intros j Hj Nj.
    apply (proj1 (findDuplicate_None _ _ _ _ 0) Dup j); [|lia].
    by apply getColumnValues_lookup. }
  exists k. eexists. split; [done|]. split; [done|]. split; [exact L2|]. split; [|split; [|split]].
  - rewrite !getValue_setValue.
    rewrite decide_False by (intros [=]; lia).
    rewrite decide_True by (f_equal; lia). done.
  - intros r c N1 N2. rewrite !getValue_setValue.
    rewrite decide_False by (intros E; by apply N2).
    rewrite decide_False; [done|]. intros [= <- <-]. apply N1. f_equal. lia.
  - exact Dj.
  - intros j Hj Nj T. by apply (duplicateError_None _ (lower (trim new)) _ (Dj j Hj Nj)).
Qed.


Lemma str_truthy_trim s : str_truthy (trim s) = true -> str_truthy s = true.
Proof. destruct s; [done|]. done. Qed.

(** X22.  When no category of M10:M39 is the old full name, the category
    is searched by the new name instead: the first row whose text
    contains the new name is renamed, provided the new name and emoji
    are not blank and no other row is a duplicate. *)
Theorem updateCategoryName_falls_back_to_new_name old new emoji w de k :
  lookupSheet w "Dontedit" = Some de ->
  (forall j, j < 30 -> isCategory H old (Sheet.getValue de (10 + j) 13) = false) ->
  k < 30 ->
  mentions H new (Sheet.getValue de (10 + k) 13) = true ->
  (forall j, j < k -> mentions H new (Sheet.getValue de (10 + j) 13) = false) ->
  str_truthy (trim new) = true ->
  str_truthy (trim emoji) = true ->
  (forall j, j < 30 -> j <> k ->
     duplicateError H lower (trim new +:+ " " +:+ trim emoji) (lower (trim new))
       (Sheet.getValue de (10 + j) 13) = None) ->
  exists w',
    updateCategoryName H lower old new emoji w
    = (Normal (Renamed old (trim new +:+ " " +:+ trim emoji)), w')
    /\ Sheet.getValue (sheetOf w' "Dontedit") (10 + k) 13
       = CStr (trim new +:+ " " +:+ trim emoji).
Proof.
  intros L NoExact Hk M First Vn Ve Dup.
  rewrite (updateCategoryName_run old new emoji w de L).
  assert (K : categoryRowIndex H (Sheet.getColumnValues de 10 13 30) old new = Some k).
  { unfold categoryRowIndex.
    destruct (list_find (fun cell => isCategory H old cell = true) _) as [[i x]|] eqn:E.
    - apply list_find_Some in E as (Lx & T & _).
      pose proof (lookup_lt_Some _ _ _ Lx) as Hi. rewrite getColumnValues_length in Hi.
      rewrite getColumnValues_lookup in Lx by done.
      assert (x = Sheet.getValue de (10 + i) 13) as -> by congruence.
      by rewrite NoExact in T.
    - assert (F : list_find (fun cell => mentions H new cell = true)
                    (Sheet.getColumnValues de 10 13 30)
                  = Some (k, Sheet.getValue de (10 + k) 13)).
      { apply list_find_Some. split; [by apply getColumnValues_lookup|]. split; [done|].
        intros j y Ly Hj. rewrite getColumnValues_lookup in Ly by lia.
        assert (y = Sheet.getValue de (10 + j) 13) as -> by congruence.
        rewrite First by done. done. }
      by rewrite F. }
  rewrite K, (str_truthy_trim new Vn), Vn, (str_truthy_trim emoji Ve), Ve.
  cbn [negb orb].
  assert (D : findDuplicate H lower 0 (Sheet.getColumnValues de 10 13 30) k
                (trim new +:+ " " +:+ trim emoji) (lower (trim new)) = None).
  { apply findDuplicate_None. intros j cell Lc Nj.
    pose proof (lookup_lt_Some _ _ _ Lc) as Hj. rewrite getColumnValues_length in Hj.
    rewrite getColumnValues_lookup in Lc by done.
    assert (cell = Sheet.getValue de (10 + j) 13) as -> by congruence.
    apply Dup; [done|lia]. }
  rewrite D. eexists. split; [reflexivity|].
  pose proof (lookupSheet_updated w "Dontedit"
                (fun s => Sheet.setValue s (k + 10) 13
                            (CStr (trim new +:+ " " +:+ trim emoji))) de L) as L1.
  pose proof (dontedit_stamped H "categories" _ _ 11 10 L1 eq_refl) as L2.
  rewrite sheetOf_lookupSheet, L2. cbn [default from_option id].
  rewrite !getValue_setValue.
  rewrite decide_False by (intros [=]; lia).
  rewrite decide_True by (f_equal; lia). done.
Qed.

End CategoryNameFacts.

Lemma updateCategoryName_success_witness :
  exists k de',
    categoryRowIndex RefHost.host (Sheet.getColumnValues Examples.dontedit 10 13 30)
      "Rent" "Housing" = Some k
    /\ lookupSheet (snd (updateCategoryName RefHost.host toLowerCase "Rent" "Housing" "🏠"
                           (Examples.world ∅))) "Dontedit" = Some de'
    /\ Sheet.getValue de' (10 + k) 13 = CStr "Housing 🏠".
Proof.
  destruct (updateCategoryName_success RefHost.host toLowerCase "Rent" "Housing" "🏠"
              (Examples.world ∅) Examples.dontedit "Rent" "Housing 🏠"
              (snd (updateCategoryName RefHost.host toLowerCase "Rent" "Housing" "🏠"
                      (Examples.world ∅))))
    as (_ & k & de' & K & _ & L & V & _).
  - vm_compute. reflexivity.
  - vm_compute. reflexivity.
  - exists k, de'. split; [exact K|]. split; [exact L|exact V].
Defined.

Lemma updateCategoryName_falls_back_to_new_name_witness :
  exists w',
    updateCategoryName RefHost.host toLowerCase "Travel" "Re" "🏠" (Examples.world ∅)
    = (Normal (Renamed "Travel" "Re 🏠"), w')
    /\ Sheet.getValue (sheetOf w' "Dontedit") 11 13 = CStr "Re 🏠".
Proof.
  apply (updateCategoryName_falls_back_to_new_name RefHost.host toLowerCase
           "Travel" "Re" "🏠" (Examples.world ∅) Examples.dontedit 1).
  - vm_compute. reflexivity.
  - intros j Hj.
    assert (Hall : Forall (fun j => isCategory RefHost.host "Travel"
                                      (Sheet.getValue Examples.dontedit (10 + j) 13) = false)
                     (seq 0 30)).
    { apply (bool_decide_unpack _). vm_compute. exact I. }
    exact (Forall_lookup_1 _ _ j (0 + j) Hall (lookup_seq_lt 0 30 j Hj)).
  - lia.
  - vm_compute. reflexivity.
  - intros j Hj. assert (j = 0) as -> by lia. vm_compute. reflexivity.
  - vm_compute. reflexivity.
  - vm_compute. reflexivity.
  - intros j Hj Nj.
    assert (Hall : Forall (fun j => j <> 1 ->
                     duplicateError RefHost.host toLowerCase "Re 🏠" "re"
                       (Sheet.getValue Examples.dontedit (10 + j) 13) = None)
                     (seq 0 30)).
    { apply (bool_decide_unpack _). vm_compute. exact I. }
    exact (Forall_lookup_1 _ _ j (0 + j) Hall (lookup_seq_lt 0 30 j Hj) Nj).
Defined.

(** ** The parts of a sheet URL *)

Lemma takeWhile_split class s :
  exists post, s = takeWhile class s +:+ post /\ takeWhile class post = "".
Proof.
  induction s as [|c s (post & E & P)]; [by exists ""|].
  cbn [takeWhile]. destruct (class c) eqn:C.
  - exists post. split; [|done].
    change (String c s = String c (takeWhile class s +:+ post)). by f_equal.
  - exists (String c s). split; [done|]. cbn [takeWhile]. by rewrite C.
Qed.

Lemma takeWhile_all class s :
  forallb class (list_ascii_of_string (takeWhile class s)) = true.
Proof.
  induction s as [|c s IH]; [done|]. cbn [takeWhile].
  destruct (class c) eqn:C; [|done]. cbn. by rewrite C, IH.
Qed.

Lemma takeWhile_app class s post :
  forallb class (list_ascii_of_string s) = true ->
  takeWhile class post = "" ->
  takeWhile class (s +:+ post) = s.
Proof.
  intros A P. induction s as [|c s IH]; [done|].
  cbn [list_ascii_of_string forallb] in A. apply andb_prop in A as [C A].
  change (takeWhile class (String c (s +:+ post)) = String c s).
  cbn [takeWhile]. rewrite C. f_equal. by apply IH.
Qed.

Lemma stripPrefix_Some prefix : forall s rest,
  stripPrefix prefix s = Some rest -> s = prefix +:+ rest.
Proof.
  induction prefix as [|p prefix IH]; intros s rest E.
  - cbn in E. by injection E as ->.
  - destruct s as [|c s]; [done|]. cbn [stripPrefix] in E.
    destruct (Ascii.eqb p c) eqn:Ec; [|done].
    apply Ascii.eqb_eq in Ec as ->.
    change (String c s = String c (prefix +:+ rest)). f_equal. by apply IH.
Qed.

Lemma capture_cons start class c s :
  capture start class (String c s)
  = match start (String c s) with
    | Some rest =>
        if String.eqb (takeWhile class rest) "" then capture start class s
        else Some (takeWhile class rest)
    | None => capture start class s
    end.
Proof.
  cbn [capture]. destruct (start (String c s)) as [rest|]; [|done].
  by destruct (String.eqb (takeWhile class rest) "").
Qed.

(** The group of a match: it is not empty, consists of characters of the
    class, follows a match of the start, and is not followed by a
    character of the class. *)
Lemma capture_sound start class s group :
  capture start class s = Some group ->
  group <> ""
  /\ forallb class (list_ascii_of_string group) = true
  /\ exists pre mid post,
       s = pre +:+ mid /\ start mid = Some (group +:+ post)
       /\ takeWhile class post = "".
Proof.
  induction s as [|c s IH]; intros E.
  - cbn [capture] in E.
    destruct (start "") as [rest|] eqn:S; [|done].
    destruct (String.eqb (takeWhile class rest) "") eqn:G; [done|].
    injection E as <-. apply String.eqb_neq in G.
    split; [done|]. split; [apply takeWhile_all|].
    destruct (takeWhile_split class rest) as (post & Er & P).
    exists "", "", post. by rewrite S, <- Er.
  - rewrite capture_cons in E.
    destruct (start (String c s)) as [rest|] eqn:S.
    + destruct (String.eqb (takeWhile class rest) "") eqn:G.
      * destruct (IH E) as (N & A & pre & mid & post & -> & M & P).
        split; [done|]. split; [done|]. by exists (String c pre), mid, post.
      * injection E as <-. apply String.eqb_neq in G.
        split; [done|]. split; [apply takeWhile_all|].
        destruct (takeWhile_split class rest) as (post & Er & P).
        exists "", (String c s), post. by rewrite S, <- Er.
    + destruct (IH E) as (N & A & pre & mid & post & -> & M & P).
      split; [done|]. split; [done|]. by exists (String c pre), mid, post.
Qed.

Lemma afterGid_Some s rest :
  afterGid s = Some rest -> s = "#gid=" +:+ rest \/ s = "&gid=" +:+ rest.
Proof.
  destruct s as [|c s]; [done|]. cbn [afterGid].
  destruct (Ascii.eqb c "#") eqn:E1; cbn [orb].
  - apply Ascii.eqb_eq in E1 as ->. intros E%stripPrefix_Some. left. by rewrite E.
  - destruct (Ascii.eqb c "&") eqn:E2; [|done].
    apply Ascii.eqb_eq in E2 as ->. intros E%stripPrefix_Some. right. by rewrite E.
Qed.

(** X23.  What parseSheetUrl returns is in the URL: a spreadsheet id is a
    non-empty run of letters, digits, hyphens and underscores that stands
    in the URL right after "/d/" and is not followed by another such
    character; a sheet id is a non-empty run of digits right after
    "#gid=" or "&gid=", not followed by a digit. *)
Theorem parseSheetUrl_sound url :
  (forall id, spreadsheetId (parseSheetUrl url) = Some id ->
     id <> "" /\ forallb idChar (list_ascii_of_string id) = true
     /\ exists pre post, url = pre +:+ "/d/" +:+ id +:+ post
                         /\ takeWhile idChar post = "")
  /\ (forall gid, sheetId (parseSheetUrl url) = Some gid ->
        gid <> "" /\ forallb digitChar (list_ascii_of_string gid) = true
        /\ exists pre post,
             (url = pre +:+ "#gid=" +:+ gid +:+ post
              \/ url = pre +:+ "&gid=" +:+ gid +:+ post)
             /\ takeWhile digitChar post = "").
Proof.
  split.
  - intros id E. cbn [parseSheetUrl spreadsheetId] in E.
    apply capture_sound in E as (N & A & pre & mid & post & -> & M & P).
    split; [done|]. split; [done|]. exists pre, post. split; [|done].
    apply stripPrefix_Some in M. by rewrite M.
  - intros gid E. cbn [parseSheetUrl sheetId] in E.
    apply capture_sound in E as (N & A & pre & mid & post & -> & M & P).
    split; [done|]. split; [done|]. exists pre, post. split; [|done].
    apply afterGid_Some in M as [-> | ->]; [by left|by right].
Qed.

Lemma parseSheetUrl_sound_witness :
  parseSheetUrl "https://docs.google.com/spreadsheets/d/1AbC-d_9/edit?usp=sharing&gid=42#x"
  = {| spreadsheetId := Some "1AbC-d_9"; sheetId := Some "42" |}
  /\ exists pre post,
       "https://docs.google.com/spreadsheets/d/1AbC-d_9/edit?usp=sharing&gid=42#x"
       = pre +:+ "/d/" +:+ "1AbC-d_9" +:+ post.
Proof.
  split; [vm_compute; reflexivity|].
  destruct (proj1 (parseSheetUrl_sound
                     "https://docs.google.com/spreadsheets/d/1AbC-d_9/edit?usp=sharing&gid=42#x")
              "1AbC-d_9") as (_ & _ & pre & post & E & _).
  - vm_compute. reflexivity.
  - by exists pre, post.
Defined.

Lemma append_cons c s t : String c s +:+ t = String c (s +:+ t).
Proof. reflexivity. Qed.

Lemma append_nil t : "" +:+ t = t.
Proof. reflexivity. Qed.

Lemma idChar_not_separator c :
  idChar c = true -> Ascii.eqb c "#" || Ascii.eqb c "&" = false.
Proof. destruct c as [[] [] [] [] [] [] [] []]; done. Qed.

Lemma capture_gid_skip class pre s :
  forallb idChar (list_ascii_of_string pre) = true ->
  capture afterGid class (pre +:+ s) = capture afterGid class s.
Proof.
  induction pre as [|c pre IH]; intros A; [done|].
  cbn [list_ascii_of_string forallb] in A. apply andb_prop in A as [C A].
  change (String c pre +:+ s) with (String c (pre +:+ s)).
  rewrite capture_cons. cbn [afterGid]. rewrite (idChar_not_separator c C). by apply IH.
Qed.

Lemma eqb_nonempty s : s <> "" -> String.eqb s "" = false.
Proof. intros N. by apply String.eqb_neq. Qed.

(** X24.  A URL of the standard form, the path of Google Sheets followed by
    an id, "/edit#gid=" and a number, is taken apart into that id and that
    number, whatever follows the number unless it is a digit. *)
Theorem parseSheetUrl_standard id gid rest :
  id <> "" ->
  forallb idChar (list_ascii_of_string id) = true ->
  gid <> "" ->
  forallb digitChar (list_ascii_of_string gid) = true ->
  takeWhile digitChar rest = "" ->
  parseSheetUrl ("https://docs.google.com/spreadsheets/d/" +:+ id +:+ "/edit#gid="
                 +:+ gid +:+ rest)
  = {| spreadsheetId := Some id; sheetId := Some gid |}.
Proof.
  intros Ni Ai Ng Ag Pr. unfold parseSheetUrl.
  rewrite !append_cons, !append_nil. f_equal.
  - do 36 (rewrite capture_cons; cbn [afterSlashD stripPrefix Ascii.eqb Bool.eqb andb]).
    rewrite capture_cons. cbn [afterSlashD stripPrefix Ascii.eqb Bool.eqb andb].
    rewrite takeWhile_app; [by rewrite eqb_nonempty|done|done].
  - do 39 (rewrite capture_cons; cbn [afterGid stripPrefix Ascii.eqb Bool.eqb andb orb]).
    rewrite capture_gid_skip by done.
    do 5 (rewrite capture_cons; cbn [afterGid stripPrefix Ascii.eqb Bool.eqb andb orb]).
    rewrite capture_cons. cbn [afterGid stripPrefix Ascii.eqb Bool.eqb andb orb].
    rewrite takeWhile_app; [by rewrite eqb_nonempty|done|done].
Qed.

Lemma parseSheetUrl_standard_witness :
  parseSheetUrl "https://docs.google.com/spreadsheets/d/1AbC-d_9/edit#gid=42"
  = {| spreadsheetId := Some "1AbC-d_9"; sheetId := Some "42" |}.
Proof.
  apply (parseSheetUrl_standard "1AbC-d_9" "42" ""); done.
Defined.

(** ** The budget of a new month *)





(** ** Repairing the identifiers and checking them *)

(** The last row is zero or a row with content. *)
Lemma getLastRow_attained (sh : gmap (nat * nat) Cell) :
  Sheet.getLastRow sh = 0
  \/ exists c, is_blank (Sheet.getValue sh (Sheet.getLastRow sh) c) = false.
Proof.
  unfold Sheet.getLastRow.
  apply (map_fold_weak_ind
           (fun acc (m : gmap (nat * nat) Cell) =>
              acc = 0 \/ exists c, is_blank (Sheet.getValue m acc c) = false)).
  - by left.
  - intros [r c] v m acc Hm IH. cbn [fst].
    assert (Keep : forall r' c', is_blank (Sheet.getValue m r' c') = false ->
                     is_blank (Sheet.getValue (<[(r, c) := v]> m) r' c') = false
                     \/ (r' = r /\ is_blank v = true)).
    { intros r' c' B. unfold Sheet.getValue in *.
      destruct (decide ((r, c) = (r', c'))) as [[= <- <-]|N].
      - rewrite Hm in B. done.
      - left. by rewrite lookup_insert_ne. }
    destruct (is_blank v) eqn:Bv.
    + destruct IH as [->|[c' B]]; [by left|]. right.
      destruct (Keep _ _ B) as [K|[-> _]]; [by exists c'|].
      unfold Sheet.getValue in B.
      exists c'. unfold Sheet.getValue.
      destruct (decide ((r, c) = (r, c'))) as [[= <-]|N].
      * by rewrite Hm in B.
      * by rewrite lookup_insert_ne.
    + destruct (decide (acc <= r)) as [Hle|Hgt].
      * rewrite Nat.max_l by done. right. exists c.
        unfold Sheet.getValue. by rewrite lookup_insert_eq.
      * rewrite Nat.max_r by lia.
        destruct IH as [->|[c' B]]; [lia|]. right. exists c'.
        destruct (Keep _ _ B) as [K|[-> _]]; [done|lia].
Qed.

Lemma getLastRow_same_rows (sh sh' : gmap (nat * nat) Cell) :
  (forall r, (exists c, is_blank (Sheet.getValue sh' r c) = false)
             <-> (exists c, is_blank (Sheet.getValue sh r c) = false)) ->
  Sheet.getLastRow sh' = Sheet.getLastRow sh.
Proof.
  intros Same.
  assert (Le : forall a b : gmap (nat * nat) Cell,
            (forall r, (exists c, is_blank (Sheet.getValue a r c) = false)
                       -> (exists c, is_blank (Sheet.getValue b r c) = false)) ->
            Sheet.getLastRow a <= Sheet.getLastRow b).
  { intros a b Sub. destruct (getLastRow_attained a) as [->|X]; [lia|].
    destruct (Sub _ X) as [c B]. exact (getLastRow_ge_value b _ c B). }
  apply Nat.le_antisymm; apply Le; intros r; apply Same.
Qed.

(** The cells after the identifiers [items] have been written to the
    column [col]. *)
Lemma getValue_idsWritten (col : nat) (items : list (nat * string)) :
  forall (sh : gmap (nat * nat) Cell) r c,
  let sh' := foldl (fun s (item : nat * string) =>
                      Sheet.setValue s (fst item) col (CStr (snd item))) sh items in
  (c <> col \/ r ∉ items.*1 -> Sheet.getValue sh' r c = Sheet.getValue sh r c)
  /\ (c = col -> r ∈ items.*1 ->
      exists id, (r, id) ∈ items /\ Sheet.getValue sh' r c = CStr id).
Proof.
  induction items as [|[r0 id0] items IH]; intros sh r c; cbn [foldl].
  - split; [done|]. intros _ Hin. by apply elem_of_nil in Hin.
  - cbv zeta in *. cbn [fst snd fmap list_fmap] in *.
    destruct (IH (Sheet.setValue sh r0 col (CStr id0)) r c) as [Out In].
    split.
    + intros Hout. rewrite Out.
      * rewrite getValue_setValue, decide_False; [done|].
        intros [= -> ->]. destruct Hout as [?|Hn]; [done|]. apply Hn. by left.
      * destruct Hout as [?|Hn]; [by left|]. right. intros Hin. apply Hn. by right.
    + intros -> Hin.
      destruct (decide (r ∈ items.*1)) as [Hrest|Hrest].
      * destruct (In eq_refl Hrest) as (id & Hid & V). exists id. split; [by right|done].
      * exists id0. apply elem_of_cons in Hin as [->|Hin]; [|done].
        split; [by left|]. rewrite Out by (by right).
        by rewrite getValue_setValue, decide_True.
Qed.

Section DataHealthFacts.
Variable H : Host.
Variable random : nat -> string.

Lemma idsToSet_elem cfg today : forall ids rows r0 calls r id,
  (r, id) ∈ fst (idsToSet H random cfg today r0 ids rows calls) ->
  exists k idc row n,
    r = r0 + k /\ ids !! k = Some idc /\ rows !! k = Some row
    /\ rowHasData row = true /\ needsNewId H idc = true
    /\ id = cfg_prefix cfg +:+ Number_toString H (Fin (inject_Z today)) +:+ "-"
            +:+ random n.
Proof.
  induction ids as [|idc ids IH]; intros rows r0 calls r id Hin.
  - cbn [idsToSet fst] in Hin. by apply elem_of_nil in Hin.
  - destruct rows as [|row rows]; [cbn [idsToSet fst] in Hin; by apply elem_of_nil in Hin|].
    cbn [idsToSet] in Hin.
    destruct (rowHasData row && needsNewId H idc) eqn:C.
    + cbn [fst] in Hin. apply elem_of_cons in Hin as [[= -> ->]|Hin].
      * apply andb_prop in C as [C1 C2].
        exists 0, idc, row, calls. rewrite Nat.add_0_r. done.
      * destruct (IH _ _ _ _ _ Hin) as (k & idc' & row' & n & -> & L1 & L2 & X).
        exists (S k), idc', row', n. split; [lia|done].
    + destruct (IH _ _ _ _ _ Hin) as (k & idc' & row' & n & -> & L1 & L2 & X).
      exists (S k), idc', row', n. split; [lia|done].
Qed.

Lemma idsToSet_covers cfg today : forall ids rows r0 calls k idc row,
  ids !! k = Some idc -> rows !! k = Some row ->
  rowHasData row = true -> needsNewId H idc = true ->
  r0 + k ∈ (fst (idsToSet H random cfg today r0 ids rows calls)).*1.
Proof.
  induction ids as [|idc0 ids IH]; intros rows r0 calls k idc row L1 L2 D N; [done|].
  destruct rows as [|row0 rows]; [done|].
  cbn [idsToSet]. destruct k as [|k].
  - injection L1 as ->. injection L2 as ->. rewrite D, N. cbn [andb fst fmap list_fmap].
    rewrite Nat.add_0_r. by left.
  - cbn [lookup list_lookup] in L1, L2.
    pose proof (IH rows (S r0) (S calls) k idc row L1 L2 D N) as I1.
    pose proof (IH rows (S r0) calls k idc row L1 L2 D N) as I2.
    replace (r0 + S k) with (S r0 + k) by lia.
    destruct (rowHasData row0 && needsNewId H idc0); [|done].
    cbn [fst fmap list_fmap]. by right.
Qed.

Lemma idsToSet_none cfg today : forall ids rows r0 calls,
  (forall k idc row, ids !! k = Some idc -> rows !! k = Some row ->
     rowHasData row = true -> needsNewId H idc = false) ->
  idsToSet H random cfg today r0 ids rows calls = ([], calls).
Proof.
  induction ids as [|idc ids IH]; intros rows r0 calls A; [done|].
  destruct rows as [|row rows]; [done|]. cbn [idsToSet].
  destruct (rowHasData row) eqn:D; cbn [andb].
  - rewrite (A 0 idc row eq_refl eq_refl D). apply IH.
    intros k idc' row' L1 L2. by apply (A (S k)).
  - apply IH. intros k idc' row' L1 L2. by apply (A (S k)).
Qed.

Lemma purelyNumeric_prefix c rest : digitChar c = false -> purelyNumeric (String c rest) = false.
Proof. intros D. unfold purelyNumeric. cbn. by rewrite D. Qed.

Lemma needsNewId_written cfg text :
  wellFormed cfg = true -> needsNewId H (CStr (cfg_prefix cfg +:+ text)) = false.
Proof.
  unfold wellFormed. intros W. apply andb_prop in W as [_ W].
  destruct (cfg_prefix cfg) as [|c rest]; [done|].
  apply negb_true_iff in W.
  unfold needsNewId. cbn [cell_truthy cellToString].
  change (String c rest +:+ text) with (String c (rest +:+ text)).
  by rewrite purelyNumeric_prefix.
Qed.

Lemma rowHasData_ext (sh sh' : gmap (nat * nat) Cell) r c w :
  (forall j, j < w -> Sheet.getValue sh' r (c + j) = Sheet.getValue sh r (c + j)) ->
  rowHasData (Sheet.getRowValues sh' r c w) = rowHasData (Sheet.getRowValues sh r c w).
Proof. intros E. by rewrite (getRowValues_ext sh' sh r c w E). Qed.

Lemma rowHasData_cell (sh : gmap (nat * nat) Cell) r c w :
  rowHasData (Sheet.getRowValues sh r c w) = true ->
  exists c', is_blank (Sheet.getValue sh r c') = false.
Proof.
  unfold rowHasData. intros E. apply existsb_exists in E as (cell & Hin & B).
  apply list_elem_of_In in Hin. apply list_elem_of_lookup in Hin as [j L].
  pose proof (lookup_lt_Some _ _ _ L) as Hj. rewrite getRowValues_length in Hj.
  rewrite getRowValues_lookup in L by done.
  assert (cell = Sheet.getValue sh r (c + j)) as -> by congruence.
  exists (c + j). by apply negb_true_iff in B.
Qed.

(** The sheet after the repair. *)
Lemma fixedSheet_cells (cfg : SheetConfig) (today : Z) (calls : nat)
    (sh : gmap (nat * nat) Cell) (r c : nat) :
  cfg_startRow cfg <= Sheet.getLastRow sh ->
  (c <> cfg_idCol cfg -> Sheet.getValue (fixedSheet H random cfg today calls sh) r c
                         = Sheet.getValue sh r c)
  /\ (Sheet.getValue (fixedSheet H random cfg today calls sh) r c = Sheet.getValue sh r c
      \/ (c = cfg_idCol cfg
          /\ cfg_startRow cfg <= r <= Sheet.getLastRow sh
          /\ rowHasData (Sheet.getRowValues sh r (dataStart cfg)
                           (dataEnd cfg - dataStart cfg + 1)) = true
          /\ needsNewId H (Sheet.getValue sh r (cfg_idCol cfg)) = true
          /\ exists text, Sheet.getValue (fixedSheet H random cfg today calls sh) r c
                          = CStr (cfg_prefix cfg +:+ text)))
  /\ (cfg_startRow cfg <= r <= Sheet.getLastRow sh ->
      rowHasData (Sheet.getRowValues sh r (dataStart cfg)
                    (dataEnd cfg - dataStart cfg + 1)) = true ->
      needsNewId H (Sheet.getValue sh r (cfg_idCol cfg)) = true ->
      exists text, Sheet.getValue (fixedSheet H random cfg today calls sh) r (cfg_idCol cfg)
                   = CStr (cfg_prefix cfg +:+ text)).
Proof.
  intros Hdata. unfold fixedSheet.
  set (n := Sheet.getLastRow sh - cfg_startRow cfg + 1).
  set (ids := Sheet.getColumnValues sh (cfg_startRow cfg) (cfg_idCol cfg) n).
  set (rows := Sheet.getValues sh (cfg_startRow cfg) (dataStart cfg) n
                 (dataEnd cfg - dataStart cfg + 1)).
  set (items := fst (idsToSet H random cfg today (cfg_startRow cfg) ids rows calls)).
  destruct (getValue_idsWritten (cfg_idCol cfg) items sh r c) as [Out In].
  cbv zeta in Out, In.
  assert (Elem : forall id, (r, id) ∈ items ->
            cfg_startRow cfg <= r <= Sheet.getLastRow sh
            /\ rowHasData (Sheet.getRowValues sh r (dataStart cfg)
                             (dataEnd cfg - dataStart cfg + 1)) = true
            /\ needsNewId H (Sheet.getValue sh r (cfg_idCol cfg)) = true
            /\ exists text, id = cfg_prefix cfg +:+ text).
  { intros id Hin. apply idsToSet_elem in Hin
      as (k & idc & row & m & -> & L1 & L2 & D & N & ->).
    pose proof (lookup_lt_Some _ _ _ L1) as Hk. unfold ids in Hk.
    rewrite getColumnValues_length in Hk.
    unfold ids in L1. rewrite getColumnValues_lookup in L1 by done.
    unfold rows, Sheet.getValues in L2.
    rewrite list_lookup_fmap, lookup_seq_lt in L2 by done.
    cbn [fmap option_fmap option_map] in L2.
    assert (idc = Sheet.getValue sh (cfg_startRow cfg + k) (cfg_idCol cfg)) as ->
      by congruence.
    assert (row = Sheet.getRowValues sh (cfg_startRow cfg + (0 + k)) (dataStart cfg)
                    (dataEnd cfg - dataStart cfg + 1)) as -> by congruence.
    split; [unfold n in Hk; lia|]. split; [done|]. split; [done|]. eauto. }
  split; [intros Nc; apply Out; by left|]. split.
  - destruct (decide (c = cfg_idCol cfg /\ r ∈ items.*1)) as [[-> Hin]|N].
    + right. destruct (In eq_refl Hin) as (id & Hid & V).
      destruct (Elem id Hid) as (Hr & D & Nd & text & ->).
      split; [done|]. split; [done|]. split; [done|]. split; [done|]. by exists text.
    + left. apply Out. destruct (decide (c = cfg_idCol cfg)) as [->|]; [|by left].
      right. intros Hin. by apply N.
  - intros Hr D Nd.
    assert (Hin : r ∈ items.*1).
    { replace r with (cfg_startRow cfg + (r - cfg_startRow cfg)) by lia.
      apply (idsToSet_covers cfg today ids rows _ calls _
               (Sheet.getValue sh r (cfg_idCol cfg))
               (Sheet.getRowValues sh r (dataStart cfg) (dataEnd cfg - dataStart cfg + 1)));
        [| |done|done].
      - unfold ids. rewrite getColumnValues_lookup by (unfold n; lia).
        do 2 f_equal. lia.
      - unfold rows, Sheet.getValues.
        rewrite list_lookup_fmap, lookup_seq_lt by (unfold n; lia).
        cbn [fmap option_fmap option_map]. do 2 f_equal. lia. }
    destruct (getValue_idsWritten (cfg_idCol cfg) items sh r (cfg_idCol cfg)) as [_ In'].
    destruct (In' eq_refl Hin) as (id & Hid & V).
    destruct (Elem id Hid) as (_ & _ & _ & text & ->). by exists text.
Qed.


Lemma wellFormed_prefix cfg text :
  wellFormed cfg = true -> is_blank (CStr (cfg_prefix cfg +:+ text)) = false.
Proof.
  unfold wellFormed. intros W. apply andb_prop in W as [_ W].
  by destruct (cfg_prefix cfg).
Qed.

Lemma fixedSheet_lastRow (cfg : SheetConfig) (today : Z) (calls : nat)
    (sh : gmap (nat * nat) Cell) :
  wellFormed cfg = true ->
  cfg_startRow cfg <= Sheet.getLastRow sh ->
  Sheet.getLastRow (fixedSheet H random cfg today calls sh) = Sheet.getLastRow sh.
Proof.
  intros W Hdata. apply getLastRow_same_rows. intros r. split.
  - intros [c B].
    destruct (fixedSheet_cells cfg today calls sh r c Hdata) as (_ & [E|X] & _).
    + exists c. by rewrite <- E.
    + destruct X as (_ & _ & D & _). by apply rowHasData_cell in D.
  - intros [c B].
    destruct (fixedSheet_cells cfg today calls sh r c Hdata) as (_ & [E|X] & _).
    + exists c. by rewrite E.
    + destruct X as (_ & _ & _ & _ & text & V). exists c. rewrite V.
      by apply wellFormed_prefix.
Qed.

Lemma fixedSheet_data (cfg : SheetConfig) (today : Z) (calls : nat)
    (sh : gmap (nat * nat) Cell) (r : nat) :
  wellFormed cfg = true ->
  cfg_startRow cfg <= Sheet.getLastRow sh ->
  rowHasData (Sheet.getRowValues (fixedSheet H random cfg today calls sh) r (dataStart cfg)
                (dataEnd cfg - dataStart cfg + 1))
  = rowHasData (Sheet.getRowValues sh r (dataStart cfg) (dataEnd cfg - dataStart cfg + 1)).
Proof.
  intros W Hdata. apply rowHasData_ext. intros j _.
  apply (fixedSheet_cells cfg today calls sh r (dataStart cfg + j) Hdata).
  unfold wellFormed in W. apply andb_prop in W as [W _]. apply Nat.ltb_lt in W. lia.
Qed.

Lemma fixedSheet_healthy (cfg : SheetConfig) (today : Z) (calls : nat)
    (sh : gmap (nat * nat) Cell) :
  wellFormed cfg = true ->
  cfg_startRow cfg <= Sheet.getLastRow sh ->
  healthy H cfg (fixedSheet H random cfg today calls sh).
Proof.
  intros W Hdata r Hr D.
  rewrite fixedSheet_lastRow in Hr by done.
  rewrite fixedSheet_data in D by done.
  destruct (needsNewId H (Sheet.getValue sh r (cfg_idCol cfg))) eqn:N.
  - destruct (fixedSheet_cells cfg today calls sh r (cfg_idCol cfg) Hdata) as (_ & _ & Wr).
    destruct (Wr Hr D N) as [text ->]. by apply needsNewId_written.
  - destruct (fixedSheet_cells cfg today calls sh r (cfg_idCol cfg) Hdata)
      as (_ & [E|X] & _).
    + by rewrite E.
    + destruct X as (_ & _ & _ & N' & _). congruence.
Qed.

Lemma healthy_idsToSet (cfg : SheetConfig) (today : Z) (calls : nat)
    (sh : gmap (nat * nat) Cell) :
  healthy H cfg sh ->
  cfg_startRow cfg <= Sheet.getLastRow sh ->
  idsToSet H random cfg today (cfg_startRow cfg)
    (Sheet.getColumnValues sh (cfg_startRow cfg) (cfg_idCol cfg)
       (Sheet.getLastRow sh - cfg_startRow cfg + 1))
    (Sheet.getValues sh (cfg_startRow cfg) (dataStart cfg)
       (Sheet.getLastRow sh - cfg_startRow cfg + 1) (dataEnd cfg - dataStart cfg + 1))
    calls
  = ([], calls).
Proof.
  intros Hh Hdata. apply idsToSet_none. intros k idc row L1 L2 D.
  pose proof (lookup_lt_Some _ _ _ L1) as Hk. rewrite getColumnValues_length in Hk.
  rewrite getColumnValues_lookup in L1 by done.
  unfold Sheet.getValues in L2. rewrite list_lookup_fmap, lookup_seq_lt in L2 by done.
  cbn [fmap option_fmap option_map] in L2.
  assert (idc = Sheet.getValue sh (cfg_startRow cfg + k) (cfg_idCol cfg)) as ->
    by congruence.
  assert (row = Sheet.getRowValues sh (cfg_startRow cfg + (0 + k)) (dataStart cfg)
                  (dataEnd cfg - dataStart cfg + 1)) as -> by congruence.
  apply Hh; [lia|]. exact D.
Qed.

Lemma fixedSheet_healthy_same (cfg : SheetConfig) (today : Z) (calls : nat)
    (sh : gmap (nat * nat) Cell) :
  healthy H cfg sh ->
  cfg_startRow cfg <= Sheet.getLastRow sh ->
  fixedSheet H random cfg today calls sh = sh.
Proof.
  intros Hh Hdata. unfold fixedSheet. by rewrite healthy_idsToSet.
Qed.

(** The callback on a sheet that is there. *)
Lemma fixSheet_run cfg st w sh :
  lookupSheet w (cfg_name cfg) = Some sh ->
  fixSheet H random cfg st w
  = if (Sheet.getLastRow sh <? cfg_startRow cfg)%nat
    then (Normal (pushResult st (cfg_name cfg +:+ ": No data to check")), w)
    else
      let found :=
        idsToSet H random cfg (clock w) (cfg_startRow cfg)
          (Sheet.getColumnValues sh (cfg_startRow cfg) (cfg_idCol cfg)
             (Sheet.getLastRow sh - cfg_startRow cfg + 1))
          (Sheet.getValues sh (cfg_startRow cfg) (dataStart cfg)
             (Sheet.getLastRow sh - cfg_startRow cfg + 1)
             (dataEnd cfg - dataStart cfg + 1))
          (randomCalls st) in
      (Normal {| totalFixed := totalFixed st + length (fst found);
                 fix_results :=
                   (fix_results st
                    ++ [cfg_name cfg +:+ ": Fixed " +:+ pretty (length (fst found))
                        +:+ " rows"])%list;
                 sheetsModified :=
                   if (0 <? length (fst found))%nat
                   then (sheetsModified st ++ [cfg_name cfg])%list else sheetsModified st;
                 randomCalls := snd found |},
       with_book w
         (alter (fun s => foldl (fun s (item : nat * string) =>
                   Sheet.setValue s (fst item) (cfg_idCol cfg) (CStr (snd item))) s
                   (fst found)) (cfg_name cfg) <$> book w)).
Proof.
  intros L. destruct (book_of_lookupSheet w _ sh L) as (ss & B & S).
  unfold fixSheet.
  rewrite (bind_normal _ _ w _ _ (getBudgetSheet_found (cfg_name cfg) w ss sh B S)).
  rewrite (bind_normal _ _ w _ _ (readSheet_run w ss (cfg_name cfg) sh B S)).
  destruct (Sheet.getLastRow sh <? cfg_startRow cfg)%nat; [reflexivity|].
  cbv zeta. unfold bind at 1. unfold now at 1.
  unfold bind at 1. rewrite forOf_updateSheet. reflexivity.
Qed.


Lemma repaired_refl cfg sh : repaired H cfg sh sh.
Proof. intros r c. by left. Qed.

Lemma with_book_alter_nil w name (col : nat) :
  with_book w
    (alter (fun s : gmap (nat * nat) Cell =>
              foldl (fun s (item : nat * string) =>
                       Sheet.setValue s (fst item) col (CStr (snd item))) s [])
       name <$> book w) = w.
Proof.
  transitivity (with_book w (book w)); [|apply with_book_id]. f_equal.
  destruct (book w) as [ss|]; [|reflexivity].
  cbn [fmap option_fmap option_map]. f_equal.
  by apply alter_id.
Qed.

Lemma fixSheet_effect cfg st w sh :
  lookupSheet w (cfg_name cfg) = Some sh ->
  wellFormed cfg = true ->
  exists st' w' sh',
    fixSheet H random cfg st w = (Normal st', w')
    /\ lookupSheet w' (cfg_name cfg) = Some sh'
    /\ healthy H cfg sh'
    /\ repaired H cfg sh sh'
    /\ (forall other, other <> cfg_name cfg -> lookupSheet w' other = lookupSheet w other)
    /\ clock w' = clock w
    /\ (healthy H cfg sh ->
        w' = w /\ totalFixed st' = totalFixed st /\ sheetsModified st' = sheetsModified st).
Proof.
  intros L W. rewrite (fixSheet_run cfg st w sh L).
  destruct (Sheet.getLastRow sh <? cfg_startRow cfg)%nat eqn:E.
  - apply Nat.ltb_lt in E. eexists _, w, sh. split; [reflexivity|]. split; [done|].
    split; [intros r Hr; lia|]. split; [apply repaired_refl|]. split; [done|]. split; [done|].
    done.
  - apply Nat.ltb_ge in E. cbv zeta.
    eexists _, _, (fixedSheet H random cfg (clock w) (randomCalls st) sh).
    split; [reflexivity|]. split; [|split; [|split; [|split; [|split]]]].
    + exact (lookupSheet_updated w (cfg_name cfg) _ sh L).
    + by apply fixedSheet_healthy.
    + intros r c.
      destruct (fixedSheet_cells cfg (clock w) (randomCalls st) sh r c E) as (_ & X & _).
      exact X.
    + intros other N. by apply lookupSheet_written.
    + reflexivity.
    + intros Hh. rewrite (healthy_idsToSet cfg (clock w) (randomCalls st) sh Hh E).
      cbn [fst snd length totalFixed sheetsModified Nat.ltb Nat.leb].
      split; [apply with_book_alter_nil|]. split; [lia|done].
Qed.

Lemma healthy_repaired cfg sh sh' :
  healthy H cfg sh -> repaired H cfg sh sh' ->
  forall r c, Sheet.getValue sh' r c = Sheet.getValue sh r c.
Proof.
  intros Hh R r c. destruct (R r c) as [E|(-> & Hr & D & N & _)]; [done|].
  rewrite (Hh r Hr D) in N. done.
Qed.

(** The loop over the sheets. *)
Lemma fixLoop_effect cfgs : forall st w,
  NoDup (cfg_name <$> cfgs) ->
  (forall cfg, cfg ∈ cfgs ->
     wellFormed cfg = true /\ is_Some (lookupSheet w (cfg_name cfg))) ->
  exists st' w',
    forOf (fixSheet H random) cfgs st w = (Normal st', w')
    /\ (forall cfg, cfg ∈ cfgs ->
          exists sh sh', lookupSheet w (cfg_name cfg) = Some sh
                         /\ lookupSheet w' (cfg_name cfg) = Some sh'
                         /\ healthy H cfg sh' /\ repaired H cfg sh sh')
    /\ (forall other, other ∉ cfg_name <$> cfgs ->
          lookupSheet w' other = lookupSheet w other)
    /\ (is_Some (book w) -> is_Some (book w'))
    /\ ((forall cfg sh, cfg ∈ cfgs -> lookupSheet w (cfg_name cfg) = Some sh ->
           healthy H cfg sh) ->
        w' = w /\ totalFixed st' = totalFixed st /\ sheetsModified st' = sheetsModified st).
Proof.
  induction cfgs as [|cfg cfgs IH]; intros st w Nd A.
  - exists st, w. split; [done|]. split; [intros cfg Hin; by apply elem_of_nil in Hin|].
    done.
  - rewrite fmap_cons in Nd. apply NoDup_cons in Nd as [Fresh Nd].
    destruct (A cfg ltac:(by left)) as [W [sh L]].
    destruct (fixSheet_effect cfg st w sh L W)
      as (st1 & w1 & sh1 & Run & L1 & H1 & R1 & O1 & C1 & Same1).
    assert (A1 : forall cfg', cfg' ∈ cfgs ->
              wellFormed cfg' = true /\ is_Some (lookupSheet w1 (cfg_name cfg'))).
    { intros cfg' Hin. destruct (A cfg' ltac:(by right)) as [W' S'].
      split; [done|]. rewrite O1; [done|].
      intros E. apply Fresh. rewrite <- E. by apply list_elem_of_fmap_2. }
    destruct (IH st1 w1 Nd A1) as (st' & w' & Loop & Each & Others & B' & Same).
    exists st', w'. split; [|split; [|split; [|split]]].
    + cbn [forOf]. unfold bind. by rewrite Run.
    + intros cfg' Hin. apply elem_of_cons in Hin as [->|Hin].
      * exists sh, sh1. split; [done|]. split; [|done].
        rewrite Others; done.
      * destruct (Each cfg' Hin) as (sh0 & sh' & La & Lb & Hh & Rr).
        exists sh0, sh'. split; [|done]. rewrite <- La. symmetry. apply O1.
        intros E. apply Fresh. rewrite <- E. by apply list_elem_of_fmap_2.
    + intros other Hn. rewrite fmap_cons in Hn. apply not_elem_of_cons in Hn as [N1 N2].
      rewrite Others by done. by apply O1.
    + intros _. apply B'. destruct (book_of_lookupSheet w1 _ sh1 L1) as (ss1 & -> & _).
      by eexists.
    + intros All.
      destruct (Same1 (All cfg sh ltac:(by left) L)) as (-> & T1 & M1).
      destruct Same as (-> & T' & M').
      { intros cfg' sh' Hin L'. apply All; [by right|done]. }
      split; [done|]. split; congruence.
Qed.

Lemma sheetsToFix_ok :
  NoDup (cfg_name <$> sheetsToFix)
  /\ (forall cfg, cfg ∈ sheetsToFix -> wellFormed cfg = true)
  /\ "Dontedit" ∉ cfg_name <$> sheetsToFix.
Proof.
  split; [apply (bool_decide_unpack _); vm_compute; exact I|]. split.
  - intros cfg Hin. unfold sheetsToFix in Hin.
    repeat (apply elem_of_cons in Hin as [->|Hin]; [reflexivity|]).
    by apply elem_of_nil in Hin.
  - apply (bool_decide_unpack _). vm_compute. exact I.
Qed.

(** The timestamps after the repair leave the other sheets alone. *)
Lemma fixStamps_run (st : FixState) w :
  exists w',
    (if (0 <? totalFixed st)%nat then
       updateDataTimestamp H "masterData" ;;;
       forOf (fun (sheetName : string) (_ : unit) =>
                forOf (fun s (_ : unit) => updateDataTimestamp H s)
                      (stampsOfSheet sheetName) tt)
             (sheetsModified st) tt
     else ret tt) w = (Normal tt, w')
    /\ (forall name, name <> "Dontedit" -> lookupSheet w' name = lookupSheet w name)
    /\ (totalFixed st = 0 -> w' = w).
Proof.
  destruct (0 <? totalFixed st)%nat eqn:E.
  2:{ exists w. split; [done|]. split; done. }
  apply Nat.ltb_lt in E.
  unfold bind at 1. rewrite updateDataTimestamp_run.
  destruct (forOf_total
              (fun (sheetName : string) (_ : unit) =>
                 forOf (fun s (_ : unit) => updateDataTimestamp H s)
                       (stampsOfSheet sheetName) tt)
              (fun x s w0 => ex_intro _ tt (ex_intro _ _
                 (eq_trans (f_equal (fun u => forOf _ _ u w0)
                              (match s with tt => eq_refl end))
                           (stamps_run H (stampsOfSheet x) w0))))
              (sheetsModified st) tt (stamped H "masterData" w)) as ([] & w' & Run).
  exists w'. split; [exact Run|]. split; [|lia].
  intros name N.
  rewrite <- (lookupSheet_stamped H "masterData" w name N).
  apply (forOf_inv _ (fun w1 w2 => lookupSheet w2 name = lookupSheet w1 name)
           ltac:(done) ltac:(intros; congruence)) in Run; [done|].
  intros x [] w0 c0 w0' Eq. rewrite stamps_run in Eq. injection Eq as _ <-.
  by apply lookupSheet_stamps.
Qed.


(** checkDataHealth on the same rows. *)
Lemma needsNewId_false idc :
  needsNewId H idc = false ->
  cell_truthy idc = true /\ purelyNumeric (cellToString H idc) = false.
Proof.
  unfold needsNewId. intros E. apply orb_false_elim in E as [E1 E2].
  apply negb_false_iff in E1. done.
Qed.

Lemma checkRows_clean : forall ids rows c,
  (forall k idc row, ids !! k = Some idc -> rows !! k = Some row ->
     rowHasData row = true -> needsNewId H idc = false) ->
  sheetMissingIds (checkRows H ids rows c) = sheetMissingIds c
  /\ sheetNumericIds (checkRows H ids rows c) = sheetNumericIds c.
Proof.
  induction ids as [|idc ids IH]; intros rows c A; [done|].
  destruct rows as [|row rows]; [done|].
  cbn [checkRows].
  destruct (IH rows (checkRow H idc row c)) as [E1 E2].
  { intros k idc' row' L1 L2. exact (A (S k) idc' row' L1 L2). }
  rewrite E1, E2. unfold checkRow.
  destruct (rowHasData row) eqn:D; [|done].
  destruct (needsNewId_false idc (A 0 idc row eq_refl eq_refl D)) as [T P].
  rewrite T, P. done.
Qed.

Lemma checkRows_counts cfg today : forall ids rows r0 calls c,
  sheetMissingIds (checkRows H ids rows c) + sheetNumericIds (checkRows H ids rows c)
  = sheetMissingIds c + sheetNumericIds c
    + length (fst (idsToSet H random cfg today r0 ids rows calls)).
Proof.
  induction ids as [|idc ids IH]; intros rows r0 calls c; [cbn; lia|].
  destruct rows as [|row rows]; [cbn; lia|].
  cbn [checkRows idsToSet].
  destruct (rowHasData row) eqn:D.
  - unfold needsNewId. destruct (cell_truthy idc) eqn:T; cbn [negb orb andb].
    + destruct (purelyNumeric (cellToString H idc)) eqn:P.
      * cbn [fst length]. rewrite (IH rows (S r0) (S calls)).
        unfold checkRow. rewrite D, T, P. cbn [negb sheetMissingIds sheetNumericIds]. lia.
      * rewrite (IH rows (S r0) calls).
        unfold checkRow. rewrite D, T, P. cbn [negb sheetMissingIds sheetNumericIds]. lia.
    + cbn [fst length]. rewrite (IH rows (S r0) (S calls)).
      unfold checkRow. rewrite D, T. cbn [negb sheetMissingIds sheetNumericIds]. lia.
  - cbn [andb]. rewrite (IH rows (S r0) calls). unfold checkRow. rewrite D. lia.
Qed.

Lemma checkSheet_run cfg st w sh :
  lookupSheet w (cfg_name cfg) = Some sh ->
  exists st',
    checkSheet H cfg st w = (Normal st', w)
    /\ (forall today calls,
          h_missingIds st' + h_numericIds st'
          = h_missingIds st + h_numericIds st
            + if (Sheet.getLastRow sh <? cfg_startRow cfg)%nat then 0
              else length (fst (idsToSet H random cfg today (cfg_startRow cfg)
                     (Sheet.getColumnValues sh (cfg_startRow cfg) (cfg_idCol cfg)
                        (Sheet.getLastRow sh - cfg_startRow cfg + 1))
                     (Sheet.getValues sh (cfg_startRow cfg) (dataStart cfg)
                        (Sheet.getLastRow sh - cfg_startRow cfg + 1)
                        (dataEnd cfg - dataStart cfg + 1))
                     calls)))
    /\ (healthy H cfg sh ->
        h_missingIds st' = h_missingIds st /\ h_numericIds st' = h_numericIds st).
Proof.
  intros L. destruct (book_of_lookupSheet w _ sh L) as (ss & B & S).
  unfold checkSheet.
  rewrite (bind_normal _ _ w _ _ (getBudgetSheet_found (cfg_name cfg) w ss sh B S)).
  rewrite (bind_normal _ _ w _ _ (readSheet_run w ss (cfg_name cfg) sh B S)).
  destruct (Sheet.getLastRow sh <? cfg_startRow cfg)%nat eqn:E.
  - eexists. split; [reflexivity|]. cbn [pushHealth h_missingIds h_numericIds].
    split; [intros; lia|done].
  - apply Nat.ltb_ge in E. cbv zeta. eexists. split; [reflexivity|].
    cbn [h_missingIds h_numericIds]. split.
    + intros today calls.
      pose proof (checkRows_counts cfg today
        (Sheet.getColumnValues sh (cfg_startRow cfg) (cfg_idCol cfg)
           (Sheet.getLastRow sh - cfg_startRow cfg + 1))
        (Sheet.getValues sh (cfg_startRow cfg) (dataStart cfg)
           (Sheet.getLastRow sh - cfg_startRow cfg + 1)
           (dataEnd cfg - dataStart cfg + 1))
        (cfg_startRow cfg) calls
        {| sheetDataRows := 0; sheetMissingIds := 0; sheetNumericIds := 0;
           sheetDuplicates := 0; seenIds := allIds st;
           seenTwice := duplicatedIds st |}) as Cn.
      cbn [sheetMissingIds sheetNumericIds] in Cn. lia.
    + intros Hh.
      destruct (checkRows_clean
        (Sheet.getColumnValues sh (cfg_startRow cfg) (cfg_idCol cfg)
           (Sheet.getLastRow sh - cfg_startRow cfg + 1))
        (Sheet.getValues sh (cfg_startRow cfg) (dataStart cfg)
           (Sheet.getLastRow sh - cfg_startRow cfg + 1)
           (dataEnd cfg - dataStart cfg + 1))
        {| sheetDataRows := 0; sheetMissingIds := 0; sheetNumericIds := 0;
           sheetDuplicates := 0; seenIds := allIds st;
           seenTwice := duplicatedIds st |}) as [E1 E2].
      { intros k idc row L1 L2 D.
        pose proof (lookup_lt_Some _ _ _ L1) as Hk. rewrite getColumnValues_length in Hk.
        rewrite getColumnValues_lookup in L1 by done.
        unfold Sheet.getValues in L2. rewrite list_lookup_fmap, lookup_seq_lt in L2 by done.
        cbn [fmap option_fmap option_map] in L2.
        assert (idc = Sheet.getValue sh (cfg_startRow cfg + k) (cfg_idCol cfg)) as ->
          by congruence.
        assert (row = Sheet.getRowValues sh (cfg_startRow cfg + (0 + k)) (dataStart cfg)
                        (dataEnd cfg - dataStart cfg + 1)) as -> by congruence.
        apply Hh; [lia|]. exact D. }
      rewrite E1, E2. cbn [sheetMissingIds sheetNumericIds]. lia.
Qed.

(** The loop of checkDataHealth reads only. *)
Lemma checkLoop_run cfgs : forall st w,
  (forall cfg, cfg ∈ cfgs -> is_Some (lookupSheet w (cfg_name cfg))) ->
  exists st',
    forOf (checkSheet H) cfgs st w = (Normal st', w)
    /\ ((forall cfg sh, cfg ∈ cfgs -> lookupSheet w (cfg_name cfg) = Some sh ->
           healthy H cfg sh) ->
        h_missingIds st' = h_missingIds st /\ h_numericIds st' = h_numericIds st).
Proof.
  induction cfgs as [|cfg cfgs IH]; intros st w A.
  - exists st. done.
  - destruct (A cfg ltac:(by left)) as [sh L].
    destruct (checkSheet_run cfg st w sh L) as (st1 & Run & _ & Same1).
    destruct (IH st1 w) as (st' & Loop & Same).
    { intros cfg' Hin. apply A. by right. }
    exists st'. split.
    + cbn [forOf]. unfold bind. by rewrite Run.
    + intros All. destruct (Same1 (All cfg sh ltac:(by left) L)) as [<- <-].
      apply Same. intros cfg' sh' Hin. apply All. by right.
Qed.

(** Both loops over the same sheets: what the one repairs is what the
    other counts. *)
Lemma fix_check_loops cfgs : forall st w hs w0,
  NoDup (cfg_name <$> cfgs) ->
  (forall cfg, cfg ∈ cfgs ->
     is_Some (lookupSheet w (cfg_name cfg))
     /\ lookupSheet w0 (cfg_name cfg) = lookupSheet w (cfg_name cfg)) ->
  exists st' w' hs',
    forOf (fixSheet H random) cfgs st w = (Normal st', w')
    /\ forOf (checkSheet H) cfgs hs w0 = (Normal hs', w0)
    /\ totalFixed st' + (h_missingIds hs + h_numericIds hs)
       = totalFixed st + (h_missingIds hs' + h_numericIds hs').
Proof.
  induction cfgs as [|cfg cfgs IH]; intros st w hs w0 Nd A.
  - exists st, w, hs. done.
  - rewrite fmap_cons in Nd. apply NoDup_cons in Nd as [Fresh Nd].
    destruct (A cfg ltac:(by left)) as [[sh L] L0]. rewrite L in L0.
    pose proof (fixSheet_run cfg st w sh L) as Run.
    destruct (checkSheet_run cfg hs w0 sh L0) as (hs1 & Chk & Cnt & _).
    specialize (Cnt (clock w) (randomCalls st)).
    destruct (fixSheet H random cfg st w) as [c1 w1] eqn:F.
    assert (Others : forall other, other <> cfg_name cfg ->
              lookupSheet w1 other = lookupSheet w other).
    { intros other N. destruct (Sheet.getLastRow sh <? cfg_startRow cfg)%nat.
      - by injection Run as _ ->.
      - cbv zeta in Run. injection Run as _ ->. by apply lookupSheet_written. }
    assert (exists st1, c1 = Normal st1
              /\ totalFixed st1 + (h_missingIds hs + h_numericIds hs)
                 = totalFixed st + (h_missingIds hs1 + h_numericIds hs1))
      as (st1 & -> & T1).
    { destruct (Sheet.getLastRow sh <? cfg_startRow cfg)%nat.
      - injection Run as -> _. eexists. split; [reflexivity|].
        cbn [pushResult totalFixed]. lia.
      - cbv zeta in Run. injection Run as -> _. eexists. split; [reflexivity|].
        cbn [totalFixed]. lia. }
    destruct (IH st1 w1 hs1 w0 Nd) as (st' & w' & hs' & Loop & Chks & T).
    { intros cfg' Hin. destruct (A cfg' ltac:(by right)) as [S' E'].
      assert (cfg_name cfg' <> cfg_name cfg) as N.
      { intros E. apply Fresh. rewrite <- E. by apply list_elem_of_fmap_2. }
      rewrite (Others _ N). done. }
    exists st', w', hs'. split; [|split].
    + cbn [forOf]. unfold bind. by rewrite F.
    + cbn [forOf]. unfold bind. by rewrite Chk.
    + lia.
Qed.

End DataHealthFacts.

Lemma sheetsPresent (w : World) :
  Forall (fun cfg => is_Some (lookupSheet w (cfg_name cfg))) sheetsToFix ->
  forall cfg, cfg ∈ sheetsToFix ->
    wellFormed cfg = true /\ is_Some (lookupSheet w (cfg_name cfg)).
Proof.
  intros A cfg Hin. split; [by apply sheetsToFix_ok|].
  rewrite Forall_forall in A. by apply A.
Qed.

(** The whole of fixMissingTransactionIds when the four sheets exist. *)
Lemma fixMissingTransactionIds_run (H : Host) (random : nat -> string) (w : World) :
  Forall (fun cfg => is_Some (lookupSheet w (cfg_name cfg))) sheetsToFix ->
  exists st' w' w1,
    forOf (fixSheet H random) sheetsToFix
      {| totalFixed := 0; fix_results := []; sheetsModified := []; randomCalls := 0 |} w
    = (Normal st', w')
    /\ fixMissingTransactionIds H random w
       = (Normal (FixDone (totalFixed st') (fix_results st') (sheetsModified st')), w1)
    /\ (forall name, name <> "Dontedit" -> lookupSheet w1 name = lookupSheet w' name)
    /\ (totalFixed st' = 0 -> w1 = w').
Proof.
  intros A.
  destruct (fixLoop_effect H random sheetsToFix
              {| totalFixed := 0; fix_results := []; sheetsModified := [];
                 randomCalls := 0 |} w
              (proj1 sheetsToFix_ok) (sheetsPresent w A))
    as (st' & w' & Loop & _).
  destruct (fixStamps_run H st' w') as (w1 & Run & Others & Zero).
  exists st', w', w1. split; [exact Loop|]. split; [|split; [exact Others|exact Zero]].
  unfold fixMissingTransactionIds. apply tryCatch_normal.
  rewrite (bind_normal _ _ w _ _ Loop).
  rewrite (bind_normal _ _ w' _ _ Run). reflexivity.
Qed.

(** X26.  When the four sheets of records exist, fixMissingTransactionIds
    and checkDataHealth both succeed on the same spreadsheet, the check
    changes nothing, and the number of rows the repair fixes (totalFixed)
    is the sum of the missing and of the purely numeric identifiers the
    check reports (missingIds + numericIds). *)
Theorem fixMissingTransactionIds_repairs_what_checkDataHealth_counts
    (H : Host) (random : nat -> string) (w : World) :
  Forall (fun cfg => is_Some (lookupSheet w (cfg_name cfg))) sheetsToFix ->
  exists totalFixed results sheetsModified w1 totalRows missingIds numericIds
         duplicateIds results' duplicatedIdsList,
    fixMissingTransactionIds H random w
    = (Normal (FixDone totalFixed results sheetsModified), w1)
    /\ checkDataHealth H w
       = (Normal (Health totalRows missingIds numericIds duplicateIds results'
                    duplicatedIdsList), w)
    /\ totalFixed = missingIds + numericIds.
Proof.
  intros A.
  destruct (fixMissingTransactionIds_run H random w A) as (st' & w' & w1 & Loop & Run & _).
  destruct (fix_check_loops H random sheetsToFix
              {| totalFixed := 0; fix_results := []; sheetsModified := [];
                 randomCalls := 0 |} w
              {| h_totalRows := 0; h_missingIds := 0; h_duplicateIds := 0;
                 h_numericIds := 0; h_results := []; allIds := [];
                 duplicatedIds := [] |} w
              (proj1 sheetsToFix_ok))
    as (st2 & w2 & hs' & Loop2 & Chk & T).
  { intros cfg Hin. split; [|done]. by apply (sheetsPresent w A). }
  rewrite Loop in Loop2. injection Loop2 as <- <-.
  cbn [totalFixed h_missingIds h_numericIds] in T.
  eexists _, _, _, w1, _, _, _, _, _, _. split; [exact Run|]. split.
  - unfold checkDataHealth. apply tryCatch_normal.
    rewrite (bind_normal _ _ w _ _ Chk). reflexivity.
  - lia.
Qed.

Lemma fixMissingTransactionIds_repairs_what_checkDataHealth_counts_witness :
  exists results sheetsModified w1 totalRows duplicateIds results' duplicatedIdsList,
    fixMissingTransactionIds RefHost.host MoreExamples.randomIds MoreExamples.worldToRepair
    = (Normal (FixDone 2 results sheetsModified), w1)
    /\ checkDataHealth RefHost.host MoreExamples.worldToRepair
       = (Normal (Health totalRows 1 1 duplicateIds results' duplicatedIdsList),
          MoreExamples.worldToRepair).
Proof.
  destruct (fixMissingTransactionIds_repairs_what_checkDataHealth_counts RefHost.host
              MoreExamples.randomIds MoreExamples.worldToRepair)
    as (n & rs & ms & w1 & t & m & q & d & rs' & l & F & C & _).
  - apply (bool_decide_unpack _). vm_compute. exact I.
  - assert (n = 2) as ->.
    { assert (E : fst (fixMissingTransactionIds RefHost.host MoreExamples.randomIds
                         MoreExamples.worldToRepair)
                  = Normal (FixDone n rs ms)) by (by rewrite F).
      vm_compute in E. congruence. }
    assert (m = 1 /\ q = 1) as [-> ->].
    { assert (E : fst (checkDataHealth RefHost.host MoreExamples.worldToRepair)
                  = Normal (Health t m q d rs' l)) by (by rewrite C).
      vm_compute in E. split; congruence. }
    by exists rs, ms, w1, t, d, rs', l.
Defined.

(** The sheets after fixMissingTransactionIds. *)
Lemma fixMissingTransactionIds_sheets (H : Host) (random : nat -> string) (w : World) :
  Forall (fun cfg => is_Some (lookupSheet w (cfg_name cfg))) sheetsToFix ->
  (forall cfg, cfg ∈ sheetsToFix ->
     exists sh sh',
       lookupSheet w (cfg_name cfg) = Some sh
       /\ lookupSheet (fixMissingTransactionIds H random w).2 (cfg_name cfg) = Some sh'
       /\ healthy H cfg sh' /\ repaired H cfg sh sh')
  /\ (forall other, other ∉ cfg_name <$> sheetsToFix -> other <> "Dontedit" ->
        lookupSheet (fixMissingTransactionIds H random w).2 other = lookupSheet w other).
Proof.
  intros A.
  destruct (fixLoop_effect H random sheetsToFix
              {| totalFixed := 0; fix_results := []; sheetsModified := [];
                 randomCalls := 0 |} w
              (proj1 sheetsToFix_ok) (sheetsPresent w A))
    as (st' & w' & Loop & Each & Others & _).
  destruct (fixMissingTransactionIds_run H random w A)
    as (st2 & w2 & w1 & Loop2 & Run & Kept & _).
  rewrite Loop in Loop2. injection Loop2 as <- <-.
  rewrite Run. cbn [snd]. split.
  - intros cfg Hin. destruct (Each cfg Hin) as (sh & sh' & L & L' & Hh & R).
    exists sh, sh'. split; [done|]. split; [|done].
    rewrite Kept; [done|]. intros E. apply (proj2 (proj2 sheetsToFix_ok)).
    rewrite <- E. by apply list_elem_of_fmap_2.
  - intros other N D. rewrite (Kept other D). by apply Others.
Qed.

(** X27.  Repair, then check: on the spreadsheet that
    fixMissingTransactionIds leaves behind, checkDataHealth reports no
    missing and no purely numeric identifier. *)
Theorem fixMissingTransactionIds_then_checkDataHealth
    (H : Host) (random : nat -> string) (w : World) :
  Forall (fun cfg => is_Some (lookupSheet w (cfg_name cfg))) sheetsToFix ->
  exists totalRows duplicateIds results duplicatedIdsList,
    checkDataHealth H (fixMissingTransactionIds H random w).2
    = (Normal (Health totalRows 0 0 duplicateIds results duplicatedIdsList),
       (fixMissingTransactionIds H random w).2).
Proof.
  intros A. destruct (fixMissingTransactionIds_sheets H random w A) as [Each _].
  destruct (checkLoop_run H random sheetsToCheck
              {| h_totalRows := 0; h_missingIds := 0; h_duplicateIds := 0;
                 h_numericIds := 0; h_results := []; allIds := [];
                 duplicatedIds := [] |} (fixMissingTransactionIds H random w).2)
    as (hs' & Chk & Same).
  { intros cfg Hin. destruct (Each cfg Hin) as (sh & sh' & _ & L' & _). by exists sh'. }
  destruct Same as [E1 E2].
  { intros cfg sh1 Hin L1. destruct (Each cfg Hin) as (sh & sh' & _ & L' & Hh & _).
    rewrite L' in L1. by injection L1 as <-. }
  cbn [h_missingIds h_numericIds] in E1, E2.
  exists (h_totalRows hs'), (h_duplicateIds hs'), (h_results hs'), (duplicatedIds hs').
  unfold checkDataHealth. apply tryCatch_normal.
  rewrite (bind_normal _ _ _ _ _ Chk). by rewrite E1, E2.
Qed.

Lemma fixMissingTransactionIds_then_checkDataHealth_witness :
  exists totalRows duplicateIds results duplicatedIdsList,
    checkDataHealth RefHost.host
      (fixMissingTransactionIds RefHost.host MoreExamples.randomIds
         MoreExamples.worldToRepair).2
    = (Normal (Health totalRows 0 0 duplicateIds results duplicatedIdsList),
       (fixMissingTransactionIds RefHost.host MoreExamples.randomIds
          MoreExamples.worldToRepair).2).
Proof.
  apply (fixMissingTransactionIds_then_checkDataHealth RefHost.host
           MoreExamples.randomIds MoreExamples.worldToRepair).
  apply (bool_decide_unpack _). vm_compute. exact I.
Defined.

(** X28.  The repair is idempotent: on a spreadsheet whose four sheets of
    records are as a first fixMissingTransactionIds left them, a second
    one, at any time and whatever Math.random returns, fixes nothing:
    totalFixed is 0, sheetsModified is empty and nothing is written, no
    timestamp either. *)
Theorem fixMissingTransactionIds_twice
    (H : Host) (random random' : nat -> string) (w w2 : World) :
  Forall (fun cfg => is_Some (lookupSheet w (cfg_name cfg))) sheetsToFix ->
  Forall (fun cfg => lookupSheet w2 (cfg_name cfg)
                     = lookupSheet (fixMissingTransactionIds H random w).2 (cfg_name cfg))
         sheetsToFix ->
  exists results,
    fixMissingTransactionIds H random' w2 = (Normal (FixDone 0 results []), w2).
Proof.
  intros A Agree. rewrite Forall_forall in Agree.
  destruct (fixMissingTransactionIds_sheets H random w A) as [Each _].
  assert (A2 : Forall (fun cfg => is_Some (lookupSheet w2 (cfg_name cfg))) sheetsToFix).
  { rewrite Forall_forall. intros cfg Hin. rewrite (Agree cfg Hin).
    destruct (Each cfg Hin) as (sh & sh' & _ & L' & _). by exists sh'. }
  destruct (fixLoop_effect H random' sheetsToFix
              {| totalFixed := 0; fix_results := []; sheetsModified := [];
                 randomCalls := 0 |} w2
              (proj1 sheetsToFix_ok) (sheetsPresent w2 A2))
    as (st' & w' & Loop & _ & _ & _ & Same).
  destruct Same as (-> & T & M).
  { intros cfg sh2 Hin L2. rewrite (Agree cfg Hin) in L2.
    destruct (Each cfg Hin) as (sh & sh' & _ & L' & Hh & _).
    rewrite L' in L2. by injection L2 as <-. }
  cbn [totalFixed sheetsModified] in T, M.
  destruct (fixMissingTransactionIds_run H random' w2 A2)
    as (st2 & w2' & w1 & Loop2 & Run & _ & Zero).
  rewrite Loop in Loop2. injection Loop2 as <- <-.
  rewrite (Zero T) in Run. rewrite T, M in Run. by exists (fix_results st').
Qed.

Lemma fixMissingTransactionIds_twice_witness :
  exists results,
    fixMissingTransactionIds RefHost.host (fun _ => "zzzzzzzzz")
      (fixMissingTransactionIds RefHost.host MoreExamples.randomIds
         MoreExamples.worldToRepair).2
    = (Normal (FixDone 0 results []),
       (fixMissingTransactionIds RefHost.host MoreExamples.randomIds
          MoreExamples.worldToRepair).2).
Proof.
  apply (fixMissingTransactionIds_twice RefHost.host MoreExamples.randomIds
           (fun _ => "zzzzzzzzz") MoreExamples.worldToRepair).
  - apply (bool_decide_unpack _). vm_compute. exact I.
  - repeat constructor.
Defined.

(** X29.  fixMissingTransactionIds changes identifiers only: in the four
    sheets of records a cell differs afterwards only if it is the
    identifier cell of a row between startRow and the last row that
    holds data and whose identifier was missing or purely numeric, and
    then it holds a text that starts with the prefix of the sheet; every
    other sheet but Dontedit, which holds the timestamps, is as before. *)
Theorem fixMissingTransactionIds_changes_identifiers_only
    (H : Host) (random : nat -> string) (w : World) :
  Forall (fun cfg => is_Some (lookupSheet w (cfg_name cfg))) sheetsToFix ->
  (forall cfg, cfg ∈ sheetsToFix ->
     exists sh sh',
       lookupSheet w (cfg_name cfg) = Some sh
       /\ lookupSheet (fixMissingTransactionIds H random w).2 (cfg_name cfg) = Some sh'
       /\ repaired H cfg sh sh')
  /\ (forall other, other ∉ cfg_name <$> sheetsToFix -> other <> "Dontedit" ->
        lookupSheet (fixMissingTransactionIds H random w).2 other = lookupSheet w other).
Proof.
  intros A. destruct (fixMissingTransactionIds_sheets H random w A) as [Each Others].
  split; [|exact Others].
  intros cfg Hin. destruct (Each cfg Hin) as (sh & sh' & L & L' & _ & R).
  by exists sh, sh'.
Qed.

Lemma fixMissingTransactionIds_changes_identifiers_only_witness :
  (forall cfg, cfg ∈ sheetsToFix ->
     exists sh sh',
       lookupSheet MoreExamples.worldToRepair (cfg_name cfg) = Some sh
       /\ lookupSheet (fixMissingTransactionIds RefHost.host MoreExamples.randomIds
                         MoreExamples.worldToRepair).2 (cfg_name cfg) = Some sh'
       /\ repaired RefHost.host cfg sh sh')
  /\ (forall other, other ∉ cfg_name <$> sheetsToFix -> other <> "Dontedit" ->
        lookupSheet (fixMissingTransactionIds RefHost.host MoreExamples.randomIds
                       MoreExamples.worldToRepair).2 other
        = lookupSheet MoreExamples.worldToRepair other).
Proof.
  apply (fixMissingTransactionIds_changes_identifiers_only RefHost.host
           MoreExamples.randomIds MoreExamples.worldToRepair).
  apply (bool_decide_unpack _). vm_compute. exact I.
Defined.

(** fixMissingTransactionIds when a sheet is missing. *)
Lemma fixSheet_missing (H : Host) (random : nat -> string) cfg st w :
  is_Some (book w) ->
  lookupSheet w (cfg_name cfg) = None ->
  fixSheet H random cfg st w
  = (Throw (Error ("Sheet " +:+ dquote +:+ cfg_name cfg +:+ dquote +:+ " not found")), w).
Proof.
  intros [ss B] L. unfold lookupSheet in L. rewrite B in L. cbn [mbind option_bind] in L.
  unfold fixSheet. apply bind_throw. by apply getBudgetSheet_missing with ss.
Qed.

(** X30.  When a sheet of the four is missing (the spreadsheet itself being
    there), fixMissingTransactionIds reports the failure of
    getBudgetSheet for the first missing sheet; the sheets before it in
    the list have been repaired all the same, and nothing else has
    changed: no timestamp is written. *)
Theorem fixMissingTransactionIds_missing_sheet
    (H : Host) (random : nat -> string) (w : World) (pre post : list SheetConfig)
    (cfg : SheetConfig) :
  sheetsToFix = (pre ++ cfg :: post)%list ->
  is_Some (book w) ->
  Forall (fun c => is_Some (lookupSheet w (cfg_name c))) pre ->
  lookupSheet w (cfg_name cfg) = None ->
  exists w1,
    fixMissingTransactionIds H random w
    = (Normal (FixFailed ("Error: Sheet " +:+ dquote +:+ cfg_name cfg +:+ dquote
                          +:+ " not found")), w1)
    /\ (forall c, c ∈ pre ->
          exists sh sh',
            lookupSheet w (cfg_name c) = Some sh
            /\ lookupSheet w1 (cfg_name c) = Some sh'
            /\ healthy H c sh' /\ repaired H c sh sh')
    /\ (forall other, other ∉ cfg_name <$> pre ->
          lookupSheet w1 other = lookupSheet w other).
Proof.
  intros Split B A Missing.
  assert (Nd : NoDup (cfg_name <$> pre)).
  { pose proof (proj1 sheetsToFix_ok) as Nd. rewrite Split, fmap_app in Nd.
    by apply NoDup_app in Nd as [Nd _]. }
  assert (Fresh : cfg_name cfg ∉ cfg_name <$> pre).
  { pose proof (proj1 sheetsToFix_ok) as Nd'. rewrite Split, fmap_app in Nd'.
    apply NoDup_app in Nd' as (_ & Nd' & _). intros Hin. apply (Nd' _ Hin).
    rewrite fmap_cons. by left. }
  destruct (fixLoop_effect H random pre
              {| totalFixed := 0; fix_results := []; sheetsModified := [];
                 randomCalls := 0 |} w Nd)
    as (st' & w' & Loop & Each & Others & B' & _).
  { intros c Hin. split.
    - apply sheetsToFix_ok. rewrite Split. apply elem_of_app. by left.
    - rewrite Forall_forall in A. by apply A. }
  exists w'. split; [|split; [exact Each|exact Others]].
  unfold fixMissingTransactionIds.
  rewrite (tryCatch_throw _ _ w
             (Error ("Sheet " +:+ dquote +:+ cfg_name cfg +:+ dquote +:+ " not found")) w').
  - reflexivity.
  - apply bind_throw. rewrite Split, forOf_app.
    rewrite (bind_normal _ _ w _ _ Loop). cbn [forOf]. apply bind_throw.
    apply fixSheet_missing; [by apply B'|]. by rewrite Others.
Qed.

Lemma fixMissingTransactionIds_missing_sheet_witness :
  exists w1,
    fixMissingTransactionIds RefHost.host MoreExamples.randomIds
      (MoreExamples.incomeWorld MoreExamples.incomeToRepair)
    = (Normal (FixFailed ("Error: Sheet " +:+ dquote +:+ "Recurring" +:+ dquote
                          +:+ " not found")), w1)
    /\ lookupSheet w1 "Dontedit"
       = lookupSheet (MoreExamples.incomeWorld MoreExamples.incomeToRepair) "Dontedit".
Proof.
  destruct (fixMissingTransactionIds_missing_sheet RefHost.host MoreExamples.randomIds
              (MoreExamples.incomeWorld MoreExamples.incomeToRepair)
              [ {| cfg_name := "Expenses"; dataStart := 5; dataEnd := 11; cfg_idCol := 4;
                   cfg_startRow := 6; cfg_prefix := "ex-" |};
                {| cfg_name := "Income"; dataStart := 5; dataEnd := 10; cfg_idCol := 4;
                   cfg_startRow := 5; cfg_prefix := "inc-" |} ]
              [ {| cfg_name := "Net Worth"; dataStart := 6; dataEnd := 12; cfg_idCol := 3;
                   cfg_startRow := 37; cfg_prefix := "net-" |} ]
              {| cfg_name := "Recurring"; dataStart := 6; dataEnd := 12; cfg_idCol := 3;
                 cfg_startRow := 6; cfg_prefix := "rec-" |})
    as (w1 & F & Each & Others).
  - reflexivity.
  - vm_compute. eexists. reflexivity.
  - apply (bool_decide_unpack _). vm_compute. exact I.
  - vm_compute. reflexivity.
  - exists w1. split; [exact F|].
    apply Others. apply (bool_decide_unpack _). vm_compute. exact I.
Defined.
